(** * Verification of the Yandex provider's compute instance and
      Smart Web Security ARL profile resources

    A shallow embedding of [resource_yandex_compute_instance.go] and
    [resource_yandex_sws_advanced_rate_limiter_profile.go]: the resource
    functions are written in a state-and-error monad whose state holds
    the local [ResourceData] and the trace of remote calls, and the
    remote API is an arbitrary oracle. *)

From Stdlib Require Import Ascii ZArith DecimalString.
From stdpp Require Import gmap strings list fin_maps.

Set Warnings "-register-all".

Local Open Scope nat_scope.

(** ** Go's [strings] package, on byte strings *)

Module strings.

Fixpoint HasPrefix (s prefix : string) : bool :=
  match prefix, s with
  | EmptyString, _ => true
  | String _ _, EmptyString => false
  | String c prefix', String d s' =>
      if Ascii.eqb c d then HasPrefix s' prefix' else false
  end.

(** [Contains s substr]: [substr] occurs at some offset of [s]. *)
Fixpoint Contains (s substr : string) : bool :=
  HasPrefix s substr ||
  match s with
  | EmptyString => false
  | String _ s' => Contains s' substr
  end.

(** [s[n:]] *)
Fixpoint slice_from (n : nat) (s : string) : string :=
  match n, s with
  | O, _ => s
  | S n', String _ s' => slice_from n' s'
  | S _, EmptyString => EmptyString
  end.

(** [len(s) >= len(suffix) && s[len(s)-len(suffix):] == suffix] *)
Definition HasSuffix (s suffix : string) : bool :=
  (String.length suffix <=? String.length s) &&
  String.eqb (slice_from (String.length s - String.length suffix) s) suffix.

(** [Split s sep] for a non-empty separator: the pieces of [s] between
    the successive, leftmost, non-overlapping occurrences of [sep].
    [skip] counts the bytes of a matched separator still to be passed
    over and [cur] is the piece being collected. *)
Fixpoint split_from (sep : string) (skip : nat) (cur s : string)
  : list string :=
  match s with
  | EmptyString => [cur]
  | String c s' =>
      match skip with
      | S k => split_from sep k cur s'
      | O =>
          if HasPrefix s sep
          then cur :: split_from sep (String.length sep - 1) EmptyString s'
          else split_from sep O (cur +:+ String c EmptyString) s'
      end
  end.

Definition Split (s sep : string) : list string :=
  split_from sep O EmptyString s.

(** [Join elems sep] *)
Fixpoint Join (elems : list string) (sep : string) : string :=
  match elems with
  | [] => EmptyString
  | [e] => e
  | e :: rest => e +:+ sep +:+ Join rest sep
  end.

(** [IndexByte s c >= 0]: the byte [c] occurs in [s]. *)
Fixpoint ContainsByte (s : string) (c : ascii) : bool :=
  match s with
  | EmptyString => false
  | String d s' => Ascii.eqb c d || ContainsByte s' c
  end.

(** [TrimRight s cutset] for a cutset of ASCII characters: [s] without
    its trailing bytes that are in [cutset]. *)
Fixpoint TrimRight (s cutset : string) : string :=
  match s with
  | EmptyString => EmptyString
  | String c s' =>
      match TrimRight s' cutset with
      | EmptyString => if ContainsByte cutset c then EmptyString else String c EmptyString
      | t => String c t
      end
  end.

End strings.

(** ** Errors and results *)

(** A Go [error] value is represented by its message. *)
Definition error := string.

(** A Go result pair [(v, err)]. *)
Inductive result (A : Type) : Type :=
| Ok (a : A)
| Err (e : error).
Arguments Ok {A} a.
Arguments Err {A} e.

(** ** [parseHostnameFromFQDN] *)

(** The function returns [(string, error)]; indexing the split result
    out of range would panic, which is the [None] of the inner option. *)
Definition parseHostnameFromFQDN (fqdn : string) : option (string * option error) :=
  if negb (strings.Contains fqdn ".") then
    Some (fqdn +:+ ".", None)
  else if strings.HasSuffix fqdn ".auto.internal" then
    Some ("", None)
  else if strings.HasSuffix fqdn ".internal" then
    let p := strings.Split fqdn "." in
    match p !! 0 with
    | Some p0 => Some (p0, None)
    | None => None
    end
  else
    Some (fqdn, None).

(** ** Configuration values *)

(** The values a [schema.ResourceData] holds and returns as
    [interface{}]: primitives, lists (also standing for a [schema.Set],
    in the order of its [List()]) and maps.  Protobuf messages built by
    the expand helpers are carried as values too, [VNil] being the nil
    message. *)
Inductive Value : Type :=
| VNil
| VBool (b : bool)
| VInt (z : Z)
| VString (s : string)
| VList (l : list Value)
| VMap (m : list (string * Value)).

(** [reflect.DeepEqual] on values. *)
Fixpoint DeepEqual (a b : Value) : bool :=
  match a, b with
  | VNil, VNil => true
  | VBool x, VBool y => Bool.eqb x y
  | VInt x, VInt y => Z.eqb x y
  | VString x, VString y => String.eqb x y
  | VList x, VList y =>
      (fix go (x y : list Value) : bool :=
         match x, y with
         | [], [] => true
         | v :: x', w :: y' => DeepEqual v w && go x' y'
         | _, _ => false
         end) x y
  | VMap x, VMap y =>
      (fix go (x y : list (string * Value)) : bool :=
         match x, y with
         | [], [] => true
         | (k, v) :: x', (l, w) :: y' =>
             String.eqb k l && DeepEqual v w && go x' y'
         | _, _ => false
         end) x y
  | _, _ => false
  end.

Definition asBool (v : Value) : bool :=
  match v with VBool b => b | _ => false end.
Definition asString (v : Value) : string :=
  match v with VString s => s | _ => "" end.
Definition asInt (v : Value) : Z :=
  match v with VInt z => z | _ => 0%Z end.
Definition asList (v : Value) : list Value :=
  match v with VList l => l | _ => [] end.

(** A decimal list index, as in the address [placement_policy.0.x]. *)
Definition digit (c : ascii) : option nat :=
  let n := nat_of_ascii c in
  if (48 <=? n) && (n <=? 57) then Some (n - 48) else None.

Fixpoint atoi_from (acc : nat) (s : string) : option nat :=
  match s with
  | EmptyString => Some acc
  | String c s' =>
      match digit c with
      | Some k => atoi_from (10 * acc + k) s'
      | None => None
      end
  end.

Definition atoi (s : string) : option nat :=
  match s with
  | EmptyString => None
  | _ => atoi_from 0 s
  end.

Fixpoint assoc (m : list (string * Value)) (k : string) : option Value :=
  match m with
  | [] => None
  | (l, v) :: m' => if String.eqb k l then Some v else assoc m' k
  end.

(** One step of an address: a field of a map or an element of a list. *)
Definition child (v : Value) (seg : string) : Value :=
  match v with
  | VMap m => default VNil (assoc m seg)
  | VList l =>
      match atoi seg with
      | Some i => default VNil (l !! i)
      | None => VNil
      end
  | _ => VNil
  end.

Definition descend (v : Value) (segs : list string) : Value :=
  foldl child v segs.

(** ** [schema.ResourceData]

    The plugin SDK's resource data: the resource id, the prior state,
    the planned values (state merged with the diff), and the values
    written by [Set].  [Get] reads the planned values overlaid with the
    written ones; [GetChange] and [HasChange] compare the prior state
    with the planned values and are not affected by [Set].  Whether a
    [Set] is accepted is the SDK's schema check, [rd_accepts]. *)
Record ResourceData : Type := {
  rd_id : string;
  rd_state : gmap string Value;
  rd_plan : gmap string Value;
  rd_written : gmap string Value;
  rd_accepts : string → Value → option error;
}.

Module ResourceData.

Definition Id (d : ResourceData) : string := rd_id d.

Definition SetId (id : string) (d : ResourceData) : ResourceData :=
  {| rd_id := id; rd_state := rd_state d; rd_plan := rd_plan d;
     rd_written := rd_written d; rd_accepts := rd_accepts d |}.

(** The value at an address in a level of attributes. *)
Definition at_address (attrs : gmap string Value) (key : string) : Value :=
  match strings.Split key "." with
  | [] => VNil
  | k :: segs => descend (default VNil (attrs !! k)) segs
  end.

Definition Get (d : ResourceData) (key : string) : Value :=
  at_address (rd_written d ∪ rd_plan d) key.

(** [GetOk]: the value, and whether it is set to a non-zero value. *)
Definition is_zero (v : Value) : bool :=
  match v with
  | VNil | VBool false | VInt 0%Z | VString EmptyString
  | VList [] | VMap [] => true
  | _ => false
  end.

Definition GetOk (d : ResourceData) (key : string) : Value * bool :=
  let v := Get d key in (v, negb (is_zero v)).

Definition GetChange (d : ResourceData) (key : string) : Value * Value :=
  (at_address (rd_state d) key, at_address (rd_plan d) key).

Definition HasChange (d : ResourceData) (key : string) : bool :=
  let '(o, n) := GetChange d key in negb (DeepEqual o n).

(** The resource data once [value] is written at a top-level [key]. *)
Definition write (key : string) (v : Value) (d : ResourceData) : ResourceData :=
  {| rd_id := rd_id d; rd_state := rd_state d; rd_plan := rd_plan d;
     rd_written := <[key := v]> (rd_written d);
     rd_accepts := rd_accepts d |}.

(** [d.Set(key, value)] for a top-level attribute. *)
Definition Set_ (key : string) (v : Value) (d : ResourceData)
  : ResourceData * option error :=
  match rd_accepts d key v with
  | Some e => (d, Some e)
  | None => (write key v d, None)
  end.

End ResourceData.

(** ** Messages of the compute API

    The protobuf messages of [compute/v1], with the fields this file
    reads or writes.  A message only passed along is a [Value]. *)

Module compute.

Inductive Instance_Status : Type :=
| Instance_STATUS_UNSPECIFIED | Instance_PROVISIONING | Instance_RUNNING
| Instance_STOPPING | Instance_STOPPED | Instance_STARTING
| Instance_RESTARTING | Instance_UPDATING | Instance_ERROR
| Instance_CRASHED | Instance_DELETING.

Definition Instance_Status_String (s : Instance_Status) : string :=
  match s with
  | Instance_STATUS_UNSPECIFIED => "STATUS_UNSPECIFIED"
  | Instance_PROVISIONING => "PROVISIONING"
  | Instance_RUNNING => "RUNNING"
  | Instance_STOPPING => "STOPPING"
  | Instance_STOPPED => "STOPPED"
  | Instance_STARTING => "STARTING"
  | Instance_RESTARTING => "RESTARTING"
  | Instance_UPDATING => "UPDATING"
  | Instance_ERROR => "ERROR"
  | Instance_CRASHED => "CRASHED"
  | Instance_DELETING => "DELETING"
  end.

Definition Instance_Status_eqb (a b : Instance_Status) : bool :=
  String.eqb (Instance_Status_String a) (Instance_Status_String b).

Inductive MaintenancePolicy : Type :=
| MaintenancePolicy_MAINTENANCE_POLICY_UNSPECIFIED
| MaintenancePolicy_RESTART
| MaintenancePolicy_MIGRATE.

Definition MaintenancePolicy_String (p : MaintenancePolicy) : string :=
  match p with
  | MaintenancePolicy_MAINTENANCE_POLICY_UNSPECIFIED => "MAINTENANCE_POLICY_UNSPECIFIED"
  | MaintenancePolicy_RESTART => "RESTART"
  | MaintenancePolicy_MIGRATE => "MIGRATE"
  end.

Record DnsRecordSpec : Type := {
  dns_Fqdn : string;
  dns_DnsZoneId : string;
  dns_Ttl : Z;
  dns_Ptr : bool;
}.

Record OneToOneNatSpec : Type := {
  nat_Address : string;
  nat_DnsRecordSpecs : list DnsRecordSpec;
}.

Record PrimaryAddressSpec : Type := {
  pa_Address : string;
  pa_OneToOneNatSpec : option OneToOneNatSpec;
  pa_DnsRecordSpecs : list DnsRecordSpec;
}.

Record NetworkInterfaceSpec : Type := {
  nis_SubnetId : string;
  nis_PrimaryV4AddressSpec : option PrimaryAddressSpec;
  nis_SecurityGroupIds : list string;
}.

Record PlacementPolicy : Type := {
  pp_PlacementGroupId : string;
  pp_HostAffinityRules : list Value;
  pp_PlacementGroupPartition : Z;
}.

Record AttachedDisk : Type := {
  ad_DiskId : string;
  ad_body : Value;
}.

Record AttachedDiskSpec : Type := {
  ads_DiskId : string;
  ads_body : Value;
}.

Record AttachedFilesystem : Type := {
  af_FilesystemId : string;
}.

Record AttachedFilesystemSpec : Type := {
  afs_FilesystemId : string;
  afs_body : Value;
}.

Record NetworkInterface : Type := {
  ni_Index : string;
}.

Record Instance : Type := {
  Instance_Id : string;
  Instance_FolderId : string;
  Instance_CreatedAt : Value;
  Instance_Name : string;
  Instance_Description : string;
  Instance_Labels : Value;
  Instance_ZoneId : string;
  Instance_PlatformId : string;
  Instance_Status_ : Instance_Status;
  Instance_Metadata : Value;
  Instance_SecondaryDisks : list AttachedDisk;
  Instance_Filesystems : list AttachedFilesystem;
  Instance_NetworkInterfaces : list NetworkInterface;
  Instance_Fqdn : string;
  Instance_ServiceAccountId : string;
  (** [NetworkSettings.Type.String()], when [NetworkSettings] is set *)
  Instance_NetworkSettings : option string;
  (** [GpuSettings.GpuClusterId], when [GpuSettings] is set *)
  Instance_GpuSettings : option string;
  Instance_MaintenancePolicy : MaintenancePolicy;
  Instance_MaintenanceGracePeriod : Value;
  Instance_HardwareGeneration : Value;
}.

Record UpdateInstanceRequest : Type := {
  upd_InstanceId : string;
  upd_UpdateMask : list string;
  upd_Name : string;
  upd_Description : string;
  upd_Labels : Value;
  upd_ResourcesSpec : Value;
  upd_PlatformId : string;
  upd_ServiceAccountId : string;
  upd_Metadata : Value;
  upd_MetadataOptions : Value;
  upd_NetworkSettings : Value;
  upd_PlacementPolicy : option PlacementPolicy;
  upd_SchedulingPolicy : Value;
  upd_MaintenancePolicy : MaintenancePolicy;
  upd_MaintenanceGracePeriod : Value;
}.

(** [&compute.UpdateInstanceRequest{InstanceId: id, UpdateMask:
    &field_mask.FieldMask{Paths: paths}}]: every other field has its
    zero value. *)
Definition UpdateInstanceRequest_new (id : string) (paths : list string)
  : UpdateInstanceRequest :=
  {| upd_InstanceId := id; upd_UpdateMask := paths;
     upd_Name := ""; upd_Description := ""; upd_Labels := VNil;
     upd_ResourcesSpec := VNil; upd_PlatformId := "";
     upd_ServiceAccountId := ""; upd_Metadata := VNil;
     upd_MetadataOptions := VNil; upd_NetworkSettings := VNil;
     upd_PlacementPolicy := None; upd_SchedulingPolicy := VNil;
     upd_MaintenancePolicy := MaintenancePolicy_MAINTENANCE_POLICY_UNSPECIFIED;
     upd_MaintenanceGracePeriod := VNil |}.

(** [req.<Field> = v] *)
Definition with_Name (v : string) (req : UpdateInstanceRequest)
  : UpdateInstanceRequest :=
  {| upd_InstanceId := upd_InstanceId req;
     upd_UpdateMask := upd_UpdateMask req; upd_Name := v;
     upd_Description := upd_Description req; upd_Labels := upd_Labels req;
     upd_ResourcesSpec := upd_ResourcesSpec req;
     upd_PlatformId := upd_PlatformId req;
     upd_ServiceAccountId := upd_ServiceAccountId req;
     upd_Metadata := upd_Metadata req;
     upd_MetadataOptions := upd_MetadataOptions req;
     upd_NetworkSettings := upd_NetworkSettings req;
     upd_PlacementPolicy := upd_PlacementPolicy req;
     upd_SchedulingPolicy := upd_SchedulingPolicy req;
     upd_MaintenancePolicy := upd_MaintenancePolicy req;
     upd_MaintenanceGracePeriod := upd_MaintenanceGracePeriod req |}.
Definition with_Description (v : string) (req : UpdateInstanceRequest)
  : UpdateInstanceRequest :=
  {| upd_InstanceId := upd_InstanceId req;
     upd_UpdateMask := upd_UpdateMask req; upd_Name := upd_Name req;
     upd_Description := v; upd_Labels := upd_Labels req;
     upd_ResourcesSpec := upd_ResourcesSpec req;
     upd_PlatformId := upd_PlatformId req;
     upd_ServiceAccountId := upd_ServiceAccountId req;
     upd_Metadata := upd_Metadata req;
     upd_MetadataOptions := upd_MetadataOptions req;
     upd_NetworkSettings := upd_NetworkSettings req;
     upd_PlacementPolicy := upd_PlacementPolicy req;
     upd_SchedulingPolicy := upd_SchedulingPolicy req;
     upd_MaintenancePolicy := upd_MaintenancePolicy req;
     upd_MaintenanceGracePeriod := upd_MaintenanceGracePeriod req |}.
Definition with_Labels (v : Value) (req : UpdateInstanceRequest)
  : UpdateInstanceRequest :=
  {| upd_InstanceId := upd_InstanceId req;
     upd_UpdateMask := upd_UpdateMask req; upd_Name := upd_Name req;
     upd_Description := upd_Description req; upd_Labels := v;
     upd_ResourcesSpec := upd_ResourcesSpec req;
     upd_PlatformId := upd_PlatformId req;
     upd_ServiceAccountId := upd_ServiceAccountId req;
     upd_Metadata := upd_Metadata req;
     upd_MetadataOptions := upd_MetadataOptions req;
     upd_NetworkSettings := upd_NetworkSettings req;
     upd_PlacementPolicy := upd_PlacementPolicy req;
     upd_SchedulingPolicy := upd_SchedulingPolicy req;
     upd_MaintenancePolicy := upd_MaintenancePolicy req;
     upd_MaintenanceGracePeriod := upd_MaintenanceGracePeriod req |}.
Definition with_ResourcesSpec (v : Value) (req : UpdateInstanceRequest)
  : UpdateInstanceRequest :=
  {| upd_InstanceId := upd_InstanceId req;
     upd_UpdateMask := upd_UpdateMask req; upd_Name := upd_Name req;
     upd_Description := upd_Description req; upd_Labels := upd_Labels req;
     upd_ResourcesSpec := v; upd_PlatformId := upd_PlatformId req;
     upd_ServiceAccountId := upd_ServiceAccountId req;
     upd_Metadata := upd_Metadata req;
     upd_MetadataOptions := upd_MetadataOptions req;
     upd_NetworkSettings := upd_NetworkSettings req;
     upd_PlacementPolicy := upd_PlacementPolicy req;
     upd_SchedulingPolicy := upd_SchedulingPolicy req;
     upd_MaintenancePolicy := upd_MaintenancePolicy req;
     upd_MaintenanceGracePeriod := upd_MaintenanceGracePeriod req |}.
Definition with_PlatformId (v : string) (req : UpdateInstanceRequest)
  : UpdateInstanceRequest :=
  {| upd_InstanceId := upd_InstanceId req;
     upd_UpdateMask := upd_UpdateMask req; upd_Name := upd_Name req;
     upd_Description := upd_Description req; upd_Labels := upd_Labels req;
     upd_ResourcesSpec := upd_ResourcesSpec req; upd_PlatformId := v;
     upd_ServiceAccountId := upd_ServiceAccountId req;
     upd_Metadata := upd_Metadata req;
     upd_MetadataOptions := upd_MetadataOptions req;
     upd_NetworkSettings := upd_NetworkSettings req;
     upd_PlacementPolicy := upd_PlacementPolicy req;
     upd_SchedulingPolicy := upd_SchedulingPolicy req;
     upd_MaintenancePolicy := upd_MaintenancePolicy req;
     upd_MaintenanceGracePeriod := upd_MaintenanceGracePeriod req |}.
Definition with_ServiceAccountId (v : string) (req : UpdateInstanceRequest)
  : UpdateInstanceRequest :=
  {| upd_InstanceId := upd_InstanceId req;
     upd_UpdateMask := upd_UpdateMask req; upd_Name := upd_Name req;
     upd_Description := upd_Description req; upd_Labels := upd_Labels req;
     upd_ResourcesSpec := upd_ResourcesSpec req;
     upd_PlatformId := upd_PlatformId req; upd_ServiceAccountId := v;
     upd_Metadata := upd_Metadata req;
     upd_MetadataOptions := upd_MetadataOptions req;
     upd_NetworkSettings := upd_NetworkSettings req;
     upd_PlacementPolicy := upd_PlacementPolicy req;
     upd_SchedulingPolicy := upd_SchedulingPolicy req;
     upd_MaintenancePolicy := upd_MaintenancePolicy req;
     upd_MaintenanceGracePeriod := upd_MaintenanceGracePeriod req |}.
Definition with_Metadata (v : Value) (req : UpdateInstanceRequest)
  : UpdateInstanceRequest :=
  {| upd_InstanceId := upd_InstanceId req;
     upd_UpdateMask := upd_UpdateMask req; upd_Name := upd_Name req;
     upd_Description := upd_Description req; upd_Labels := upd_Labels req;
     upd_ResourcesSpec := upd_ResourcesSpec req;
     upd_PlatformId := upd_PlatformId req;
     upd_ServiceAccountId := upd_ServiceAccountId req; upd_Metadata := v;
     upd_MetadataOptions := upd_MetadataOptions req;
     upd_NetworkSettings := upd_NetworkSettings req;
     upd_PlacementPolicy := upd_PlacementPolicy req;
     upd_SchedulingPolicy := upd_SchedulingPolicy req;
     upd_MaintenancePolicy := upd_MaintenancePolicy req;
     upd_MaintenanceGracePeriod := upd_MaintenanceGracePeriod req |}.
Definition with_MetadataOptions (v : Value) (req : UpdateInstanceRequest)
  : UpdateInstanceRequest :=
  {| upd_InstanceId := upd_InstanceId req;
     upd_UpdateMask := upd_UpdateMask req; upd_Name := upd_Name req;
     upd_Description := upd_Description req; upd_Labels := upd_Labels req;
     upd_ResourcesSpec := upd_ResourcesSpec req;
     upd_PlatformId := upd_PlatformId req;
     upd_ServiceAccountId := upd_ServiceAccountId req;
     upd_Metadata := upd_Metadata req; upd_MetadataOptions := v;
     upd_NetworkSettings := upd_NetworkSettings req;
     upd_PlacementPolicy := upd_PlacementPolicy req;
     upd_SchedulingPolicy := upd_SchedulingPolicy req;
     upd_MaintenancePolicy := upd_MaintenancePolicy req;
     upd_MaintenanceGracePeriod := upd_MaintenanceGracePeriod req |}.
Definition with_NetworkSettings (v : Value) (req : UpdateInstanceRequest)
  : UpdateInstanceRequest :=
  {| upd_InstanceId := upd_InstanceId req;
     upd_UpdateMask := upd_UpdateMask req; upd_Name := upd_Name req;
     upd_Description := upd_Description req; upd_Labels := upd_Labels req;
     upd_ResourcesSpec := upd_ResourcesSpec req;
     upd_PlatformId := upd_PlatformId req;
     upd_ServiceAccountId := upd_ServiceAccountId req;
     upd_Metadata := upd_Metadata req;
     upd_MetadataOptions := upd_MetadataOptions req;
     upd_NetworkSettings := v;
     upd_PlacementPolicy := upd_PlacementPolicy req;
     upd_SchedulingPolicy := upd_SchedulingPolicy req;
     upd_MaintenancePolicy := upd_MaintenancePolicy req;
     upd_MaintenanceGracePeriod := upd_MaintenanceGracePeriod req |}.
Definition with_PlacementPolicy (v : option PlacementPolicy) (req : UpdateInstanceRequest)
  : UpdateInstanceRequest :=
  {| upd_InstanceId := upd_InstanceId req;
     upd_UpdateMask := upd_UpdateMask req; upd_Name := upd_Name req;
     upd_Description := upd_Description req; upd_Labels := upd_Labels req;
     upd_ResourcesSpec := upd_ResourcesSpec req;
     upd_PlatformId := upd_PlatformId req;
     upd_ServiceAccountId := upd_ServiceAccountId req;
     upd_Metadata := upd_Metadata req;
     upd_MetadataOptions := upd_MetadataOptions req;
     upd_NetworkSettings := upd_NetworkSettings req;
     upd_PlacementPolicy := v;
     upd_SchedulingPolicy := upd_SchedulingPolicy req;
     upd_MaintenancePolicy := upd_MaintenancePolicy req;
     upd_MaintenanceGracePeriod := upd_MaintenanceGracePeriod req |}.
Definition with_SchedulingPolicy (v : Value) (req : UpdateInstanceRequest)
  : UpdateInstanceRequest :=
  {| upd_InstanceId := upd_InstanceId req;
     upd_UpdateMask := upd_UpdateMask req; upd_Name := upd_Name req;
     upd_Description := upd_Description req; upd_Labels := upd_Labels req;
     upd_ResourcesSpec := upd_ResourcesSpec req;
     upd_PlatformId := upd_PlatformId req;
     upd_ServiceAccountId := upd_ServiceAccountId req;
     upd_Metadata := upd_Metadata req;
     upd_MetadataOptions := upd_MetadataOptions req;
     upd_NetworkSettings := upd_NetworkSettings req;
     upd_PlacementPolicy := upd_PlacementPolicy req;
     upd_SchedulingPolicy := v;
     upd_MaintenancePolicy := upd_MaintenancePolicy req;
     upd_MaintenanceGracePeriod := upd_MaintenanceGracePeriod req |}.
Definition with_MaintenancePolicy (v : MaintenancePolicy) (req : UpdateInstanceRequest)
  : UpdateInstanceRequest :=
  {| upd_InstanceId := upd_InstanceId req;
     upd_UpdateMask := upd_UpdateMask req; upd_Name := upd_Name req;
     upd_Description := upd_Description req; upd_Labels := upd_Labels req;
     upd_ResourcesSpec := upd_ResourcesSpec req;
     upd_PlatformId := upd_PlatformId req;
     upd_ServiceAccountId := upd_ServiceAccountId req;
     upd_Metadata := upd_Metadata req;
     upd_MetadataOptions := upd_MetadataOptions req;
     upd_NetworkSettings := upd_NetworkSettings req;
     upd_PlacementPolicy := upd_PlacementPolicy req;
     upd_SchedulingPolicy := upd_SchedulingPolicy req;
     upd_MaintenancePolicy := v;
     upd_MaintenanceGracePeriod := upd_MaintenanceGracePeriod req |}.
Definition with_MaintenanceGracePeriod (v : Value) (req : UpdateInstanceRequest)
  : UpdateInstanceRequest :=
  {| upd_InstanceId := upd_InstanceId req;
     upd_UpdateMask := upd_UpdateMask req; upd_Name := upd_Name req;
     upd_Description := upd_Description req; upd_Labels := upd_Labels req;
     upd_ResourcesSpec := upd_ResourcesSpec req;
     upd_PlatformId := upd_PlatformId req;
     upd_ServiceAccountId := upd_ServiceAccountId req;
     upd_Metadata := upd_Metadata req;
     upd_MetadataOptions := upd_MetadataOptions req;
     upd_NetworkSettings := upd_NetworkSettings req;
     upd_PlacementPolicy := upd_PlacementPolicy req;
     upd_SchedulingPolicy := upd_SchedulingPolicy req;
     upd_MaintenancePolicy := upd_MaintenancePolicy req;
     upd_MaintenanceGracePeriod := v |}.
(** [req.UpdateMask.Paths = append(req.UpdateMask.Paths, paths...)] *)
Definition append_Paths (paths : list string) (req : UpdateInstanceRequest)
  : UpdateInstanceRequest :=
  {| upd_InstanceId := upd_InstanceId req;
     upd_UpdateMask := upd_UpdateMask req ++ paths;
     upd_Name := upd_Name req; upd_Description := upd_Description req;
     upd_Labels := upd_Labels req;
     upd_ResourcesSpec := upd_ResourcesSpec req;
     upd_PlatformId := upd_PlatformId req;
     upd_ServiceAccountId := upd_ServiceAccountId req;
     upd_Metadata := upd_Metadata req;
     upd_MetadataOptions := upd_MetadataOptions req;
     upd_NetworkSettings := upd_NetworkSettings req;
     upd_PlacementPolicy := upd_PlacementPolicy req;
     upd_SchedulingPolicy := upd_SchedulingPolicy req;
     upd_MaintenancePolicy := upd_MaintenancePolicy req;
     upd_MaintenanceGracePeriod := upd_MaintenanceGracePeriod req |}.

Record CreateInstanceRequest : Type := {
  cr_FolderId : string;
  cr_Hostname : string;
  cr_Name : string;
  cr_Description : string;
  cr_PlatformId : string;
  cr_ServiceAccountId : string;
  cr_ZoneId : string;
  cr_Labels : Value;
  cr_Metadata : Value;
  cr_ResourcesSpec : Value;
  cr_BootDiskSpec : Value;
  cr_SecondaryDiskSpecs : Value;
  cr_NetworkSettings : Value;
  cr_NetworkInterfaceSpecs : Value;
  cr_SchedulingPolicy : Value;
  cr_PlacementPolicy : Value;
  cr_LocalDiskSpecs : Value;
  cr_MetadataOptions : Value;
  cr_FilesystemSpecs : Value;
  cr_GpuSettings : Value;
  cr_MaintenancePolicy : MaintenancePolicy;
  cr_MaintenanceGracePeriod : Value;
}.

Record MoveInstanceRequest : Type := {
  mv_InstanceId : string;
  mv_DestinationFolderId : string;
}.

Record UpdateInstanceNetworkInterfaceRequest : Type := {
  uni_InstanceId : string;
  uni_NetworkInterfaceIndex : string;
  uni_UpdateMask : list string;
  uni_SubnetId : string;
  uni_PrimaryV4AddressSpec : option PrimaryAddressSpec;
  uni_PrimaryV6AddressSpec : option PrimaryAddressSpec;
  uni_SecurityGroupIds : list string;
}.

Record AddInstanceOneToOneNatRequest : Type := {
  addnat_InstanceId : string;
  addnat_NetworkInterfaceIndex : string;
  addnat_OneToOneNatSpec : option OneToOneNatSpec;
}.

Record RemoveInstanceOneToOneNatRequest : Type := {
  rmnat_InstanceId : string;
  rmnat_NetworkInterfaceIndex : string;
}.

Record AttachInstanceNetworkInterfaceRequest : Type := {
  ani_InstanceId : string;
  ani_NetworkInterfaceIndex : string;
  ani_PrimaryV4AddressSpec : option PrimaryAddressSpec;
  ani_SecurityGroupIds : list string;
  ani_SubnetId : string;
}.

Record DetachInstanceNetworkInterfaceRequest : Type := {
  dni_InstanceId : string;
  dni_NetworkInterfaceIndex : string;
}.

Record AttachInstanceDiskRequest : Type := {
  adr_InstanceId : string;
  adr_AttachedDiskSpec : AttachedDiskSpec;
}.

Record DetachInstanceDiskRequest : Type := {
  ddr_InstanceId : string;
  ddr_DiskId : string;
}.

Record AttachInstanceFilesystemRequest : Type := {
  afr_InstanceId : string;
  afr_AttachedFilesystemSpec : AttachedFilesystemSpec;
}.

Record DetachInstanceFilesystemRequest : Type := {
  dfr_InstanceId : string;
  dfr_FilesystemId : string;
}.

End compute.

(** ** Messages of the Smart Web Security ARL API *)

Module advanced_rate_limiter.

Record AdvancedRateLimiterProfile : Type := {
  Id : string;
  FolderId : string;
  Labels : Value;
  Name : string;
  Description : string;
  AdvancedRateLimiterRules : Value;
  CreatedAt : Value;
  CloudId : string;
}.

Record CreateAdvancedRateLimiterProfileRequest : Type := {
  cr_FolderId : string;
  cr_Labels : Value;
  cr_Name : string;
  cr_Description : string;
  cr_AdvancedRateLimiterRules : Value;
}.

Record UpdateAdvancedRateLimiterProfileRequest : Type := {
  upd_AdvancedRateLimiterProfileId : string;
  upd_UpdateMask : list string;
  upd_Labels : Value;
  upd_Name : string;
  upd_Description : string;
  upd_AdvancedRateLimiterRules : Value;
}.

End advanced_rate_limiter.

(** ** The remote API and the SDK's operations *)

(** The remote calls of the two services.  [DiskRead instance] stands
    for what [flattenInstanceBootDisk] reads from the disk service it
    is handed, for the boot disk of [instance]. *)
Inductive Call : Type :=
| InstanceGet (id : string)
| InstanceCreate (req : compute.CreateInstanceRequest)
| InstanceUpdate (req : compute.UpdateInstanceRequest)
| InstanceDelete (id : string)
| InstanceStop (id : string)
| InstanceStart (id : string)
| InstanceMove (req : compute.MoveInstanceRequest)
| InstanceUpdateNetworkInterface (req : compute.UpdateInstanceNetworkInterfaceRequest)
| InstanceAddOneToOneNat (req : compute.AddInstanceOneToOneNatRequest)
| InstanceRemoveOneToOneNat (req : compute.RemoveInstanceOneToOneNatRequest)
| InstanceAttachNetworkInterface (req : compute.AttachInstanceNetworkInterfaceRequest)
| InstanceDetachNetworkInterface (req : compute.DetachInstanceNetworkInterfaceRequest)
| InstanceAttachDisk (req : compute.AttachInstanceDiskRequest)
| InstanceDetachDisk (req : compute.DetachInstanceDiskRequest)
| InstanceAttachFilesystem (req : compute.AttachInstanceFilesystemRequest)
| InstanceDetachFilesystem (req : compute.DetachInstanceFilesystemRequest)
| DiskRead (instance : compute.Instance)
| ProfileGet (id : string)
| ProfileCreate (req : advanced_rate_limiter.CreateAdvancedRateLimiterProfileRequest)
| ProfileUpdate (req : advanced_rate_limiter.UpdateAdvancedRateLimiterProfileRequest)
| ProfileDelete (id : string).

(** The calls that only read. *)
Definition reads (c : Call) : bool :=
  match c with
  | InstanceGet _ | DiskRead _ | ProfileGet _ => true
  | _ => false
  end.

(** What [op.Metadata()] gives for the operation of a create call:
    the metadata of the expected type, with the id of the resource
    being created; a message of another type; or an error. *)
Inductive OperationMetadata : Type :=
| CreateMetadata (id : string)
| OtherMetadata
| MetadataError (e : error).

(** A [*operation.Operation] as the SDK's [WrapOperation] returns it,
    with what its methods will answer. *)
Record Operation : Type := {
  op_Metadata : OperationMetadata;
  op_Wait : option error;
  op_Response : option error;
}.

(** The remote side: what each call answers at each moment (the number
    of calls made before it).  Nothing is assumed of it. *)
Record Remote : Type := {
  instance_get : nat → string → result compute.Instance;
  boot_disk : nat → compute.Instance → result Value;
  profile_get : nat → string → result advanced_rate_limiter.AdvancedRateLimiterProfile;
  operate : nat → Call → result Operation;
}.

(** What a run leaves behind: every remote call, with whether it
    returned an error, and every [op.Wait], with whether it failed. *)
Inductive Event : Type :=
| Called (c : Call) (accepted : bool)
| Waited (c : Call) (succeeded : bool).

(** ** The monad of the resource functions

    A resource function reads and mutates the [ResourceData] it is
    given, makes remote calls, and returns an [error] or nil.  The clock
    counts the remote calls made so far. *)
Record State : Type := {
  st_d : ResourceData;
  st_clock : nat;
}.

Definition M (A : Type) : Type := State → result A * State * list Event.

Global Instance M_ret : MRet M := λ A a s, (Ok a, s, []).

Global Instance M_bind : MBind M := λ A B f m s,
  let '(r, s1, t1) := m s in
  match r with
  | Ok a => let '(r2, s2, t2) := f a s1 in (r2, s2, t1 ++ t2)
  | Err e => (Err e, s1, t1)
  end.

(** [return err] *)
Definition fail {A} (e : error) : M A := λ s, (Err e, s, []).

(** A pure helper returning [(v, err)]. *)
Definition lift {A} (r : result A) : M A := λ s, (r, s, []).

(** [if err != nil { return wrap(err) }] around a computation *)
Definition on_error {A} (wrap : error → error) (m : M A) : M A := λ s,
  let '(r, s1, t1) := m s in
  match r with
  | Ok a => (Ok a, s1, t1)
  | Err e => (Err (wrap e), s1, t1)
  end.

Definition get_d : M ResourceData := λ s, (Ok (st_d s), s, []).

Definition put_d (d : ResourceData) : M unit := λ s,
  (Ok tt, {| st_d := d; st_clock := st_clock s |}, []).

Definition when (b : bool) (m : M unit) : M unit :=
  if b then m else mret tt.

(** [for _, x := range xs { ... }], leaving at the first error *)
Fixpoint for_each {A} (xs : list A) (body : A → M unit) : M unit :=
  match xs with
  | [] => mret tt
  | x :: xs' => body x ;; for_each xs' body
  end.

Section remote.

Variable remote : Remote.

Definition tick (s : State) : State :=
  {| st_d := st_d s; st_clock := S (st_clock s) |}.

(** [config.sdk.WrapOperation(<call>)] for a mutating call *)
Definition WrapOperation (c : Call) : M Operation := λ s,
  match operate remote (st_clock s) c with
  | Ok op => (Ok op, tick s, [Called c true])
  | Err e => (Err e, tick s, [Called c false])
  end.

(** [op.Wait(ctx)] on the operation of call [c] *)
Definition Wait (c : Call) (op : Operation) : M unit := λ s,
  match op_Wait op with
  | None => (Ok tt, s, [Waited c true])
  | Some e => (Err e, s, [Waited c false])
  end.

Definition Instance_Get (id : string) : M compute.Instance := λ s,
  match instance_get remote (st_clock s) id with
  | Ok i => (Ok i, tick s, [Called (InstanceGet id) true])
  | Err e => (Err e, tick s, [Called (InstanceGet id) false])
  end.

Definition Profile_Get (id : string)
  : M advanced_rate_limiter.AdvancedRateLimiterProfile := λ s,
  match profile_get remote (st_clock s) id with
  | Ok i => (Ok i, tick s, [Called (ProfileGet id) true])
  | Err e => (Err e, tick s, [Called (ProfileGet id) false])
  end.

(** [flattenInstanceBootDisk(ctx, instance, config.sdk.Compute().Disk())].
    Its body is outside these files.  It is handed the context and the
    client of the disk service: what it returns is an answer of the
    remote side at that moment, and its reading of the disk service is
    the call [DiskRead instance] of the trace, accepted when it returns
    no error. *)
Definition flattenInstanceBootDisk (instance : compute.Instance) : M Value := λ s,
  match boot_disk remote (st_clock s) instance with
  | Ok v => (Ok v, tick s, [Called (DiskRead instance) true])
  | Err e => (Err e, tick s, [Called (DiskRead instance) false])
  end.

End remote.

(** ** Helpers of the provider that live outside these two files

    The expand and flatten helpers, the error handler and the string
    formatting of the standard library are taken as parameters: nothing
    is assumed of what they compute. *)

(** [instanceAction], whose declaration is outside this file: the two
    actions the file names, and any other value of the type. *)
Inductive instanceAction : Type :=
| instanceActionStop
| instanceActionStart
| instanceActionOther.

Class Helpers : Type := {
  (** [strconv.Quote], the [%q] verb of [fmt] *)
  Quote : string → string;
  (** the [%s] verb on an [instanceAction] *)
  instanceAction_String : instanceAction → string;
  (** [handleNotFoundError(err, d, resourceName)]: from the error, the
      resource id and the name, the id it leaves in [d] and the error
      it returns *)
  handleNotFoundError : error → string → string → string * option error;
  getZone : ResourceData → result string;
  getFolderID : ResourceData → result string;
  getTimestamp : Value → string;
  parseDuration : string → result Value;
  formatDuration : Value → string;
  expandLabels : Value → result Value;
  expandInstanceResourcesSpec : ResourceData → result Value;
  expandInstanceBootDiskSpec : ResourceData → result Value;
  expandInstanceSecondaryDiskSpecs : ResourceData → result Value;
  expandInstanceNetworkSettingsSpecs : ResourceData → result Value;
  expandInstanceNetworkInterfaceSpecs : ResourceData → result Value;
  expandInstanceSchedulingPolicy : ResourceData → result Value;
  expandInstancePlacementPolicy : ResourceData → result Value;
  expandInstanceMetadataOptions : ResourceData → Value;
  expandLocalDiskSpecs : Value → Value;
  expandInstanceFilesystemSpecs : ResourceData → result Value;
  expandInstanceGpuSettingsSpec : ResourceData → result Value;
  expandHostAffinityRulesSpec : list Value → list Value;
  expandSecondaryDiskSpec : Value → result compute.AttachedDiskSpec;
  diskSpecChanged : compute.AttachedDisk → compute.AttachedDiskSpec → bool;
  expandFilesystemSpec : Value → result compute.AttachedFilesystemSpec;
  (** [hashstructure.Hash(spec, nil)] *)
  hashstructure_Hash : compute.AttachedFilesystemSpec → result N;
  expandPrimaryV4AddressSpec : Value → result (option compute.PrimaryAddressSpec);
  expandPrimaryV6AddressSpec : Value → result (option compute.PrimaryAddressSpec);
  expandSecurityGroupIds : Value → list string;
  expandNetworkInterfaceSpec : Value → result compute.NetworkInterfaceSpec;
  flattenInstanceResources : compute.Instance → result Value;
  flattenInstanceSecondaryDisks : compute.Instance → result Value;
  flattenInstanceSchedulingPolicy : compute.Instance → result Value;
  flattenInstancePlacementPolicy : compute.Instance → result Value;
  flattenInstanceNetworkInterfaces : compute.Instance → result (Value * string * string);
  flattenLocalDisks : compute.Instance → Value;
  flattenInstanceMetadataOptions : compute.Instance → Value;
  flattenInstanceFilesystems : compute.Instance → Value;
  flattenComputeHardwareGeneration : Value → result Value;
  (** helpers of the ARL profile resource *)
  expandStringStringMap : Value → Value;
  expandAdvancedRateLimiterProfileAdvancedRateLimiterRulesSlice : ResourceData → result Value;
  expandAdvancedRateLimiterProfileAdvancedRateLimiterRulesSlice_ : ResourceData → result Value;
  flattenAdvancedXrateXlimiterAdvancedRateLimiterRuleSlice : Value → result Value;
}.

(** [strconv.Itoa], [fmt.Sprint] and the [%d] verb on an [int] *)
Definition Itoa (z : Z) : string := NilZero.string_of_int (Z.to_int z).

(** [strings.ToLower] on ASCII letters, which is all the enum names
    it is applied to contain. *)
Definition lower (c : ascii) : ascii :=
  let n := nat_of_ascii c in
  if (65 <=? n) && (n <=? 90) then ascii_of_nat (n + 32) else c.

Fixpoint ToLower (s : string) : string :=
  match s with
  | EmptyString => EmptyString
  | String c s' => String (lower c) (ToLower s')
  end.

Definition GetBool (d : ResourceData) (key : string) : bool :=
  asBool (ResourceData.Get d key).
Definition GetString (d : ResourceData) (key : string) : string :=
  asString (ResourceData.Get d key).
Definition GetInt (d : ResourceData) (key : string) : Z :=
  asInt (ResourceData.Get d key).

(** [r, err := f(); if err != nil { return ..., wrap(err) }] on results *)
Definition bind_result {A B} (r : result A) (f : A → result B) : result B :=
  match r with
  | Ok a => f a
  | Err e => Err e
  end.

Definition wrap_result {A} (wrap : error → error) (r : result A) : result A :=
  match r with
  | Ok a => Ok a
  | Err e => Err (wrap e)
  end.

(** ** The pure functions of the compute instance resource *)

Section compute_instance_pure.

Context `{Helpers}.
Import compute.

Definition expandMaintenancePolicy (d : ResourceData) : result MaintenancePolicy :=
  let '(v, ok) := ResourceData.GetOk d "maintenance_policy" in
  if ok then
    if DeepEqual v (VString "unspecified") then
      Ok MaintenancePolicy_MAINTENANCE_POLICY_UNSPECIFIED
    else if DeepEqual v (VString "restart") then
      Ok MaintenancePolicy_RESTART
    else if DeepEqual v (VString "migrate") then
      Ok MaintenancePolicy_MIGRATE
    else
      Err ("unknown maintenance_policy: " +:+ Quote (asString v))
  else Ok MaintenancePolicy_MAINTENANCE_POLICY_UNSPECIFIED.

Definition differentRecordSpec (r1 r2 : DnsRecordSpec) : bool :=
  negb (String.eqb (dns_Fqdn r1) (dns_Fqdn r2)) ||
  negb (String.eqb (dns_DnsZoneId r1) (dns_DnsZoneId r2)) ||
  negb (Z.eqb (dns_Ttl r1) (dns_Ttl r2)) ||
  negb (Bool.eqb (dns_Ptr r1) (dns_Ptr r2)).

(** The loop shared by [dnsSpecChanged] and [natDnsSpecChanged]:
    the lengths differ, or some pair of records at one index does. *)
Fixpoint recordSpecsChanged (old new : list DnsRecordSpec) : bool :=
  match old, new with
  | [], [] => false
  | oldrs :: old', newrs :: new' =>
      differentRecordSpec oldrs newrs || recordSpecsChanged old' new'
  | _, _ => true
  end.

(** Both arguments are dereferenced; the callers pass no nil. *)
Definition dnsSpecChanged (old new : option PrimaryAddressSpec) : bool :=
  match old, new with
  | Some o, Some n => recordSpecsChanged (pa_DnsRecordSpecs o) (pa_DnsRecordSpecs n)
  | _, _ => false
  end.

Definition natDnsSpecChanged (old new : option OneToOneNatSpec) : bool :=
  match old, new with
  | None, None => false
  | Some _, None | None, Some _ =>
      (* the whole NAT section changed, need to make separate requests *)
      false
  | Some o, Some n => recordSpecsChanged (nat_DnsRecordSpecs o) (nat_DnsRecordSpecs n)
  end.

Definition needToRestartDueToAddressChange (old new : option PrimaryAddressSpec) : bool :=
  match old, new with
  | None, None => false
  | Some _, None | None, Some _ => true
  | Some o, Some n =>
      negb (String.eqb (pa_Address n) "") &&
      negb (String.eqb (pa_Address o) (pa_Address n))
  end.

Definition natAddressSpecChanged (old new : option OneToOneNatSpec) : bool :=
  match old, new with
  | None, None => false
  | Some _, None | None, Some _ => true
  | Some o, Some n =>
      negb (String.eqb (nat_Address n) "") &&
      negb (String.eqb (nat_Address o) (nat_Address n))
  end.

Definition wantChangeAddressSpec (old new : option PrimaryAddressSpec) : bool :=
  match old, new with
  | None, None => false
  | Some _, None | None, Some _ => true
  | Some o, Some n =>
      if negb (String.eqb (pa_Address n) "") &&
         negb (String.eqb (pa_Address o) (pa_Address n))
      then true
      else dnsSpecChanged old new ||
           natDnsSpecChanged (pa_OneToOneNatSpec o) (pa_OneToOneNatSpec n)
  end.

(** [spec.OneToOneNatSpec] of a non-nil spec *)
Definition natOf (spec : option PrimaryAddressSpec) : option OneToOneNatSpec :=
  match spec with
  | Some s => pa_OneToOneNatSpec s
  | None => None
  end.

Definition withAddress (a : string) (spec : PrimaryAddressSpec) : PrimaryAddressSpec :=
  {| pa_Address := a; pa_OneToOneNatSpec := pa_OneToOneNatSpec spec;
     pa_DnsRecordSpecs := pa_DnsRecordSpecs spec |}.

Definition ensureAllowStoppingForUpdate (d : ResourceData) (propNames : list string)
  : option error :=
  let message := "Changing the " +:+ strings.Join propNames ", " +:+
                 " in an instance requires stopping it. " in
  if negb (GetBool d "allow_stopping_for_update") then
    Some (message +:+ "To acknowledge this action, please set allow_stopping_for_update = true in your config file.")
  else None.

Definition preparePlacementPolicyForUpdateRequest (d : ResourceData)
  : PlacementPolicy * list string :=
  let '(groupId, paths) :=
    if ResourceData.HasChange d "placement_policy.0.placement_group_id"
    then (GetString d "placement_policy.0.placement_group_id",
          ["placement_policy.placement_group_id"])
    else ("", []) in
  let '(rules, paths) :=
    if ResourceData.HasChange d "placement_policy.0.host_affinity_rules"
    then (expandHostAffinityRulesSpec
            (asList (ResourceData.Get d "placement_policy.0.host_affinity_rules")),
          paths ++ ["placement_policy.host_affinity_rules"])
    else ([], paths) in
  let '(partition, paths) :=
    if ResourceData.HasChange d "placement_policy.0.placement_group_partition"
    then (GetInt d "placement_policy.0.placement_group_partition",
          paths ++ ["placement_policy.placement_group_partition"])
    else (0%Z, paths) in
  ({| pp_PlacementGroupId := groupId; pp_HostAffinityRules := rules;
      pp_PlacementGroupPartition := partition |}, paths).

(** *** Network interfaces *)

(** [newIface["index"].(int)] with its [ok] *)
Definition ifaceIndexOf (iface : Value) : option Z :=
  match child iface "index" with
  | VInt z => Some z
  | _ => None
  end.

(** The first loop of [getSpecsForAttachDetachNetworkInterfaces]. *)
Fixpoint attachSpecs (instanceId : string) (curIfaces : gmap string NetworkInterface)
    (newList : list Value) (ifaceIndex : nat)
    (newIfaces : gmap string NetworkInterfaceSpec)
    (attachInterfaceRequests : list AttachInstanceNetworkInterfaceRequest)
  : result (gmap string NetworkInterfaceSpec * list AttachInstanceNetworkInterfaceRequest) :=
  match newList with
  | [] => Ok (newIfaces, attachInterfaceRequests)
  | newIface :: rest =>
      match ifaceIndexOf newIface with
      | None =>
          Err ("NIC number #" +:+ Itoa (Z.of_nat ifaceIndex) +:+
               " does not have a 'index' attribute defined, you have to specify it")
      | Some newIfaceindex =>
          let index := Itoa newIfaceindex in
          match expandNetworkInterfaceSpec newIface with
          | Err err =>
              Err ("Failed to process NIC number: #" +:+ Itoa (Z.of_nat ifaceIndex) +:+
                   ": " +:+ err)
          | Ok iface =>
              attachSpecs instanceId curIfaces rest (S ifaceIndex)
                (<[index := iface]> newIfaces)
                (match curIfaces !! index with
                 | Some _ => attachInterfaceRequests
                 | None =>
                     attachInterfaceRequests ++
                     [{| ani_InstanceId := instanceId;
                         ani_NetworkInterfaceIndex := index;
                         ani_PrimaryV4AddressSpec := nis_PrimaryV4AddressSpec iface;
                         ani_SecurityGroupIds := nis_SecurityGroupIds iface;
                         ani_SubnetId := nis_SubnetId iface |}]
                 end)
          end
      end
  end.

(** Go leaves the order in which a map is ranged over unspecified;
    the order of [map_to_list] stands for it. *)
Definition getSpecsForAttachDetachNetworkInterfaces (newList : list Value)
    (instanceId : string) (instanceNetworkInterfaces : list NetworkInterface)
  : result (list AttachInstanceNetworkInterfaceRequest *
            list DetachInstanceNetworkInterfaceRequest) :=
  let curIfaces : gmap string NetworkInterface :=
    foldl (λ m iface, <[ni_Index iface := iface]> m) ∅ instanceNetworkInterfaces in
  bind_result (attachSpecs instanceId curIfaces newList 0 ∅ [])
    (λ '(newIfaces, attachInterfaceRequests),
       let detachInterfaceRequests :=
         omap (λ '(index, _),
                 match newIfaces !! index with
                 | Some _ => None
                 | None => Some {| dni_InstanceId := instanceId;
                                   dni_NetworkInterfaceIndex := index |}
                 end)
              (map_to_list curIfaces) in
       Ok (attachInterfaceRequests, detachInterfaceRequests)).

(** One iteration of the loop of [getSpecsForUpdateNetworkInterfaces]:
    the request for the interface, when its mask is not empty, and
    the new value of [stopInstance]. *)
Definition updateSpec (d : ResourceData) (networkInterfacesPropName : string)
    (ifaceIndex : nat) (oldIface newIface : Value) (stopInstance : bool)
  : result (option UpdateInstanceNetworkInterfaceRequest * bool) :=
  let address name :=
    networkInterfacesPropName +:+ "." +:+ Itoa (Z.of_nat ifaceIndex) +:+ "." +:+ name in
  bind_result (expandPrimaryV4AddressSpec oldIface) (λ oldV4Spec,
  bind_result (expandPrimaryV6AddressSpec oldIface) (λ oldV6Spec,
  bind_result (expandPrimaryV4AddressSpec newIface) (λ newV4Spec,
  bind_result (expandPrimaryV6AddressSpec newIface) (λ newV6Spec,
  let '(paths, stopInstance, subnetId, v4, v6) :=
    if negb (String.eqb (asString (child oldIface "subnet_id"))
                        (asString (child newIface "subnet_id")))
    then
      (* change subnet, update all the properties! ...on stopped instance *)
      (["subnet_id"; "primary_v4_address_spec"; "primary_v6_address_spec"],
       true,
       asString (child newIface "subnet_id"),
       (if negb (ResourceData.HasChange d (address "ip_address"))
        then withAddress "" <$> newV4Spec else newV4Spec),
       (if ResourceData.HasChange d (address "ipv6_address")
        then withAddress "" <$> newV6Spec else newV6Spec))
    else
      let '(paths, stopInstance, v4) :=
        if wantChangeAddressSpec oldV4Spec newV4Spec then
          if needToRestartDueToAddressChange oldV4Spec newV4Spec then
            (["primary_v4_address_spec"], true, newV4Spec)
          else if dnsSpecChanged oldV4Spec newV4Spec then
            (["primary_v4_address_spec.dns_record_specs"] ++
             (if natDnsSpecChanged (natOf oldV4Spec) (natOf newV4Spec)
              then ["primary_v4_address_spec.one_to_one_nat_spec.dns_record_specs"]
              else []),
             stopInstance, newV4Spec)
          else if natDnsSpecChanged (natOf oldV4Spec) (natOf newV4Spec) then
            (["primary_v4_address_spec.one_to_one_nat_spec.dns_record_specs"],
             stopInstance, newV4Spec)
          else ([], stopInstance, newV4Spec)
        else ([], stopInstance, None) in
      let '(paths, stopInstance, v6) :=
        if wantChangeAddressSpec oldV6Spec newV6Spec then
          if needToRestartDueToAddressChange oldV6Spec newV6Spec then
            (paths ++ ["primary_v6_address_spec"], true, newV6Spec)
          else
            (paths ++ ["primary_v6_address_spec.dns_record_specs"],
             stopInstance, newV6Spec)
        else (paths, stopInstance, None) in
      (paths, stopInstance, "", v4, v6) in
  let oldSgs := expandSecurityGroupIds (child oldIface "security_group_ids") in
  let newSgs := expandSecurityGroupIds (child newIface "security_group_ids") in
  let '(paths, sgs) :=
    if negb (bool_decide (oldSgs = newSgs))
    then (paths ++ ["security_group_ids"], newSgs)
    else (paths, []) in
  let req :=
    {| uni_InstanceId := ResourceData.Id d;
       uni_NetworkInterfaceIndex := Itoa (Z.of_nat ifaceIndex);
       uni_UpdateMask := paths;
       uni_SubnetId := subnetId;
       uni_PrimaryV4AddressSpec := v4;
       uni_PrimaryV6AddressSpec := v6;
       uni_SecurityGroupIds := sgs |} in
  Ok (if 0 <? length paths then Some req else None, stopInstance))))).

(** The loop over [ifaceIndex]; [newList] is as long as [oldList]. *)
Fixpoint updateSpecs (d : ResourceData) (networkInterfacesPropName : string)
    (ifaceIndex : nat) (oldList newList : list Value)
    (updateInterfaceRequests : list UpdateInstanceNetworkInterfaceRequest)
    (stopInstance : bool)
  : list UpdateInstanceNetworkInterfaceRequest * bool * option error :=
  match oldList with
  | [] => (updateInterfaceRequests, stopInstance, None)
  | oldIface :: oldList' =>
      let newIface := default VNil (head newList) in
      match updateSpec d networkInterfacesPropName ifaceIndex oldIface newIface
              stopInstance with
      | Err err => ([], stopInstance, Some err)
      | Ok (req, stopInstance) =>
          updateSpecs d networkInterfacesPropName (S ifaceIndex) oldList' (tail newList)
            (updateInterfaceRequests ++ option_list req) stopInstance
      end
  end.

Definition getSpecsForUpdateNetworkInterfaces (d : ResourceData)
    (networkInterfacesPropName : string) (oldList newList : list Value)
  : list UpdateInstanceNetworkInterfaceRequest * bool * option error :=
  updateSpecs d networkInterfacesPropName 0 oldList newList [] false.

Fixpoint natSpecs (instanceId : string) (ifaceIndex : nat) (oldList newList : list Value)
    (addNatRequests : list AddInstanceOneToOneNatRequest)
    (removeNatRequests : list RemoveInstanceOneToOneNatRequest)
  : result (list AddInstanceOneToOneNatRequest * list RemoveInstanceOneToOneNatRequest) :=
  match oldList with
  | [] => Ok (addNatRequests, removeNatRequests)
  | oldIface :: oldList' =>
      let newIface := default VNil (head newList) in
      bind_result (expandPrimaryV4AddressSpec oldIface) (λ oldV4Spec,
      bind_result (expandPrimaryV4AddressSpec newIface) (λ newV4Spec,
      match oldV4Spec, newV4Spec with
      | Some o, Some n =>
          let changed :=
            natAddressSpecChanged (pa_OneToOneNatSpec o) (pa_OneToOneNatSpec n) in
          (* changing nat address on maybe running instance, safer to
             use add/remove nat calls *)
          natSpecs instanceId (S ifaceIndex) oldList' (tail newList)
            (if changed && bool_decide (is_Some (pa_OneToOneNatSpec n))
             then addNatRequests ++
                  [{| addnat_InstanceId := instanceId;
                      addnat_NetworkInterfaceIndex := Itoa (Z.of_nat ifaceIndex);
                      addnat_OneToOneNatSpec := pa_OneToOneNatSpec n |}]
             else addNatRequests)
            (if changed && bool_decide (is_Some (pa_OneToOneNatSpec o))
             then removeNatRequests ++
                  [{| rmnat_InstanceId := instanceId;
                      rmnat_NetworkInterfaceIndex := Itoa (Z.of_nat ifaceIndex) |}]
             else removeNatRequests)
      | _, _ => Ok ([], [])
      end))
  end.

Definition getSpecsForAddRemoveNatNetworkInterfaces (instanceId : string)
    (oldList newList : list Value)
  : result (list AddInstanceOneToOneNatRequest * list RemoveInstanceOneToOneNatRequest) :=
  natSpecs instanceId 0 oldList newList [] [].

End compute_instance_pure.

(** ** Local effects on the resource data *)

Definition SetId (id : string) : M unit := λ s,
  (Ok tt, {| st_d := ResourceData.SetId id (st_d s); st_clock := st_clock s |}, []).

(** [d.Set(key, v)], its error ignored *)
Definition Set_ (key : string) (v : Value) : M unit := λ s,
  (Ok tt, {| st_d := (ResourceData.Set_ key v (st_d s)).1; st_clock := st_clock s |}, []).

(** [if err := d.Set(key, v); err != nil { return err }] *)
Definition Set_checked (key : string) (v : Value) : M unit := λ s,
  let '(d, err) := ResourceData.Set_ key v (st_d s) in
  (match err with Some e => Err e | None => Ok tt end,
   {| st_d := d; st_clock := st_clock s |}, []).

(** [if err := f(); err != nil { return err }] for a pure check *)
Definition check (err : option error) : M unit :=
  match err with
  | Some e => fail e
  | None => mret tt
  end.

(** [v, err := call()], the error kept as a value *)
Definition attempt {A} (m : M A) : M (result A) := λ s,
  let '(r, s1, t1) := m s in (Ok r, s1, t1).

(** ** [hostnameDiffSuppressFunc]

    The function that decides whether a difference of the [hostname]
    attribute is left out of the plan. *)

Definition hostnameDiffSuppressFunc (_ oldValue newValue : string) (_ : ResourceData)
  : bool :=
  String.eqb (strings.TrimRight oldValue ".") (strings.TrimRight newValue ".").

(** ** The compute instance resource *)

Section compute_instance.

Variable remote : Remote.
Context `{Helpers}.
Import compute.

(** [return handleNotFoundError(err, d, resourceName)] *)
Definition handle_not_found (err : error) (resourceName : string) : M unit := λ s,
  let '(id, e) := handleNotFoundError err (ResourceData.Id (st_d s)) resourceName in
  (match e with Some e => Err e | None => Ok tt end,
   {| st_d := ResourceData.SetId id (st_d s); st_clock := st_clock s |}, []).

(** The shape shared by the [make...Request] functions: the call
    through [WrapOperation], then [op.Wait], each error wrapped. *)
Definition call_and_wait (c : Call) (onCall onWait : error → error) : M unit :=
  op ← on_error onCall (WrapOperation remote c);
  on_error onWait (Wait c op).

Definition makeInstanceUpdateRequest (req : UpdateInstanceRequest) : M unit :=
  d ← get_d;
  call_and_wait (InstanceUpdate req)
    (λ err, "Error while requesting API to update Instance " +:+
            Quote (ResourceData.Id d) +:+ ": " +:+ err)
    (λ err, "Error updating Instance " +:+ Quote (ResourceData.Id d) +:+ ": " +:+ err).

Definition makeInstanceUpdateNetworkInterfaceRequest
    (req : UpdateInstanceNetworkInterfaceRequest) : M unit :=
  d ← get_d;
  call_and_wait (InstanceUpdateNetworkInterface req)
    (λ err, "Error while requesting API to update network interface for Instance " +:+
            Quote (ResourceData.Id d) +:+ ": " +:+ err)
    (λ err, "Error updating Instance " +:+ Quote (ResourceData.Id d) +:+ ": " +:+ err).

Definition makeInstanceAddOneToOneNatRequest
    (req : AddInstanceOneToOneNatRequest) : M unit :=
  d ← get_d;
  call_and_wait (InstanceAddOneToOneNat req)
    (λ err, "Error while requesting API to add one-to-one nat for Instance " +:+
            Quote (ResourceData.Id d) +:+ ": " +:+ err)
    (λ err, "Error updating Instance " +:+ Quote (ResourceData.Id d) +:+ ": " +:+ err).

Definition makeInstanceRemoveOneToOneNatRequest
    (req : RemoveInstanceOneToOneNatRequest) : M unit :=
  d ← get_d;
  call_and_wait (InstanceRemoveOneToOneNat req)
    (λ err, "Error while requesting API to remove one-to-one nat for Instance " +:+
            Quote (ResourceData.Id d) +:+ ": " +:+ err)
    (λ err, "Error updating Instance " +:+ Quote (ResourceData.Id d) +:+ ": " +:+ err).

Definition makeInstanceAttachNetworkInterfaceRequest
    (req : AttachInstanceNetworkInterfaceRequest) : M unit :=
  d ← get_d;
  call_and_wait (InstanceAttachNetworkInterface req)
    (λ err, "Error while requesting API to attach network interface to the Instance " +:+
            Quote (ResourceData.Id d) +:+ ": " +:+ err)
    (λ err, "Error updating Instance " +:+ Quote (ResourceData.Id d) +:+ ": " +:+ err).

Definition makeInstanceDetachNetworkInterfaceRequest
    (req : DetachInstanceNetworkInterfaceRequest) : M unit :=
  d ← get_d;
  call_and_wait (InstanceDetachNetworkInterface req)
    (λ err, "Error while requesting API to detach network interface from the Instance " +:+
            Quote (ResourceData.Id d) +:+ ": " +:+ err)
    (λ err, "Error updating Instance " +:+ Quote (ResourceData.Id d) +:+ ": " +:+ err).

Definition makeInstanceActionRequest (action : instanceAction) : M unit :=
  d ← get_d;
  let instanceID := ResourceData.Id d in
  let run c :=
    call_and_wait c
      (λ err, "Error while run " +:+ instanceAction_String action +:+
              " action on Instance " +:+ instanceID +:+ ": " +:+ err)
      (λ err, "Error while wait " +:+ instanceAction_String action +:+
              " action on Instance " +:+ instanceID +:+ ": " +:+ err) in
  match action with
  | instanceActionStop => run (InstanceStop instanceID)
  | instanceActionStart => run (InstanceStart instanceID)
  | instanceActionOther =>
      fail ("Action " +:+ instanceAction_String action +:+ " not supported")
  end.

Definition makeDetachDiskRequest (req : DetachInstanceDiskRequest) : M unit :=
  call_and_wait (InstanceDetachDisk req)
    (λ err, "Error while requesting API to detach Disk " +:+ ddr_DiskId req +:+
            " from Instance " +:+ Quote (ddr_InstanceId req) +:+ ": " +:+ err)
    (λ err, "Error detach Disk " +:+ ddr_DiskId req +:+ " from Instance " +:+
            Quote (ddr_InstanceId req) +:+ ": " +:+ err).

Definition makeAttachDiskRequest (req : AttachInstanceDiskRequest) : M unit :=
  call_and_wait (InstanceAttachDisk req)
    (λ err, "Error while requesting API to attach Disk " +:+
            ads_DiskId (adr_AttachedDiskSpec req) +:+
            " to Instance " +:+ Quote (adr_InstanceId req) +:+ ": " +:+ err)
    (λ err, "Error attach Disk " +:+ ads_DiskId (adr_AttachedDiskSpec req) +:+
            " to Instance " +:+ Quote (adr_InstanceId req) +:+ ": " +:+ err).

Definition makeDetachFilesystemRequest (req : DetachInstanceFilesystemRequest) : M unit :=
  call_and_wait (InstanceDetachFilesystem req)
    (λ err, "Error while requesting API to detach Filesystem " +:+ dfr_FilesystemId req +:+
            " from Instance " +:+ Quote (dfr_InstanceId req) +:+ ": " +:+ err)
    (λ err, "Error detach Filesystem " +:+ dfr_FilesystemId req +:+ " from Instance " +:+
            Quote (dfr_InstanceId req) +:+ ": " +:+ err).

Definition makeAttachFilesystemRequest (req : AttachInstanceFilesystemRequest) : M unit :=
  call_and_wait (InstanceAttachFilesystem req)
    (λ err, "Error while requesting API to attach Filesystem " +:+
            afs_FilesystemId (afr_AttachedFilesystemSpec req) +:+
            " to Instance " +:+ Quote (afr_InstanceId req) +:+ ": " +:+ err)
    (λ err, "Error attach Filesystem " +:+
            afs_FilesystemId (afr_AttachedFilesystemSpec req) +:+
            " to Instance " +:+ Quote (afr_InstanceId req) +:+ ": " +:+ err).

Definition makeInstanceMoveRequest (req : MoveInstanceRequest) : M unit :=
  d ← get_d;
  call_and_wait (InstanceMove req)
    (λ err, "Error while requesting API to move Instance " +:+
            Quote (ResourceData.Id d) +:+ ": " +:+ err)
    (λ err, "Error moving Instance " +:+ Quote (ResourceData.Id d) +:+ ": " +:+ err).

(** *** Read *)

Definition resourceYandexComputeInstanceRead : M unit :=
  d ← get_d;
  got ← attempt (Instance_Get remote (ResourceData.Id d));
  match got with
  | Err err => handle_not_found err ("Instance " +:+ Quote (GetString d "name"))
  | Ok instance =>
      resources ← lift (flattenInstanceResources instance);
      bootDisk ← flattenInstanceBootDisk remote instance;
      secondaryDisks ← lift (flattenInstanceSecondaryDisks instance);
      schedulingPolicy ← lift (flattenInstanceSchedulingPolicy instance);
      placementPolicy ← lift (flattenInstancePlacementPolicy instance);
      '(networkInterfaces, externalIP, internalIP) ←
        lift (flattenInstanceNetworkInterfaces instance);
      let localDisks := flattenLocalDisks instance in
      let metadataOptions := flattenInstanceMetadataOptions instance in
      let filesystems := flattenInstanceFilesystems instance in
      hardwareGeneration ←
        lift (flattenComputeHardwareGeneration (Instance_HardwareGeneration instance));
      Set_ "created_at" (VString (getTimestamp (Instance_CreatedAt instance)));;
      Set_ "platform_id" (VString (Instance_PlatformId instance));;
      Set_ "folder_id" (VString (Instance_FolderId instance));;
      Set_ "zone" (VString (Instance_ZoneId instance));;
      Set_ "name" (VString (Instance_Name instance));;
      Set_ "fqdn" (VString (Instance_Fqdn instance));;
      Set_ "description" (VString (Instance_Description instance));;
      Set_ "service_account_id" (VString (Instance_ServiceAccountId instance));;
      Set_ "status"
        (VString (ToLower (Instance_Status_String (Instance_Status_ instance))));;
      Set_ "metadata_options" metadataOptions;;
      hostname ←
        match parseHostnameFromFQDN (Instance_Fqdn instance) with
        | Some (hostname, None) => mret hostname
        | Some (_, Some err) => fail err
        | None => fail "panic: index out of range"
        end;
      Set_ "hostname" (VString hostname);;
      Set_checked "metadata" (Instance_Metadata instance);;
      Set_checked "labels" (Instance_Labels instance);;
      Set_checked "resources" resources;;
      Set_checked "boot_disk" bootDisk;;
      Set_checked "secondary_disk" secondaryDisks;;
      Set_checked "scheduling_policy" schedulingPolicy;;
      Set_checked "placement_policy" placementPolicy;;
      Set_checked "local_disk" localDisks;;
      Set_checked "filesystem" filesystems;;
      match Instance_NetworkSettings instance with
      | Some type => Set_ "network_acceleration_type" (VString (ToLower type))
      | None => mret tt
      end;;
      Set_checked "network_interface" networkInterfaces;;
      (* [d.SetConnInfo], the connection details of provisioners, is
         kept out of the resource data of this model *)
      match Instance_GpuSettings instance with
      | Some gpuClusterId => Set_ "gpu_cluster_id" (VString gpuClusterId)
      | None => mret tt
      end;;
      match Instance_MaintenancePolicy instance with
      | MaintenancePolicy_MAINTENANCE_POLICY_UNSPECIFIED => mret tt
      | policy =>
          Set_checked "maintenance_policy"
            (VString (ToLower (MaintenancePolicy_String policy)))
      end;;
      Set_checked "maintenance_grace_period"
        (VString (formatDuration (Instance_MaintenanceGracePeriod instance)));;
      Set_checked "hardware_generation" hardwareGeneration
  end.

(** *** Create and Delete *)

Definition prepareCreateInstanceRequest (d : ResourceData)
  : result CreateInstanceRequest :=
  bind_result (wrap_result (λ err, "Error getting zone while creating instance: " +:+ err)
                 (getZone d)) (λ zone,
  bind_result (wrap_result (λ err, "Error getting folder ID while creating instance: " +:+ err)
                 (getFolderID d)) (λ folderID,
  bind_result (wrap_result (λ err, "Error expanding labels while creating instance: " +:+ err)
                 (expandLabels (ResourceData.Get d "labels"))) (λ labels,
  bind_result (wrap_result (λ err, "Error expanding metadata while creating instance: " +:+ err)
                 (expandLabels (ResourceData.Get d "metadata"))) (λ metadata,
  bind_result (wrap_result (λ err, "Error create 'resources_spec' object of api request: " +:+ err)
                 (expandInstanceResourcesSpec d)) (λ resourcesSpec,
  bind_result (wrap_result (λ err, "Error create 'boot_disk' object of api request: " +:+ err)
                 (expandInstanceBootDiskSpec d)) (λ bootDiskSpec,
  bind_result (wrap_result (λ err, "Error create 'secondary_disk' object of api request: " +:+ err)
                 (expandInstanceSecondaryDiskSpecs d)) (λ secondaryDiskSpecs,
  bind_result (wrap_result (λ err, "Error create 'network' object of api request: " +:+ err)
                 (expandInstanceNetworkSettingsSpecs d)) (λ networkSettingsSpecs,
  bind_result (wrap_result (λ err, "Error create 'network' object of api request: " +:+ err)
                 (expandInstanceNetworkInterfaceSpecs d)) (λ nicSpecs,
  bind_result (wrap_result (λ err, "Error create 'scheduling_policy' object of api request: " +:+ err)
                 (expandInstanceSchedulingPolicy d)) (λ schedulingPolicy,
  bind_result (wrap_result (λ err, "Error create 'placement_policy' object of api request: " +:+ err)
                 (expandInstancePlacementPolicy d)) (λ placementPolicy,
  let metadataOptions := expandInstanceMetadataOptions d in
  let localDisks := expandLocalDiskSpecs (ResourceData.Get d "local_disk") in
  bind_result (wrap_result (λ err, "Error create 'filesystem' object of api request: " +:+ err)
                 (expandInstanceFilesystemSpecs d)) (λ filesystemSpecs,
  bind_result (wrap_result (λ err, "Error create 'gpu_settings' object of api request: " +:+ err)
                 (expandInstanceGpuSettingsSpec d)) (λ gpuSettingsSpec,
  bind_result (wrap_result (λ err, "Error create 'maintenance_policy' object of api request: " +:+ err)
                 (expandMaintenancePolicy d)) (λ maintenancePolicy,
  bind_result (wrap_result (λ err, "Error create 'maintenance_grace_period' object of api request: " +:+ err)
                 (parseDuration (GetString d "maintenance_grace_period"))) (λ maintenanceGracePeriod,
  Ok {| cr_FolderId := folderID;
        cr_Hostname := GetString d "hostname";
        cr_Name := GetString d "name";
        cr_Description := GetString d "description";
        cr_PlatformId := GetString d "platform_id";
        cr_ServiceAccountId := GetString d "service_account_id";
        cr_ZoneId := zone;
        cr_Labels := labels;
        cr_Metadata := metadata;
        cr_ResourcesSpec := resourcesSpec;
        cr_BootDiskSpec := bootDiskSpec;
        cr_SecondaryDiskSpecs := secondaryDiskSpecs;
        cr_NetworkSettings := networkSettingsSpecs;
        cr_NetworkInterfaceSpecs := nicSpecs;
        cr_SchedulingPolicy := schedulingPolicy;
        cr_PlacementPolicy := placementPolicy;
        cr_LocalDiskSpecs := localDisks;
        cr_MetadataOptions := metadataOptions;
        cr_FilesystemSpecs := filesystemSpecs;
        cr_GpuSettings := gpuSettingsSpec;
        cr_MaintenancePolicy := maintenancePolicy;
        cr_MaintenanceGracePeriod := maintenanceGracePeriod |}))))))))))))))).

Definition resourceYandexComputeInstanceCreate : M unit :=
  d ← get_d;
  req ← lift (prepareCreateInstanceRequest d);
  op ← on_error (λ err, "Error while requesting API to create instance: " +:+ err)
         (WrapOperation remote (InstanceCreate req));
  match op_Metadata op with
  | MetadataError err =>
      fail ("Error while get instance create operation metadata: " +:+ err)
  | OtherMetadata =>
      fail "could not get Instance ID from create operation metadata"
  | CreateMetadata instanceId =>
      SetId instanceId;;
      on_error (λ err, "Error while waiting operation to create instance: " +:+ err)
        (Wait (InstanceCreate req) op);;
      check ((λ err, "Instance creation failed: " +:+ err) <$> op_Response op);;
      resourceYandexComputeInstanceRead
  end.

Definition resourceYandexComputeInstanceDelete : M unit :=
  d ← get_d;
  let c := InstanceDelete (ResourceData.Id d) in
  got ← attempt (WrapOperation remote c);
  match got with
  | Err err => handle_not_found err ("Instance " +:+ Quote (GetString d "name"))
  | Ok op =>
      Wait c op;;
      check (op_Response op)
  end.

End compute_instance.

(** *** Update *)

(** What the network interface block of [Update] leaves to the block
    that runs on the stopped instance. *)
Record InterfaceRequests : Type := {
  needUpdateInterfacesOnStoppedInstance : bool;
  addNatRequests : list compute.AddInstanceOneToOneNatRequest;
  removeNatRequests : list compute.RemoveInstanceOneToOneNatRequest;
  updateInterfaceRequests : list compute.UpdateInstanceNetworkInterfaceRequest;
  attachInterfaceRequests : list compute.AttachInstanceNetworkInterfaceRequest;
  detachInterfaceRequests : list compute.DetachInstanceNetworkInterfaceRequest;
}.

Section compute_instance_update.

Variable remote : Remote.
Context `{Helpers}.
Import compute.

(** The [folder_id] block. *)
Definition update_folder_id (instance : Instance) : M unit :=
  d ← get_d;
  let folderPropName := "folder_id" in
  if ResourceData.HasChange d folderPropName then
    if negb (GetBool d "allow_recreate") then
      check (ensureAllowStoppingForUpdate d [folderPropName]);;
      when (negb (Instance_Status_eqb (Instance_Status_ instance) Instance_STOPPED))
        (makeInstanceActionRequest remote instanceActionStop);;
      let req := {| mv_InstanceId := ResourceData.Id d;
                    mv_DestinationFolderId := GetString d folderPropName |} in
      makeInstanceMoveRequest remote req;;
      makeInstanceActionRequest remote instanceActionStart
    else
      resourceYandexComputeInstanceDelete remote;;
      resourceYandexComputeInstanceCreate remote
  else mret tt.

Definition update_labels : M unit :=
  d ← get_d;
  let labelPropName := "labels" in
  if ResourceData.HasChange d labelPropName then
    labelsProp ← lift (expandLabels (ResourceData.Get d labelPropName));
    makeInstanceUpdateRequest remote
      (with_Labels labelsProp
         (UpdateInstanceRequest_new (ResourceData.Id d) [labelPropName]))
  else mret tt.

Definition update_metadata : M unit :=
  d ← get_d;
  let metadataPropName := "metadata" in
  if ResourceData.HasChange d metadataPropName then
    metadataProp ← lift (expandLabels (ResourceData.Get d metadataPropName));
    makeInstanceUpdateRequest remote
      (with_Metadata metadataProp
         (UpdateInstanceRequest_new (ResourceData.Id d) [metadataPropName]))
  else mret tt.

Definition update_metadata_options : M unit :=
  d ← get_d;
  let metadataOptionsPropName := "metadata_options" in
  if ResourceData.HasChange d metadataOptionsPropName then
    makeInstanceUpdateRequest remote
      (with_MetadataOptions (expandInstanceMetadataOptions d)
         (UpdateInstanceRequest_new (ResourceData.Id d) [metadataOptionsPropName]))
  else mret tt.

Definition update_name : M unit :=
  d ← get_d;
  let namePropName := "name" in
  if ResourceData.HasChange d namePropName then
    makeInstanceUpdateRequest remote
      (with_Name (GetString d namePropName)
         (UpdateInstanceRequest_new (ResourceData.Id d) [namePropName]))
  else mret tt.

Definition update_description : M unit :=
  d ← get_d;
  let descPropName := "description" in
  if ResourceData.HasChange d descPropName then
    makeInstanceUpdateRequest remote
      (with_Description (GetString d descPropName)
         (UpdateInstanceRequest_new (ResourceData.Id d) [descPropName]))
  else mret tt.

Definition update_service_account_id : M unit :=
  d ← get_d;
  let serviceAccountPropName := "service_account_id" in
  if ResourceData.HasChange d serviceAccountPropName then
    makeInstanceUpdateRequest remote
      (with_ServiceAccountId (GetString d serviceAccountPropName)
         (UpdateInstanceRequest_new (ResourceData.Id d) [serviceAccountPropName]))
  else mret tt.

(** The request of the [maintenance_policy] and
    [maintenance_grace_period] block. *)
Definition maintenanceRequest (d : ResourceData) : result UpdateInstanceRequest :=
  let maintenancePolicyPropName := "maintenance_policy" in
  let maintenanceGracePeriodPropName := "maintenance_grace_period" in
  let req := UpdateInstanceRequest_new (ResourceData.Id d) [] in
  bind_result
    (if ResourceData.HasChange d maintenancePolicyPropName then
       bind_result (expandMaintenancePolicy d) (λ policy,
         Ok (append_Paths [maintenancePolicyPropName]
               (with_MaintenancePolicy policy req)))
     else Ok req) (λ req,
  if ResourceData.HasChange d maintenanceGracePeriodPropName then
    bind_result (parseDuration (GetString d maintenanceGracePeriodPropName)) (λ period,
      Ok (append_Paths [maintenanceGracePeriodPropName]
            (with_MaintenanceGracePeriod period req)))
  else Ok req).

Definition update_maintenance : M unit :=
  d ← get_d;
  if ResourceData.HasChange d "maintenance_policy" ||
     ResourceData.HasChange d "maintenance_grace_period" then
    req ← lift (maintenanceRequest d);
    makeInstanceUpdateRequest remote req
  else mret tt.

Definition noInterfaceRequests : InterfaceRequests :=
  {| needUpdateInterfacesOnStoppedInstance := false;
     addNatRequests := []; removeNatRequests := [];
     updateInterfaceRequests := []; attachInterfaceRequests := [];
     detachInterfaceRequests := [] |}.

(** The requests the [network_interface] block computes. *)
Definition interfaceRequests (d : ResourceData) (instance : Instance)
  : result InterfaceRequests :=
  let networkInterfacesPropName := "network_interface" in
  let '(o, n) := ResourceData.GetChange d networkInterfacesPropName in
  let oldList := asList o in
  let newList := asList n in
  if negb (length oldList =? length newList) then
    (* Number of network interfaces has changed, processing
       attach/detach interfaces. Instance will be stopped *)
    bind_result
      (getSpecsForAttachDetachNetworkInterfaces newList (ResourceData.Id d)
         (Instance_NetworkInterfaces instance))
      (λ '(attach, detach),
         Ok {| needUpdateInterfacesOnStoppedInstance := true;
               addNatRequests := []; removeNatRequests := [];
               updateInterfaceRequests := [];
               attachInterfaceRequests := attach;
               detachInterfaceRequests := detach |})
  else
    match getSpecsForUpdateNetworkInterfaces d networkInterfacesPropName
            oldList newList with
    | (_, _, Some err) => Err err
    | (update, stopInstance, None) =>
        bind_result
          (getSpecsForAddRemoveNatNetworkInterfaces (ResourceData.Id d) oldList newList)
          (λ '(addNat, removeNat),
             Ok {| needUpdateInterfacesOnStoppedInstance := stopInstance;
                   addNatRequests := addNat; removeNatRequests := removeNat;
                   updateInterfaceRequests := update;
                   attachInterfaceRequests := [];
                   detachInterfaceRequests := [] |})
    end.

(** The [network_interface] block: the requests are made at once
    when the instance need not be stopped for them. *)
Definition update_network_interface (instance : Instance) : M InterfaceRequests :=
  d ← get_d;
  if ResourceData.HasChange d "network_interface" then
    reqs ← lift (interfaceRequests d instance);
    when (negb (needUpdateInterfacesOnStoppedInstance reqs) &&
          ((0 <? length (removeNatRequests reqs)) ||
           (0 <? length (addNatRequests reqs)) ||
           (0 <? length (updateInterfaceRequests reqs))))
      (for_each (removeNatRequests reqs) (makeInstanceRemoveOneToOneNatRequest remote);;
       for_each (addNatRequests reqs) (makeInstanceAddOneToOneNatRequest remote);;
       for_each (updateInterfaceRequests reqs)
         (makeInstanceUpdateNetworkInterfaceRequest remote));;
    mret reqs
  else mret noInterfaceRequests.

(** The loop of the [secondary_disk] block over the disks of the new
    configuration. *)
Fixpoint diskSpecs (instanceId : string) (currDisks : gmap string AttachedDisk)
    (newDisks : list Value) (nDisks : gmap string AttachedDiskSpec)
    (attach : list AttachedDiskSpec) (detach : list DetachInstanceDiskRequest)
  : result (gmap string AttachedDiskSpec * list AttachedDiskSpec *
            list DetachInstanceDiskRequest) :=
  match newDisks with
  | [] => Ok (nDisks, attach, detach)
  | diskConfig :: rest =>
      bind_result (expandSecondaryDiskSpec diskConfig) (λ diskSpec,
        let nDisks := <[ads_DiskId diskSpec := diskSpec]> nDisks in
        match currDisks !! ads_DiskId diskSpec with
        | None =>
            (* attach new disks *)
            diskSpecs instanceId currDisks rest nDisks (attach ++ [diskSpec]) detach
        | Some currDisk =>
            if diskSpecChanged currDisk diskSpec then
              (* disk spec has been changed: detach and attach it *)
              diskSpecs instanceId currDisks rest nDisks (attach ++ [diskSpec])
                (detach ++ [{| ddr_InstanceId := instanceId;
                               ddr_DiskId := ad_DiskId currDisk |}])
            else diskSpecs instanceId currDisks rest nDisks attach detach
        end)
  end.

Definition update_secondary_disk (instance : Instance) : M unit :=
  d ← get_d;
  let secDiskPropName := "secondary_disk" in
  if ResourceData.HasChange d secDiskPropName then
    let n := (ResourceData.GetChange d secDiskPropName).2 in
    (* Keep track of disks currently in the instance. *)
    let currDisks : gmap string AttachedDisk :=
      foldl (λ m disk, <[ad_DiskId disk := disk]> m) ∅
        (Instance_SecondaryDisks instance) in
    '(nDisks, attach, detach) ←
      lift (diskSpecs (ResourceData.Id d) currDisks (asList n) ∅ [] []);
    (* Detach disks that are not in new config *)
    let detach :=
      detach ++
      omap (λ '(diskID, _),
              match nDisks !! diskID with
              | Some _ => None
              | None => Some {| ddr_InstanceId := ResourceData.Id d;
                                ddr_DiskId := diskID |}
              end)
           (map_to_list currDisks) in
    for_each detach (makeDetachDiskRequest remote);;
    for_each attach (λ diskSpec,
      makeAttachDiskRequest remote
        {| adr_InstanceId := ResourceData.Id d; adr_AttachedDiskSpec := diskSpec |})
  else mret tt.

(** The filesystems of the old configuration still on the instance,
    by the hash of their spec. *)
Fixpoint oldFilesystems (currFs : gset string) (old : list Value) (oldFs : gmap N string)
  : result (gmap N string) :=
  match old with
  | [] => Ok oldFs
  | fsConfig :: rest =>
      bind_result (expandFilesystemSpec fsConfig) (λ fsSpec,
      bind_result (hashstructure_Hash fsSpec) (λ hash,
        oldFilesystems currFs rest
          (if bool_decide (afs_FilesystemId fsSpec ∈ currFs)
           then <[hash := afs_FilesystemId fsSpec]> oldFs
           else oldFs)))
  end.

Fixpoint newFilesystems (oldFs : gmap N string) (new : list Value) (newFs : gset N)
    (attach : list AttachedFilesystemSpec)
  : result (gset N * list AttachedFilesystemSpec) :=
  match new with
  | [] => Ok (newFs, attach)
  | fsConfig :: rest =>
      bind_result (expandFilesystemSpec fsConfig) (λ fsSpec,
      bind_result (hashstructure_Hash fsSpec) (λ hash,
        newFilesystems oldFs rest ({[hash]} ∪ newFs)
          (match oldFs !! hash with
           | Some _ => attach
           | None => attach ++ [fsSpec]
           end)))
  end.

Definition update_filesystem (instance : Instance) : M unit :=
  d ← get_d;
  let filesystemPropName := "filesystem" in
  if ResourceData.HasChange d filesystemPropName then
    let '(o, n) := ResourceData.GetChange d filesystemPropName in
    let currFs : gset string :=
      list_to_set (af_FilesystemId <$> Instance_Filesystems instance) in
    oldFs ← lift (oldFilesystems currFs (asList o) ∅);
    '(newFs, attach) ← lift (newFilesystems oldFs (asList n) ∅ []);
    (* Detach old filesystems *)
    for_each (map_to_list oldFs) (λ '(hash, fsID),
      if bool_decide (hash ∈ newFs) then mret tt
      else makeDetachFilesystemRequest remote
             {| dfr_InstanceId := ResourceData.Id d; dfr_FilesystemId := fsID |});;
    (* Attach the new filesystems *)
    for_each attach (λ fsSpec,
      makeAttachFilesystemRequest remote
        {| afr_InstanceId := ResourceData.Id d; afr_AttachedFilesystemSpec := fsSpec |})
  else mret tt.

(** The one request that updates platform, resources, network
    settings, scheduling and placement policy on the stopped
    instance. *)
Definition stoppedInstanceRequest (d : ResourceData) : result UpdateInstanceRequest :=
  let req := UpdateInstanceRequest_new (ResourceData.Id d) [] in
  bind_result
    (if ResourceData.HasChange d "resources" then
       bind_result (expandInstanceResourcesSpec d) (λ spec,
         Ok (append_Paths ["resources_spec"] (with_ResourcesSpec spec req)))
     else Ok req) (λ req,
  let req :=
    if ResourceData.HasChange d "platform_id" then
      append_Paths ["platform_id"] (with_PlatformId (GetString d "platform_id") req)
    else req in
  bind_result
    (if ResourceData.HasChange d "network_acceleration_type" then
       bind_result (expandInstanceNetworkSettingsSpecs d) (λ networkSettings,
         Ok (append_Paths ["network_settings"]
               (with_NetworkSettings networkSettings req)))
     else Ok req) (λ req,
  bind_result
    (if ResourceData.HasChange d "scheduling_policy" then
       bind_result (expandInstanceSchedulingPolicy d) (λ schedulingPolicy,
         Ok (append_Paths ["scheduling_policy.preemptible"]
               (with_SchedulingPolicy schedulingPolicy req)))
     else Ok req) (λ req,
  if ResourceData.HasChange d "placement_policy" then
    let '(placementPolicy, paths) := preparePlacementPolicyForUpdateRequest d in
    Ok (append_Paths paths (with_PlacementPolicy (Some placementPolicy) req))
  else Ok req))).

(** The requests made between Stop and Start for the network
    interfaces. *)
Definition stoppedInterfaceRequests (reqs : InterfaceRequests) : M unit :=
  (* the wait for the deallocation of the instance, a sleep of at
     most [yandexComputeInstanceDeallocationTimeout], makes no call *)
  for_each (removeNatRequests reqs) (makeInstanceRemoveOneToOneNatRequest remote);;
  for_each (addNatRequests reqs) (makeInstanceAddOneToOneNatRequest remote);;
  for_each (updateInterfaceRequests reqs)
    (makeInstanceUpdateNetworkInterfaceRequest remote);;
  (* Attach network interfaces *)
  for_each (attachInterfaceRequests reqs)
    (makeInstanceAttachNetworkInterfaceRequest remote);;
  (* Detach network interfaces *)
  for_each (detachInterfaceRequests reqs)
    (makeInstanceDetachNetworkInterfaceRequest remote).

Definition properties : list string :=
  ["resources"; "platform_id"; "network_acceleration_type"; "scheduling_policy";
   "placement_policy"].

(** The block that stops the instance, updates it and starts it. *)
Definition update_stopped_instance (reqs : InterfaceRequests) : M unit :=
  d ← get_d;
  if ResourceData.HasChange d "resources" || ResourceData.HasChange d "platform_id" ||
     ResourceData.HasChange d "network_acceleration_type" ||
     needUpdateInterfacesOnStoppedInstance reqs ||
     ResourceData.HasChange d "scheduling_policy" ||
     ResourceData.HasChange d "placement_policy" then
    check (ensureAllowStoppingForUpdate d properties);;
    makeInstanceActionRequest remote instanceActionStop;;
    when (ResourceData.HasChange d "resources" || ResourceData.HasChange d "platform_id" ||
          ResourceData.HasChange d "network_acceleration_type" ||
          ResourceData.HasChange d "placement_policy" ||
          ResourceData.HasChange d "scheduling_policy")
      (req ← lift (stoppedInstanceRequest d);
       makeInstanceUpdateRequest remote req);;
    when (needUpdateInterfacesOnStoppedInstance reqs) (stoppedInterfaceRequests reqs);;
    makeInstanceActionRequest remote instanceActionStart
  else mret tt.

Definition resourceYandexComputeInstanceUpdate : M unit :=
  d ← get_d;
  got ← attempt (Instance_Get remote (ResourceData.Id d));
  match got with
  | Err err => handle_not_found err ("Instance " +:+ Quote (GetString d "name"))
  | Ok instance =>
      (* [d.Partial(true)] *)
      update_folder_id instance;;
      update_labels;;
      update_metadata;;
      update_metadata_options;;
      update_name;;
      update_description;;
      update_service_account_id;;
      update_maintenance;;
      reqs ← update_network_interface instance;
      update_secondary_disk instance;;
      update_filesystem instance;;
      update_stopped_instance reqs;;
      (* [d.Partial(false)] *)
      resourceYandexComputeInstanceRead remote
  end.

End compute_instance_update.

(** ** The Smart Web Security ARL profile resource *)

Definition resourceYandexSmartwebsecurityAdvancedRateLimiterAdvancedRateLimiterProfileUpdateFieldsMap
  : gmap string string :=
  list_to_map
    [("labels", "labels");
     ("name", "name");
     ("description", "description");
     ("advanced_rate_limiter_rule", "advanced_rate_limiter_rules")].

(** Modelled from the spec: [generateFieldMasks], the field-mask
    generation for partial updates, is declared outside the two source
    files.  For each entry of the fields map whose key has changed in
    the resource data it gives the path the entry maps the key to; the
    entries are taken in the order of [map_to_list], Go leaving the
    order of a map unspecified. *)
Definition generateFieldMasks (d : ResourceData) (fieldsMap : gmap string string)
  : list string :=
  omap (λ '(field, path), if ResourceData.HasChange d field then Some path else None)
       (map_to_list fieldsMap).

Section arl_profile.

Variable remote : Remote.
Context `{Helpers}.
Import advanced_rate_limiter.

Definition resourceYandexSmartwebsecurityAdvancedRateLimiterAdvancedRateLimiterProfileRead
  : M unit :=
  d ← get_d;
  got ← attempt (Profile_Get remote (ResourceData.Id d));
  match got with
  | Err err =>
      handle_not_found err
        ("advanced_rate_limiter_profile " +:+ Quote (ResourceData.Id d))
  | Ok resp =>
      advancedRateLimiterRule ←
        lift (flattenAdvancedXrateXlimiterAdvancedRateLimiterRuleSlice
                (AdvancedRateLimiterRules resp));
      let createdAt := getTimestamp (CreatedAt resp) in
      Set_checked "advanced_rate_limiter_rule" advancedRateLimiterRule;;
      Set_checked "cloud_id" (VString (CloudId resp));;
      Set_checked "created_at" (VString createdAt);;
      Set_checked "description" (VString (Description resp));;
      Set_checked "folder_id" (VString (FolderId resp));;
      Set_checked "labels" (Labels resp);;
      Set_checked "name" (VString (Name resp))
  end.

Definition resourceYandexSmartwebsecurityAdvancedRateLimiterAdvancedRateLimiterProfileCreate
  : M unit :=
  d ← get_d;
  folderId ← lift (getFolderID d);
  let labels := expandStringStringMap (ResourceData.Get d "labels") in
  advancedRateLimiterRules ←
    lift (expandAdvancedRateLimiterProfileAdvancedRateLimiterRulesSlice d);
  let req := {| cr_FolderId := folderId;
                cr_Labels := labels;
                cr_Name := GetString d "name";
                cr_Description := GetString d "description";
                cr_AdvancedRateLimiterRules := advancedRateLimiterRules |} in
  op ← WrapOperation remote (ProfileCreate req);
  match op_Metadata op with
  | MetadataError err =>
      fail ("Error while get advanced_rate_limiter.AdvancedRateLimiterProfile create operation metadata: " +:+ err)
  | OtherMetadata =>
      fail "could not get AdvancedRateLimiterProfile ID from create operation metadata"
  | CreateMetadata advancedRateLimiterProfileId =>
      SetId advancedRateLimiterProfileId;;
      Wait (ProfileCreate req) op;;
      resourceYandexSmartwebsecurityAdvancedRateLimiterAdvancedRateLimiterProfileRead
  end.

Definition resourceYandexSmartwebsecurityAdvancedRateLimiterAdvancedRateLimiterProfileUpdate
  : M unit :=
  d ← get_d;
  let labels := expandStringStringMap (ResourceData.Get d "labels") in
  advancedRateLimiterRules ←
    lift (expandAdvancedRateLimiterProfileAdvancedRateLimiterRulesSlice_ d);
  let updatePath :=
    generateFieldMasks d
      resourceYandexSmartwebsecurityAdvancedRateLimiterAdvancedRateLimiterProfileUpdateFieldsMap in
  let req := {| upd_AdvancedRateLimiterProfileId := ResourceData.Id d;
                upd_UpdateMask := updatePath;
                upd_Labels := labels;
                upd_Name := GetString d "name";
                upd_Description := GetString d "description";
                upd_AdvancedRateLimiterRules := advancedRateLimiterRules |} in
  op ← WrapOperation remote (ProfileUpdate req);
  Wait (ProfileUpdate req) op;;
  resourceYandexSmartwebsecurityAdvancedRateLimiterAdvancedRateLimiterProfileRead.

Definition resourceYandexSmartwebsecurityAdvancedRateLimiterAdvancedRateLimiterProfileDelete
  : M unit :=
  d ← get_d;
  let c := ProfileDelete (ResourceData.Id d) in
  got ← attempt (WrapOperation remote c);
  match got with
  | Err err =>
      handle_not_found err
        ("advanced_rate_limiter_profile " +:+ Quote (ResourceData.Id d))
  | Ok op => Wait c op
  end.

End arl_profile.

(** ** Running a resource function *)

(** A resource function is run on the resource data it is handed, from
    the first moment of the remote side. *)
Definition run {A} (m : M A) (d : ResourceData) : result A * ResourceData * list Event :=
  let '(r, s, t) := m {| st_d := d; st_clock := 0 |} in (r, st_d s, t).

(** The calls of a trace, in order. *)
Definition calls (t : list Event) : list Call :=
  omap (λ e, match e with Called c _ => Some c | Waited _ _ => None end) t.

(** ** A concrete setting for examples *)

(** Helpers that succeed and carry the attributes they are given
    through unchanged, and a handler that reports every error. *)
Definition exampleHelpers : Helpers := {|
  Quote s := "'" +:+ s +:+ "'";
  instanceAction_String a :=
    match a with
    | instanceActionStop => "Stop"
    | instanceActionStart => "Start"
    | instanceActionOther => "Other"
    end;
  handleNotFoundError err id resourceName :=
    (id, Some ("error reading " +:+ resourceName +:+ ": " +:+ err));
  getZone d := Ok (GetString d "zone");
  getFolderID d := Ok (GetString d "folder_id");
  getTimestamp v := asString v;
  parseDuration s := Ok (VString s);
  formatDuration v := asString v;
  expandLabels v := Ok v;
  expandInstanceResourcesSpec d := Ok (ResourceData.Get d "resources");
  expandInstanceBootDiskSpec d := Ok (ResourceData.Get d "boot_disk");
  expandInstanceSecondaryDiskSpecs d := Ok (ResourceData.Get d "secondary_disk");
  expandInstanceNetworkSettingsSpecs d := Ok (ResourceData.Get d "network_acceleration_type");
  expandInstanceNetworkInterfaceSpecs d := Ok (ResourceData.Get d "network_interface");
  expandInstanceSchedulingPolicy d := Ok (ResourceData.Get d "scheduling_policy");
  expandInstancePlacementPolicy d := Ok (ResourceData.Get d "placement_policy");
  expandInstanceMetadataOptions d := ResourceData.Get d "metadata_options";
  expandLocalDiskSpecs v := v;
  expandInstanceFilesystemSpecs d := Ok (ResourceData.Get d "filesystem");
  expandInstanceGpuSettingsSpec d := Ok (ResourceData.Get d "gpu_cluster_id");
  expandHostAffinityRulesSpec rules := rules;
  expandSecondaryDiskSpec v :=
    Ok {| compute.ads_DiskId := asString (child v "disk_id"); compute.ads_body := v |};
  diskSpecChanged disk spec := negb (DeepEqual (compute.ad_body disk) (compute.ads_body spec));
  expandFilesystemSpec v :=
    Ok {| compute.afs_FilesystemId := asString (child v "filesystem_id");
          compute.afs_body := v |};
  hashstructure_Hash spec := Ok (N.of_nat (String.length (compute.afs_FilesystemId spec)));
  expandPrimaryV4AddressSpec v :=
    Ok (Some {| compute.pa_Address := asString (child v "ip_address");
                compute.pa_OneToOneNatSpec := None;
                compute.pa_DnsRecordSpecs := [] |});
  expandPrimaryV6AddressSpec v := Ok None;
  expandSecurityGroupIds v := asString <$> asList v;
  expandNetworkInterfaceSpec v :=
    Ok {| compute.nis_SubnetId := asString (child v "subnet_id");
          compute.nis_PrimaryV4AddressSpec := None;
          compute.nis_SecurityGroupIds := asString <$> asList (child v "security_group_ids") |};
  flattenInstanceResources i := Ok VNil;
  flattenInstanceSecondaryDisks i := Ok VNil;
  flattenInstanceSchedulingPolicy i := Ok VNil;
  flattenInstancePlacementPolicy i := Ok VNil;
  flattenInstanceNetworkInterfaces i := Ok (VNil, "", "");
  flattenLocalDisks i := VNil;
  flattenInstanceMetadataOptions i := VNil;
  flattenInstanceFilesystems i := VNil;
  flattenComputeHardwareGeneration v := Ok v;
  expandStringStringMap v := v;
  expandAdvancedRateLimiterProfileAdvancedRateLimiterRulesSlice d :=
    Ok (ResourceData.Get d "advanced_rate_limiter_rule");
  expandAdvancedRateLimiterProfileAdvancedRateLimiterRulesSlice_ d :=
    Ok (ResourceData.Get d "advanced_rate_limiter_rule");
  flattenAdvancedXrateXlimiterAdvancedRateLimiterRuleSlice v := Ok v;
|}.

Definition exampleOperation : Operation :=
  {| op_Metadata := CreateMetadata "epd-new"; op_Wait := None; op_Response := None |}.

Definition exampleInstance (status : compute.Instance_Status) : compute.Instance :=
  {| compute.Instance_Id := "epd-1";
     compute.Instance_FolderId := "b1g-old";
     compute.Instance_CreatedAt := VString "2025-02-27T00:00:00Z";
     compute.Instance_Name := "vm";
     compute.Instance_Description := "";
     compute.Instance_Labels := VMap [];
     compute.Instance_ZoneId := "ru-central1-a";
     compute.Instance_PlatformId := "standard-v1";
     compute.Instance_Status_ := status;
     compute.Instance_Metadata := VMap [];
     compute.Instance_SecondaryDisks := [];
     compute.Instance_Filesystems := [];
     compute.Instance_NetworkInterfaces := [{| compute.ni_Index := "0" |}];
     compute.Instance_Fqdn := "vm.ru-central1.internal";
     compute.Instance_ServiceAccountId := "";
     compute.Instance_NetworkSettings := None;
     compute.Instance_GpuSettings := None;
     compute.Instance_MaintenancePolicy :=
       compute.MaintenancePolicy_MAINTENANCE_POLICY_UNSPECIFIED;
     compute.Instance_MaintenanceGracePeriod := VNil;
     compute.Instance_HardwareGeneration := VNil |}.

Definition exampleProfile : advanced_rate_limiter.AdvancedRateLimiterProfile :=
  {| advanced_rate_limiter.Id := "arl-1";
     advanced_rate_limiter.FolderId := "b1g-old";
     advanced_rate_limiter.Labels := VMap [("env", VString "prod")];
     advanced_rate_limiter.Name := "profile";
     advanced_rate_limiter.Description := "limits";
     advanced_rate_limiter.AdvancedRateLimiterRules := VList [];
     advanced_rate_limiter.CreatedAt := VString "2025-02-27T00:00:00Z";
     advanced_rate_limiter.CloudId := "b1c" |}.

(** A remote side on which every call succeeds. *)
Definition obligingRemote (status : compute.Instance_Status) : Remote :=
  {| instance_get _ _ := Ok (exampleInstance status);
     boot_disk _ _ := Ok VNil;
     profile_get _ _ := Ok exampleProfile;
     operate _ _ := Ok exampleOperation |}.

(** Resource data with the given prior state and planned values, on
    which every [Set] is accepted. *)
Definition exampleData (id : string) (state plan : list (string * Value)) : ResourceData :=
  {| rd_id := id; rd_state := list_to_map state; rd_plan := list_to_map plan;
     rd_written := ∅; rd_accepts _ _ := None |}.

(** ** Specification side

    *** What a hostname of an FQDN is *)

Definition ends_with (s suffix : string) : Prop :=
  ∃ p, s = p +:+ suffix.

Fixpoint has_dot (s : string) : Prop :=
  match s with
  | EmptyString => False
  | String c s' => c = "."%char ∨ has_dot s'
  end.

Inductive hostname_of (fqdn : string) : string → Prop :=
| HostBare :
    ¬ has_dot fqdn →
    hostname_of fqdn (fqdn +:+ ".")
| HostAuto :
    ends_with fqdn ".auto.internal" →
    hostname_of fqdn ""
| HostInternal h rest :
    ends_with fqdn ".internal" →
    ¬ ends_with fqdn ".auto.internal" →
    fqdn = h +:+ "." +:+ rest →
    ¬ has_dot h →
    hostname_of fqdn h
| HostOther :
    has_dot fqdn →
    ¬ ends_with fqdn ".internal" →
    hostname_of fqdn fqdn.

(** ** Lemmas on strings *)

Section string_lemmas.

Lemma string_app_cons (c : ascii) (s t : string) :
  String c s +:+ t = String c (s +:+ t).
Proof. done. Qed.

Lemma string_app_nil_r (s : string) : s +:+ "" = s.
Proof. induction s as [|c s IH]; [done|]. by rewrite string_app_cons, IH. Qed.

Lemma string_app_assoc (s t u : string) : (s +:+ t) +:+ u = s +:+ t +:+ u.
Proof. induction s as [|c s IH]; [done|]. rewrite !string_app_cons. by rewrite IH. Qed.

Lemma string_length_app (s t : string) :
  String.length (s +:+ t) = String.length s + String.length t.
Proof. induction s as [|c s IH]; [done|]. rewrite string_app_cons. cbn. by rewrite IH. Qed.

Lemma HasPrefix_spec (s p : string) :
  strings.HasPrefix s p = true ↔ ∃ r, s = p +:+ r.
Proof.
  revert s. induction p as [|c p IH]; intros s.
  - split; [intros _; by exists s|by destruct s].
  - destruct s as [|d s]; cbn.
    + split; [done|]. intros [r Hr]. rewrite string_app_cons in Hr. discriminate.
    + destruct (Ascii.eqb_spec c d) as [->|Hne].
      * rewrite IH. split; intros [r Hr]; exists r.
        -- rewrite string_app_cons. by f_equal.
        -- rewrite string_app_cons in Hr. by injection Hr.
      * split; [done|]. intros [r Hr]. rewrite string_app_cons in Hr.
        injection Hr as Hc _. congruence.
Qed.

Lemma HasPrefix_nil (s : string) : strings.HasPrefix s "" = true.
Proof. by destruct s. Qed.

Lemma Contains_dot (s : string) :
  strings.Contains s "." = true ↔ has_dot s.
Proof.
  induction s as [|c s IH]; cbn -[Ascii.eqb]; [done|].
  rewrite orb_true_iff, IH.
  destruct (Ascii.eqb_spec "."%char c) as [<-|Hne].
  - rewrite HasPrefix_nil. tauto.
  - split; [intros [?|?]; [done|by right]|intros [?|?]; [congruence|by right]].
Qed.

Lemma has_dot_app (s t : string) :
  has_dot (s +:+ t) ↔ has_dot s ∨ has_dot t.
Proof.
  induction s as [|c s IH]; cbn; [tauto|]. rewrite string_app_cons. cbn.
  rewrite IH. tauto.
Qed.

Lemma slice_from_app (p s : string) :
  strings.slice_from (String.length p) (p +:+ s) = s.
Proof. induction p as [|c p IH]; [by destruct s|]. by rewrite string_app_cons. Qed.

Lemma slice_from_split (n : nat) (s : string) :
  n ≤ String.length s → ∃ p, s = p +:+ strings.slice_from n s.
Proof.
  revert s. induction n as [|n IH]; intros s Hn.
  - by exists "".
  - destruct s as [|c s]; cbn in Hn; [lia|].
    destruct (IH s) as [p Hp]; [lia|].
    exists (String c p). rewrite string_app_cons. cbn. by f_equal.
Qed.

Lemma HasSuffix_spec (s suffix : string) :
  strings.HasSuffix s suffix = true ↔ ends_with s suffix.
Proof.
  unfold strings.HasSuffix, ends_with. rewrite andb_true_iff.
  rewrite Nat.leb_le, String.eqb_eq. split.
  - intros [Hlen Heq].
    destruct (slice_from_split (String.length s - String.length suffix) s)
      as [p Hp]; [lia|].
    exists p. by rewrite <-Heq.
  - intros [p ->]. rewrite string_length_app. split; [lia|].
    replace (String.length p + String.length suffix - String.length suffix)
      with (String.length p) by lia.
    apply slice_from_app.
Qed.

Lemma HasSuffix_false (s suffix : string) :
  strings.HasSuffix s suffix = false ↔ ¬ ends_with s suffix.
Proof.
  rewrite <-HasSuffix_spec. by destruct (strings.HasSuffix s suffix).
Qed.

(** The first piece of a split at ["."] is the part before the first dot. *)
Lemma split_from_dot_head (h cur rest : string) :
  ¬ has_dot h →
  strings.split_from "." 0 cur (h +:+ "." +:+ rest) !! 0 = Some (cur +:+ h).
Proof.
  revert cur. induction h as [|c h IH]; intros cur Hh.
  - change ("" +:+ "." +:+ rest) with (String "."%char rest).
    cbn. by rewrite HasPrefix_nil, string_app_nil_r.
  - cbn in Hh. rewrite string_app_cons. cbn -[Ascii.eqb].
    destruct (Ascii.eqb_spec "."%char c) as [<-|Hne]; [tauto|].
    rewrite IH by tauto. by rewrite string_app_assoc.
Qed.

Lemma split_from_nodot_head (cur s : string) :
  ¬ has_dot s →
  strings.split_from "." 0 cur s !! 0 = Some (cur +:+ s).
Proof.
  revert cur. induction s as [|c s IH]; intros cur Hs.
  - cbn. by rewrite string_app_nil_r.
  - cbn in Hs. cbn -[Ascii.eqb].
    destruct (Ascii.eqb_spec "."%char c) as [<-|Hne]; [tauto|].
    rewrite IH by tauto. by rewrite string_app_assoc.
Qed.

(** Every string with a dot splits at its first dot. *)
Lemma first_dot (s : string) :
  has_dot s → ∃ h rest, s = h +:+ "." +:+ rest ∧ ¬ has_dot h.
Proof.
  induction s as [|c s IH]; cbn; [done|].
  destruct (Ascii.eqb_spec c "."%char) as [->|Hne].
  - intros _. exists "", s. split; [reflexivity|cbn; tauto].
  - intros [?|Hs]; [done|]. destruct (IH Hs) as (h & rest & -> & Hh).
    exists (String c h), rest. split; [reflexivity|cbn; tauto].
Qed.

Lemma first_dot_unique (h1 r1 h2 r2 : string) :
  h1 +:+ "." +:+ r1 = h2 +:+ "." +:+ r2 →
  ¬ has_dot h1 → ¬ has_dot h2 → h1 = h2.
Proof.
  revert h2. induction h1 as [|c h1 IH]; intros [|d h2]; cbn;
    rewrite ?string_app_cons; intros Heq H1 H2; try done.
  - injection Heq as <- _. tauto.
  - injection Heq as -> _. tauto.
  - injection Heq as -> Heq. f_equal. apply IH; tauto.
Qed.

Lemma ends_with_has_dot (s t : string) :
  ends_with s t → has_dot t → has_dot s.
Proof. intros [p ->] Ht. apply has_dot_app. by right. Qed.

Lemma ends_with_trans (s t u : string) :
  ends_with s t → ends_with t u → ends_with s u.
Proof. intros [p ->] [q ->]. exists (p +:+ q). by rewrite string_app_assoc. Qed.

End string_lemmas.

(** C9. For every string [fqdn], [parseHostnameFromFQDN] returns a
    hostname with a nil error (it neither fails nor panics), and the
    hostname is: [fqdn] followed by a dot when [fqdn] has no dot; the
    empty string when [fqdn] ends with [.auto.internal]; the part before
    the first dot when [fqdn] ends with [.internal] but not with
    [.auto.internal]; and [fqdn] itself in every other case. *)
Theorem parseHostnameFromFQDN_spec (fqdn h : string) :
  parseHostnameFromFQDN fqdn = Some (h, None) ↔ hostname_of fqdn h.
Proof.
  assert (Hauto : ends_with ".auto.internal" ".internal") by (by exists ".auto").
  assert (Hdot : has_dot ".internal") by (by left).
  unfold parseHostnameFromFQDN.
  destruct (strings.Contains fqdn ".") eqn:Hc; cbn [negb].
  - apply Contains_dot in Hc.
    destruct (strings.HasSuffix fqdn ".auto.internal") eqn:Ha.
    { apply HasSuffix_spec in Ha. split.
      - intros [= <-]. by constructor.
      - intros Hh. destruct Hh as [Hn|_|h rest _ Hn|_ Hn]; try done.
        exfalso. eauto using ends_with_trans. }
    apply HasSuffix_false in Ha.
    destruct (strings.HasSuffix fqdn ".internal") eqn:Hi.
    + apply HasSuffix_spec in Hi.
      destruct (first_dot fqdn Hc) as (h0 & rest & Hfq & Hh0).
      unfold strings.Split. rewrite Hfq at 1.
      rewrite split_from_dot_head by done. cbn [String.append]. split.
      * intros [= <-]. by econstructor.
      * intros Hh. destruct Hh as [Hn|Hn|h rest' _ _ Hfq' Hh|_ Hn]; try done.
        f_equal. f_equal. rewrite Hfq in Hfq'.
        eauto using first_dot_unique.
    + apply HasSuffix_false in Hi. split.
      * intros [= <-]. by constructor.
      * intros Hh. by destruct Hh as [Hn|Hn|h rest Hn _ _ _|_ _].
  - assert (¬ has_dot fqdn) as Hn.
    { rewrite <-Contains_dot, Hc. done. }
    split.
    + intros [= <-]. by constructor.
    + intros Hh.
      destruct Hh as [_|Hn'|h rest Hn' _ _ _|Hn' _]; try done; exfalso;
        eauto using ends_with_has_dot, ends_with_trans.
Qed.

(** ** Reasoning about runs *)

Global Arguments ResourceData.Get : simpl never.
Global Arguments ResourceData.GetOk : simpl never.
Global Arguments ResourceData.GetChange : simpl never.
Global Arguments ResourceData.HasChange : simpl never.
Global Arguments ResourceData.Set_ : simpl never.
Global Arguments GetBool : simpl never.
Global Arguments GetString : simpl never.
Global Arguments GetInt : simpl never.
Global Arguments strings.Split : simpl never.
Global Arguments strings.Join : simpl never.
Global Arguments Itoa : simpl never.
Global Arguments generateFieldMasks : simpl never.
Global Arguments
  resourceYandexSmartwebsecurityAdvancedRateLimiterAdvancedRateLimiterProfileUpdateFieldsMap
  : simpl never.

Definition is_ok {A} (r : result A) : bool :=
  match r with Ok _ => true | Err _ => false end.

(** Resource data that differ at most in the id and in what has been
    written by [Set]: they have the same changes. *)
Definition same_plan (d0 d : ResourceData) : Prop :=
  rd_state d = rd_state d0 ∧ rd_plan d = rd_plan d0 ∧ rd_accepts d = rd_accepts d0.

(** A property of runs that is kept by sequencing: [Φ ok t] speaks of
    the trace [t] of a computation and of whether it returned without
    error, [I] of the resource data, [Q] of the value returned. *)
Class Sequential (I : ResourceData → Prop) (Φ : bool → list Event → Prop) : Prop := {
  Φ_nil : Φ true [];
  Φ_app : ∀ b t1 t2, Φ true t1 → Φ b t2 → Φ b (t1 ++ t2);
  Φ_weaken : ∀ t, Φ true t → Φ false t;
  I_SetId : ∀ id d, I d → I (ResourceData.SetId id d);
}.

Section logic.

Context (I : ResourceData → Prop) (Φ : bool → list Event → Prop).
Context `{!Sequential I Φ}.

Definition holds {A} (m : M A) (Q : A → Prop) : Prop :=
  ∀ s, I (st_d s) →
    Φ (is_ok (m s).1.1) (m s).2 ∧ I (st_d (m s).1.2) ∧
    ∀ a, (m s).1.1 = Ok a → Q a.

Lemma Phi_nil_any b : Φ b [].
Proof. destruct b; [apply Φ_nil|apply Φ_weaken, Φ_nil]. Qed.

Lemma Phi_weaken_any b t : Φ true t → Φ b t.
Proof. destruct b; [done|apply Φ_weaken]. Qed.

Lemma holds_ret {A} (a : A) (Q : A → Prop) : Q a → holds (mret a) Q.
Proof.
  intros Ha s Hs. cbn. split_and!; [apply Φ_nil|done|]. by intros ? [= <-].
Qed.

Lemma holds_fail {A} (e : error) (Q : A → Prop) : holds (fail e) Q.
Proof. intros s Hs. cbn. split_and!; [apply Phi_nil_any|done..]. Qed.

Lemma holds_lift {A} (r : result A) (Q : A → Prop) :
  (∀ a, r = Ok a → Q a) → holds (lift r) Q.
Proof. intros Hr s Hs. cbn. split_and!; [apply Phi_nil_any|done..]. Qed.

Lemma holds_check (err : option error) (Q : unit → Prop) :
  (err = None → Q tt) → holds (check err) Q.
Proof.
  intros HQ. destruct err; [apply holds_fail|]. apply holds_ret. by apply HQ.
Qed.

Lemma holds_bind {A B} (m : M A) (f : A → M B) (Q : A → Prop) (R : B → Prop) :
  holds m Q → (∀ a, Q a → holds (f a) R) → holds (m ≫= f) R.
Proof.
  intros Hm Hf s Hs. destruct (Hm s Hs) as (Ht & Hi & Hq).
  unfold mbind, M_bind. destruct (m s) as [[[a|e] s1] t1]; cbn in *.
  - destruct (Hf a (Hq a eq_refl) s1 Hi) as (Ht2 & Hi2 & Hq2).
    destruct (f a s1) as [[r2 s2] t2]; cbn in *. split_and!; [|done..].
    by apply Φ_app.
  - by split_and!.
Qed.

Lemma holds_seq {A} (m : M unit) (k : M A) (R : A → Prop) :
  holds m (λ _, True) → holds k R → holds (m ;; k) R.
Proof. intros Hm Hk. apply (holds_bind _ _ (λ _, True)); auto. Qed.

Lemma holds_get_d {A} (f : ResourceData → M A) (R : A → Prop) :
  (∀ d, I d → holds (f d) R) → holds (get_d ≫= f) R.
Proof.
  intros Hf s Hs. unfold mbind, M_bind, get_d.
  destruct (Hf (st_d s) Hs s Hs) as (Ht & Hi & Hq).
  destruct (f (st_d s) s) as [[r2 s2] t2]; cbn in *. by split_and!.
Qed.

Lemma holds_lift_bind {A B} (r : result A) (f : A → M B) (R : B → Prop) :
  (∀ a, r = Ok a → holds (f a) R) → holds (lift r ≫= f) R.
Proof.
  intros Hf. apply (holds_bind _ _ (λ a, r = Ok a)); [|done].
  by apply holds_lift.
Qed.

Lemma holds_mono {A} (m : M A) (Q R : A → Prop) :
  holds m Q → (∀ a, Q a → R a) → holds m R.
Proof.
  intros Hm HQR s Hs. destruct (Hm s Hs) as (Ht & Hi & Hq). split_and!; auto.
Qed.

Lemma holds_on_error {A} (wrap : error → error) (m : M A) (Q : A → Prop) :
  holds m Q → holds (on_error wrap m) Q.
Proof.
  intros Hm s Hs. destruct (Hm s Hs) as (Ht & Hi & Hq). unfold on_error.
  destruct (m s) as [[[a|e] s1] t1]; cbn in *; by split_and!.
Qed.

Lemma holds_when (b : bool) (m : M unit) :
  (b = true → holds m (λ _, True)) → holds (when b m) (λ _, True).
Proof. intros Hm. destruct b; [by apply Hm|by apply holds_ret]. Qed.

Lemma holds_for_each {A} (xs : list A) (body : A → M unit) :
  (∀ x, x ∈ xs → holds (body x) (λ _, True)) →
  holds (for_each xs body) (λ _, True).
Proof.
  induction xs as [|x xs IH]; intros Hb; cbn.
  - by apply holds_ret.
  - apply holds_seq; [apply Hb; by left|].
    apply IH. intros y Hy. apply Hb. by right.
Qed.

Lemma holds_SetId (id : string) : holds (SetId id) (λ _, True).
Proof. intros s Hs. cbn. split_and!; [apply Φ_nil|by apply I_SetId|done]. Qed.

Lemma holds_Set_ (key : string) (v : Value) :
  (∀ d, I d → I (ResourceData.write key v d)) →
  holds (Set_ key v) (λ _, True).
Proof.
  intros HI s Hs. unfold Set_, ResourceData.Set_. specialize (HI _ Hs).
  destruct (rd_accepts _ _ _); cbn; split_and!; auto using Phi_nil_any.
Qed.

Lemma holds_Set_checked (key : string) (v : Value) :
  (∀ d, I d → I (ResourceData.write key v d)) →
  holds (Set_checked key v) (λ _, True).
Proof.
  intros HI s Hs. unfold Set_checked, ResourceData.Set_. specialize (HI _ Hs).
  destruct (rd_accepts _ _ _); cbn; split_and!; auto using Phi_nil_any.
Qed.

(** A call that may be made: every way the call and its wait can go
    keeps the property. *)
Definition allowed (c : Call) : Prop :=
  Φ false [Called c false] ∧
  Φ false [Called c true; Waited c false] ∧
  Φ true [Called c true; Waited c true].

(** A reading call whose error may be passed over. *)
Definition allowed_read (c : Call) : Prop :=
  Φ true [Called c false] ∧ Φ true [Called c true].

(** A reading call whose error is returned. *)
Definition allowed_disk_read (c : Call) : Prop :=
  Φ false [Called c false] ∧ Φ true [Called c true].

Section with_remote.

Variable remote : Remote.
Context `{Helpers}.

Lemma holds_handle_not_found (err : error) (resourceName : string) :
  holds (handle_not_found err resourceName) (λ _, True).
Proof.
  intros s Hs. unfold handle_not_found.
  destruct (handleNotFoundError _ _ _) as [id [e|]]; cbn;
    (split_and!; [apply Phi_nil_any|by apply I_SetId|done]).
Qed.

Lemma holds_call_and_wait (c : Call) (onCall onWait : error → error) :
  allowed c → holds (call_and_wait remote c onCall onWait) (λ _, True).
Proof.
  intros (Hrej & Hwf & Hwt) s Hs.
  unfold call_and_wait, mbind, M_bind, on_error, WrapOperation, Wait.
  destruct (operate remote (st_clock s) c) as [op|e]; cbn.
  - destruct (op_Wait op) as [e|]; cbn; by split_and!.
  - by split_and!.
Qed.

Lemma holds_Instance_Get (id : string) :
  allowed_read (InstanceGet id) →
  holds (attempt (Instance_Get remote id)) (λ _, True).
Proof.
  intros [Hf Ht] s Hs. unfold attempt, Instance_Get.
  destruct (instance_get remote (st_clock s) id); cbn; by split_and!.
Qed.

Lemma holds_flattenInstanceBootDisk (instance : compute.Instance) :
  allowed_disk_read (DiskRead instance) →
  holds (flattenInstanceBootDisk remote instance) (λ _, True).
Proof.
  intros [Hf Ht] s Hs. unfold flattenInstanceBootDisk.
  destruct (boot_disk remote (st_clock s) instance); cbn; by split_and!.
Qed.

Lemma holds_Profile_Get (id : string) :
  allowed_read (ProfileGet id) →
  holds (attempt (Profile_Get remote id)) (λ _, True).
Proof.
  intros [Hf Ht] s Hs. unfold attempt, Profile_Get.
  destruct (profile_get remote (st_clock s) id); cbn; by split_and!.
Qed.

End with_remote.

End logic.

(** ** Create records the id before it waits *)

(** A remote side that accepts every call and whose operations fail
    when waited for. *)
Definition stallingRemote : Remote :=
  {| instance_get _ _ := Ok (exampleInstance compute.Instance_RUNNING);
     boot_disk _ _ := Ok VNil;
     profile_get _ _ := Ok exampleProfile;
     operate _ _ :=
       Ok {| op_Metadata := CreateMetadata "epd-new";
             op_Wait := Some "deadline exceeded";
             op_Response := None |} |}.

(** C10. In the Create of the compute instance and in the Create of the
    ARL profile, once the create call is accepted and its metadata
    carries the id of the resource, the id is recorded in the local
    state before the operation is waited for: when the wait fails,
    Create returns the error of the wait and the resource data it
    leaves hold that id. *)
Theorem create_records_id_before_wait
    (remote : Remote) `{Helpers} (d : ResourceData)
    (req : compute.CreateInstanceRequest) (op : Operation) (id : string) (err : error)
    (d' : ResourceData) (folderId : string) (rules : Value)
    (op' : Operation) (id' : string) (err' : error) :
  prepareCreateInstanceRequest d = Ok req →
  operate remote 0 (InstanceCreate req) = Ok op →
  op_Metadata op = CreateMetadata id →
  op_Wait op = Some err →
  getFolderID d' = Ok folderId →
  expandAdvancedRateLimiterProfileAdvancedRateLimiterRulesSlice d' = Ok rules →
  let req' :=
    {| advanced_rate_limiter.cr_FolderId := folderId;
       advanced_rate_limiter.cr_Labels :=
         expandStringStringMap (ResourceData.Get d' "labels");
       advanced_rate_limiter.cr_Name := GetString d' "name";
       advanced_rate_limiter.cr_Description := GetString d' "description";
       advanced_rate_limiter.cr_AdvancedRateLimiterRules := rules |} in
  operate remote 0 (ProfileCreate req') = Ok op' →
  op_Metadata op' = CreateMetadata id' →
  op_Wait op' = Some err' →
  run (resourceYandexComputeInstanceCreate remote) d =
    (Err ("Error while waiting operation to create instance: " +:+ err),
     ResourceData.SetId id d,
     [Called (InstanceCreate req) true; Waited (InstanceCreate req) false]) ∧
  run (resourceYandexSmartwebsecurityAdvancedRateLimiterAdvancedRateLimiterProfileCreate
         remote) d' =
    (Err err', ResourceData.SetId id' d',
     [Called (ProfileCreate req') true; Waited (ProfileCreate req') false]).
Proof.
  intros Hreq Hop Hmd Hwait Hfolder Hrules req' Hop' Hmd' Hwait'. split.
  - unfold run, resourceYandexComputeInstanceCreate, mbind, M_bind, get_d, lift,
      on_error, WrapOperation. cbn.
    rewrite Hreq, Hop. cbn. rewrite Hmd. unfold SetId, Wait. cbn.
    by rewrite Hwait.
  - unfold run, resourceYandexSmartwebsecurityAdvancedRateLimiterAdvancedRateLimiterProfileCreate,
      mbind, M_bind, get_d, lift, WrapOperation. cbn.
    rewrite Hfolder, Hrules. fold req'. rewrite Hop'. cbn. rewrite Hmd'.
    unfold SetId, Wait. cbn. by rewrite Hwait'.
Qed.

Lemma create_records_id_before_wait_witness :
  ResourceData.Id
    (run (resourceYandexComputeInstanceCreate (H:=exampleHelpers) stallingRemote)
         (exampleData "" [] [("name", VString "vm")])).1.2 = "epd-new" ∧
  ResourceData.Id
    (run (resourceYandexSmartwebsecurityAdvancedRateLimiterAdvancedRateLimiterProfileCreate
            (H:=exampleHelpers) stallingRemote)
         (exampleData "" [] [("name", VString "profile")])).1.2 = "epd-new".
Proof.
  edestruct create_records_id_before_wait
    with (remote := stallingRemote) (H := exampleHelpers)
         (d := exampleData "" [] [("name", VString "vm")])
         (d' := exampleData "" [] [("name", VString "profile")])
    as [Hcompute Hprofile]; [reflexivity..|].
  rewrite Hcompute, Hprofile. split; reflexivity.
Defined.

(** ** Running a computation step by step *)

(** [wp m s Q]: the run of [m] from [s] ends with a result, a state
    and a trace that satisfy [Q]. *)
Definition wp {A} (m : M A) (s : State)
    (Q : result A → State → list Event → Prop) : Prop :=
  Q (m s).1.1 (m s).1.2 (m s).2.

Definition with_d (d : ResourceData) (s : State) : State :=
  {| st_d := d; st_clock := st_clock s |}.

Section wp_rules.

Context {A B : Type}.
Implicit Types (s : State) (e : error).

Lemma wp_ret (a : A) s Q : Q (Ok a) s [] → wp (mret a) s Q.
Proof. done. Qed.

Lemma wp_fail e s (Q : result A → _) : Q (Err e) s [] → wp (fail e) s Q.
Proof. done. Qed.

Lemma wp_lift (r : result A) s Q : Q r s [] → wp (lift r) s Q.
Proof. done. Qed.

Lemma wp_bind (m : M A) (f : A → M B) s Q :
  wp m s (λ r s1 t1,
    match r with
    | Ok a => wp (f a) s1 (λ r2 s2 t2, Q r2 s2 (t1 ++ t2))
    | Err e => Q (Err e) s1 t1
    end) →
  wp (m ≫= f) s Q.
Proof.
  unfold wp, mbind, M_bind. destruct (m s) as [[[a|e] s1] t1]; cbn; [|done].
  by destruct (f a s1) as [[r2 s2] t2].
Qed.

Lemma wp_on_error (wrap : error → error) (m : M A) s Q :
  wp m s (λ r s1 t1,
    Q (match r with Ok a => Ok a | Err e => Err (wrap e) end) s1 t1) →
  wp (on_error wrap m) s Q.
Proof. unfold wp, on_error. by destruct (m s) as [[[a|e] s1] t1]. Qed.

Lemma wp_attempt (m : M A) s Q :
  wp m s (λ r s1 t1, Q (Ok r) s1 t1) → wp (attempt m) s Q.
Proof. unfold wp, attempt. by destruct (m s) as [[r s1] t1]. Qed.

Lemma wp_mono (m : M A) s (Q R : result A → State → list Event → Prop) :
  wp m s Q → (∀ r s1 t1, Q r s1 t1 → R r s1 t1) → wp m s R.
Proof. unfold wp. auto. Qed.

End wp_rules.

Lemma wp_get_d {B} (f : ResourceData → M B) s Q :
  wp (f (st_d s)) s Q → wp (get_d ≫= f) s Q.
Proof.
  unfold wp, mbind, M_bind, get_d. by destruct (f (st_d s) s) as [[r2 s2] t2].
Qed.

Lemma wp_check (err : option error) s Q :
  Q (match err with Some e => Err e | None => Ok tt end) s [] → wp (check err) s Q.
Proof. by destruct err. Qed.

Lemma wp_SetId (id : string) s Q :
  Q (Ok tt) (with_d (ResourceData.SetId id (st_d s)) s) [] → wp (SetId id) s Q.
Proof. done. Qed.

Lemma wp_Set_ (key : string) (v : Value) s Q :
  Q (Ok tt) (with_d (ResourceData.Set_ key v (st_d s)).1 s) [] → wp (Set_ key v) s Q.
Proof. done. Qed.

Lemma wp_Set_checked (key : string) (v : Value) s Q :
  (∀ e, rd_accepts (st_d s) key v = Some e → Q (Err e) s []) →
  (rd_accepts (st_d s) key v = None →
   Q (Ok tt) (with_d (ResourceData.write key v (st_d s)) s) []) →
  wp (Set_checked key v) s Q.
Proof.
  unfold wp, Set_checked, ResourceData.Set_. intros Hrefused Haccepted.
  destruct (rd_accepts (st_d s) key v) as [e|]; cbn; [|by apply Haccepted].
  destruct s. by apply Hrefused.
Qed.

Lemma wp_WrapOperation (remote : Remote) (c : Call) s Q :
  (∀ op, operate remote (st_clock s) c = Ok op → Q (Ok op) (tick s) [Called c true]) →
  (∀ e, operate remote (st_clock s) c = Err e → Q (Err e) (tick s) [Called c false]) →
  wp (WrapOperation remote c) s Q.
Proof.
  unfold wp, WrapOperation. intros Hok Herr.
  destruct (operate remote (st_clock s) c); [by apply Hok|by apply Herr].
Qed.

Lemma wp_Wait (c : Call) (op : Operation) s Q :
  (op_Wait op = None → Q (Ok tt) s [Waited c true]) →
  (∀ e, op_Wait op = Some e → Q (Err e) s [Waited c false]) →
  wp (Wait c op) s Q.
Proof.
  unfold wp, Wait. intros Hok Herr.
  destruct (op_Wait op); [by apply Herr|by apply Hok].
Qed.

Lemma wp_Instance_Get (remote : Remote) (id : string) s Q :
  (∀ i, instance_get remote (st_clock s) id = Ok i →
        Q (Ok i) (tick s) [Called (InstanceGet id) true]) →
  (∀ e, instance_get remote (st_clock s) id = Err e →
        Q (Err e) (tick s) [Called (InstanceGet id) false]) →
  wp (Instance_Get remote id) s Q.
Proof.
  unfold wp, Instance_Get. intros Hok Herr.
  destruct (instance_get remote (st_clock s) id); [by apply Hok|by apply Herr].
Qed.

Lemma wp_Profile_Get (remote : Remote) (id : string) s Q :
  (∀ p, profile_get remote (st_clock s) id = Ok p →
        Q (Ok p) (tick s) [Called (ProfileGet id) true]) →
  (∀ e, profile_get remote (st_clock s) id = Err e →
        Q (Err e) (tick s) [Called (ProfileGet id) false]) →
  wp (Profile_Get remote id) s Q.
Proof.
  unfold wp, Profile_Get. intros Hok Herr.
  destruct (profile_get remote (st_clock s) id); [by apply Hok|by apply Herr].
Qed.

Lemma wp_flattenInstanceBootDisk (remote : Remote) (instance : compute.Instance) s Q :
  (∀ v, boot_disk remote (st_clock s) instance = Ok v →
        Q (Ok v) (tick s) [Called (DiskRead instance) true]) →
  (∀ e, boot_disk remote (st_clock s) instance = Err e →
        Q (Err e) (tick s) [Called (DiskRead instance) false]) →
  wp (flattenInstanceBootDisk remote instance) s Q.
Proof.
  unfold wp, flattenInstanceBootDisk. intros Hok Herr.
  destruct (boot_disk remote (st_clock s) instance); [by apply Hok|by apply Herr].
Qed.

Lemma wp_handle_not_found `{Helpers} (err : error) (resourceName : string) s Q :
  (let '(id, e) := handleNotFoundError err (ResourceData.Id (st_d s)) resourceName in
   Q (match e with Some e => Err e | None => Ok tt end)
     (with_d (ResourceData.SetId id (st_d s)) s) []) →
  wp (handle_not_found err resourceName) s Q.
Proof.
  unfold wp, handle_not_found. by destruct (handleNotFoundError _ _ _) as [id [e|]].
Qed.

Lemma wp_run {A} (m : M A) (d : ResourceData)
    (Q : result A → ResourceData → list Event → Prop) :
  wp m {| st_d := d; st_clock := 0 |} (λ r s t, Q r (st_d s) t) →
  let '(r, d', t) := run m d in Q r d' t.
Proof. unfold wp, run. by destruct (m _) as [[r s] t]. Qed.

(** One step of a run. *)
Ltac wp_step :=
  lazymatch goal with
  | |- wp (get_d ≫= _) _ _ => apply wp_get_d
  | |- wp (_ ≫= _) _ _ => apply wp_bind
  | |- wp (mret _) _ _ => apply wp_ret
  | |- wp (fail _) _ _ => apply wp_fail
  | |- wp (lift _) _ _ => apply wp_lift
  | |- wp (check _) _ _ => apply wp_check
  | |- wp (on_error _ _) _ _ => apply wp_on_error
  | |- wp (attempt _) _ _ => apply wp_attempt
  | |- wp (SetId _) _ _ => apply wp_SetId
  | |- wp (Set_ _ _) _ _ => apply wp_Set_
  | |- wp (Set_checked _ _) _ _ => apply wp_Set_checked
  | |- wp (WrapOperation _ _) _ _ => apply wp_WrapOperation
  | |- wp (Wait _ _) _ _ => apply wp_Wait
  | |- wp (Instance_Get _ _) _ _ => apply wp_Instance_Get
  | |- wp (Profile_Get _ _) _ _ => apply wp_Profile_Get
  | |- wp (flattenInstanceBootDisk _ _) _ _ => apply wp_flattenInstanceBootDisk
  | |- wp (handle_not_found _ _) _ _ => apply wp_handle_not_found
  end.

(** ** Read of the ARL profile *)

(** The attributes Read writes for a response, with the flattened
    rules. *)
Definition profile_attributes `{Helpers}
    (resp : advanced_rate_limiter.AdvancedRateLimiterProfile) (rule : Value)
  : list (string * Value) :=
  [("advanced_rate_limiter_rule", rule);
   ("cloud_id", VString (advanced_rate_limiter.CloudId resp));
   ("created_at", VString (getTimestamp (advanced_rate_limiter.CreatedAt resp)));
   ("description", VString (advanced_rate_limiter.Description resp));
   ("folder_id", VString (advanced_rate_limiter.FolderId resp));
   ("labels", advanced_rate_limiter.Labels resp);
   ("name", VString (advanced_rate_limiter.Name resp))].

Lemma Get_top (d : ResourceData) (key : string) :
  strings.Split key "." = [key] →
  ResourceData.Get d key = default VNil ((rd_written d ∪ rd_plan d) !! key).
Proof.
  intros Hkey. unfold ResourceData.Get, ResourceData.at_address. by rewrite Hkey.
Qed.

Lemma Get_write_eq (d : ResourceData) (key : string) (v : Value) :
  strings.Split key "." = [key] →
  ResourceData.Get (ResourceData.write key v d) key = v.
Proof.
  intros Hkey. rewrite Get_top by done. cbn.
  by rewrite lookup_union_l', lookup_insert_eq by (by rewrite lookup_insert_eq).
Qed.

Lemma Get_write_ne (d : ResourceData) (key key' : string) (v : Value) :
  head (strings.Split key' ".") ≠ Some key →
  ResourceData.Get (ResourceData.write key v d) key' = ResourceData.Get d key'.
Proof.
  intros Hkey. unfold ResourceData.Get, ResourceData.at_address.
  destruct (strings.Split key' ".") as [|k segs]; [done|]. cbn in *.
  do 2 f_equal. rewrite !lookup_union, lookup_insert_ne; [done|]. congruence.
Qed.

(** C6. The Read of the ARL profile makes exactly one remote call, the
    Get of the profile.  When the Get answers and Read returns without
    error, each of the attributes advanced_rate_limiter_rule (the
    flattened rules of the response), cloud_id, created_at,
    description, folder_id, labels and name of the local state holds
    the value of the response; and when the schema check refuses the
    Set of any one of them, Read returns an error. *)
Theorem profile_read_reflects_response (remote : Remote) `{Helpers} (d : ResourceData) :
  let '(r, d', t) :=
    run (resourceYandexSmartwebsecurityAdvancedRateLimiterAdvancedRateLimiterProfileRead
           remote) d in
  calls t = [ProfileGet (ResourceData.Id d)] ∧
  ∀ resp, profile_get remote 0 (ResourceData.Id d) = Ok resp →
    (r = Ok tt →
     ∃ rule,
       flattenAdvancedXrateXlimiterAdvancedRateLimiterRuleSlice
         (advanced_rate_limiter.AdvancedRateLimiterRules resp) = Ok rule ∧
       Forall (λ '(key, v), ResourceData.Get d' key = v) (profile_attributes resp rule)) ∧
    (∀ rule,
       flattenAdvancedXrateXlimiterAdvancedRateLimiterRuleSlice
         (advanced_rate_limiter.AdvancedRateLimiterRules resp) = Ok rule →
       Exists (λ '(key, v), is_Some (rd_accepts d key v)) (profile_attributes resp rule) →
       is_ok r = false).
Proof.
  apply wp_run.
  unfold resourceYandexSmartwebsecurityAdvancedRateLimiterAdvancedRateLimiterProfileRead.
  do 4 wp_step; cbn.
  2: { intros e Hget. wp_step. destruct (handleNotFoundError _ _ _) as [id [e'|]]; cbn;
       (split; [done|]); intros resp'; rewrite Hget; intros [=]. }
  intros resp Hget. rewrite Hget.
  do 2 wp_step.
  destruct (flattenAdvancedXrateXlimiterAdvancedRateLimiterRuleSlice _) as [rule|e] eqn:Hflat;
    cbn.
  2: { split; [done|]. intros resp' [= <-]. rewrite Hflat. split; [done|].
       intros rule' [=]. }
  do 6 (wp_step; wp_step;
    [intros e Hacc; cbn; split; [done|]; intros ? [= <-]; split; [done|]; done
    |intros ?; cbn in *]).
  wp_step; [intros e Hacc; cbn; split; [done|]; intros ? [= <-]; split; [done|]; done|].
  intros ?; cbn in *. split; [done|]. intros ? [= <-]. split.
  - intros _. exists rule. split; [done|].
    repeat constructor;
      repeat first [by rewrite Get_write_eq by reflexivity
                   |rewrite Get_write_ne by (vm_compute; congruence)].
  - intros rule' Hrule'. rewrite Hflat in Hrule'. injection Hrule' as <-.
    unfold profile_attributes. rewrite !Exists_cons, Exists_nil.
    intros Hex. exfalso.
    repeat destruct Hex as [[? Hex]|Hex]; congruence.
Qed.

(** ** The update mask of the ARL profile *)

Lemma profile_read_calls (remote : Remote) `{Helpers} (s : State) :
  wp (resourceYandexSmartwebsecurityAdvancedRateLimiterAdvancedRateLimiterProfileRead
        remote) s
     (λ _ _ t, calls t = [ProfileGet (ResourceData.Id (st_d s))]).
Proof.
  unfold resourceYandexSmartwebsecurityAdvancedRateLimiterAdvancedRateLimiterProfileRead.
  do 4 wp_step; cbn.
  { intros resp _. do 2 wp_step.
    destruct (flattenAdvancedXrateXlimiterAdvancedRateLimiterRuleSlice _); cbn; [|done].
    do 6 (wp_step; wp_step; [by intros|intros _; cbn]).
    by wp_step. }
  intros e _. wp_step. by destruct (handleNotFoundError _ _ _) as [id [e'|]].
Qed.

Lemma generateFieldMasks_paths (d : ResourceData) (fieldsMap : gmap string string)
    (path : string) :
  path ∈ generateFieldMasks d fieldsMap ↔
  ∃ field, fieldsMap !! field = Some path ∧ ResourceData.HasChange d field = true.
Proof.
  unfold generateFieldMasks. rewrite list_elem_of_omap. split.
  - intros ([field path'] & Hin & Hsome). apply elem_of_map_to_list in Hin.
    destruct (ResourceData.HasChange d field) eqn:Hchange; [|done].
    injection Hsome as ->. eauto.
  - intros (field & Hin & Hchange). exists (field, path). split.
    + by apply elem_of_map_to_list.
    + by rewrite Hchange.
Qed.

(** C5. In every run of the Update of the ARL profile, the update
    mask of each update request holds only paths that are values of the
    fixed fields map, that is, paths among labels, name, description and
    advanced_rate_limiter_rules, whatever the resource data. *)
Theorem profile_update_mask_paths (remote : Remote) `{Helpers} (d : ResourceData) :
  let '(_, _, t) :=
    run (resourceYandexSmartwebsecurityAdvancedRateLimiterAdvancedRateLimiterProfileUpdate
           remote) d in
  Forall (λ c,
    match c with
    | ProfileUpdate req =>
        Forall (λ path,
          (∃ field,
             resourceYandexSmartwebsecurityAdvancedRateLimiterAdvancedRateLimiterProfileUpdateFieldsMap
               !! field = Some path) ∧
          path ∈ ["labels"; "name"; "description"; "advanced_rate_limiter_rules"])
          (advanced_rate_limiter.upd_UpdateMask req)
    | _ => True
    end) (calls t).
Proof.
  set (fieldsMap :=
    resourceYandexSmartwebsecurityAdvancedRateLimiterAdvancedRateLimiterProfileUpdateFieldsMap).
  assert (Hmask : Forall (λ path,
    (∃ field, fieldsMap !! field = Some path) ∧
    path ∈ ["labels"; "name"; "description"; "advanced_rate_limiter_rules"])
    (generateFieldMasks d fieldsMap)).
  { apply Forall_forall. intros path (field & Hfield & _)%generateFieldMasks_paths.
    split; [by exists field|]. subst fieldsMap.
    unfold resourceYandexSmartwebsecurityAdvancedRateLimiterAdvancedRateLimiterProfileUpdateFieldsMap
      in Hfield.
    apply elem_of_list_to_map_2 in Hfield.
    rewrite !elem_of_cons, elem_of_nil in Hfield.
    rewrite !elem_of_cons.
    destruct Hfield as [[= _ ->]|[[= _ ->]|[[= _ ->]|[[= _ ->]|[]]]]]; auto. }
  apply (wp_run _ _ (λ _ _ t, Forall _ (calls t))).
  unfold resourceYandexSmartwebsecurityAdvancedRateLimiterAdvancedRateLimiterProfileUpdate.
  do 3 wp_step. cbn.
  destruct (expandAdvancedRateLimiterProfileAdvancedRateLimiterRulesSlice_ d);
    cbn; [|done].
  do 2 wp_step. cbn.
  2: { intros e _. by apply Forall_cons. }
  intros op _. do 2 wp_step; cbn; [intros _|intros e _; by apply Forall_cons].
  eapply wp_mono; [apply profile_read_calls|]. cbn. intros _ _ t Ht.
  unfold calls in Ht. rewrite Ht.
  apply Forall_cons. split; [done|]. by apply Forall_cons.
Qed.

(** ** What each part of the compute instance resource may call *)

(** The attributes Read writes. *)
Definition read_keys : list string :=
  ["created_at"; "platform_id"; "folder_id"; "zone"; "name"; "fqdn"; "description";
   "service_account_id"; "status"; "metadata_options"; "hostname"; "metadata";
   "labels"; "resources"; "boot_disk"; "secondary_disk"; "scheduling_policy";
   "placement_policy"; "local_disk"; "filesystem"; "network_acceleration_type";
   "network_interface"; "gpu_cluster_id"; "maintenance_policy";
   "maintenance_grace_period"; "hardware_generation"].

(** The calls of the [folder_id] block entered with resource data [d]. *)
Inductive folder_call `{Helpers} (d : ResourceData) : Call → Prop :=
| folder_stop id :
    ResourceData.HasChange d "folder_id" = true →
    GetBool d "allow_recreate" = false →
    GetBool d "allow_stopping_for_update" = true →
    folder_call d (InstanceStop id)
| folder_move :
    ResourceData.HasChange d "folder_id" = true →
    GetBool d "allow_recreate" = false →
    GetBool d "allow_stopping_for_update" = true →
    folder_call d
      (InstanceMove {| compute.mv_InstanceId := ResourceData.Id d;
                       compute.mv_DestinationFolderId := GetString d "folder_id" |})
| folder_start id :
    ResourceData.HasChange d "folder_id" = true →
    GetBool d "allow_recreate" = false →
    GetBool d "allow_stopping_for_update" = true →
    folder_call d (InstanceStart id)
| folder_delete id :
    ResourceData.HasChange d "folder_id" = true →
    GetBool d "allow_recreate" = true →
    folder_call d (InstanceDelete id)
| folder_create req :
    ResourceData.HasChange d "folder_id" = true →
    GetBool d "allow_recreate" = true →
    folder_call d (InstanceCreate req).

(** The update requests made while the instance runs. *)
Inductive running_update `{Helpers} (d : ResourceData)
  : compute.UpdateInstanceRequest → Prop :=
| running_labels v :
    ResourceData.HasChange d "labels" = true →
    running_update d
      (compute.with_Labels v
         (compute.UpdateInstanceRequest_new (ResourceData.Id d) ["labels"]))
| running_metadata v :
    ResourceData.HasChange d "metadata" = true →
    running_update d
      (compute.with_Metadata v
         (compute.UpdateInstanceRequest_new (ResourceData.Id d) ["metadata"]))
| running_metadata_options v :
    ResourceData.HasChange d "metadata_options" = true →
    running_update d
      (compute.with_MetadataOptions v
         (compute.UpdateInstanceRequest_new (ResourceData.Id d) ["metadata_options"]))
| running_name v :
    ResourceData.HasChange d "name" = true →
    running_update d
      (compute.with_Name v
         (compute.UpdateInstanceRequest_new (ResourceData.Id d) ["name"]))
| running_description v :
    ResourceData.HasChange d "description" = true →
    running_update d
      (compute.with_Description v
         (compute.UpdateInstanceRequest_new (ResourceData.Id d) ["description"]))
| running_service_account_id v :
    ResourceData.HasChange d "service_account_id" = true →
    running_update d
      (compute.with_ServiceAccountId v
         (compute.UpdateInstanceRequest_new (ResourceData.Id d) ["service_account_id"]))
| running_maintenance req :
    ResourceData.HasChange d "maintenance_policy" ||
      ResourceData.HasChange d "maintenance_grace_period" = true →
    maintenanceRequest d = Ok req →
    running_update d req.

(** The calls of the blocks that act on the running instance. *)
Inductive running_call `{Helpers} (instance : compute.Instance) (d : ResourceData)
  : Call → Prop :=
| running_call_update req :
    running_update d req → running_call instance d (InstanceUpdate req)
| running_remove_nat reqs req :
    interfaceRequests d instance = Ok reqs →
    needUpdateInterfacesOnStoppedInstance reqs = false →
    req ∈ removeNatRequests reqs →
    running_call instance d (InstanceRemoveOneToOneNat req)
| running_add_nat reqs req :
    interfaceRequests d instance = Ok reqs →
    needUpdateInterfacesOnStoppedInstance reqs = false →
    req ∈ addNatRequests reqs →
    running_call instance d (InstanceAddOneToOneNat req)
| running_update_interface reqs req :
    interfaceRequests d instance = Ok reqs →
    needUpdateInterfacesOnStoppedInstance reqs = false →
    req ∈ updateInterfaceRequests reqs →
    running_call instance d (InstanceUpdateNetworkInterface req)
| running_detach_disk req : running_call instance d (InstanceDetachDisk req)
| running_attach_disk req : running_call instance d (InstanceAttachDisk req)
| running_detach_filesystem req : running_call instance d (InstanceDetachFilesystem req)
| running_attach_filesystem req : running_call instance d (InstanceAttachFilesystem req).

(** Whether the block on the stopped instance is entered. *)
Definition needs_stop (d : ResourceData) (reqs : InterfaceRequests) : bool :=
  ResourceData.HasChange d "resources" || ResourceData.HasChange d "platform_id" ||
  ResourceData.HasChange d "network_acceleration_type" ||
  needUpdateInterfacesOnStoppedInstance reqs ||
  ResourceData.HasChange d "scheduling_policy" ||
  ResourceData.HasChange d "placement_policy".

(** The requests made between Stop and Start for the network
    interfaces. *)
Inductive stopped_interface_request (reqs : InterfaceRequests) : Call → Prop :=
| stopped_remove_nat req :
    needUpdateInterfacesOnStoppedInstance reqs = true →
    req ∈ removeNatRequests reqs →
    stopped_interface_request reqs (InstanceRemoveOneToOneNat req)
| stopped_add_nat req :
    needUpdateInterfacesOnStoppedInstance reqs = true →
    req ∈ addNatRequests reqs →
    stopped_interface_request reqs (InstanceAddOneToOneNat req)
| stopped_update_interface req :
    needUpdateInterfacesOnStoppedInstance reqs = true →
    req ∈ updateInterfaceRequests reqs →
    stopped_interface_request reqs (InstanceUpdateNetworkInterface req)
| stopped_attach_interface req :
    needUpdateInterfacesOnStoppedInstance reqs = true →
    req ∈ attachInterfaceRequests reqs →
    stopped_interface_request reqs (InstanceAttachNetworkInterface req)
| stopped_detach_interface req :
    needUpdateInterfacesOnStoppedInstance reqs = true →
    req ∈ detachInterfaceRequests reqs →
    stopped_interface_request reqs (InstanceDetachNetworkInterface req).

(** The requests made between Stop and Start. *)
Inductive stopped_request `{Helpers} (reqs : InterfaceRequests) (d : ResourceData)
  : Call → Prop :=
| stopped_update req :
    stoppedInstanceRequest d = Ok req →
    stopped_request reqs d (InstanceUpdate req)
| stopped_interface c :
    stopped_interface_request reqs c → stopped_request reqs d c.

(** The calls of the block that stops, updates and starts, entered
    with resource data [d]. *)
Inductive stopped_call `{Helpers} (reqs : InterfaceRequests) (d : ResourceData)
  : Call → Prop :=
| stopped_stop id :
    needs_stop d reqs = true →
    GetBool d "allow_stopping_for_update" = true →
    stopped_call reqs d (InstanceStop id)
| stopped_between c :
    needs_stop d reqs = true →
    GetBool d "allow_stopping_for_update" = true →
    stopped_request reqs d c → stopped_call reqs d c
| stopped_start id :
    needs_stop d reqs = true →
    GetBool d "allow_stopping_for_update" = true →
    stopped_call reqs d (InstanceStart id).

(** The blocks of Update between its first Get and the block that
    stops the instance: they act on the instance as it is, and hand
    over the requests for the network interfaces. *)
Definition update_running_instance (remote : Remote) `{Helpers}
    (instance : compute.Instance) : M InterfaceRequests :=
  update_folder_id remote instance;;
  update_labels remote;;
  update_metadata remote;;
  update_metadata_options remote;;
  update_name remote;;
  update_description remote;;
  update_service_account_id remote;;
  update_maintenance remote;;
  reqs ← update_network_interface remote instance;
  update_secondary_disk remote instance;;
  update_filesystem remote instance;;
  mret reqs.

(** The blocks of Update that follow the [folder_id] block. *)
Definition after_folder_id (remote : Remote) `{Helpers} (instance : compute.Instance)
  : M unit :=
  update_labels remote;;
  update_metadata remote;;
  update_metadata_options remote;;
  update_name remote;;
  update_description remote;;
  update_service_account_id remote;;
  update_maintenance remote;;
  reqs ← update_network_interface remote instance;
  update_secondary_disk remote instance;;
  update_filesystem remote instance;;
  update_stopped_instance remote reqs;;
  resourceYandexComputeInstanceRead remote.

Lemma holds_of_wp (I : ResourceData → Prop) (Φ : bool → list Event → Prop)
    {A} (m : M A) (Q : A → Prop) :
  (∀ s, I (st_d s) →
     wp m s (λ r s' t, Φ (is_ok r) t ∧ I (st_d s') ∧ ∀ a, r = Ok a → Q a)) →
  holds I Φ m Q.
Proof. done. Qed.

Lemma wp_of_holds (I : ResourceData → Prop) (Φ : bool → list Event → Prop)
    {A} (m : M A) (Q : A → Prop) (s : State) :
  holds I Φ m Q → I (st_d s) →
  wp m s (λ r s' t, Φ (is_ok r) t ∧ I (st_d s') ∧ ∀ a, r = Ok a → Q a).
Proof. intros Hm Hs. by apply Hm. Qed.

Section compute_instance_holds.

Context (I : ResourceData → Prop) (Φ : bool → list Event → Prop).
Context `{!Sequential I Φ}.
Context (remote : Remote) `{Helpers}.

Hypothesis I_write : ∀ key v d, key ∈ read_keys → I d → I (ResourceData.write key v d).
Hypothesis Φ_get : ∀ id, allowed_read Φ (InstanceGet id).
Hypothesis Φ_disk : ∀ instance, allowed_disk_read Φ (DiskRead instance).

Ltac write_ok := intros; apply I_write; [unfold read_keys; repeat constructor|done].

Lemma holds_Read : holds I Φ (resourceYandexComputeInstanceRead remote) (λ _, True).
Proof.
  unfold resourceYandexComputeInstanceRead.
  apply (holds_get_d I Φ). intros d Hd.
  eapply (holds_bind I Φ); [by apply (holds_Instance_Get I Φ)|]. intros [instance|err] _.
  2: { by apply (holds_handle_not_found I Φ). }
  apply (holds_lift_bind I Φ). intros ? _.
  eapply (holds_bind I Φ); [by apply (holds_flattenInstanceBootDisk I Φ)|]. intros ? _.
  do 3 (apply (holds_lift_bind I Φ); intros ? _).
  apply (holds_lift_bind I Φ). intros [[? ?] ?] _.
  apply (holds_lift_bind I Φ). intros ? _.
  do 10 (apply (holds_seq I Φ); [apply (holds_Set_ I Φ); write_ok|]).
  eapply (holds_bind I Φ); [|intros ? _].
  { instantiate (1 := λ _, True).
    destruct (parseHostnameFromFQDN _) as [[? [?|]]|];
      [by apply (holds_fail I Φ)|by apply (holds_ret I Φ)|by apply (holds_fail I Φ)]. }
  apply (holds_seq I Φ); [apply (holds_Set_ I Φ); write_ok|].
  do 9 (apply (holds_seq I Φ); [apply (holds_Set_checked I Φ); write_ok|]).
  apply (holds_seq I Φ).
  { destruct (compute.Instance_NetworkSettings _);
      [apply (holds_Set_ I Φ); write_ok|by apply (holds_ret I Φ)]. }
  apply (holds_seq I Φ); [apply (holds_Set_checked I Φ); write_ok|].
  apply (holds_seq I Φ).
  { destruct (compute.Instance_GpuSettings _);
      [apply (holds_Set_ I Φ); write_ok|by apply (holds_ret I Φ)]. }
  apply (holds_seq I Φ).
  { destruct (compute.Instance_MaintenancePolicy _);
      [by apply (holds_ret I Φ)|apply (holds_Set_checked I Φ); write_ok..]. }
  apply (holds_seq I Φ); [apply (holds_Set_checked I Φ); write_ok|].
  apply (holds_Set_checked I Φ); write_ok.
Qed.

Lemma holds_Create :
  (∀ d req, I d → prepareCreateInstanceRequest d = Ok req →
     allowed Φ (InstanceCreate req) ∧ Φ false [Called (InstanceCreate req) true]) →
  holds I Φ (resourceYandexComputeInstanceCreate remote) (λ _, True).
Proof.
  intros Hcreate. unfold resourceYandexComputeInstanceCreate.
  apply (holds_get_d I Φ). intros d Hd.
  apply (holds_lift_bind I Φ). intros req Hreq.
  destruct (Hcreate d req Hd Hreq) as ((Hrej & Hwf & Hwt) & Hnw).
  apply holds_of_wp. intros s Hs. do 3 wp_step; cbn.
  2: { intros e _. by split_and!. }
  intros op _. destruct (op_Metadata op) as [id| |e].
  - do 5 wp_step; cbn.
    2: { intros e _. split_and!; [done|by apply I_SetId|done]. }
    intros _. do 2 wp_step.
    destruct (op_Response op) as [e|]; cbn;
      [by split_and!; [apply Φ_weaken|apply I_SetId|]|].
    eapply wp_mono; [apply (wp_of_holds I Φ); [apply holds_Read|cbn; by apply I_SetId]|].
    cbn. intros r s1 t1 (Ht & Hi & _). split_and!; [|done..].
    by apply (Φ_app _ [_; _]).
  - wp_step. cbn. by split_and!.
  - wp_step. cbn. by split_and!.
Qed.

Lemma holds_Delete :
  (∀ d, I d →
     allowed Φ (InstanceDelete (ResourceData.Id d)) ∧
     Φ true [Called (InstanceDelete (ResourceData.Id d)) false]) →
  holds I Φ (resourceYandexComputeInstanceDelete remote) (λ _, True).
Proof.
  intros Hdelete. unfold resourceYandexComputeInstanceDelete.
  apply (holds_get_d I Φ). intros d Hd.
  destruct (Hdelete d Hd) as ((_ & Hwf & Hwt) & Hrej).
  apply holds_of_wp. intros s Hs. do 3 wp_step; cbn.
  - intros op _. do 2 wp_step; cbn; [|by intros; split_and!].
    intros _. wp_step.
    destruct (op_Response op) as [e|]; cbn;
      (split_and!; [by (apply Φ_weaken || idtac)|done..]).
  - intros e _.
    eapply wp_mono; [apply (wp_of_holds I Φ); [apply (holds_handle_not_found I Φ)|by cbn]|].
    cbn. intros r s1 t1 (Ht & Hi & _). split_and!; [|done..].
    by apply (Φ_app _ [_]).
Qed.

Ltac make_holds :=
  intros;
  lazymatch goal with
  | |- holds _ _ (get_d ≫= _) _ =>
      apply (holds_get_d I Φ); intros ? ?; by apply (holds_call_and_wait I Φ)
  | |- _ => by apply (holds_call_and_wait I Φ)
  end.

Lemma holds_makeInstanceUpdateRequest req :
  allowed Φ (InstanceUpdate req) →
  holds I Φ (makeInstanceUpdateRequest remote req) (λ _, True).
Proof. unfold makeInstanceUpdateRequest. make_holds. Qed.

Lemma holds_makeInstanceUpdateNetworkInterfaceRequest req :
  allowed Φ (InstanceUpdateNetworkInterface req) →
  holds I Φ (makeInstanceUpdateNetworkInterfaceRequest remote req) (λ _, True).
Proof. unfold makeInstanceUpdateNetworkInterfaceRequest. make_holds. Qed.

Lemma holds_makeInstanceAddOneToOneNatRequest req :
  allowed Φ (InstanceAddOneToOneNat req) →
  holds I Φ (makeInstanceAddOneToOneNatRequest remote req) (λ _, True).
Proof. unfold makeInstanceAddOneToOneNatRequest. make_holds. Qed.

Lemma holds_makeInstanceRemoveOneToOneNatRequest req :
  allowed Φ (InstanceRemoveOneToOneNat req) →
  holds I Φ (makeInstanceRemoveOneToOneNatRequest remote req) (λ _, True).
Proof. unfold makeInstanceRemoveOneToOneNatRequest. make_holds. Qed.

Lemma holds_makeInstanceAttachNetworkInterfaceRequest req :
  allowed Φ (InstanceAttachNetworkInterface req) →
  holds I Φ (makeInstanceAttachNetworkInterfaceRequest remote req) (λ _, True).
Proof. unfold makeInstanceAttachNetworkInterfaceRequest. make_holds. Qed.

Lemma holds_makeInstanceDetachNetworkInterfaceRequest req :
  allowed Φ (InstanceDetachNetworkInterface req) →
  holds I Φ (makeInstanceDetachNetworkInterfaceRequest remote req) (λ _, True).
Proof. unfold makeInstanceDetachNetworkInterfaceRequest. make_holds. Qed.

Lemma holds_makeDetachDiskRequest req :
  allowed Φ (InstanceDetachDisk req) →
  holds I Φ (makeDetachDiskRequest remote req) (λ _, True).
Proof. unfold makeDetachDiskRequest. make_holds. Qed.

Lemma holds_makeAttachDiskRequest req :
  allowed Φ (InstanceAttachDisk req) →
  holds I Φ (makeAttachDiskRequest remote req) (λ _, True).
Proof. unfold makeAttachDiskRequest. make_holds. Qed.

Lemma holds_makeDetachFilesystemRequest req :
  allowed Φ (InstanceDetachFilesystem req) →
  holds I Φ (makeDetachFilesystemRequest remote req) (λ _, True).
Proof. unfold makeDetachFilesystemRequest. make_holds. Qed.

Lemma holds_makeAttachFilesystemRequest req :
  allowed Φ (InstanceAttachFilesystem req) →
  holds I Φ (makeAttachFilesystemRequest remote req) (λ _, True).
Proof. unfold makeAttachFilesystemRequest. make_holds. Qed.

Lemma holds_makeInstanceMoveRequest req :
  allowed Φ (InstanceMove req) →
  holds I Φ (makeInstanceMoveRequest remote req) (λ _, True).
Proof. unfold makeInstanceMoveRequest. make_holds. Qed.

Lemma holds_makeInstanceActionRequest action :
  (∀ id, action = instanceActionStop → allowed Φ (InstanceStop id)) →
  (∀ id, action = instanceActionStart → allowed Φ (InstanceStart id)) →
  holds I Φ (makeInstanceActionRequest remote action) (λ _, True).
Proof.
  intros Hstop Hstart. unfold makeInstanceActionRequest.
  apply (holds_get_d I Φ). intros d Hd. destruct action.
  - apply (holds_call_and_wait I Φ). by apply Hstop.
  - apply (holds_call_and_wait I Φ). by apply Hstart.
  - apply (holds_fail I Φ).
Qed.

Lemma holds_update_folder_id instance :
  (∀ d c, I d → folder_call d c → allowed Φ c) →
  (∀ id, Φ true [Called (InstanceDelete id) false]) →
  (∀ req, Φ false [Called (InstanceCreate req) true]) →
  holds I Φ (update_folder_id remote instance) (λ _, True).
Proof.
  intros Hfolder Hnotfound Hunwaited. unfold update_folder_id.
  apply (holds_get_d I Φ). intros d Hd.
  destruct (ResourceData.HasChange d "folder_id") eqn:Hchange; [|by apply (holds_ret I Φ)].
  destruct (GetBool d "allow_recreate") eqn:Hrecreate; cbn [negb].
  - apply (holds_seq I Φ).
    + apply holds_Delete. intros. split; [|done].
      apply (Hfolder d); [done|by constructor].
    + apply holds_Create. intros. split; [|done].
      apply (Hfolder d); [done|by constructor].
  - apply (holds_bind I Φ _ _ (λ _, GetBool d "allow_stopping_for_update" = true)).
    { apply (holds_check I Φ). unfold ensureAllowStoppingForUpdate.
      by destruct (GetBool d "allow_stopping_for_update"). }
    intros _ Hallow. apply (holds_seq I Φ).
    { apply (holds_when I Φ). intros _. apply holds_makeInstanceActionRequest;
        intros; (apply (Hfolder d); [done|by constructor]). }
    apply (holds_seq I Φ).
    { apply holds_makeInstanceMoveRequest. apply (Hfolder d); [done|by constructor]. }
    apply holds_makeInstanceActionRequest;
      intros; (apply (Hfolder d); [done|by constructor]).
Qed.

Section running.

Variable instance : compute.Instance.
Hypothesis Φ_running : ∀ d c, I d → running_call instance d c → allowed Φ c.

Ltac running_update_holds :=
  apply holds_makeInstanceUpdateRequest;
  eapply Φ_running; [eassumption|]; constructor; by constructor.

Lemma holds_update_labels : holds I Φ (update_labels remote) (λ _, True).
Proof.
  unfold update_labels. apply (holds_get_d I Φ). intros d Hd.
  destruct (ResourceData.HasChange d "labels") eqn:Hchange; [|by apply (holds_ret I Φ)].
  apply (holds_lift_bind I Φ). intros v _. running_update_holds.
Qed.

Lemma holds_update_metadata : holds I Φ (update_metadata remote) (λ _, True).
Proof.
  unfold update_metadata. apply (holds_get_d I Φ). intros d Hd.
  destruct (ResourceData.HasChange d "metadata") eqn:Hchange; [|by apply (holds_ret I Φ)].
  apply (holds_lift_bind I Φ). intros v _. running_update_holds.
Qed.

Lemma holds_update_metadata_options :
  holds I Φ (update_metadata_options remote) (λ _, True).
Proof.
  unfold update_metadata_options. apply (holds_get_d I Φ). intros d Hd.
  destruct (ResourceData.HasChange d "metadata_options") eqn:Hchange;
    [|by apply (holds_ret I Φ)].
  running_update_holds.
Qed.

Lemma holds_update_name : holds I Φ (update_name remote) (λ _, True).
Proof.
  unfold update_name. apply (holds_get_d I Φ). intros d Hd.
  destruct (ResourceData.HasChange d "name") eqn:Hchange; [|by apply (holds_ret I Φ)].
  running_update_holds.
Qed.

Lemma holds_update_description : holds I Φ (update_description remote) (λ _, True).
Proof.
  unfold update_description. apply (holds_get_d I Φ). intros d Hd.
  destruct (ResourceData.HasChange d "description") eqn:Hchange;
    [|by apply (holds_ret I Φ)].
  running_update_holds.
Qed.

Lemma holds_update_service_account_id :
  holds I Φ (update_service_account_id remote) (λ _, True).
Proof.
  unfold update_service_account_id. apply (holds_get_d I Φ). intros d Hd.
  destruct (ResourceData.HasChange d "service_account_id") eqn:Hchange;
    [|by apply (holds_ret I Φ)].
  running_update_holds.
Qed.

Lemma holds_update_maintenance : holds I Φ (update_maintenance remote) (λ _, True).
Proof.
  unfold update_maintenance. apply (holds_get_d I Φ). intros d Hd.
  destruct (_ || _) eqn:Hchange; [|by apply (holds_ret I Φ)].
  apply (holds_lift_bind I Φ). intros req Hreq.
  apply holds_makeInstanceUpdateRequest.
  eapply Φ_running; [eassumption|]. constructor. by apply running_maintenance.
Qed.

(** The requests the network interface block hands over are those
    computed from the resource data it read. *)
Definition handed_over (reqs : InterfaceRequests) : Prop :=
  reqs = noInterfaceRequests ∨
  ∃ d, I d ∧ ResourceData.HasChange d "network_interface" = true ∧
       interfaceRequests d instance = Ok reqs.

Lemma holds_update_network_interface :
  holds I Φ (update_network_interface remote instance) handed_over.
Proof.
  unfold update_network_interface. apply (holds_get_d I Φ). intros d Hd.
  destruct (ResourceData.HasChange d "network_interface") eqn:Hchange;
    [|apply (holds_ret I Φ); by left].
  apply (holds_lift_bind I Φ). intros reqs Hreqs.
  apply (holds_seq I Φ); [|apply (holds_ret I Φ); right; eauto].
  apply (holds_when I Φ). intros [Hflag _]%andb_true_iff. apply negb_true_iff in Hflag.
  apply (holds_seq I Φ).
  { apply (holds_for_each I Φ). intros req Hreq.
    apply holds_makeInstanceRemoveOneToOneNatRequest.
    eapply Φ_running; [eassumption|]. by eapply running_remove_nat. }
  apply (holds_seq I Φ).
  { apply (holds_for_each I Φ). intros req Hreq.
    apply holds_makeInstanceAddOneToOneNatRequest.
    eapply Φ_running; [eassumption|]. by eapply running_add_nat. }
  apply (holds_for_each I Φ). intros req Hreq.
  apply holds_makeInstanceUpdateNetworkInterfaceRequest.
  eapply Φ_running; [eassumption|]. by eapply running_update_interface.
Qed.

Lemma holds_update_secondary_disk :
  holds I Φ (update_secondary_disk remote instance) (λ _, True).
Proof.
  unfold update_secondary_disk. apply (holds_get_d I Φ). intros d Hd.
  destruct (ResourceData.HasChange d "secondary_disk"); [|by apply (holds_ret I Φ)].
  apply (holds_lift_bind I Φ). intros [[nDisks attach] detach] _.
  apply (holds_seq I Φ).
  { apply (holds_for_each I Φ). intros req _. apply holds_makeDetachDiskRequest.
    eapply Φ_running; [eassumption|]. constructor. }
  apply (holds_for_each I Φ). intros req _. apply holds_makeAttachDiskRequest.
  eapply Φ_running; [eassumption|]. constructor.
Qed.

Lemma holds_update_filesystem :
  holds I Φ (update_filesystem remote instance) (λ _, True).
Proof.
  unfold update_filesystem. apply (holds_get_d I Φ). intros d Hd.
  destruct (ResourceData.HasChange d "filesystem"); [|by apply (holds_ret I Φ)].
  destruct (ResourceData.GetChange d "filesystem") as [o n].
  apply (holds_lift_bind I Φ). intros oldFs _.
  apply (holds_lift_bind I Φ). intros [newFs attach] _.
  apply (holds_seq I Φ).
  { apply (holds_for_each I Φ). intros [hash fsID] _.
    destruct (bool_decide _); [by apply (holds_ret I Φ)|].
    apply holds_makeDetachFilesystemRequest.
    eapply Φ_running; [eassumption|]. constructor. }
  apply (holds_for_each I Φ). intros req _. apply holds_makeAttachFilesystemRequest.
  eapply Φ_running; [eassumption|]. constructor.
Qed.

End running.

Lemma holds_stoppedInterfaceRequests reqs :
  (∀ c, stopped_interface_request reqs c → allowed Φ c) →
  needUpdateInterfacesOnStoppedInstance reqs = true →
  holds I Φ (stoppedInterfaceRequests remote reqs) (λ _, True).
Proof.
  intros Hc Hflag. unfold stoppedInterfaceRequests.
  apply (holds_seq I Φ).
  { apply (holds_for_each I Φ). intros req Hreq.
    apply holds_makeInstanceRemoveOneToOneNatRequest. apply Hc. by constructor. }
  apply (holds_seq I Φ).
  { apply (holds_for_each I Φ). intros req Hreq.
    apply holds_makeInstanceAddOneToOneNatRequest. apply Hc. by constructor. }
  apply (holds_seq I Φ).
  { apply (holds_for_each I Φ). intros req Hreq.
    apply holds_makeInstanceUpdateNetworkInterfaceRequest. apply Hc. by constructor. }
  apply (holds_seq I Φ).
  { apply (holds_for_each I Φ). intros req Hreq.
    apply holds_makeInstanceAttachNetworkInterfaceRequest. apply Hc. by constructor. }
  apply (holds_for_each I Φ). intros req Hreq.
  apply holds_makeInstanceDetachNetworkInterfaceRequest. apply Hc. by constructor.
Qed.

Lemma holds_update_stopped_instance reqs :
  (∀ d c, I d → stopped_call reqs d c → allowed Φ c) →
  holds I Φ (update_stopped_instance remote reqs) (λ _, True).
Proof.
  intros Hstopped. unfold update_stopped_instance.
  apply (holds_get_d I Φ). intros d Hd.
  fold (needs_stop d reqs).
  destruct (needs_stop d reqs) eqn:Hneeds; [|by apply (holds_ret I Φ)].
  apply (holds_bind I Φ _ _ (λ _, GetBool d "allow_stopping_for_update" = true)).
  { apply (holds_check I Φ). unfold ensureAllowStoppingForUpdate.
    by destruct (GetBool d "allow_stopping_for_update"). }
  intros _ Hallow. apply (holds_seq I Φ).
  { apply holds_makeInstanceActionRequest;
      intros; (apply (Hstopped d); [done|by constructor]). }
  apply (holds_seq I Φ).
  { apply (holds_when I Φ). intros _.
    apply (holds_lift_bind I Φ). intros req Hreq.
    apply holds_makeInstanceUpdateRequest.
    apply (Hstopped d); [done|]. apply stopped_between; [done..|]. by constructor. }
  apply (holds_seq I Φ).
  { apply (holds_when I Φ). intros Hflag.
    apply holds_stoppedInterfaceRequests; [|done].
    intros c Hc. apply (Hstopped d); [done|]. apply stopped_between; [done..|].
    by constructor. }
  apply holds_makeInstanceActionRequest;
    intros; (apply (Hstopped d); [done|by constructor]).
Qed.

Lemma holds_update_running_instance instance :
  holds I Φ (update_folder_id remote instance) (λ _, True) →
  (∀ d c, I d → running_call instance d c → allowed Φ c) →
  holds I Φ (update_running_instance remote instance) (handed_over instance).
Proof.
  intros Hfolder Hrunning. unfold update_running_instance.
  apply (holds_seq I Φ); [done|].
  apply (holds_seq I Φ); [apply (holds_update_labels instance), Hrunning|].
  apply (holds_seq I Φ); [apply (holds_update_metadata instance), Hrunning|].
  apply (holds_seq I Φ); [apply (holds_update_metadata_options instance), Hrunning|].
  apply (holds_seq I Φ); [apply (holds_update_name instance), Hrunning|].
  apply (holds_seq I Φ); [apply (holds_update_description instance), Hrunning|].
  apply (holds_seq I Φ); [apply (holds_update_service_account_id instance), Hrunning|].
  apply (holds_seq I Φ); [apply (holds_update_maintenance instance), Hrunning|].
  eapply (holds_bind I Φ); [apply (holds_update_network_interface instance), Hrunning|].
  intros reqs Hreqs.
  apply (holds_seq I Φ); [apply (holds_update_secondary_disk instance), Hrunning|].
  apply (holds_seq I Φ); [apply (holds_update_filesystem instance), Hrunning|].
  by apply (holds_ret I Φ).
Qed.

Lemma holds_after_folder_id instance :
  (∀ d c, I d → running_call instance d c → allowed Φ c) →
  (∀ reqs,
     handed_over instance reqs →
     holds I Φ (update_stopped_instance remote reqs) (λ _, True)) →
  holds I Φ (after_folder_id remote instance) (λ _, True).
Proof.
  intros Hrunning Hstopped. unfold after_folder_id.
  apply (holds_seq I Φ); [apply (holds_update_labels instance), Hrunning|].
  apply (holds_seq I Φ); [apply (holds_update_metadata instance), Hrunning|].
  apply (holds_seq I Φ); [apply (holds_update_metadata_options instance), Hrunning|].
  apply (holds_seq I Φ); [apply (holds_update_name instance), Hrunning|].
  apply (holds_seq I Φ); [apply (holds_update_description instance), Hrunning|].
  apply (holds_seq I Φ); [apply (holds_update_service_account_id instance), Hrunning|].
  apply (holds_seq I Φ); [apply (holds_update_maintenance instance), Hrunning|].
  eapply (holds_bind I Φ); [apply (holds_update_network_interface instance), Hrunning|].
  intros reqs Hreqs.
  apply (holds_seq I Φ); [apply (holds_update_secondary_disk instance), Hrunning|].
  apply (holds_seq I Φ); [apply (holds_update_filesystem instance), Hrunning|].
  apply (holds_seq I Φ); [by apply Hstopped|].
  apply holds_Read.
Qed.

Lemma holds_Update_blocks :
  (∀ instance, holds I Φ (update_folder_id remote instance) (λ _, True)) →
  (∀ instance d c, I d → running_call instance d c → allowed Φ c) →
  (∀ instance reqs,
     handed_over instance reqs →
     holds I Φ (update_stopped_instance remote reqs) (λ _, True)) →
  holds I Φ (resourceYandexComputeInstanceUpdate remote) (λ _, True).
Proof.
  intros Hfolder Hrunning Hstopped.
  unfold resourceYandexComputeInstanceUpdate.
  apply (holds_get_d I Φ). intros d Hd.
  eapply (holds_bind I Φ); [by apply holds_Instance_Get|]. intros [instance|err] _.
  2: { by apply holds_handle_not_found. }
  apply (holds_seq I Φ); [by apply Hfolder|].
  apply holds_after_folder_id; [apply Hrunning|apply Hstopped].
Qed.

Lemma holds_Update :
  (∀ d c, I d → folder_call d c → allowed Φ c) →
  (∀ id, Φ true [Called (InstanceDelete id) false]) →
  (∀ req, Φ false [Called (InstanceCreate req) true]) →
  (∀ instance d c, I d → running_call instance d c → allowed Φ c) →
  (∀ instance reqs d c,
     I d → handed_over instance reqs → stopped_call reqs d c → allowed Φ c) →
  holds I Φ (resourceYandexComputeInstanceUpdate remote) (λ _, True).
Proof.
  intros Hfolder Hnotfound Hunwaited Hrunning Hstopped.
  apply holds_Update_blocks; [|done|].
  - intros instance. by apply holds_update_folder_id.
  - intros instance reqs Hreqs. apply holds_update_stopped_instance. eauto.
Qed.

End compute_instance_holds.

(** A property of every event of the trace is kept by sequencing. *)
Lemma Sequential_Forall (I : ResourceData → Prop) (P : Event → Prop) :
  (∀ id d, I d → I (ResourceData.SetId id d)) →
  Sequential I (λ _ t, Forall P t).
Proof.
  intros HI. split; [done| |done|done]. intros _ t1 t2 H1 H2. by apply Forall_app.
Qed.

Lemma allowed_Forall (P : Event → Prop) (c : Call) :
  (∀ b, P (Called c b)) → (∀ b, P (Waited c b)) →
  allowed (λ _ t, Forall P t) c.
Proof. intros Hc Hw. unfold allowed. split_and!; repeat constructor; auto. Qed.

Lemma allowed_read_Forall (P : Event → Prop) (c : Call) :
  (∀ b, P (Called c b)) → allowed_read (λ _ t, Forall P t) c.
Proof. intros Hc. unfold allowed_read. split; repeat constructor; auto. Qed.

Lemma allowed_disk_read_Forall (P : Event → Prop) (c : Call) :
  (∀ b, P (Called c b)) → allowed_disk_read (λ _ t, Forall P t) c.
Proof. intros Hc. unfold allowed_disk_read. split; repeat constructor; auto. Qed.

(** ** Every operation is polled *)

(** The calls that create a resource. *)
Definition creates (c : Call) : bool :=
  match c with
  | InstanceCreate _ | ProfileCreate _ => true
  | _ => false
  end.

(** The calls whose error is handed to [handleNotFoundError], which may
    return nil. *)
Definition handled (c : Call) : bool :=
  match c with
  | InstanceGet _ | InstanceDelete _ | ProfileGet _ | ProfileDelete _ => true
  | _ => false
  end.

(** A trace that a run may go on from: every accepted call that is
    not a read is followed at once by a successful wait on its
    operation, and the only rejected calls are the [Get] and the
    [Delete] of the compute instance, whose error
    [handleNotFoundError] passed over. *)
Inductive polled : list Event → Prop :=
| polled_nil : polled []
| polled_read c t : reads c = true → polled t → polled (Called c true :: t)
| polled_waited c t :
    reads c = false → polled t → polled (Called c true :: Waited c true :: t)
| polled_get_not_found id t : polled t → polled (Called (InstanceGet id) false :: t)
| polled_delete_not_found id t :
    polled t → polled (Called (InstanceDelete id) false :: t).

(** The last events of a run that made [n] calls before them and
    returns without error or not ([ok]): nothing; a rejected call,
    which ends the run with an error unless its error is handled; an
    accepted call whose wait failed; or an accepted create call that
    is not waited for, whose operation has no create metadata.  The
    last two end the run with an error. *)
Inductive ending (remote : Remote) (n : nat) (ok : bool) : list Event → Prop :=
| ending_nil : ending remote n ok []
| ending_rejected c :
    (ok = true → handled c = true) → ending remote n ok [Called c false]
| ending_wait_failed c :
    ok = false → reads c = false →
    ending remote n ok [Called c true; Waited c false]
| ending_no_metadata c op :
    ok = false → creates c = true →
    operate remote n c = Ok op →
    (∀ id, op_Metadata op ≠ CreateMetadata id) →
    ending remote n ok [Called c true].

(** The trace of a run from the moment [n] of the remote side. *)
Definition disciplined_from (remote : Remote) (n : nat) (ok : bool) (t : list Event)
  : Prop :=
  ∃ t1 t2, t = t1 ++ t2 ∧ polled t1 ∧ ending remote (n + length (calls t1)) ok t2.

(** The trace of a run from the first moment: polled as long as the
    run went on, then an ending at the moment it reached. *)
Definition disciplined (remote : Remote) (ok : bool) (t : list Event) : Prop :=
  ∃ t1 t2, t = t1 ++ t2 ∧ polled t1 ∧ ending remote (length (calls t1)) ok t2.

(** The endings that do not depend on the remote side. *)
Inductive cut_short : list Event → Prop :=
| cut_short_rejected c : cut_short [Called c false]
| cut_short_wait c : reads c = false → cut_short [Called c true; Waited c false].

Definition polled_until (ok : bool) (t : list Event) : Prop :=
  polled t ∨ (ok = false ∧ ∃ t1 t2, t = t1 ++ t2 ∧ polled t1 ∧ cut_short t2).

(** A remote side on which the metadata of every operation cannot be
    read. *)
Definition opaqueRemote : Remote :=
  {| instance_get _ _ := Ok (exampleInstance compute.Instance_RUNNING);
     boot_disk _ _ := Ok VNil;
     profile_get _ _ := Ok exampleProfile;
     operate _ _ :=
       Ok {| op_Metadata := MetadataError "metadata unavailable";
             op_Wait := None;
             op_Response := None |} |}.

(** The helpers of the examples, with a handler that takes every
    error for the absence of the resource: it clears the id and
    returns nil. *)
Definition forgivingHelpers : Helpers := {|
  Quote := @Quote exampleHelpers;
  instanceAction_String := @instanceAction_String exampleHelpers;
  handleNotFoundError _ _ _ := ("", None);
  getZone := @getZone exampleHelpers;
  getFolderID := @getFolderID exampleHelpers;
  getTimestamp := @getTimestamp exampleHelpers;
  parseDuration := @parseDuration exampleHelpers;
  formatDuration := @formatDuration exampleHelpers;
  expandLabels := @expandLabels exampleHelpers;
  expandInstanceResourcesSpec := @expandInstanceResourcesSpec exampleHelpers;
  expandInstanceBootDiskSpec := @expandInstanceBootDiskSpec exampleHelpers;
  expandInstanceSecondaryDiskSpecs := @expandInstanceSecondaryDiskSpecs exampleHelpers;
  expandInstanceNetworkSettingsSpecs := @expandInstanceNetworkSettingsSpecs exampleHelpers;
  expandInstanceNetworkInterfaceSpecs := @expandInstanceNetworkInterfaceSpecs exampleHelpers;
  expandInstanceSchedulingPolicy := @expandInstanceSchedulingPolicy exampleHelpers;
  expandInstancePlacementPolicy := @expandInstancePlacementPolicy exampleHelpers;
  expandInstanceMetadataOptions := @expandInstanceMetadataOptions exampleHelpers;
  expandLocalDiskSpecs := @expandLocalDiskSpecs exampleHelpers;
  expandInstanceFilesystemSpecs := @expandInstanceFilesystemSpecs exampleHelpers;
  expandInstanceGpuSettingsSpec := @expandInstanceGpuSettingsSpec exampleHelpers;
  expandHostAffinityRulesSpec := @expandHostAffinityRulesSpec exampleHelpers;
  expandSecondaryDiskSpec := @expandSecondaryDiskSpec exampleHelpers;
  diskSpecChanged := @diskSpecChanged exampleHelpers;
  expandFilesystemSpec := @expandFilesystemSpec exampleHelpers;
  hashstructure_Hash := @hashstructure_Hash exampleHelpers;
  expandPrimaryV4AddressSpec := @expandPrimaryV4AddressSpec exampleHelpers;
  expandPrimaryV6AddressSpec := @expandPrimaryV6AddressSpec exampleHelpers;
  expandSecurityGroupIds := @expandSecurityGroupIds exampleHelpers;
  expandNetworkInterfaceSpec := @expandNetworkInterfaceSpec exampleHelpers;
  flattenInstanceResources := @flattenInstanceResources exampleHelpers;
  flattenInstanceSecondaryDisks := @flattenInstanceSecondaryDisks exampleHelpers;
  flattenInstanceSchedulingPolicy := @flattenInstanceSchedulingPolicy exampleHelpers;
  flattenInstancePlacementPolicy := @flattenInstancePlacementPolicy exampleHelpers;
  flattenInstanceNetworkInterfaces := @flattenInstanceNetworkInterfaces exampleHelpers;
  flattenLocalDisks := @flattenLocalDisks exampleHelpers;
  flattenInstanceMetadataOptions := @flattenInstanceMetadataOptions exampleHelpers;
  flattenInstanceFilesystems := @flattenInstanceFilesystems exampleHelpers;
  flattenComputeHardwareGeneration := @flattenComputeHardwareGeneration exampleHelpers;
  expandStringStringMap := @expandStringStringMap exampleHelpers;
  expandAdvancedRateLimiterProfileAdvancedRateLimiterRulesSlice := @expandAdvancedRateLimiterProfileAdvancedRateLimiterRulesSlice exampleHelpers;
  expandAdvancedRateLimiterProfileAdvancedRateLimiterRulesSlice_ := @expandAdvancedRateLimiterProfileAdvancedRateLimiterRulesSlice_ exampleHelpers;
  flattenAdvancedXrateXlimiterAdvancedRateLimiterRuleSlice := @flattenAdvancedXrateXlimiterAdvancedRateLimiterRuleSlice exampleHelpers
|}.

(** A remote side on which the instance is gone once the first Get has
    answered: the later Gets and the Delete are rejected. *)
Definition vanishedRemote : Remote :=
  {| instance_get n _ :=
       match n with
       | 0 => Ok (exampleInstance compute.Instance_RUNNING)
       | _ => Err "not found"
       end;
     boot_disk _ _ := Ok VNil;
     profile_get _ _ := Ok exampleProfile;
     operate _ c :=
       match c with
       | InstanceDelete _ => Err "not found"
       | _ => Ok {| op_Metadata := CreateMetadata "epd-new";
                    op_Wait := None;
                    op_Response := None |}
       end |}.

(** A configuration that moves the instance to another folder and
    allows recreating it. *)
Definition folderRecreate : ResourceData :=
  exampleData "epd-1"
    [("folder_id", VString "b1g-old")]
    [("folder_id", VString "b1g-new"); ("allow_recreate", VBool true)].

Lemma calls_app (t1 t2 : list Event) : calls (t1 ++ t2) = calls t1 ++ calls t2.
Proof. unfold calls. by rewrite omap_app. Qed.

Lemma calls_called (c : Call) (b : bool) (t : list Event) :
  calls (Called c b :: t) = c :: calls t.
Proof. done. Qed.

Lemma calls_waited (c : Call) (b : bool) (t : list Event) :
  calls (Waited c b :: t) = calls t.
Proof. done. Qed.

Lemma polled_app (t1 t2 : list Event) : polled t1 → polled t2 → polled (t1 ++ t2).
Proof. induction 1; intros; cbn; [done|by constructor; auto..]. Qed.

Lemma polled_next (t : list Event) (i : nat) (c : Call) :
  polled t → t !! i = Some (Called c true) → reads c = false →
  t !! S i = Some (Waited c true).
Proof.
  intros Ht. revert i.
  induction Ht as [|c' t Hread Ht IH|c' t Hread Ht IH|id t Ht IH|id t Ht IH];
    intros i Hi Hc.
  - done.
  - destruct i; [cbn in Hi; congruence|]. by apply IH.
  - destruct i as [|[|i]]; [cbn in Hi; by injection Hi as ->|done|]. by apply IH.
  - destruct i; [done|]. by apply IH.
  - destruct i; [done|]. by apply IH.
Qed.

Lemma Sequential_polled_until : Sequential (λ _, True) polled_until.
Proof.
  split; [left; apply polled_nil| |intros t [Ht|[[=] _]]; by left|done].
  intros b t1 t2 [H1|[[=] _]] [H2|(-> & u1 & u2 & -> & Hu1 & Hu2)].
  - left. by apply polled_app.
  - right. split; [done|]. exists (t1 ++ u1), u2.
    rewrite (assoc_L (++)). auto using polled_app.
Qed.

Lemma polled_until_rejected (c : Call) : polled_until false [Called c false].
Proof.
  right. split; [done|]. exists [], [Called c false]. split_and!; [done|constructor..].
Qed.

Lemma allowed_polled_until (c : Call) : reads c = false → allowed polled_until c.
Proof.
  intros Hc. split_and!.
  - apply polled_until_rejected.
  - right. split; [done|]. exists [], [Called c true; Waited c false].
    split_and!; [done|by constructor..].
  - left. by apply polled_waited, polled_nil.
Qed.

Lemma polled_until_ok (t : list Event) : polled_until true t → polled t.
Proof. by intros [Ht|[[=] _]]. Qed.

Section disciplined.

Variable remote : Remote.
Context `{Helpers}.

Lemma disciplined_from_polled (n : nat) (ok : bool) (t : list Event) :
  polled t → disciplined_from remote n ok t.
Proof. intros Ht. exists t, []. rewrite app_nil_r. split_and!; [done..|constructor]. Qed.

Lemma disciplined_from_until (n : nat) (ok : bool) (t : list Event) :
  polled_until ok t → disciplined_from remote n ok t.
Proof.
  intros [Ht|(-> & t1 & t2 & -> & Ht1 & Ht2)]; [by apply disciplined_from_polled|].
  exists t1, t2. split_and!; [done..|]. destruct Ht2; by constructor.
Qed.

Lemma disciplined_from_app (n : nat) (ok : bool) (t1 t2 : list Event) :
  polled t1 → disciplined_from remote (n + length (calls t1)) ok t2 →
  disciplined_from remote n ok (t1 ++ t2).
Proof.
  intros Ht1 (u1 & u2 & -> & Hu1 & Hu2). exists (t1 ++ u1), u2.
  split_and!; [by rewrite (assoc_L (++))|by apply polled_app|].
  by rewrite calls_app, length_app, Nat.add_assoc.
Qed.

Lemma disciplined_from_ending (n : nat) (ok : bool) (t : list Event) :
  ending remote n ok t → disciplined_from remote n ok t.
Proof.
  intros Ht. exists [], t. cbn. rewrite Nat.add_0_r. split_and!; [done|constructor|done].
Qed.

(** Read of the compute instance, and the blocks of Update that
    follow the [folder_id] block, make no create call. *)
Lemma polled_until_Read :
  holds (λ _, True) polled_until (resourceYandexComputeInstanceRead remote) (λ _, True).
Proof.
  pose proof Sequential_polled_until.
  apply (holds_Read (λ _, True) polled_until); [done|..].
  - intros id. split; (left; by repeat constructor).
  - intros instance. split; [apply polled_until_rejected|].
    left. apply polled_read; [done|constructor].
Qed.

Lemma polled_until_after_folder_id (instance : compute.Instance) :
  holds (λ _, True) polled_until (after_folder_id remote instance) (λ _, True).
Proof.
  pose proof Sequential_polled_until.
  apply (holds_after_folder_id (λ _, True) polled_until); [done|..].
  - intros id. split; (left; by repeat constructor).
  - intros instance'. split; [apply polled_until_rejected|].
    left. apply polled_read; [done|constructor].
  - intros d c _ Hc. apply allowed_polled_until. by destruct Hc.
  - intros reqs _. apply (holds_update_stopped_instance (λ _, True) polled_until).
    intros d c _ Hc. apply allowed_polled_until.
    destruct Hc as [id _ _|c _ _ [req Hreq|c' Hc]|id _ _]; try done. by destruct Hc.
Qed.

Lemma disciplined_Create (s : State) :
  wp (resourceYandexComputeInstanceCreate remote) s (λ r _ t,
    disciplined_from remote (st_clock s) (is_ok r) t ∧ (is_ok r = true → polled t)).
Proof.
  unfold resourceYandexComputeInstanceCreate. do 3 wp_step.
  destruct (prepareCreateInstanceRequest (st_d s)) as [req|e]; cbn -[wp];
    [|split; [apply disciplined_from_polled; constructor|done]].
  do 3 wp_step; cbn -[wp].
  2: { intros e _. split; [|done]. apply disciplined_from_ending. by constructor. }
  intros op Hop. destruct (op_Metadata op) as [id| |e] eqn:Hmd.
  - do 5 wp_step; cbn -[wp].
    2: { intros e _. split; [|done]. apply disciplined_from_ending. by constructor. }
    intros _. do 2 wp_step.
    destruct (op_Response op) as [e|]; cbn -[wp].
    { split; [|done]. apply disciplined_from_polled. by repeat constructor. }
    eapply wp_mono;
      [apply (wp_of_holds (λ _, True) polled_until); [apply polled_until_Read|done]|].
    cbn. intros r s1 t1 (Ht & _ & _).
    assert (Hcw : polled [Called (InstanceCreate req) true; Waited (InstanceCreate req) true])
      by by repeat constructor.
    split.
    + apply (disciplined_from_app _ _ [_; _]); [done|]. by apply disciplined_from_until.
    + intros Hr. rewrite Hr in Ht. apply (polled_app [_; _]); [done|].
      by apply polled_until_ok.
  - wp_step. cbn. split; [|done]. apply disciplined_from_ending.
    eapply ending_no_metadata; [done..|]. intros id. by rewrite Hmd.
  - wp_step. cbn. split; [|done]. apply disciplined_from_ending.
    eapply ending_no_metadata; [done..|]. intros id. by rewrite Hmd.
Qed.

Lemma disciplined_Delete (s : State) :
  wp (resourceYandexComputeInstanceDelete remote) s (λ r s' t,
    disciplined_from remote (st_clock s) (is_ok r) t ∧
    (is_ok r = true → polled t ∧ st_clock s' = st_clock s + length (calls t))).
Proof.
  unfold resourceYandexComputeInstanceDelete. do 4 wp_step; cbn -[wp].
  - intros op _. do 2 wp_step; cbn -[wp].
    + intros _. wp_step.
      assert (polled [Called (InstanceDelete (ResourceData.Id (st_d s))) true;
                      Waited (InstanceDelete (ResourceData.Id (st_d s))) true])
        by by repeat constructor.
      destruct (op_Response op); cbn;
        (split; [by apply disciplined_from_polled|intros; split; [done|lia]]).
    + intros e _. split; [|done]. apply disciplined_from_ending. by constructor.
  - intros e _. wp_step. destruct (handleNotFoundError _ _ _) as [id [e'|]]; cbn;
      (split; [apply disciplined_from_polled|intros _; split; [|lia]]);
      by repeat constructor.
Qed.

Lemma disciplined_update_folder_id (instance : compute.Instance) (s : State) :
  wp (update_folder_id remote instance) s (λ r _ t,
    disciplined_from remote (st_clock s) (is_ok r) t ∧ (is_ok r = true → polled t)).
Proof.
  pose proof Sequential_polled_until.
  unfold update_folder_id. wp_step.
  destruct (ResourceData.HasChange (st_d s) "folder_id");
    [|wp_step; split; [apply disciplined_from_polled|]; constructor].
  destruct (GetBool (st_d s) "allow_recreate"); cbn [negb].
  - wp_step. eapply wp_mono; [apply disciplined_Delete|].
    cbn -[wp]. intros [[]|e] s1 t1 [Hd Hp]; [|done].
    destruct (Hp eq_refl) as [Hp1 Hclock].
    eapply wp_mono; [apply disciplined_Create|].
    cbn. intros r s2 t2 [Hd2 Hp2]. split.
    + apply disciplined_from_app; [done|]. by rewrite <-Hclock.
    + intros Hr. apply polled_app; auto.
  - eapply wp_mono.
    { apply (wp_of_holds (λ _, True) polled_until); [|done].
      apply (holds_seq _ polled_until); [by apply holds_check|].
      apply (holds_seq _ polled_until).
      { apply (holds_when _ polled_until). intros _.
        apply (holds_makeInstanceActionRequest _ polled_until);
          intros; by apply allowed_polled_until. }
      apply (holds_seq _ polled_until).
      { apply (holds_makeInstanceMoveRequest _ polled_until).
        by apply allowed_polled_until. }
      apply (holds_makeInstanceActionRequest _ polled_until);
        intros; by apply allowed_polled_until. }
    cbn. intros r s1 t1 (Ht & _ & _). split; [by apply disciplined_from_until|].
    intros Hr. rewrite Hr in Ht. by apply polled_until_ok.
Qed.

Lemma disciplined_Update (s : State) :
  wp (resourceYandexComputeInstanceUpdate remote) s (λ r _ t,
    disciplined_from remote (st_clock s) (is_ok r) t).
Proof.
  unfold resourceYandexComputeInstanceUpdate. do 4 wp_step; cbn -[wp].
  2: { intros e _. wp_step. destruct (handleNotFoundError _ _ _) as [id [e'|]]; cbn;
         apply disciplined_from_polled; by repeat constructor. }
  intros instance _. wp_step.
  eapply wp_mono; [apply disciplined_update_folder_id|].
  cbn -[wp]. intros [[]|e] s1 t1 [Hd Hp].
  - specialize (Hp eq_refl).
    eapply wp_mono;
      [apply (wp_of_holds (λ _, True) polled_until);
         [apply (polled_until_after_folder_id instance)|done]|].
    cbn. intros r s2 t2 (Ht & _ & _).
    apply (disciplined_from_app _ _ (_ :: t1));
      [by apply polled_read|by apply disciplined_from_until].
  - apply (disciplined_from_app _ _ [_]); [by repeat constructor|].
    cbn. by rewrite Nat.add_1_r.
Qed.

Import advanced_rate_limiter.

(** Read of the ARL profile makes one call, the Get. *)
Lemma profile_Read_events (s : State) :
  wp (resourceYandexSmartwebsecurityAdvancedRateLimiterAdvancedRateLimiterProfileRead
        remote) s (λ r _ t,
    ∃ accepted, t = [Called (ProfileGet (ResourceData.Id (st_d s))) accepted]).
Proof.
  unfold resourceYandexSmartwebsecurityAdvancedRateLimiterAdvancedRateLimiterProfileRead.
  do 4 wp_step; cbn -[wp].
  2: { intros e _. wp_step. destruct (handleNotFoundError _ _ _) as [id [e'|]]; cbn; eauto. }
  intros resp _. do 2 wp_step.
  destruct (flattenAdvancedXrateXlimiterAdvancedRateLimiterRuleSlice _); cbn -[wp];
    [|eauto].
  do 6 (wp_step; wp_step; [intros; cbn; eauto|intros _; cbn -[wp]]).
  wp_step; intros; cbn; eauto.
Qed.

Lemma disciplined_profile_Read (n : nat) (r : result unit) (c : Call) (accepted : bool) :
  reads c = true → handled c = true →
  disciplined_from remote n (is_ok r) [Called c accepted].
Proof.
  intros Hread Hhandled. destruct accepted.
  - apply disciplined_from_polled. by repeat constructor.
  - apply disciplined_from_ending. by constructor.
Qed.

Lemma disciplined_from_start (ok : bool) (t : list Event) :
  disciplined_from remote 0 ok t → disciplined remote ok t.
Proof. done. Qed.

Lemma disciplined_waited (t : list Event) (i : nat) (c : Call) :
  disciplined remote true t →
  t !! i = Some (Called c true) → reads c = false → t !! S i = Some (Waited c true).
Proof.
  intros (t1 & t2 & -> & Ht1 & Ht2) Hi Hc.
  apply lookup_app_Some in Hi as [Hi|[Hlen Hi]].
  - apply lookup_app_l_Some. by eapply polled_next.
  - inversion Ht2 as [|c' Hc' Heq| |]; subst; try done.
    by destruct (i - length t1).
Qed.

End disciplined.



(** A run goes on after the rejected Delete and the rejected Get whose
    error the handler passes over: on an instance that is gone, the
    recreation makes the create call after the rejected Delete, the
    blocks of Update follow the rejected Get of its Read, and Update
    returns without error. *)
Example recreate_goes_on_when_not_found :
  ∃ req d',
    run (resourceYandexComputeInstanceUpdate (H:=forgivingHelpers) vanishedRemote)
        folderRecreate =
    (Ok tt, d',
     [Called (InstanceGet "epd-1") true;
      Called (InstanceDelete "epd-1") false;
      Called (InstanceCreate req) true; Waited (InstanceCreate req) true;
      Called (InstanceGet "epd-new") false;
      Called (InstanceGet "") false]).
Proof. eexists _, _. vm_compute. reflexivity. Qed.
(** ** The update mask of every update request *)

(** A field of [compute.UpdateInstanceRequest] that Update may set: the
    properties whose change it follows, its path in the update mask,
    and whether a request has a value other than the zero value in
    it. *)
Record MaskField : Type := {
  mf_properties : list string;
  mf_path : string;
  mf_populated : compute.UpdateInstanceRequest → Prop;
}.

Definition placement_field (p : compute.PlacementPolicy → Prop)
    (req : compute.UpdateInstanceRequest) : Prop :=
  ∃ policy, compute.upd_PlacementPolicy req = Some policy ∧ p policy.

(** The fields by the request that carries them: one request for each
    of six properties, one for the maintenance settings, one for what
    is changed on the stopped instance. *)
Definition request_fields : list (list MaskField) :=
  [ [ {| mf_properties := ["labels"]; mf_path := "labels";
         mf_populated req := compute.upd_Labels req ≠ VNil |} ];
    [ {| mf_properties := ["metadata"]; mf_path := "metadata";
         mf_populated req := compute.upd_Metadata req ≠ VNil |} ];
    [ {| mf_properties := ["metadata_options"]; mf_path := "metadata_options";
         mf_populated req := compute.upd_MetadataOptions req ≠ VNil |} ];
    [ {| mf_properties := ["name"]; mf_path := "name";
         mf_populated req := compute.upd_Name req ≠ "" |} ];
    [ {| mf_properties := ["description"]; mf_path := "description";
         mf_populated req := compute.upd_Description req ≠ "" |} ];
    [ {| mf_properties := ["service_account_id"]; mf_path := "service_account_id";
         mf_populated req := compute.upd_ServiceAccountId req ≠ "" |} ];
    [ {| mf_properties := ["maintenance_policy"]; mf_path := "maintenance_policy";
         mf_populated req :=
           compute.upd_MaintenancePolicy req ≠
           compute.MaintenancePolicy_MAINTENANCE_POLICY_UNSPECIFIED |};
      {| mf_properties := ["maintenance_grace_period"];
         mf_path := "maintenance_grace_period";
         mf_populated req := compute.upd_MaintenanceGracePeriod req ≠ VNil |} ];
    [ {| mf_properties := ["resources"]; mf_path := "resources_spec";
         mf_populated req := compute.upd_ResourcesSpec req ≠ VNil |};
      {| mf_properties := ["platform_id"]; mf_path := "platform_id";
         mf_populated req := compute.upd_PlatformId req ≠ "" |};
      {| mf_properties := ["network_acceleration_type"]; mf_path := "network_settings";
         mf_populated req := compute.upd_NetworkSettings req ≠ VNil |};
      {| mf_properties := ["scheduling_policy"];
         mf_path := "scheduling_policy.preemptible";
         mf_populated req := compute.upd_SchedulingPolicy req ≠ VNil |};
      {| mf_properties := ["placement_policy"; "placement_policy.0.placement_group_id"];
         mf_path := "placement_policy.placement_group_id";
         mf_populated :=
           placement_field (λ policy, compute.pp_PlacementGroupId policy ≠ "") |};
      {| mf_properties := ["placement_policy"; "placement_policy.0.host_affinity_rules"];
         mf_path := "placement_policy.host_affinity_rules";
         mf_populated :=
           placement_field (λ policy, compute.pp_HostAffinityRules policy ≠ []) |};
      {| mf_properties :=
           ["placement_policy"; "placement_policy.0.placement_group_partition"];
         mf_path := "placement_policy.placement_group_partition";
         mf_populated :=
           placement_field (λ policy, compute.pp_PlacementGroupPartition policy ≠ 0%Z)
      |} ] ].

Definition changed (d : ResourceData) (f : MaskField) : bool :=
  forallb (ResourceData.HasChange d) (mf_properties f).

(** The update mask of [req] lists exactly the paths of the changed
    fields of its request, in their order and once each; no field is
    populated that is not a changed field of this request. *)
Definition mask_exact (d : ResourceData) (req : compute.UpdateInstanceRequest) : Prop :=
  ∃ fields,
    fields ∈ request_fields ∧
    compute.upd_UpdateMask req = mf_path <$> List.filter (changed d) fields ∧
    Forall (λ fs,
      Forall (λ f, mf_populated f req → fs = fields ∧ changed d f = true) fs)
      request_fields ∧
    (is_Some (compute.upd_PlacementPolicy req) →
     ResourceData.HasChange d "placement_policy" = true).

Definition mask_exact_event (d : ResourceData) (e : Event) : Prop :=
  match e with
  | Called (InstanceUpdate req) _ => mask_exact d req
  | _ => True
  end.

(** ** The update mask is exact *)

Lemma HasChange_same_plan (d0 d : ResourceData) (key : string) :
  same_plan d0 d → ResourceData.HasChange d key = ResourceData.HasChange d0 key.
Proof.
  intros (Hstate & Hplan & _).
  unfold ResourceData.HasChange, ResourceData.GetChange. by rewrite Hstate, Hplan.
Qed.

Lemma mask_exact_same_plan (d0 d : ResourceData) (req : compute.UpdateInstanceRequest) :
  same_plan d0 d → mask_exact d req → mask_exact d0 req.
Proof.
  intros Hd (fields & Hin & Hmask & Hpop & Hpolicy).
  assert (Hchanged : ∀ f, changed d f = changed d0 f).
  { intros f. unfold changed. induction (mf_properties f) as [|key keys IH]; [done|].
    cbn. by rewrite (HasChange_same_plan d0 d), IH. }
  exists fields. split_and!; [done| | |].
  - rewrite Hmask. f_equal. apply List.filter_ext. auto.
  - eapply Forall_impl; [exact Hpop|]. intros fs Hfs.
    eapply Forall_impl; [exact Hfs|]. cbn. intros f Hf Hp.
    rewrite <- Hchanged. auto.
  - intros Hsome. rewrite <- (HasChange_same_plan d0 d); auto.
Qed.

Ltac request_fields_at n :=
  eexists; split; [apply (list_elem_of_lookup_2 _ n); reflexivity|].

Ltac use_changes :=
  repeat match goal with
         | H : ResourceData.HasChange _ _ = _ |- _ => rewrite H
         end.

Ltac field_case :=
  cbn; unfold placement_field; cbn; intros Hp;
  first [ done
        | by destruct Hp as (? & [=] & _)
        | by destruct Hp as (? & [= <-] & Hp); cbn in Hp
        | (split; [reflexivity|unfold changed; cbn; use_changes; reflexivity]) ].

Ltac populated_changed :=
  repeat (apply Forall_cons; split); try apply Forall_nil_2; field_case.

Ltac bind_results H :=
  repeat match type of H with
         | context [bind_result ?r _] =>
             lazymatch r with bind_result _ _ => fail | _ => idtac end;
             destruct r; cbn in H; [|done]
         end.

Ltac single_request n :=
  request_fields_at n; unfold changed; cbn; use_changes; cbn;
  split_and!; [done|populated_changed|first [done|by intros [? [=]]]].

Lemma mask_exact_running `{Helpers} (d : ResourceData)
    (req : compute.UpdateInstanceRequest) :
  running_update d req → mask_exact d req.
Proof.
  destruct 1 as [v Hc|v Hc|v Hc|v Hc|v Hc|v Hc|req Hc Hreq].
  - single_request 0.
  - single_request 1.
  - single_request 2.
  - single_request 3.
  - single_request 4.
  - single_request 5.
  - clear Hc. unfold maintenanceRequest in Hreq.
    destruct (ResourceData.HasChange d "maintenance_policy") eqn:Hpolicy,
      (ResourceData.HasChange d "maintenance_grace_period") eqn:Hperiod;
      cbn in Hreq;
      bind_results Hreq; injection Hreq as <-; single_request 6.
Qed.

Ltac request_fields :=
  cbv beta iota delta
    [compute.append_Paths compute.UpdateInstanceRequest_new
     compute.with_Name compute.with_Description compute.with_Labels
     compute.with_ResourcesSpec compute.with_PlatformId compute.with_ServiceAccountId
     compute.with_Metadata compute.with_MetadataOptions compute.with_NetworkSettings
     compute.with_PlacementPolicy compute.with_SchedulingPolicy
     compute.with_MaintenancePolicy compute.with_MaintenanceGracePeriod
     compute.upd_InstanceId compute.upd_UpdateMask compute.upd_Name
     compute.upd_Description compute.upd_Labels compute.upd_ResourcesSpec
     compute.upd_PlatformId compute.upd_ServiceAccountId compute.upd_Metadata
     compute.upd_MetadataOptions compute.upd_NetworkSettings
     compute.upd_PlacementPolicy compute.upd_SchedulingPolicy
     compute.upd_MaintenancePolicy compute.upd_MaintenanceGracePeriod app].

Lemma preparePlacementPolicyForUpdateRequest_shape `{Helpers} (d : ResourceData) :
  preparePlacementPolicyForUpdateRequest d =
  ({| compute.pp_PlacementGroupId :=
        if ResourceData.HasChange d "placement_policy.0.placement_group_id"
        then GetString d "placement_policy.0.placement_group_id" else "";
      compute.pp_HostAffinityRules :=
        if ResourceData.HasChange d "placement_policy.0.host_affinity_rules"
        then expandHostAffinityRulesSpec
               (asList (ResourceData.Get d "placement_policy.0.host_affinity_rules"))
        else [];
      compute.pp_PlacementGroupPartition :=
        if ResourceData.HasChange d "placement_policy.0.placement_group_partition"
        then GetInt d "placement_policy.0.placement_group_partition" else 0%Z |},
   (if ResourceData.HasChange d "placement_policy.0.placement_group_id"
    then ["placement_policy.placement_group_id"] else []) ++
   (if ResourceData.HasChange d "placement_policy.0.host_affinity_rules"
    then ["placement_policy.host_affinity_rules"] else []) ++
   (if ResourceData.HasChange d "placement_policy.0.placement_group_partition"
    then ["placement_policy.placement_group_partition"] else [])).
Proof.
  unfold preparePlacementPolicyForUpdateRequest.
  by destruct (ResourceData.HasChange d "placement_policy.0.placement_group_id"),
    (ResourceData.HasChange d "placement_policy.0.host_affinity_rules"),
    (ResourceData.HasChange d "placement_policy.0.placement_group_partition").
Qed.

Lemma stoppedInstanceRequest_shape `{Helpers} (d : ResourceData)
    (req : compute.UpdateInstanceRequest) :
  stoppedInstanceRequest d = Ok req →
  ∃ spec settings scheduling,
    req =
    {| compute.upd_InstanceId := ResourceData.Id d;
       compute.upd_UpdateMask :=
         (if ResourceData.HasChange d "resources" then ["resources_spec"] else []) ++
         (if ResourceData.HasChange d "platform_id" then ["platform_id"] else []) ++
         (if ResourceData.HasChange d "network_acceleration_type"
          then ["network_settings"] else []) ++
         (if ResourceData.HasChange d "scheduling_policy"
          then ["scheduling_policy.preemptible"] else []) ++
         (if ResourceData.HasChange d "placement_policy"
          then (preparePlacementPolicyForUpdateRequest d).2 else []);
       compute.upd_Name := ""; compute.upd_Description := "";
       compute.upd_Labels := VNil;
       compute.upd_ResourcesSpec :=
         if ResourceData.HasChange d "resources" then spec else VNil;
       compute.upd_PlatformId :=
         if ResourceData.HasChange d "platform_id"
         then GetString d "platform_id" else "";
       compute.upd_ServiceAccountId := ""; compute.upd_Metadata := VNil;
       compute.upd_MetadataOptions := VNil;
       compute.upd_NetworkSettings :=
         if ResourceData.HasChange d "network_acceleration_type"
         then settings else VNil;
       compute.upd_PlacementPolicy :=
         if ResourceData.HasChange d "placement_policy"
         then Some (preparePlacementPolicyForUpdateRequest d).1 else None;
       compute.upd_SchedulingPolicy :=
         if ResourceData.HasChange d "scheduling_policy" then scheduling else VNil;
       compute.upd_MaintenancePolicy :=
         compute.MaintenancePolicy_MAINTENANCE_POLICY_UNSPECIFIED;
       compute.upd_MaintenanceGracePeriod := VNil |}.
Proof.
  unfold stoppedInstanceRequest.
  destruct (preparePlacementPolicyForUpdateRequest d) as [policy paths].
  destruct (ResourceData.HasChange d "resources"),
    (ResourceData.HasChange d "platform_id"),
    (ResourceData.HasChange d "network_acceleration_type"),
    (ResourceData.HasChange d "scheduling_policy"),
    (ResourceData.HasChange d "placement_policy");
    cbn; intros Hreq; bind_results Hreq; injection Hreq as <-;
    request_fields; eexists _, _, _; reflexivity.
  Unshelve. all: exact VNil.
Qed.

Lemma filter_changed_paths (d : ResourceData) (f : MaskField) (fs : list MaskField) :
  mf_path <$> List.filter (changed d) (f :: fs) =
  (if changed d f then [mf_path f] else []) ++ (mf_path <$> List.filter (changed d) fs).
Proof. cbn. by destruct (changed d f). Qed.

Lemma mask_exact_stopped `{Helpers} (d : ResourceData)
    (req : compute.UpdateInstanceRequest) :
  stoppedInstanceRequest d = Ok req → mask_exact d req.
Proof.
  intros (spec & settings & scheduling & ->)%stoppedInstanceRequest_shape.
  rewrite preparePlacementPolicyForUpdateRequest_shape.
  request_fields_at 7. split_and!.
  - rewrite !filter_changed_paths. unfold changed. cbn.
    by destruct (ResourceData.HasChange d "resources"),
      (ResourceData.HasChange d "platform_id"),
      (ResourceData.HasChange d "network_acceleration_type"),
      (ResourceData.HasChange d "scheduling_policy"),
      (ResourceData.HasChange d "placement_policy"),
      (ResourceData.HasChange d "placement_policy.0.placement_group_id"),
      (ResourceData.HasChange d "placement_policy.0.host_affinity_rules"),
      (ResourceData.HasChange d "placement_policy.0.placement_group_partition").
  - repeat first [apply List.Forall_nil|apply List.Forall_cons].
    all: unfold changed; cbn; unfold placement_field; cbn.
    all: repeat match goal with
             | |- context [ResourceData.HasChange ?x ?key] =>
                 destruct (ResourceData.HasChange x key)
             end.
    all: cbn.
    all: first [done|by intros (? & [=] & _)|by intros (? & [= <-] & ?)].
  - by destruct (ResourceData.HasChange d "placement_policy"); [|intros [? [=]]].
Qed.

(** C3. Every [compute.UpdateInstanceRequest] that Update sends carries
    an update mask that lists exactly the paths of the fields changed
    for that request: a request for one of labels, metadata,
    metadata_options, name, description and service_account_id carries
    that one path; the request for the maintenance settings carries
    the path of each of the two that changed; the request made on the
    stopped instance carries resources_spec, platform_id,
    network_settings, scheduling_policy.preemptible when resources,
    platform_id, network_acceleration_type, scheduling_policy changed,
    and a path placement_policy.* when placement_policy and that one of
    its settings changed.  No field of a request is populated but from
    a changed property of that request. *)
Theorem update_mask_exact (remote : Remote) `{Helpers} (d : ResourceData) :
  let '(_, _, t) := run (resourceYandexComputeInstanceUpdate remote) d in
  ∀ req accepted, Called (InstanceUpdate req) accepted ∈ t → mask_exact d req.
Proof.
  pose proof (Sequential_Forall (same_plan d) (mask_exact_event d)) as Hseq.
  assert (Hupdate : holds (same_plan d) (λ _ t, Forall (mask_exact_event d) t)
                      (resourceYandexComputeInstanceUpdate remote) (λ _, True)).
  { apply holds_Update.
    - by apply Hseq.
    - by intros key v d1 _ (? & ? & ?).
    - intros id. by apply allowed_read_Forall.
    - intros instance. by apply allowed_disk_read_Forall.
    - intros d1 c _ Hc. by destruct Hc; apply allowed_Forall.
    - intros id. by repeat constructor.
    - intros req. by repeat constructor.
    - intros instance d1 c Hd Hc. destruct Hc; apply allowed_Forall; try done.
      intros b. cbn. by apply (mask_exact_same_plan d d1), mask_exact_running.
    - intros instance reqs d1 c Hd _ Hc.
      destruct Hc as [id _ _|c _ _ [req Hreq|c' Hc]|id _ _]; try by apply allowed_Forall.
      + apply allowed_Forall; [|done]. intros b. cbn.
        by apply (mask_exact_same_plan d d1), mask_exact_stopped.
      + by destruct Hc; apply allowed_Forall. }
  unfold run. specialize (Hupdate {| st_d := d; st_clock := 0 |}).
  destruct (resourceYandexComputeInstanceUpdate _ _) as [[r s] t].
  destruct Hupdate as [Ht _]; [done|].
  intros req accepted Hin. rewrite Forall_forall in Ht. apply (Ht _ Hin).
Qed.

(** ** The folder_id block *)

(** The calls that move the instance to the folder of the
    configuration: Stop unless the instance is stopped, Move, Start. *)
Definition move_calls `{Helpers} (instance : compute.Instance) (d : ResourceData)
  : list Call :=
  (if compute.Instance_Status_eqb (compute.Instance_Status_ instance)
        compute.Instance_STOPPED
   then [] else [InstanceStop (ResourceData.Id d)]) ++
  [InstanceMove {| compute.mv_InstanceId := ResourceData.Id d;
                   compute.mv_DestinationFolderId := GetString d "folder_id" |};
   InstanceStart (ResourceData.Id d)].

Definition not_move (c : Call) : Prop :=
  match c with InstanceMove _ => False | _ => True end.

Definition not_move_event (e : Event) : Prop :=
  match e with Called c _ => not_move c | Waited _ _ => True end.

Ltac calls_of_trace :=
  repeat first [rewrite calls_app|rewrite calls_called|rewrite calls_waited].

Lemma wp_call_and_wait (remote : Remote) (c : Call) (onCall onWait : error → error)
    (s : State) (Q : result unit → State → list Event → Prop) :
  (∀ s', st_d s' = st_d s → Q (Ok tt) s' [Called c true; Waited c true]) →
  (∀ e s' t, st_d s' = st_d s → calls t = [c] → Q (Err e) s' t) →
  wp (call_and_wait remote c onCall onWait) s Q.
Proof.
  intros Hok Herr. unfold call_and_wait. do 3 wp_step; cbn.
  - intros op _. do 2 wp_step; cbn; [intros _; by apply Hok|intros e _; by apply Herr].
  - intros e _. by apply Herr.
Qed.

Lemma wp_any {A} (m : M A) (s : State) : wp m s (λ _ _ _, True).
Proof. done. Qed.

Lemma wp_and {A} (m : M A) (s : State) (Q R : result A → State → list Event → Prop) :
  wp m s Q → wp m s R → wp m s (λ r s' t, Q r s' t ∧ R r s' t).
Proof. by split. Qed.

Lemma Sequential_no_move :
  Sequential (λ _, True) (λ _ t, Forall not_move_event t).
Proof. by apply Sequential_Forall. Qed.

Lemma after_folder_id_no_move (remote : Remote) `{Helpers} (instance : compute.Instance) :
  holds (λ _, True) (λ _ t, Forall not_move_event t)
    (after_folder_id remote instance) (λ _, True).
Proof.
  apply holds_after_folder_id;
    [apply Sequential_no_move|done|by intros; apply allowed_read_Forall
    |by intros; apply allowed_disk_read_Forall| |].
  - intros d c _ Hc. by destruct Hc; apply allowed_Forall.
  - intros reqs _. apply holds_update_stopped_instance; [apply Sequential_no_move|].
    intros d c _ Hc.
    destruct Hc as [id _ _|c _ _ [req Hreq|c' Hc]|id _ _]; try by apply allowed_Forall.
    by destruct Hc; apply allowed_Forall.
Qed.

Lemma Create_no_move (remote : Remote) `{Helpers} :
  holds (λ _, True) (λ _ t, Forall not_move_event t)
    (resourceYandexComputeInstanceCreate remote) (λ _, True).
Proof.
  apply holds_Create;
    [apply Sequential_no_move|done|by intros; apply allowed_read_Forall
    |by intros; apply allowed_disk_read_Forall|].
  intros d req _ _. split; [by apply allowed_Forall|by repeat constructor].
Qed.

Lemma run_wp {A} (m : M A) (d : ResourceData)
    (Q : result A * ResourceData * list Event → Prop) :
  wp m {| st_d := d; st_clock := 0 |} (λ r s t, Q (r, st_d s, t)) → Q (run m d).
Proof. unfold wp, run. by destruct (m _) as [[r s] t]. Qed.

Lemma wp_makeInstanceActionRequest_stop (remote : Remote) `{Helpers} (s : State)
    (Q : result unit → State → list Event → Prop) :
  let c := InstanceStop (ResourceData.Id (st_d s)) in
  (∀ s', st_d s' = st_d s → Q (Ok tt) s' [Called c true; Waited c true]) →
  (∀ e s' t, st_d s' = st_d s → calls t = [c] → Q (Err e) s' t) →
  wp (makeInstanceActionRequest remote instanceActionStop) s Q.
Proof.
  intros c Hok Herr. unfold makeInstanceActionRequest. wp_step.
  by apply wp_call_and_wait.
Qed.

Lemma wp_makeInstanceActionRequest_start (remote : Remote) `{Helpers} (s : State)
    (Q : result unit → State → list Event → Prop) :
  let c := InstanceStart (ResourceData.Id (st_d s)) in
  (∀ s', st_d s' = st_d s → Q (Ok tt) s' [Called c true; Waited c true]) →
  (∀ e s' t, st_d s' = st_d s → calls t = [c] → Q (Err e) s' t) →
  wp (makeInstanceActionRequest remote instanceActionStart) s Q.
Proof.
  intros c Hok Herr. unfold makeInstanceActionRequest. wp_step.
  by apply wp_call_and_wait.
Qed.

Lemma wp_makeInstanceMoveRequest (remote : Remote) `{Helpers}
    (req : compute.MoveInstanceRequest) (s : State)
    (Q : result unit → State → list Event → Prop) :
  let c := InstanceMove req in
  (∀ s', st_d s' = st_d s → Q (Ok tt) s' [Called c true; Waited c true]) →
  (∀ e s' t, st_d s' = st_d s → calls t = [c] → Q (Err e) s' t) →
  wp (makeInstanceMoveRequest remote req) s Q.
Proof.
  intros c Hok Herr. unfold makeInstanceMoveRequest. wp_step.
  by apply wp_call_and_wait.
Qed.

Lemma wp_update_folder_id_move (remote : Remote) `{Helpers}
    (instance : compute.Instance) (s : State) :
  ResourceData.HasChange (st_d s) "folder_id" = true →
  GetBool (st_d s) "allow_recreate" = false →
  GetBool (st_d s) "allow_stopping_for_update" = true →
  wp (update_folder_id remote instance) s
    (λ r s' t,
       st_d s' = st_d s ∧
       ((is_ok r = true ∧ calls t = move_calls instance (st_d s)) ∨
        (is_ok r = false ∧ ∃ k, calls t = take k (move_calls instance (st_d s))))).
Proof.
  intros Hchange Hrecreate Hallow. unfold update_folder_id, move_calls.
  wp_step. rewrite Hchange, Hrecreate. cbn [negb].
  wp_step. wp_step. unfold ensureAllowStoppingForUpdate. rewrite Hallow. cbn -[calls].
  wp_step.
  destruct (compute.Instance_Status_eqb _ _); cbn -[calls].
  - wp_step. apply wp_makeInstanceMoveRequest; cbn -[calls].
    2: { intros e s1 t1 Hd Ht. split; [done|]. right. split; [done|]. by exists 1. }
    intros s1 Hd. rewrite <- Hd. apply wp_makeInstanceActionRequest_start; cbn -[calls].
    + intros s2 ->. split; [done|]. by left.
    + intros e s2 t2 -> Ht. split; [done|]. right. split; [done|]. exists 2.
      calls_of_trace. by rewrite Ht.
  - apply wp_makeInstanceActionRequest_stop; cbn -[calls].
    2: { intros e s1 t1 Hd Ht. split; [done|]. right. split; [done|]. by exists 1. }
    intros s1 Hd. rewrite <- Hd. wp_step. apply wp_makeInstanceMoveRequest; cbn -[calls].
    2: { intros e s2 t2 Hd2 Ht. split; [done|]. right. split; [done|]. exists 2.
         calls_of_trace. by rewrite Ht. }
    intros s2 Hd2. rewrite <- Hd2.
    apply wp_makeInstanceActionRequest_start; cbn -[calls].
    + intros s3 ->. split; [done|]. by left.
    + intros e s3 t3 -> Ht. split; [done|]. right. split; [done|]. exists 3.
      calls_of_trace. by rewrite Ht.
Qed.

(** The events of calls made one after the other, each through
    [WrapOperation] and then waited for, a call being made once the Wait
    on the one before has succeeded: [sequence true cs t] when every
    call of [cs] was accepted and its Wait succeeded, [sequence false cs
    t] when [t] ends on the first call that was rejected or whose Wait
    failed, the calls after it not being made. *)
Inductive sequence : bool → list Call → list Event → Prop :=
| sequence_nil : sequence true [] []
| sequence_done ok c cs t :
    sequence ok cs t → sequence ok (c :: cs) (Called c true :: Waited c true :: t)
| sequence_rejected c cs : sequence false (c :: cs) [Called c false]
| sequence_wait_failed c cs : sequence false (c :: cs) [Called c true; Waited c false].

Lemma sequence_app (ok : bool) (cs1 cs2 : list Call) (t1 t2 : list Event) :
  sequence true cs1 t1 → sequence ok cs2 t2 → sequence ok (cs1 ++ cs2) (t1 ++ t2).
Proof.
  intros H1. remember true as b eqn:Hb. revert Hb.
  induction H1 as [|b c cs t Ht IH| |]; intros Hb H2; try done.
  cbn. constructor. by apply IH.
Qed.

Lemma sequence_cut (cs1 cs2 : list Call) (t : list Event) :
  sequence false cs1 t → sequence false (cs1 ++ cs2) t.
Proof.
  intros H1. remember false as b eqn:Hb. revert Hb.
  induction H1 as [|b c cs t Ht IH| |]; intros Hb; try done; cbn.
  - constructor. by apply IH.
  - constructor.
  - constructor.
Qed.

(** [makes m d cs]: run on the resource data [d], which it leaves as
    they are, [m] makes the calls [cs] in sequence and returns an error
    exactly when one of them fails. *)
Definition makes (m : M unit) (d : ResourceData) (cs : list Call) : Prop :=
  ∀ s, st_d s = d → wp m s (λ r s' t, st_d s' = d ∧ sequence (is_ok r) cs t).

Section makes.

Variable remote : Remote.
Context `{Helpers}.

Lemma makes_ret (d : ResourceData) : makes (mret tt) d [].
Proof. intros s Hs. split; [done|constructor]. Qed.

Lemma makes_seq (m k : M unit) (d : ResourceData) (cs1 cs2 : list Call) :
  makes m d cs1 → makes k d cs2 → makes (m ;; k) d (cs1 ++ cs2).
Proof.
  intros Hm Hk s Hs. wp_step. eapply wp_mono; [by apply Hm|].
  cbn -[wp]. intros [[]|e] s1 t1 [Hs1 Ht1]; [|split; [done|by apply sequence_cut]].
  eapply wp_mono; [by apply Hk|]. cbn. intros r s2 t2 [Hs2 Ht2].
  split; [done|by apply sequence_app].
Qed.

Lemma makes_get_d (f : ResourceData → M unit) (d : ResourceData) (cs : list Call) :
  makes (f d) d cs → makes (get_d ≫= f) d cs.
Proof. intros Hf s Hs. wp_step. rewrite Hs. by apply Hf. Qed.

Lemma makes_when (b : bool) (m : M unit) (d : ResourceData) (cs : list Call) :
  makes m d cs → makes (when b m) d (if b then cs else []).
Proof. destruct b; [done|intros _; apply makes_ret]. Qed.

Lemma makes_call_and_wait (c : Call) (onCall onWait : error → error)
    (d : ResourceData) :
  makes (call_and_wait remote c onCall onWait) d [c].
Proof.
  intros s Hs. unfold call_and_wait. do 3 wp_step; cbn.
  - intros op _. do 2 wp_step; cbn; intros; (split; [done|by repeat constructor]).
  - intros e _. split; [done|constructor].
Qed.

Lemma makes_for_each {A} (xs : list A) (body : A → M unit) (f : A → Call)
    (d : ResourceData) :
  (∀ x, makes (body x) d [f x]) → makes (for_each xs body) d (f <$> xs).
Proof.
  intros Hbody. induction xs as [|x xs IH]; [apply makes_ret|].
  cbn [for_each fmap list_fmap]. by apply (makes_seq _ _ _ [_]).
Qed.

Lemma makes_makeInstanceActionRequest_stop (d : ResourceData) :
  makes (makeInstanceActionRequest remote instanceActionStop) d
    [InstanceStop (ResourceData.Id d)].
Proof. apply makes_get_d. apply makes_call_and_wait. Qed.

Lemma makes_makeInstanceActionRequest_start (d : ResourceData) :
  makes (makeInstanceActionRequest remote instanceActionStart) d
    [InstanceStart (ResourceData.Id d)].
Proof. apply makes_get_d. apply makes_call_and_wait. Qed.

Lemma makes_makeInstanceMoveRequest (req : compute.MoveInstanceRequest)
    (d : ResourceData) :
  makes (makeInstanceMoveRequest remote req) d [InstanceMove req].
Proof. apply makes_get_d. apply makes_call_and_wait. Qed.

Lemma makes_makeInstanceUpdateRequest (req : compute.UpdateInstanceRequest)
    (d : ResourceData) :
  makes (makeInstanceUpdateRequest remote req) d [InstanceUpdate req].
Proof. apply makes_get_d. apply makes_call_and_wait. Qed.

Lemma makes_makeInstanceUpdateNetworkInterfaceRequest
    (req : compute.UpdateInstanceNetworkInterfaceRequest) (d : ResourceData) :
  makes (makeInstanceUpdateNetworkInterfaceRequest remote req) d
    [InstanceUpdateNetworkInterface req].
Proof. apply makes_get_d. apply makes_call_and_wait. Qed.

Lemma makes_makeInstanceAddOneToOneNatRequest
    (req : compute.AddInstanceOneToOneNatRequest) (d : ResourceData) :
  makes (makeInstanceAddOneToOneNatRequest remote req) d [InstanceAddOneToOneNat req].
Proof. apply makes_get_d. apply makes_call_and_wait. Qed.

Lemma makes_makeInstanceRemoveOneToOneNatRequest
    (req : compute.RemoveInstanceOneToOneNatRequest) (d : ResourceData) :
  makes (makeInstanceRemoveOneToOneNatRequest remote req) d
    [InstanceRemoveOneToOneNat req].
Proof. apply makes_get_d. apply makes_call_and_wait. Qed.

Lemma makes_makeInstanceAttachNetworkInterfaceRequest
    (req : compute.AttachInstanceNetworkInterfaceRequest) (d : ResourceData) :
  makes (makeInstanceAttachNetworkInterfaceRequest remote req) d
    [InstanceAttachNetworkInterface req].
Proof. apply makes_get_d. apply makes_call_and_wait. Qed.

Lemma makes_makeInstanceDetachNetworkInterfaceRequest
    (req : compute.DetachInstanceNetworkInterfaceRequest) (d : ResourceData) :
  makes (makeInstanceDetachNetworkInterfaceRequest remote req) d
    [InstanceDetachNetworkInterface req].
Proof. apply makes_get_d. apply makes_call_and_wait. Qed.

End makes.

(** The events of Delete of the instance [id], and whether it returned
    without error: the call was accepted and waited for, with an error
    when the Wait failed or the response holds one; or the call was
    rejected, without error when [handleNotFoundError] returns nil. *)
Inductive deletion (id : string) : bool → list Event → Prop :=
| deletion_done ok :
    deletion id ok [Called (InstanceDelete id) true; Waited (InstanceDelete id) true]
| deletion_wait_failed :
    deletion id false [Called (InstanceDelete id) true; Waited (InstanceDelete id) false]
| deletion_rejected ok : deletion id ok [Called (InstanceDelete id) false].

Lemma wp_Delete_events (remote : Remote) `{Helpers} (s : State) :
  wp (resourceYandexComputeInstanceDelete remote) s
    (λ r _ t, deletion (ResourceData.Id (st_d s)) (is_ok r) t).
Proof.
  unfold resourceYandexComputeInstanceDelete. do 4 wp_step; cbn.
  - intros op _. do 2 wp_step; cbn; [intros _|intros; constructor].
    wp_step. destruct (op_Response op); constructor.
  - intros e _. wp_step. destruct (handleNotFoundError _ _ _) as [id [e'|]]; constructor.
Qed.

Lemma wp_Create_events (remote : Remote) `{Helpers} (s : State) :
  wp (resourceYandexComputeInstanceCreate remote) s
    (λ r _ t,
       Forall not_move_event t ∧
       (is_ok r = true →
        ∃ req rest,
          t = Called (InstanceCreate req) true :: Waited (InstanceCreate req) true :: rest)).
Proof.
  apply (wp_and _ _ (λ _ _ t, Forall not_move_event t)
           (λ r _ t, is_ok r = true → ∃ req rest, t = _ :: _ :: rest)).
  - eapply wp_mono; [apply (wp_of_holds _ _ _ _ s (Create_no_move remote) Logic.I)|].
    by intros r s1 t1 (Ht & _).
  - unfold resourceYandexComputeInstanceCreate. do 2 wp_step.
    destruct (prepareCreateInstanceRequest (st_d s)) as [req|e]; wp_step; cbn; [|done].
    do 3 wp_step; cbn; [|done]. intros op _.
    destruct (op_Metadata op) as [id| |e]; [|by wp_step..].
    do 5 wp_step; cbn -[wp]; [|done]. intros _.
    eapply wp_mono; [apply wp_any|]. cbn. intros r s1 t1 _ _.
    by eexists _, _.
Qed.

Lemma makes_update_folder_id_move (remote : Remote) `{Helpers}
    (instance : compute.Instance) (d : ResourceData) :
  ResourceData.HasChange d "folder_id" = true →
  GetBool d "allow_recreate" = false →
  GetBool d "allow_stopping_for_update" = true →
  makes (update_folder_id remote instance) d (move_calls instance d).
Proof.
  intros Hchange Hrecreate Hallow. unfold update_folder_id, move_calls.
  apply makes_get_d. rewrite Hchange, Hrecreate. cbn [negb].
  unfold ensureAllowStoppingForUpdate. rewrite Hallow.
  apply (makes_seq (mret tt) _ _ []); [apply makes_ret|].
  apply makes_seq.
  - destruct (compute.Instance_Status_eqb _ _); cbn [negb];
      [apply makes_ret|apply makes_makeInstanceActionRequest_stop].
  - apply (makes_seq _ _ _ [_] [_]);
      [apply makes_makeInstanceMoveRequest|apply makes_makeInstanceActionRequest_start].
Qed.

(** What Update does for a changed folder_id, in the events [t] that
    follow its first Get and in its result [r]. *)
Definition folder_outcome `{Helpers} (instance : compute.Instance) (d : ResourceData)
    (r : result unit) (t : list Event) : Prop :=
  if GetBool d "allow_recreate" then
    ∃ ok deleted rest,
      t = deleted ++ rest ∧
      deletion (ResourceData.Id d) ok deleted ∧
      Forall not_move_event rest ∧
      (ok = false → rest = [] ∧ is_ok r = false) ∧
      (is_ok r = true →
       ∃ req rest',
         rest =
           Called (InstanceCreate req) true :: Waited (InstanceCreate req) true :: rest')
  else if GetBool d "allow_stopping_for_update" then
    ∃ ok moved rest,
      t = moved ++ rest ∧
      sequence ok (move_calls instance d) moved ∧
      Forall not_move_event rest ∧
      (ok = false → rest = [] ∧ is_ok r = false)
  else t = [] ∧ is_ok r = false.


(** A configuration that moves the instance to another folder and
    allows neither recreating nor stopping it. *)
Definition folderChange : ResourceData :=
  exampleData "epd-1"
    [("folder_id", VString "b1g-old")]
    [("folder_id", VString "b1g-new")].


(** With allow_stopping_for_update set, the same change stops, moves
    and starts the running instance, and Update ends with Read. *)
Example folder_change_moves :
  calls (run (resourceYandexComputeInstanceUpdate (H:=exampleHelpers)
                (obligingRemote compute.Instance_RUNNING))
           (exampleData "epd-1"
              [("folder_id", VString "b1g-old")]
              [("folder_id", VString "b1g-new");
               ("allow_stopping_for_update", VBool true)])).2 =
  [InstanceGet "epd-1"; InstanceStop "epd-1";
   InstanceMove {| compute.mv_InstanceId := "epd-1";
                   compute.mv_DestinationFolderId := "b1g-new" |};
   InstanceStart "epd-1"; InstanceGet "epd-1";
   DiskRead (exampleInstance compute.Instance_RUNNING)].
Proof. vm_compute. reflexivity. Qed.
(** ** The order of Stop, the requests on the stopped instance, and Start *)

(** The paths of an update mask that name what can only be changed
    on a stopped instance. *)
Definition stopped_paths : list string :=
  ["resources_spec"; "platform_id"; "network_settings"; "scheduling_policy.preemptible";
   "placement_policy.placement_group_id"; "placement_policy.host_affinity_rules";
   "placement_policy.placement_group_partition"].

(** Whether the change of network_interface is one flagged as needing
    a stopped instance: the number of interfaces differs, or
    [getSpecsForUpdateNetworkInterfaces] asks to stop. *)
Definition interface_stop `{Helpers} (d : ResourceData) : bool :=
  let '(o, n) := ResourceData.GetChange d "network_interface" in
  negb (length (asList o) =? length (asList n)) ||
  (getSpecsForUpdateNetworkInterfaces d "network_interface" (asList o) (asList n)).1.2.

(** The requests for the properties that require a stopped
    instance. *)
Definition stop_bound `{Helpers} (d : ResourceData) (c : Call) : Prop :=
  match c with
  | InstanceUpdate req =>
      ∃ p, p ∈ compute.upd_UpdateMask req ∧ p ∈ stopped_paths
  | InstanceAttachNetworkInterface _ | InstanceDetachNetworkInterface _ => True
  | InstanceAddOneToOneNat _ | InstanceRemoveOneToOneNat _
  | InstanceUpdateNetworkInterface _ => interface_stop d = true
  | _ => False
  end.

(** An event that is no request for a property that requires a
    stopped instance. *)
Definition unbound `{Helpers} (d : ResourceData) (e : Event) : Prop :=
  match e with
  | Called c _ => ¬ stop_bound d c
  | Waited _ _ => True
  end.

(** An event of a call that only reads. *)
Definition reading (e : Event) : Prop :=
  match e with
  | Called c _ => reads c = true
  | Waited _ _ => False
  end.

(** The requests made between Stop and Start for the network
    interfaces, in the order of [stoppedInterfaceRequests]. *)
Definition stopped_interface_calls (reqs : InterfaceRequests) : list Call :=
  (InstanceRemoveOneToOneNat <$> removeNatRequests reqs) ++
  (InstanceAddOneToOneNat <$> addNatRequests reqs) ++
  (InstanceUpdateNetworkInterface <$> updateInterfaceRequests reqs) ++
  (InstanceAttachNetworkInterface <$> attachInterfaceRequests reqs) ++
  (InstanceDetachNetworkInterface <$> detachInterfaceRequests reqs).

(** The calls of the block that stops, updates and starts: Stop, the
    update request [update] when there is one, the requests for the
    network interfaces when they need a stopped instance, Start. *)
Definition stop_calls (d : ResourceData) (reqs : InterfaceRequests)
    (update : list Call) : list Call :=
  [InstanceStop (ResourceData.Id d)] ++ update ++
  (if needUpdateInterfacesOnStoppedInstance reqs
   then stopped_interface_calls reqs else []) ++
  [InstanceStart (ResourceData.Id d)].

(** Whether one of the properties that the update request on the
    stopped instance carries has changed. *)
Definition properties_changed (d : ResourceData) : bool :=
  ResourceData.HasChange d "resources" || ResourceData.HasChange d "platform_id" ||
  ResourceData.HasChange d "network_acceleration_type" ||
  ResourceData.HasChange d "placement_policy" ||
  ResourceData.HasChange d "scheduling_policy".

(** What the block that stops, updates and starts does, entered with
    the resource data [d] and the interface requests [reqs]: its
    events [t] and whether it returns without error ([ok]).  When
    nothing requires a stopped instance it makes no call.  When
    stopping is not allowed it makes no call and returns an error.
    Otherwise it makes the calls of [stop_calls] in sequence; when the
    update request cannot be built, it returns an error after the
    Stop. *)
Definition stop_outcome `{Helpers} (d : ResourceData) (reqs : InterfaceRequests)
    (ok : bool) (t : list Event) : Prop :=
  if needs_stop d reqs then
    if GetBool d "allow_stopping_for_update" then
      if properties_changed d then
        match stoppedInstanceRequest d with
        | Ok req => sequence ok (stop_calls d reqs [InstanceUpdate req]) t
        | Err _ =>
            ok = false ∧
            ∃ stopped, sequence stopped [InstanceStop (ResourceData.Id d)] t
        end
      else sequence ok (stop_calls d reqs []) t
    else ok = false ∧ t = []
  else ok = true ∧ t = [].

(** *** The flag of the network interface block *)

Definition flag_of {A} (r : result (A * bool)) : result bool :=
  match r with Ok (_, stopInstance) => Ok stopInstance | Err err => Err err end.

(** Whether [updateSpec] asks to stop does not depend on the resource
    data. *)
Lemma updateSpec_flag `{Helpers} (d1 d2 : ResourceData) (name : string) (ifaceIndex : nat)
    (oldIface newIface : Value) (stopInstance : bool) :
  flag_of (updateSpec d1 name ifaceIndex oldIface newIface stopInstance) =
  flag_of (updateSpec d2 name ifaceIndex oldIface newIface stopInstance).
Proof.
  unfold updateSpec.
  destruct (expandPrimaryV4AddressSpec oldIface) as [oldV4|]; [|done].
  destruct (expandPrimaryV6AddressSpec oldIface) as [oldV6|]; [|done].
  destruct (expandPrimaryV4AddressSpec newIface) as [newV4|]; [|done].
  destruct (expandPrimaryV6AddressSpec newIface) as [newV6|]; [|done].
  cbn [bind_result].
  destruct (negb (String.eqb _ _)).
  - by destruct (negb (bool_decide _)).
  - destruct (wantChangeAddressSpec oldV4 newV4),
      (needToRestartDueToAddressChange oldV4 newV4),
      (dnsSpecChanged oldV4 newV4),
      (natDnsSpecChanged (natOf oldV4) (natOf newV4)),
      (wantChangeAddressSpec oldV6 newV6),
      (needToRestartDueToAddressChange oldV6 newV6);
      by destruct (negb (bool_decide _)).
Qed.

Lemma updateSpecs_flag `{Helpers} (d1 d2 : ResourceData) (name : string)
    (oldList newList : list Value) (ifaceIndex : nat)
    (requests1 requests2 : list compute.UpdateInstanceNetworkInterfaceRequest)
    (stopInstance : bool) :
  (updateSpecs d1 name ifaceIndex oldList newList requests1 stopInstance).1.2 =
  (updateSpecs d2 name ifaceIndex oldList newList requests2 stopInstance).1.2.
Proof.
  revert newList ifaceIndex requests1 requests2 stopInstance.
  induction oldList as [|oldIface oldList IH]; intros; [done|]. cbn [updateSpecs].
  pose proof (updateSpec_flag d1 d2 name ifaceIndex oldIface
                (default VNil (head newList)) stopInstance) as Hflag.
  destruct (updateSpec d1 _ _ _ _ _) as [[req1 stop1]|err1],
    (updateSpec d2 _ _ _ _ _) as [[req2 stop2]|err2]; cbn in Hflag; try done.
  injection Hflag as ->. apply IH.
Qed.

Lemma interface_stop_same_plan `{Helpers} (d0 d : ResourceData) :
  same_plan d0 d → interface_stop d = interface_stop d0.
Proof.
  intros (Hstate & Hplan & _). unfold interface_stop, ResourceData.GetChange.
  rewrite Hstate, Hplan. f_equal. apply updateSpecs_flag.
Qed.

Lemma interfaceRequests_flag `{Helpers} (d : ResourceData) (instance : compute.Instance)
    (reqs : InterfaceRequests) :
  interfaceRequests d instance = Ok reqs →
  needUpdateInterfacesOnStoppedInstance reqs = interface_stop d.
Proof.
  unfold interfaceRequests, interface_stop.
  destruct (ResourceData.GetChange d "network_interface") as [o n].
  destruct (negb (_ =? _)); cbn [orb].
  - destruct (getSpecsForAttachDetachNetworkInterfaces _ _ _) as [[attach detach]|];
      [|done].
    by intros [= <-].
  - destruct (getSpecsForUpdateNetworkInterfaces _ _ _ _) as [[update stop] [err|]];
      [done|].
    destruct (getSpecsForAddRemoveNatNetworkInterfaces _ _ _) as [[addNat removeNat]|];
      [|done].
    by intros [= <-].
Qed.

(** *** The blocks of Update *)

Lemma running_update_mask `{Helpers} (d : ResourceData)
    (req : compute.UpdateInstanceRequest) (p : string) :
  running_update d req → p ∈ compute.upd_UpdateMask req → p ∈ stopped_paths → False.
Proof.
  intros Hreq Hmask Hp.
  assert (Hdisjoint :
    Forall (λ q, q ∉ stopped_paths)
      ["labels"; "metadata"; "metadata_options"; "name"; "description";
       "service_account_id"; "maintenance_policy"; "maintenance_grace_period"]).
  { by apply (bool_decide_unpack _). }
  rewrite Forall_forall in Hdisjoint. apply (Hdisjoint p); [|done]. clear Hp Hdisjoint.
  destruct Hreq as [v Hc|v Hc|v Hc|v Hc|v Hc|v Hc|req Hc Hreq];
    try (cbn in Hmask; apply list_elem_of_singleton in Hmask as ->;
         by repeat constructor).
  unfold maintenanceRequest in Hreq.
  destruct (ResourceData.HasChange d "maintenance_policy"),
    (ResourceData.HasChange d "maintenance_grace_period");
    cbn in Hreq; bind_results Hreq; injection Hreq as <-; cbn in Hmask;
    repeat (apply elem_of_cons in Hmask as [->|Hmask]; [by repeat constructor|]);
    by inversion Hmask.
Qed.

Lemma running_call_not_stop_bound `{Helpers} (d0 d : ResourceData)
    (instance : compute.Instance) (c : Call) :
  same_plan d0 d → running_call instance d c → stop_bound d0 c → False.
Proof.
  intros Hd Hc.
  destruct Hc as [req Hreq|reqs req Hreqs Hflag _|reqs req Hreqs Hflag _
                 |reqs req Hreqs Hflag _| | | |]; cbn; try done.
  - intros (p & Hmask & Hp). by eapply running_update_mask.
  - rewrite <- (interface_stop_same_plan d0 d), <- (interfaceRequests_flag _ _ _ Hreqs);
      [congruence|done].
  - rewrite <- (interface_stop_same_plan d0 d), <- (interfaceRequests_flag _ _ _ Hreqs);
      [congruence|done].
  - rewrite <- (interface_stop_same_plan d0 d), <- (interfaceRequests_flag _ _ _ Hreqs);
      [congruence|done].
Qed.

(** *** The laws of sequencing *)

Lemma M_bind_assoc {A B C} (m : M A) (f : A → M B) (g : B → M C) (s : State) :
  ((m ≫= f) ≫= g) s = (m ≫= (λ a, f a ≫= g)) s.
Proof.
  unfold mbind, M_bind. destruct (m s) as [[[a|e] s1] t1]; [|done].
  destruct (f a s1) as [[[b|e] s2] t2]; [|done].
  destruct (g b s2) as [[r3 s3] t3]. by rewrite (assoc_L (++)).
Qed.

Lemma M_bind_ext {A B} (m : M A) (f g : A → M B) (s : State) :
  (∀ a s', f a s' = g a s') → (m ≫= f) s = (m ≫= g) s.
Proof.
  intros Hfg. unfold mbind, M_bind. destruct (m s) as [[[a|e] s1] t1]; [|done].
  by rewrite Hfg.
Qed.

Lemma M_ret_bind {A B} (a : A) (f : A → M B) (s : State) : (mret a ≫= f) s = f a s.
Proof. unfold mbind, M_bind, mret, M_ret. by destruct (f a s) as [[r2 s2] t2]. Qed.

Lemma wp_ext {A} (m m' : M A) (s : State) (Q : result A → State → list Event → Prop) :
  m s = m' s → wp m' s Q → wp m s Q.
Proof. unfold wp. by intros ->. Qed.

(** Update, after its first Get, is the blocks on the instance as it
    is, then the block that stops, updates and starts, then Read. *)
Lemma update_blocks (remote : Remote) `{Helpers} (instance : compute.Instance)
    (s : State) :
  (update_folder_id remote instance;; after_folder_id remote instance) s =
  (reqs ← update_running_instance remote instance;
   update_stopped_instance remote reqs;;
   resourceYandexComputeInstanceRead remote) s.
Proof.
  unfold update_running_instance, after_folder_id. symmetry.
  do 8 (rewrite M_bind_assoc; apply M_bind_ext; intros ? ?).
  rewrite M_bind_assoc. apply M_bind_ext. intros reqs ?.
  do 2 (rewrite M_bind_assoc; apply M_bind_ext; intros ? ?).
  exact (M_ret_bind reqs
           (λ reqs, update_stopped_instance remote reqs;;
                    resourceYandexComputeInstanceRead remote) _).
Qed.

(** *** The block that stops, updates and starts *)

Lemma makes_lift_ok {A} (a : A) (f : A → M unit) (d : ResourceData) (cs : list Call) :
  makes (f a) d cs → makes (lift (Ok a) ≫= f) d cs.
Proof.
  intros Hf s Hs. do 2 wp_step. eapply wp_mono; [by apply Hf|]. by cbn.
Qed.

Lemma makes_stoppedInterfaceRequests (remote : Remote) `{Helpers}
    (reqs : InterfaceRequests) (d : ResourceData) :
  makes (stoppedInterfaceRequests remote reqs) d (stopped_interface_calls reqs).
Proof.
  unfold stoppedInterfaceRequests, stopped_interface_calls.
  apply makes_seq;
    [apply makes_for_each; intros; apply makes_makeInstanceRemoveOneToOneNatRequest|].
  apply makes_seq;
    [apply makes_for_each; intros; apply makes_makeInstanceAddOneToOneNatRequest|].
  apply makes_seq;
    [apply makes_for_each; intros;
     apply makes_makeInstanceUpdateNetworkInterfaceRequest|].
  apply makes_seq;
    [apply makes_for_each; intros;
     apply makes_makeInstanceAttachNetworkInterfaceRequest|].
  apply makes_for_each; intros; apply makes_makeInstanceDetachNetworkInterfaceRequest.
Qed.

Lemma wp_update_stopped_instance (remote : Remote) `{Helpers}
    (reqs : InterfaceRequests) (s : State) :
  wp (update_stopped_instance remote reqs) s
    (λ r s' t, st_d s' = st_d s ∧ stop_outcome (st_d s) reqs (is_ok r) t).
Proof.
  unfold update_stopped_instance, stop_outcome. wp_step.
  fold (needs_stop (st_d s) reqs). fold (properties_changed (st_d s)).
  destruct (needs_stop (st_d s) reqs); [|by wp_step].
  do 2 wp_step. unfold ensureAllowStoppingForUpdate.
  destruct (GetBool (st_d s) "allow_stopping_for_update"); cbn -[wp]; [|done].
  assert (Htail : makes
    (when (needUpdateInterfacesOnStoppedInstance reqs)
       (stoppedInterfaceRequests remote reqs);;
     makeInstanceActionRequest remote instanceActionStart) (st_d s)
    ((if needUpdateInterfacesOnStoppedInstance reqs
      then stopped_interface_calls reqs else []) ++
     [InstanceStart (ResourceData.Id (st_d s))])).
  { apply makes_seq; [|apply makes_makeInstanceActionRequest_start].
    apply makes_when, makes_stoppedInterfaceRequests. }
  destruct (properties_changed (st_d s)); cbn [when].
  - destruct (stoppedInstanceRequest (st_d s)) as [req|e].
    + lazymatch goal with
      | |- wp ?m _ _ =>
          assert (Hblock : makes m (st_d s)
                             (stop_calls (st_d s) reqs [InstanceUpdate req]))
      end.
      { apply makes_seq; [apply makes_makeInstanceActionRequest_stop|].
        apply makes_seq; [|exact Htail].
        apply makes_lift_ok, makes_makeInstanceUpdateRequest. }
      by apply Hblock.
    + wp_step. eapply wp_mono; [by apply makes_makeInstanceActionRequest_stop|].
      cbn -[wp]. intros [[]|e'] s1 t1 [Hs1 Ht1].
      * do 3 wp_step. cbn. rewrite app_nil_r. eauto.
      * cbn. eauto.
  - lazymatch goal with
    | |- wp ?m _ _ => assert (Hblock : makes m (st_d s) (stop_calls (st_d s) reqs []))
    end.
    { apply makes_seq; [apply makes_makeInstanceActionRequest_stop|].
      apply (makes_seq (mret tt) _ _ []); [apply makes_ret|exact Htail]. }
    by apply Hblock.
Qed.

(** *** The blocks of Update *)

Lemma unbound_calls `{Helpers} (d : ResourceData) (t : list Event) :
  Forall (unbound d) t → Forall (λ c, ¬ stop_bound d c) (calls t).
Proof.
  induction 1 as [|[c b|c b] t He Ht IH]; [constructor| |done].
  by apply Forall_cons.
Qed.

Lemma update_running_instance_unbound (remote : Remote) `{Helpers} (d0 : ResourceData)
    (instance : compute.Instance) :
  holds (same_plan d0) (λ _ t, Forall (unbound d0) t)
    (update_running_instance remote instance) (λ _, True).
Proof.
  assert (Hseq : Sequential (same_plan d0) (λ _ t, Forall (unbound d0) t)).
  { apply Sequential_Forall. by intros id d (? & ? & ?). }
  eapply holds_mono; [|done].
  apply (holds_update_running_instance _ _).
  - apply holds_update_folder_id; [done|by intros key v d _ (? & ? & ?)|..].
    + intros id. apply allowed_read_Forall. intros b. cbn. tauto.
    + intros i. apply allowed_disk_read_Forall. intros b. cbn. tauto.
    + intros d c _ Hc. destruct Hc; apply allowed_Forall; intros b; cbn; tauto.
    + intros id. repeat constructor. cbn. tauto.
    + intros req. repeat constructor. cbn. tauto.
  - intros d c Hd Hc. apply allowed_Forall; [|done]. intros b Hb.
    by eapply running_call_not_stop_bound.
Qed.

Lemma Read_reading (remote : Remote) `{Helpers} :
  holds (λ _, True) (λ _ t, Forall reading t)
    (resourceYandexComputeInstanceRead remote) (λ _, True).
Proof.
  apply holds_Read; [by apply Sequential_Forall|done|..].
  - intros id. by apply allowed_read_Forall.
  - intros instance. by apply allowed_disk_read_Forall.
Qed.


(** A configuration that moves the instance to another folder and
    changes its resources, and allows stopping it. *)
Definition moveAndResize : ResourceData :=
  exampleData "epd-1"
    [("folder_id", VString "b1g-old"); ("resources", VList [VMap [("cores", VInt 2)]])]
    [("folder_id", VString "b1g-new"); ("resources", VList [VMap [("cores", VInt 4)]]);
     ("allow_stopping_for_update", VBool true)].

(** ** The refusal to stop *)

(** A configuration that adds a second network interface and does not
    allow stopping the instance. *)
Definition addInterface : ResourceData :=
  exampleData "epd-1"
    [("network_interface",
      VList [VMap [("index", VInt 0); ("subnet_id", VString "a")]])]
    [("network_interface",
      VList [VMap [("index", VInt 0); ("subnet_id", VString "a")];
             VMap [("index", VInt 1); ("subnet_id", VString "b")]])].

(** C2. Only the network interfaces change, in a way that needs a
    stopped instance, and allow_stopping_for_update is false: Update
    makes no call after its Get and returns the error of
    [ensureAllowStoppingForUpdate], whose message names resources,
    platform_id, network_acceleration_type, scheduling_policy and
    placement_policy, none of which has changed, and does not name
    network_interface. *)
Theorem stop_error_omits_network_interface :
  interface_stop (H:=exampleHelpers) addInterface = true ∧
  GetBool addInterface "allow_stopping_for_update" = false ∧
  Forall (λ property, ResourceData.HasChange addInterface property = false) properties ∧
  run (resourceYandexComputeInstanceUpdate (H:=exampleHelpers)
         (obligingRemote compute.Instance_RUNNING)) addInterface =
  (Err ("Changing the resources, platform_id, network_acceleration_type, " +:+
        "scheduling_policy, placement_policy in an instance requires stopping it. " +:+
        "To acknowledge this action, please set allow_stopping_for_update = true " +:+
        "in your config file."),
   addInterface, [Called (InstanceGet "epd-1") true]).
Proof.
  split_and!; [done..| |vm_compute; reflexivity].
  unfold properties. by repeat constructor.
Qed.

(** When allow_stopping_for_update is false, Update makes no Stop, no
    Move and no request for a property that requires a stopped
    instance. *)
Definition without_stop `{Helpers} (d : ResourceData) (e : Event) : Prop :=
  match e with
  | Called (InstanceStop _) _ | Called (InstanceMove _) _ => False
  | Called c _ => stop_bound d c → False
  | Waited _ _ => True
  end.

Lemma allow_stopping_written (d : ResourceData) (key : string) (v : Value) :
  key ∈ read_keys →
  GetBool (ResourceData.write key v d) "allow_stopping_for_update" =
  GetBool d "allow_stopping_for_update".
Proof.
  intros Hkey. unfold GetBool. f_equal. apply Get_write_ne.
  assert (Hsplit : strings.Split "allow_stopping_for_update" "." =
                   ["allow_stopping_for_update"]) by (vm_compute; reflexivity).
  rewrite Hsplit. cbn. intros [= <-]. revert Hkey.
  change ("allow_stopping_for_update" ∉ read_keys).
  apply (bool_decide_unpack _). vm_compute. exact Logic.I.
Qed.

(** With allow_stopping_for_update false, Update makes no Stop, no
    Move and no request for a property that requires a stopped
    instance. *)
Theorem no_stop_without_permission (remote : Remote) `{Helpers} (d : ResourceData) :
  GetBool d "allow_stopping_for_update" = false →
  let '(_, _, t) := run (resourceYandexComputeInstanceUpdate remote) d in
  Forall (without_stop d) t.
Proof.
  intros Hallow.
  set (I := λ d1, same_plan d d1 ∧ GetBool d1 "allow_stopping_for_update" = false).
  assert (Hseq : Sequential I (λ _ t, Forall (without_stop d) t)).
  { apply Sequential_Forall. by intros id d1 [(? & ? & ?) ?]. }
  assert (Hupdate : holds I (λ _ t, Forall (without_stop d) t)
                      (resourceYandexComputeInstanceUpdate remote) (λ _, True)).
  { apply holds_Update; [done| | | | | | | |].
    - intros key v d1 Hkey [(? & ? & ?) Hd1]. split; [done|].
      by rewrite allow_stopping_written.
    - intros id. apply allowed_read_Forall. intros b. cbn. tauto.
    - intros instance. apply allowed_disk_read_Forall. intros b. cbn. tauto.
    - intros d1 c [_ Hd1] Hc.
      destruct Hc; try congruence; apply allowed_Forall; intros b; cbn; tauto.
    - intros id. apply Forall_cons. split; [cbn; tauto|done].
    - intros req. apply Forall_cons. split; [cbn; tauto|done].
    - intros instance d1 c [Hd1 _] Hc.
      pose proof (running_call_not_stop_bound d d1 instance c Hd1 Hc) as Hbound.
      apply allowed_Forall; [|done]. intros b. by destruct Hc.
    - intros instance reqs d1 c [_ Hd1] _ Hc. destruct Hc; congruence. }
  unfold run. specialize (Hupdate {| st_d := d; st_clock := 0 |}).
  destruct (resourceYandexComputeInstanceUpdate _ _) as [[r s] t].
  by destruct Hupdate as [Ht _].
Qed.

(** A configuration that changes the labels and the resources and
    does not allow stopping the instance. *)
Definition relabelAndResize : ResourceData :=
  exampleData "epd-1"
    [("labels", VMap [("env", VString "test")]);
     ("resources", VList [VMap [("cores", VInt 2)]])]
    [("labels", VMap [("env", VString "prod")]);
     ("resources", VList [VMap [("cores", VInt 4)]])].

Lemma no_stop_without_permission_witness :
  let '(_, _, t) :=
    run (resourceYandexComputeInstanceUpdate (H:=exampleHelpers)
           (obligingRemote compute.Instance_RUNNING)) relabelAndResize in
  Forall (without_stop (H:=exampleHelpers) relabelAndResize) t.
Proof. by apply no_stop_without_permission. Defined.

(** The labels are updated on the running instance, then the change
    of resources is refused. *)
Example relabel_then_refuse :
  ∃ r d' req,
    run (resourceYandexComputeInstanceUpdate (H:=exampleHelpers)
           (obligingRemote compute.Instance_RUNNING)) relabelAndResize =
    (r, d', [Called (InstanceGet "epd-1") true;
             Called (InstanceUpdate req) true; Waited (InstanceUpdate req) true]) ∧
    is_ok r = false ∧ compute.upd_UpdateMask req = ["labels"].
Proof. eexists _, _, _. split_and!; [vm_compute; reflexivity|done..]. Qed.

(** ** The move to another folder, on an example *)

(** A configuration that moves the instance to another folder and
    allows stopping it. *)
Definition folderMove : ResourceData :=
  exampleData "epd-1"
    [("folder_id", VString "b1g-old")]
    [("folder_id", VString "b1g-new"); ("allow_stopping_for_update", VBool true)].


(** ** The stop, the update and the start, on an example *)


(** The resources are changed on the stopped instance: Stop, the
    update request, Start, each accepted and waited for. *)
Example resize_stops_updates_starts :
  ∃ req,
    stoppedInstanceRequest (H:=exampleHelpers) moveAndResize = Ok req ∧
    ∃ r d' before,
      run (resourceYandexComputeInstanceUpdate (H:=exampleHelpers)
             (obligingRemote compute.Instance_RUNNING)) moveAndResize =
      (r, d',
       before ++
       [Called (InstanceStop "epd-1") true; Waited (InstanceStop "epd-1") true;
        Called (InstanceUpdate req) true; Waited (InstanceUpdate req) true;
        Called (InstanceStart "epd-1") true; Waited (InstanceStart "epd-1") true;
        Called (InstanceGet "epd-1") true;
        Called (DiskRead (exampleInstance compute.Instance_RUNNING)) true]).
Proof.
  eexists. split; [vm_compute; reflexivity|].
  eexists _, _, [_; _; _; _; _; _; _]. vm_compute. reflexivity.
Qed.

(** A configuration that changes the resources and allows stopping
    the instance. *)
Definition resize : ResourceData :=
  exampleData "epd-1"
    [("resources", VList [VMap [("cores", VInt 2)]])]
    [("resources", VList [VMap [("cores", VInt 4)]]);
     ("allow_stopping_for_update", VBool true)].

(** When the Wait on the Stop fails, Update ends there with an error:
    it makes neither the update request nor the Start. *)
Example failed_stop_ends_update :
  ∃ r d',
    run (resourceYandexComputeInstanceUpdate (H:=exampleHelpers) stallingRemote) resize =
    (r, d',
     [Called (InstanceGet "epd-1") true;
      Called (InstanceStop "epd-1") true; Waited (InstanceStop "epd-1") false]) ∧
    is_ok r = false.
Proof. eexists _, _. split; [vm_compute; reflexivity|done]. Qed.
(** * Further properties of the compute instance resource

    ** The predicates on address specs *)

Lemma differentRecordSpec_false (r1 r2 : compute.DnsRecordSpec) :
  differentRecordSpec r1 r2 = false ↔ r1 = r2.
Proof.
  unfold differentRecordSpec. rewrite !orb_false_iff, !negb_false_iff.
  rewrite !String.eqb_eq, Z.eqb_eq, Bool.eqb_true_iff.
  destruct r1, r2; cbn. split; [intros [[[-> ->] ->] ->]|intros [= -> -> -> ->]]; done.
Qed.

Lemma recordSpecsChanged_false (old new : list compute.DnsRecordSpec) :
  recordSpecsChanged old new = false ↔ old = new.
Proof.
  revert new. induction old as [|r1 old IH]; intros [|r2 new]; cbn; try done.
  rewrite orb_false_iff, differentRecordSpec_false, IH.
  split; [by intros [-> ->]|by intros [= -> ->]].
Qed.

(** [dnsSpecChanged] reports a change exactly when the DNS records of
    the two address specs differ, in number or at some index. *)
Theorem dnsSpecChanged_records (old new : compute.PrimaryAddressSpec) :
  dnsSpecChanged (Some old) (Some new) = true ↔
  compute.pa_DnsRecordSpecs old ≠ compute.pa_DnsRecordSpecs new.
Proof.
  cbn. rewrite <- recordSpecsChanged_false. by destruct (recordSpecsChanged _ _).
Qed.

(** [natDnsSpecChanged] reports a change exactly when both NAT specs
    are present and their DNS records differ; a NAT section that
    appears or disappears is no change of its DNS records. *)
Theorem natDnsSpecChanged_records (old new : option compute.OneToOneNatSpec) :
  natDnsSpecChanged old new = true ↔
  ∃ o n, old = Some o ∧ new = Some n ∧
         compute.nat_DnsRecordSpecs o ≠ compute.nat_DnsRecordSpecs n.
Proof.
  destruct old as [o|], new as [n|]; cbn;
    try (split; [done|by intros (? & ? & ? & ? & ?)]).
  rewrite <- (not_false_iff_true (recordSpecsChanged _ _)), recordSpecsChanged_false.
  split; [by eauto|by intros (? & ? & [= <-] & [= <-] & ?)].
Qed.

(** An address change is wanted exactly when it needs a restart or
    the DNS records of the address or of its NAT changed: so every
    wanted change puts a path in the update mask of the interface. *)
Lemma wantChangeAddressSpec_cases (old new : option compute.PrimaryAddressSpec) :
  wantChangeAddressSpec old new =
  needToRestartDueToAddressChange old new ||
  match old, new with
  | Some _, Some _ =>
      dnsSpecChanged old new || natDnsSpecChanged (natOf old) (natOf new)
  | _, _ => false
  end.
Proof.
  by destruct old as [o|], new as [n|].
Qed.

(** Identical old and new specs report no change and no restart. *)
Lemma unchanged_address_spec (spec : option compute.PrimaryAddressSpec)
    (nat : option compute.OneToOneNatSpec) :
  wantChangeAddressSpec spec spec = false ∧
  needToRestartDueToAddressChange spec spec = false ∧
  natAddressSpecChanged nat nat = false ∧
  natDnsSpecChanged nat nat = false.
Proof.
  assert (Hsame : ∀ l, recordSpecsChanged l l = false).
  { intros l. by apply recordSpecsChanged_false. }
  assert (Hnat : natDnsSpecChanged nat nat = false).
  { destruct nat; cbn; [apply Hsame|done]. }
  split_and!; [| | |done].
  - destruct spec as [s|]; cbn; [|done].
    rewrite String.eqb_refl, andb_false_r, Hsame. cbn.
    destruct (compute.pa_OneToOneNatSpec s); cbn; [apply Hsame|done].
  - destruct spec as [s|]; cbn; [|done]. by rewrite String.eqb_refl, andb_false_r.
  - destruct nat as [s|]; cbn; [|done]. by rewrite String.eqb_refl, andb_false_r.
Qed.

(** ** The requests computed for the network interfaces *)

(** A request to update a network interface names every field it
    sets in its update mask, and its mask is not empty. *)
Definition interface_request_masked
    (req : compute.UpdateInstanceNetworkInterfaceRequest) : Prop :=
  compute.uni_UpdateMask req ≠ [] ∧
  (compute.uni_SubnetId req ≠ "" → "subnet_id" ∈ compute.uni_UpdateMask req) ∧
  (is_Some (compute.uni_PrimaryV4AddressSpec req) →
   ∃ p, p ∈ compute.uni_UpdateMask req ∧
        strings.HasPrefix p "primary_v4_address_spec" = true) ∧
  (is_Some (compute.uni_PrimaryV6AddressSpec req) →
   ∃ p, p ∈ compute.uni_UpdateMask req ∧
        strings.HasPrefix p "primary_v6_address_spec" = true) ∧
  (compute.uni_SecurityGroupIds req ≠ [] →
   "security_group_ids" ∈ compute.uni_UpdateMask req).

Ltac in_list := by repeat first [apply list_elem_of_here|apply list_elem_of_further].

Ltac with_path p := by (exists p; split; [in_list|reflexivity]).

Ltac mask_path :=
  first
    [ done
    | by intros []%is_Some_None
    | (intros _;
       first [ in_list
             | with_path "primary_v4_address_spec"
             | with_path "primary_v4_address_spec.dns_record_specs"
             | with_path "primary_v4_address_spec.one_to_one_nat_spec.dns_record_specs"
             | with_path "primary_v6_address_spec"
             | with_path "primary_v6_address_spec.dns_record_specs" ]) ].

Lemma updateSpec_request `{Helpers} (d : ResourceData) (name : string) (ifaceIndex : nat)
    (oldIface newIface : Value) (stopInstance stopInstance' : bool)
    (req : compute.UpdateInstanceNetworkInterfaceRequest) :
  updateSpec d name ifaceIndex oldIface newIface stopInstance =
    Ok (Some req, stopInstance') →
  compute.uni_InstanceId req = ResourceData.Id d ∧
  compute.uni_NetworkInterfaceIndex req = Itoa (Z.of_nat ifaceIndex) ∧
  interface_request_masked req.
Proof.
  unfold updateSpec.
  destruct (expandPrimaryV4AddressSpec oldIface) as [oldV4|]; [|done].
  destruct (expandPrimaryV6AddressSpec oldIface) as [oldV6|]; [|done].
  destruct (expandPrimaryV4AddressSpec newIface) as [newV4|]; [|done].
  destruct (expandPrimaryV6AddressSpec newIface) as [newV6|]; [|done].
  cbn [bind_result]. rewrite !wantChangeAddressSpec_cases.
  destruct (negb (String.eqb _ _)).
  - destruct (negb (bool_decide _)); cbn; intros [= <- <-]; cbn;
      (split; [done|]); (split; [done|]); unfold interface_request_masked; cbn;
      split_and!; mask_path.
  - destruct (needToRestartDueToAddressChange oldV4 newV4),
      (needToRestartDueToAddressChange oldV6 newV6),
      oldV4 as [o4|], newV4 as [n4|], oldV6 as [o6|], newV6 as [n6|];
      cbn [orb natOf];
      repeat match goal with
             | |- context [dnsSpecChanged ?a ?b] => destruct (dnsSpecChanged a b)
             | |- context [natDnsSpecChanged ?a ?b] => destruct (natDnsSpecChanged a b)
             end;
      destruct (negb (bool_decide _)); cbn; try done; intros [= <- <-]; cbn;
      (split; [done|]); (split; [done|]); unfold interface_request_masked; cbn;
      split_and!; mask_path.
Qed.

Lemma updateSpec_unchanged `{Helpers} (d : ResourceData) (name : string) (ifaceIndex : nat)
    (iface : Value) (stopInstance : bool) :
  match updateSpec d name ifaceIndex iface iface stopInstance with
  | Ok r => r = (None, stopInstance)
  | Err _ => True
  end.
Proof.
  unfold updateSpec.
  destruct (expandPrimaryV4AddressSpec iface) as [v4|]; [|done].
  destruct (expandPrimaryV6AddressSpec iface) as [v6|]; [|done].
  cbn [bind_result]. rewrite String.eqb_refl. cbn [negb].
  destruct (unchanged_address_spec v4 None) as (-> & _).
  destruct (unchanged_address_spec v6 None) as (-> & _).
  by rewrite bool_decide_eq_true_2.
Qed.

Lemma updateSpec_changed `{Helpers} (d : ResourceData) (name : string) (ifaceIndex : nat)
    (oldIface newIface : Value) (stopInstance stopInstance' : bool)
    (req : compute.UpdateInstanceNetworkInterfaceRequest) :
  updateSpec d name ifaceIndex oldIface newIface stopInstance =
    Ok (Some req, stopInstance') →
  oldIface ≠ newIface.
Proof.
  intros Hspec ->.
  pose proof (updateSpec_unchanged d name ifaceIndex newIface stopInstance) as Hsame.
  by rewrite Hspec in Hsame.
Qed.

Lemma updateSpecs_requests `{Helpers} (d : ResourceData) (name : string)
    (oldFull newFull oldList newList : list Value) (ifaceIndex : nat)
    (requests : list compute.UpdateInstanceNetworkInterfaceRequest)
    (stopInstance : bool)
    (P := λ req,
       compute.uni_InstanceId req = ResourceData.Id d ∧
       (∃ i oldIface,
          oldFull !! i = Some oldIface ∧ oldIface ≠ default VNil (newFull !! i) ∧
          compute.uni_NetworkInterfaceIndex req = Itoa (Z.of_nat i)) ∧
       interface_request_masked req) :
  (∀ k, oldList !! k = oldFull !! (ifaceIndex + k)) →
  (∀ k, newList !! k = newFull !! (ifaceIndex + k)) →
  Forall P requests →
  Forall P (updateSpecs d name ifaceIndex oldList newList requests stopInstance).1.1.
Proof.
  revert newList ifaceIndex requests stopInstance.
  induction oldList as [|oldIface oldList IH];
    intros newList i requests stop Hold Hnew Hreqs; [done|]. cbn [updateSpecs].
  destruct (updateSpec d name i oldIface _ stop) as [[req stop']|err] eqn:Hspec;
    [|by apply Forall_nil].
  apply IH.
  - intros k. specialize (Hold (S k)). by rewrite Nat.add_succ_r in Hold.
  - intros k. specialize (Hnew (S k)). rewrite Nat.add_succ_r in Hnew.
    cbn [Nat.add]. rewrite <- Hnew. by destruct newList.
  - apply Forall_app. split; [done|].
    destruct req as [req|]; [|by apply Forall_nil]. apply Forall_singleton.
    pose proof (updateSpec_changed _ _ _ _ _ _ _ _ Hspec) as Hchanged.
    apply updateSpec_request in Hspec as (Hid & Hindex & Hmask).
    split_and!; [done| |done]. exists i, oldIface.
    specialize (Hold 0). specialize (Hnew 0). rewrite Nat.add_0_r in Hold, Hnew.
    rewrite <- Hold, <- Hnew. split_and!; [done| |done]. by destruct newList.
Qed.

(** For a new list that has an interface at every index of the old
    list, every request [getSpecsForUpdateNetworkInterfaces] returns is
    for the instance of the resource data and for an interface whose
    old and new configuration differ, has an update mask that is not
    empty, and sets no field that its mask does not name. *)
Theorem getSpecsForUpdateNetworkInterfaces_requests `{Helpers} (d : ResourceData)
    (name : string) (oldList newList : list Value) :
  length oldList ≤ length newList →
  Forall (λ req,
    compute.uni_InstanceId req = ResourceData.Id d ∧
    (∃ i oldIface,
       oldList !! i = Some oldIface ∧ oldIface ≠ default VNil (newList !! i) ∧
       compute.uni_NetworkInterfaceIndex req = Itoa (Z.of_nat i)) ∧
    interface_request_masked req)
    (getSpecsForUpdateNetworkInterfaces d name oldList newList).1.1.
Proof. intros _. by apply updateSpecs_requests. Qed.

Lemma updateSpecs_unchanged `{Helpers} (d : ResourceData) (name : string)
    (ifaces : list Value) (ifaceIndex : nat)
    (requests : list compute.UpdateInstanceNetworkInterfaceRequest) (stopInstance : bool) :
  let '(requests', stopInstance', err) :=
    updateSpecs d name ifaceIndex ifaces ifaces requests stopInstance in
  stopInstance' = stopInstance ∧
  match err with None => requests' = requests | Some _ => requests' = [] end.
Proof.
  revert ifaceIndex requests.
  induction ifaces as [|iface ifaces IH]; intros i requests; [done|].
  cbn [updateSpecs head tail default].
  pose proof (updateSpec_unchanged d name i iface stopInstance) as Hspec.
  destruct (updateSpec _ _ _ _ _ _) as [[req stop]|err]; [|done].
  injection Hspec as -> ->. cbn. rewrite app_nil_r. apply IH.
Qed.

Lemma natSpecs_unchanged `{Helpers} (instanceId : string) (ifaces : list Value)
    (ifaceIndex : nat) (addNat : list compute.AddInstanceOneToOneNatRequest)
    (removeNat : list compute.RemoveInstanceOneToOneNatRequest) r :
  natSpecs instanceId ifaceIndex ifaces ifaces addNat removeNat = Ok r →
  r = (addNat, removeNat) ∨ r = ([], []).
Proof.
  revert ifaceIndex. induction ifaces as [|iface ifaces IH]; intros i; cbn.
  - intros [= <-]. by left.
  - destruct (expandPrimaryV4AddressSpec iface) as [[spec|]|]; cbn; [| |done].
    + destruct (unchanged_address_spec None (compute.pa_OneToOneNatSpec spec))
        as (_ & _ & -> & _). cbn. apply IH.
    + intros [= <-]. by right.
Qed.

(** When the old and the new list of network interfaces are the
    same, no request is computed for them and the instance need not
    be stopped. *)
Theorem unchanged_interfaces_no_requests `{Helpers} (d : ResourceData) (name : string)
    (instanceId : string) (ifaces : list Value) :
  (getSpecsForUpdateNetworkInterfaces d name ifaces ifaces).1 = ([], false) ∧
  ∀ r, getSpecsForAddRemoveNatNetworkInterfaces instanceId ifaces ifaces = Ok r →
       r = ([], []).
Proof.
  split.
  - unfold getSpecsForUpdateNetworkInterfaces.
    pose proof (updateSpecs_unchanged d name ifaces 0 [] false) as Hspecs.
    destruct (updateSpecs _ _ _ _ _ _ _) as [[requests stop] [err|]];
      by destruct Hspecs as [-> ->].
  - intros r Hr. by apply natSpecs_unchanged in Hr as [->| ->].
Qed.

(** Whether the change of one network interface needs a stopped
    instance: its subnet changes, or the change of its v4 or v6
    address needs a restart. *)
Definition interface_needs_stop `{Helpers} (oldIface newIface : Value) : bool :=
  negb (String.eqb (asString (child oldIface "subnet_id"))
                   (asString (child newIface "subnet_id"))) ||
  match expandPrimaryV4AddressSpec oldIface, expandPrimaryV4AddressSpec newIface with
  | Ok old, Ok new => needToRestartDueToAddressChange old new
  | _, _ => false
  end ||
  match expandPrimaryV6AddressSpec oldIface, expandPrimaryV6AddressSpec newIface with
  | Ok old, Ok new => needToRestartDueToAddressChange old new
  | _, _ => false
  end.

Lemma updateSpec_stop `{Helpers} (d : ResourceData) (name : string) (ifaceIndex : nat)
    (oldIface newIface : Value) (stopInstance stopInstance' : bool) req :
  updateSpec d name ifaceIndex oldIface newIface stopInstance = Ok (req, stopInstance') →
  stopInstance' = stopInstance || interface_needs_stop oldIface newIface.
Proof.
  unfold updateSpec, interface_needs_stop.
  destruct (expandPrimaryV4AddressSpec oldIface) as [oldV4|]; [|done].
  destruct (expandPrimaryV6AddressSpec oldIface) as [oldV6|]; [|done].
  destruct (expandPrimaryV4AddressSpec newIface) as [newV4|]; [|done].
  destruct (expandPrimaryV6AddressSpec newIface) as [newV6|]; [|done].
  cbn [bind_result]. rewrite !wantChangeAddressSpec_cases.
  destruct (negb (String.eqb _ _)).
  - destruct (negb (bool_decide _)); cbn; intros [= _ <-]; by rewrite orb_true_r.
  - destruct (needToRestartDueToAddressChange oldV4 newV4),
      (needToRestartDueToAddressChange oldV6 newV6),
      oldV4 as [o4|], newV4 as [n4|], oldV6 as [o6|], newV6 as [n6|];
      cbn [orb natOf];
      repeat match goal with
             | |- context [dnsSpecChanged ?a ?b] => destruct (dnsSpecChanged a b)
             | |- context [natDnsSpecChanged ?a ?b] => destruct (natDnsSpecChanged a b)
             end;
      destruct (negb (bool_decide _)); cbn; intros [= _ <-];
      by rewrite ?orb_true_r, ?orb_false_r.
Qed.

Lemma updateSpecs_stop `{Helpers} (d : ResourceData) (name : string)
    (oldFull newFull oldList newList : list Value) (ifaceIndex : nat)
    (requests requests' : list compute.UpdateInstanceNetworkInterfaceRequest)
    (stopInstance stopInstance' : bool) :
  (∀ k, oldList !! k = oldFull !! (ifaceIndex + k)) →
  (∀ k, newList !! k = newFull !! (ifaceIndex + k)) →
  updateSpecs d name ifaceIndex oldList newList requests stopInstance =
    (requests', stopInstance', None) →
  stopInstance' = true ↔
  stopInstance = true ∨
  ∃ k oldIface,
    oldList !! k = Some oldIface ∧
    interface_needs_stop oldIface (default VNil (newFull !! (ifaceIndex + k))) = true.
Proof.
  revert newList ifaceIndex requests stopInstance.
  induction oldList as [|oldIface oldList IH];
    intros newList i requests stop Hold Hnew; cbn [updateSpecs].
  - intros [= _ <-]. split; [by left|]. by intros [?|(k & o & ? & _)].
  - destruct (updateSpec d name i oldIface _ stop) as [[req stop1]|err] eqn:Hspec;
      [|done].
    apply updateSpec_stop in Hspec. intros Hspecs.
    apply IH in Hspecs as ->.
    2: { intros k. specialize (Hold (S k)). by rewrite Nat.add_succ_r in Hold. }
    2: { intros k. specialize (Hnew (S k)). rewrite Nat.add_succ_r in Hnew.
         cbn [Nat.add]. rewrite <- Hnew. by destruct newList. }
    assert (Hhead : default VNil (head newList) = default VNil (newFull !! (i + 0))).
    { rewrite <- Hnew. by destruct newList. }
    rewrite Hhead in Hspec. rewrite Hspec, orb_true_iff. split.
    + intros [[?|Hstop]|(k & o & Hk & Hstop)]; [by left| |].
      * right. by exists 0, oldIface.
      * right. exists (S k), o. split; [done|]. by rewrite Nat.add_succ_r.
    + intros [?|([|k] & o & Hk & Hstop)]; [by left; left| |].
      * left. right. by injection Hk as ->.
      * right. exists k, o. split; [done|]. by rewrite Nat.add_succ_r in Hstop.
Qed.

(** When [getSpecsForUpdateNetworkInterfaces], on a new list that
    has an interface at every index of the old list, returns without
    error, it asks to stop the instance exactly when some interface
    changes its subnet or changes an address in a way that needs a
    restart. *)
Theorem getSpecsForUpdateNetworkInterfaces_stop `{Helpers} (d : ResourceData)
    (name : string) (oldList newList : list Value) requests (stopInstance : bool) :
  length oldList ≤ length newList →
  getSpecsForUpdateNetworkInterfaces d name oldList newList =
    (requests, stopInstance, None) →
  stopInstance = true ↔
  ∃ i oldIface,
    oldList !! i = Some oldIface ∧
    interface_needs_stop oldIface (default VNil (newList !! i)) = true.
Proof.
  intros _ Hspecs. eapply updateSpecs_stop in Hspecs; [|done..].
  rewrite Hspecs. split; [by intros [?|?]|by right].
Qed.

(** The interface at position [i] of the old list had its NAT address
    changed: [old] and [new] are its NAT specs. *)
Definition nat_changed_at `{Helpers} (oldList newList : list Value) (i : nat)
    (old new : option compute.OneToOneNatSpec) : Prop :=
  ∃ oldIface oldV4Spec newV4Spec,
    oldList !! i = Some oldIface ∧
    expandPrimaryV4AddressSpec oldIface = Ok (Some oldV4Spec) ∧
    expandPrimaryV4AddressSpec (default VNil (newList !! i)) = Ok (Some newV4Spec) ∧
    old = compute.pa_OneToOneNatSpec oldV4Spec ∧
    new = compute.pa_OneToOneNatSpec newV4Spec ∧
    natAddressSpecChanged old new = true.

Lemma natSpecs_requests `{Helpers} (instanceId : string)
    (oldFull newFull oldList newList : list Value) (ifaceIndex : nat)
    (addNat addNat' : list compute.AddInstanceOneToOneNatRequest)
    (removeNat removeNat' : list compute.RemoveInstanceOneToOneNatRequest)
    (P := λ req,
       compute.addnat_InstanceId req = instanceId ∧
       ∃ i old,
         compute.addnat_NetworkInterfaceIndex req = Itoa (Z.of_nat i) ∧
         is_Some (compute.addnat_OneToOneNatSpec req) ∧
         nat_changed_at oldFull newFull i old (compute.addnat_OneToOneNatSpec req))
    (Q := λ req,
       compute.rmnat_InstanceId req = instanceId ∧
       ∃ i old new,
         compute.rmnat_NetworkInterfaceIndex req = Itoa (Z.of_nat i) ∧
         is_Some old ∧ nat_changed_at oldFull newFull i old new) :
  (∀ k, oldList !! k = oldFull !! (ifaceIndex + k)) →
  (∀ k, newList !! k = newFull !! (ifaceIndex + k)) →
  Forall P addNat → Forall Q removeNat →
  natSpecs instanceId ifaceIndex oldList newList addNat removeNat =
    Ok (addNat', removeNat') →
  Forall P addNat' ∧ Forall Q removeNat'.
Proof.
  revert newList ifaceIndex addNat removeNat.
  induction oldList as [|oldIface oldList IH];
    intros newList i addNat removeNat Hold Hnew Hadd Hremove; cbn [natSpecs].
  - by intros [= <- <-].
  - assert (Hhead : default VNil (head newList) = default VNil (newFull !! i)).
    { specialize (Hnew 0). rewrite Nat.add_0_r in Hnew. rewrite <- Hnew.
      by destruct newList. }
    rewrite Hhead.
    destruct (expandPrimaryV4AddressSpec oldIface) as [oldV4|] eqn:HoldV4; [|done].
    destruct (expandPrimaryV4AddressSpec (default VNil (newFull !! i)))
      as [newV4|] eqn:HnewV4; [|done].
    cbn [bind_result].
    destruct oldV4 as [o|], newV4 as [n|]; try by intros [= <- <-].
    assert (Hat : natAddressSpecChanged (compute.pa_OneToOneNatSpec o)
                    (compute.pa_OneToOneNatSpec n) = true →
                  nat_changed_at oldFull newFull i (compute.pa_OneToOneNatSpec o)
                    (compute.pa_OneToOneNatSpec n)).
    { intros Hchanged. exists oldIface, o, n. split_and!; try done.
      specialize (Hold 0). by rewrite Nat.add_0_r in Hold. }
    apply IH.
    + intros k. specialize (Hold (S k)). by rewrite Nat.add_succ_r in Hold.
    + intros k. specialize (Hnew (S k)). rewrite Nat.add_succ_r in Hnew.
      cbn [Nat.add]. rewrite <- Hnew. by destruct newList.
    + destruct (natAddressSpecChanged _ _); [|done]. cbn [andb].
      case_bool_decide as Hnat; [|done].
      apply Forall_app. split; [done|]. apply Forall_singleton. split; [done|].
      exists i, (compute.pa_OneToOneNatSpec o). auto.
    + destruct (natAddressSpecChanged _ _); [|done]. cbn [andb].
      case_bool_decide as Hnat; [|done].
      apply Forall_app. split; [done|]. apply Forall_singleton. split; [done|].
      exists i, (compute.pa_OneToOneNatSpec o), (compute.pa_OneToOneNatSpec n). auto.
Qed.

(** For a new list that has an interface at every index of the old
    list, every request [getSpecsForAddRemoveNatNetworkInterfaces]
    returns is for the given instance and for an interface whose NAT
    address changed; a request to add a NAT carries the NAT of the new
    configuration, which is present, and a request to remove one is
    made only where the old configuration had a NAT. *)
Theorem getSpecsForAddRemoveNatNetworkInterfaces_requests `{Helpers}
    (instanceId : string) (oldList newList : list Value)
    (addNat : list compute.AddInstanceOneToOneNatRequest)
    (removeNat : list compute.RemoveInstanceOneToOneNatRequest) :
  length oldList ≤ length newList →
  getSpecsForAddRemoveNatNetworkInterfaces instanceId oldList newList =
    Ok (addNat, removeNat) →
  Forall (λ req,
    compute.addnat_InstanceId req = instanceId ∧
    ∃ i old,
      compute.addnat_NetworkInterfaceIndex req = Itoa (Z.of_nat i) ∧
      is_Some (compute.addnat_OneToOneNatSpec req) ∧
      nat_changed_at oldList newList i old (compute.addnat_OneToOneNatSpec req)) addNat ∧
  Forall (λ req,
    compute.rmnat_InstanceId req = instanceId ∧
    ∃ i old new,
      compute.rmnat_NetworkInterfaceIndex req = Itoa (Z.of_nat i) ∧
      is_Some old ∧ nat_changed_at oldList newList i old new) removeNat.
Proof. intros _ Hspecs. by eapply natSpecs_requests in Hspecs. Qed.

(** The indices of the interfaces of a new configuration. *)
Definition new_indices (newList : list Value) : list string :=
  omap (λ newIface, Itoa <$> ifaceIndexOf newIface) newList.

Lemma attachSpecs_requests `{Helpers} (instanceId : string)
    (curIfaces : gmap string compute.NetworkInterface) (newList : list Value)
    (ifaceIndex : nat) (newIfaces newIfaces' : gmap string compute.NetworkInterfaceSpec)
    (attach attach' : list compute.AttachInstanceNetworkInterfaceRequest) :
  attachSpecs instanceId curIfaces newList ifaceIndex newIfaces attach =
    Ok (newIfaces', attach') →
  (∀ index, is_Some (newIfaces' !! index) ↔
            is_Some (newIfaces !! index) ∨ index ∈ new_indices newList) ∧
  (∀ index, index ∈ compute.ani_NetworkInterfaceIndex <$> attach' ↔
            index ∈ compute.ani_NetworkInterfaceIndex <$> attach ∨
            (index ∈ new_indices newList ∧ curIfaces !! index = None)) ∧
  (Forall (λ req, compute.ani_InstanceId req = instanceId) attach →
   Forall (λ req, compute.ani_InstanceId req = instanceId) attach').
Proof.
  revert ifaceIndex newIfaces attach.
  induction newList as [|newIface newList IH]; intros i newIfaces attach; cbn.
  - intros [= <- <-]. unfold new_indices. cbn.
    split_and!; [intros index; rewrite elem_of_nil; tauto..|done].
  - unfold new_indices. cbn [omap].
    destruct (ifaceIndexOf newIface) as [z|]; [|done]. cbn.
    destruct (expandNetworkInterfaceSpec newIface) as [iface|]; [|done].
    intros (Hnew & Hattach & Hid)%IH. fold (new_indices newList) in *. split_and!.
    + intros index. rewrite Hnew, elem_of_cons.
      destruct (decide (index = Itoa z)) as [->|Hne].
      * rewrite lookup_insert_eq. split; [by right; left|by left].
      * rewrite lookup_insert_ne by done. tauto.
    + intros index. rewrite Hattach, elem_of_cons.
      destruct (curIfaces !! Itoa z) as [cur|] eqn:Hcur.
      * split; [tauto|]. intros [?|[[->|?] Hnone]]; [tauto|congruence|tauto].
      * rewrite fmap_app, elem_of_app. cbn. rewrite list_elem_of_singleton.
        split; [|intros [?|[[->|?] Hnone]]; tauto].
        intros [[? | ->] | ?]; tauto.
    + intros Hall. apply Hid. destruct (curIfaces !! Itoa z); [done|].
      apply Forall_app. split; [done|]. by apply Forall_singleton.
Qed.

Lemma curIfaces_lookup (nis : list compute.NetworkInterface)
    (m : gmap string compute.NetworkInterface) (index : string) :
  is_Some (foldl (λ m iface, <[compute.ni_Index iface := iface]> m) m nis !! index) ↔
  is_Some (m !! index) ∨ index ∈ compute.ni_Index <$> nis.
Proof.
  revert m. induction nis as [|ni nis IH]; intros m; cbn; [rewrite elem_of_nil; tauto|].
  rewrite IH, elem_of_cons. destruct (decide (index = compute.ni_Index ni)) as [->|Hne].
  - rewrite lookup_insert_eq. split; [by right; left|by left].
  - rewrite lookup_insert_ne by done. tauto.
Qed.

(** When [getSpecsForAttachDetachNetworkInterfaces] returns without
    error, it asks to attach exactly the interfaces of the new
    configuration whose index the instance does not have, and to
    detach exactly the interfaces of the instance whose index the new
    configuration does not have, all on the given instance. *)
Theorem getSpecsForAttachDetachNetworkInterfaces_requests `{Helpers}
    (newList : list Value) (instanceId : string)
    (instanceNetworkInterfaces : list compute.NetworkInterface)
    (attach : list compute.AttachInstanceNetworkInterfaceRequest)
    (detach : list compute.DetachInstanceNetworkInterfaceRequest) :
  getSpecsForAttachDetachNetworkInterfaces newList instanceId instanceNetworkInterfaces =
    Ok (attach, detach) →
  (∀ index, index ∈ compute.ani_NetworkInterfaceIndex <$> attach ↔
            index ∈ new_indices newList ∧
            index ∉ compute.ni_Index <$> instanceNetworkInterfaces) ∧
  (∀ index, index ∈ compute.dni_NetworkInterfaceIndex <$> detach ↔
            index ∈ compute.ni_Index <$> instanceNetworkInterfaces ∧
            index ∉ new_indices newList) ∧
  Forall (λ req, compute.ani_InstanceId req = instanceId) attach ∧
  Forall (λ req, compute.dni_InstanceId req = instanceId) detach.
Proof.
  set (current := compute.ni_Index <$> instanceNetworkInterfaces).
  unfold getSpecsForAttachDetachNetworkInterfaces.
  set (curIfaces := foldl _ ∅ instanceNetworkInterfaces).
  assert (Hcur : ∀ index, is_Some (curIfaces !! index) ↔ index ∈ current).
  { intros index. unfold curIfaces. rewrite curIfaces_lookup, lookup_empty.
    split; [by intros [[? [=]]|?]|by right]. }
  destruct (attachSpecs _ _ _ _ _ _) as [[newIfaces attach']|] eqn:Hspecs; [|done].
  cbn. intros [= <- <-].
  apply attachSpecs_requests in Hspecs as (Hnew & Hattach & Hid). split_and!.
  - intros index. rewrite Hattach, <- Hcur, <- eq_None_not_Some. cbn.
    split; [intros [Hnil|?]; [by apply elem_of_nil in Hnil|done]|by right].
  - intros index. rewrite <- Hcur. rewrite list_elem_of_fmap. split.
    + intros (req & -> & Hreq). apply list_elem_of_omap in Hreq as ([k ni] & Hk & Hreq).
      apply elem_of_map_to_list in Hk.
      destruct (newIfaces !! k) eqn:Hknew; [done|]. injection Hreq as <-. cbn.
      split; [done|]. intros Hin.
      assert (is_Some (newIfaces !! k)) as [? ?]; [|congruence].
      apply Hnew. by right.
    + intros ([ni Hni] & Hnone).
      exists {| compute.dni_InstanceId := instanceId;
                compute.dni_NetworkInterfaceIndex := index |}.
      split; [done|]. apply list_elem_of_omap. exists (index, ni).
      split; [by apply elem_of_map_to_list|].
      destruct (newIfaces !! index) eqn:Hknew; [|done].
      destruct Hnone. assert (Hsome : is_Some (newIfaces !! index)) by eauto.
      apply Hnew in Hsome as [[? Hempty]|?]; [|done]. by rewrite lookup_empty in Hempty.
  - by apply Hid.
  - apply Forall_forall. intros req Hreq.
    apply list_elem_of_omap in Hreq as ([k ni] & _ & Hreq).
    destruct (newIfaces !! k); [done|]. by injection Hreq as <-.
Qed.

(** *** On examples *)

(** An interface on subnet [a] that is moved to subnet [b]. *)
Definition interfaceOnA : Value := VMap [("index", VInt 0); ("subnet_id", VString "a")].
Definition interfaceOnB : Value := VMap [("index", VInt 0); ("subnet_id", VString "b")].

Lemma getSpecsForUpdateNetworkInterfaces_stop_witness :
  ∃ i oldIface,
    [interfaceOnA] !! i = Some oldIface ∧
    interface_needs_stop (H:=exampleHelpers) oldIface
      (default VNil ([interfaceOnB] !! i)) = true.
Proof.
  eapply (getSpecsForUpdateNetworkInterfaces_stop (H:=exampleHelpers)
            (exampleData "epd-1" [] []) "network_interface"
            [interfaceOnA] [interfaceOnB]);
    [cbn; lia|vm_compute; reflexivity|reflexivity].
Defined.

Lemma getSpecsForUpdateNetworkInterfaces_requests_witness :
  Forall (λ req,
    compute.uni_InstanceId req = "epd-1" ∧
    (∃ i oldIface,
       [interfaceOnA] !! i = Some oldIface ∧
       oldIface ≠ default VNil ([interfaceOnB] !! i) ∧
       compute.uni_NetworkInterfaceIndex req = Itoa (Z.of_nat i)) ∧
    interface_request_masked req)
    (getSpecsForUpdateNetworkInterfaces (H:=exampleHelpers)
       (exampleData "epd-1" [] []) "network_interface"
       [interfaceOnA] [interfaceOnB]).1.1.
Proof.
  apply (getSpecsForUpdateNetworkInterfaces_requests (H:=exampleHelpers)
           (exampleData "epd-1" [] []) "network_interface"
           [interfaceOnA] [interfaceOnB]).
  cbn. lia.
Defined.

(** The helpers of the examples, with a v4 address that carries the
    NAT address of the interface. *)
Definition natHelpers : Helpers := {|
  Quote := @Quote exampleHelpers;
  instanceAction_String := @instanceAction_String exampleHelpers;
  handleNotFoundError := @handleNotFoundError exampleHelpers;
  getZone := @getZone exampleHelpers;
  getFolderID := @getFolderID exampleHelpers;
  getTimestamp := @getTimestamp exampleHelpers;
  parseDuration := @parseDuration exampleHelpers;
  formatDuration := @formatDuration exampleHelpers;
  expandLabels := @expandLabels exampleHelpers;
  expandInstanceResourcesSpec := @expandInstanceResourcesSpec exampleHelpers;
  expandInstanceBootDiskSpec := @expandInstanceBootDiskSpec exampleHelpers;
  expandInstanceSecondaryDiskSpecs := @expandInstanceSecondaryDiskSpecs exampleHelpers;
  expandInstanceNetworkSettingsSpecs := @expandInstanceNetworkSettingsSpecs exampleHelpers;
  expandInstanceNetworkInterfaceSpecs := @expandInstanceNetworkInterfaceSpecs exampleHelpers;
  expandInstanceSchedulingPolicy := @expandInstanceSchedulingPolicy exampleHelpers;
  expandInstancePlacementPolicy := @expandInstancePlacementPolicy exampleHelpers;
  expandInstanceMetadataOptions := @expandInstanceMetadataOptions exampleHelpers;
  expandLocalDiskSpecs := @expandLocalDiskSpecs exampleHelpers;
  expandInstanceFilesystemSpecs := @expandInstanceFilesystemSpecs exampleHelpers;
  expandInstanceGpuSettingsSpec := @expandInstanceGpuSettingsSpec exampleHelpers;
  expandHostAffinityRulesSpec := @expandHostAffinityRulesSpec exampleHelpers;
  expandSecondaryDiskSpec := @expandSecondaryDiskSpec exampleHelpers;
  diskSpecChanged := @diskSpecChanged exampleHelpers;
  expandFilesystemSpec := @expandFilesystemSpec exampleHelpers;
  hashstructure_Hash := @hashstructure_Hash exampleHelpers;
  expandPrimaryV4AddressSpec v :=
    Ok (Some {| compute.pa_Address := asString (child v "ip_address");
                compute.pa_OneToOneNatSpec :=
                  match child v "nat_ip_address" with
                  | VString address =>
                      Some {| compute.nat_Address := address;
                              compute.nat_DnsRecordSpecs := [] |}
                  | _ => None
                  end;
                compute.pa_DnsRecordSpecs := [] |});
  expandPrimaryV6AddressSpec := @expandPrimaryV6AddressSpec exampleHelpers;
  expandSecurityGroupIds := @expandSecurityGroupIds exampleHelpers;
  expandNetworkInterfaceSpec := @expandNetworkInterfaceSpec exampleHelpers;
  flattenInstanceResources := @flattenInstanceResources exampleHelpers;
  flattenInstanceSecondaryDisks := @flattenInstanceSecondaryDisks exampleHelpers;
  flattenInstanceSchedulingPolicy := @flattenInstanceSchedulingPolicy exampleHelpers;
  flattenInstancePlacementPolicy := @flattenInstancePlacementPolicy exampleHelpers;
  flattenInstanceNetworkInterfaces := @flattenInstanceNetworkInterfaces exampleHelpers;
  flattenLocalDisks := @flattenLocalDisks exampleHelpers;
  flattenInstanceMetadataOptions := @flattenInstanceMetadataOptions exampleHelpers;
  flattenInstanceFilesystems := @flattenInstanceFilesystems exampleHelpers;
  flattenComputeHardwareGeneration := @flattenComputeHardwareGeneration exampleHelpers;
  expandStringStringMap := @expandStringStringMap exampleHelpers;
  expandAdvancedRateLimiterProfileAdvancedRateLimiterRulesSlice := @expandAdvancedRateLimiterProfileAdvancedRateLimiterRulesSlice exampleHelpers;
  expandAdvancedRateLimiterProfileAdvancedRateLimiterRulesSlice_ := @expandAdvancedRateLimiterProfileAdvancedRateLimiterRulesSlice_ exampleHelpers;
  flattenAdvancedXrateXlimiterAdvancedRateLimiterRuleSlice := @flattenAdvancedXrateXlimiterAdvancedRateLimiterRuleSlice exampleHelpers
|}.

(** An interface that gets a NAT address, and one that loses it. *)
Definition interfaceWithNat : Value :=
  VMap [("index", VInt 0); ("subnet_id", VString "a"); ("nat_ip_address", VString "1.2.3.4")].

Lemma getSpecsForAddRemoveNatNetworkInterfaces_requests_witness :
  Forall (λ req,
    compute.addnat_InstanceId req = "epd-1" ∧
    ∃ i old,
      compute.addnat_NetworkInterfaceIndex req = Itoa (Z.of_nat i) ∧
      is_Some (compute.addnat_OneToOneNatSpec req) ∧
      nat_changed_at (H:=natHelpers)
        [interfaceOnA; interfaceWithNat] [interfaceWithNat; interfaceOnA] i old
        (compute.addnat_OneToOneNatSpec req))
    [{| compute.addnat_InstanceId := "epd-1";
        compute.addnat_NetworkInterfaceIndex := "0";
        compute.addnat_OneToOneNatSpec :=
          Some {| compute.nat_Address := "1.2.3.4"; compute.nat_DnsRecordSpecs := [] |} |}] ∧
  Forall (λ req,
    compute.rmnat_InstanceId req = "epd-1" ∧
    ∃ i old new,
      compute.rmnat_NetworkInterfaceIndex req = Itoa (Z.of_nat i) ∧
      is_Some old ∧
      nat_changed_at (H:=natHelpers)
        [interfaceOnA; interfaceWithNat] [interfaceWithNat; interfaceOnA] i old new)
    [{| compute.rmnat_InstanceId := "epd-1"; compute.rmnat_NetworkInterfaceIndex := "1" |}].
Proof.
  apply (getSpecsForAddRemoveNatNetworkInterfaces_requests (H:=natHelpers) "epd-1"
           [interfaceOnA; interfaceWithNat] [interfaceWithNat; interfaceOnA]);
    [cbn; lia|vm_compute; reflexivity].
Defined.

(** An instance with the interface of index 0 whose new configuration
    has the interface of index 1 only: the one is detached, the other
    attached. *)
Lemma getSpecsForAttachDetachNetworkInterfaces_requests_witness :
  (∀ index,
     index ∈ compute.ani_NetworkInterfaceIndex <$>
               [{| compute.ani_InstanceId := "epd-1";
                   compute.ani_NetworkInterfaceIndex := "1";
                   compute.ani_PrimaryV4AddressSpec := None;
                   compute.ani_SecurityGroupIds := [];
                   compute.ani_SubnetId := "b" |}] ↔
     index ∈ new_indices [VMap [("index", VInt 1); ("subnet_id", VString "b")]] ∧
     index ∉ compute.ni_Index <$> [{| compute.ni_Index := "0" |}]) ∧
  (∀ index,
     index ∈ compute.dni_NetworkInterfaceIndex <$>
               [{| compute.dni_InstanceId := "epd-1";
                   compute.dni_NetworkInterfaceIndex := "0" |}] ↔
     index ∈ compute.ni_Index <$> [{| compute.ni_Index := "0" |}] ∧
     index ∉ new_indices [VMap [("index", VInt 1); ("subnet_id", VString "b")]]) ∧
  Forall (λ req, compute.ani_InstanceId req = "epd-1")
    [{| compute.ani_InstanceId := "epd-1";
        compute.ani_NetworkInterfaceIndex := "1";
        compute.ani_PrimaryV4AddressSpec := None;
        compute.ani_SecurityGroupIds := [];
        compute.ani_SubnetId := "b" |}] ∧
  Forall (λ req, compute.dni_InstanceId req = "epd-1")
    [{| compute.dni_InstanceId := "epd-1"; compute.dni_NetworkInterfaceIndex := "0" |}].
Proof.
  apply (getSpecsForAttachDetachNetworkInterfaces_requests (H:=exampleHelpers)
           [VMap [("index", VInt 1); ("subnet_id", VString "b")]] "epd-1"
           [{| compute.ni_Index := "0" |}]).
  vm_compute. reflexivity.
Defined.

(** *** An interface without a v4 address *)

Lemma natSpecs_all_v4 `{Helpers} (instanceId : string) (ifaceIndex : nat)
    (oldList newList : list Value)
    (addNat addNat' : list compute.AddInstanceOneToOneNatRequest)
    (removeNat removeNat' : list compute.RemoveInstanceOneToOneNatRequest) :
  natSpecs instanceId ifaceIndex oldList newList addNat removeNat =
    Ok (addNat', removeNat') →
  addNat' ≠ [] ∨ removeNat' ≠ [] →
  ∀ i oldIface,
    oldList !! i = Some oldIface →
    ∃ old new,
      expandPrimaryV4AddressSpec oldIface = Ok (Some old) ∧
      expandPrimaryV4AddressSpec (default VNil (newList !! i)) = Ok (Some new).
Proof.
  revert ifaceIndex newList addNat removeNat.
  induction oldList as [|oldIface oldList IH];
    intros ifaceIndex newList addNat removeNat; cbn [natSpecs].
  { by intros _ _ i oldIface' ?. }
  destruct (expandPrimaryV4AddressSpec oldIface) as [oldV4Spec|] eqn:Hold; [|done].
  cbn [bind_result].
  destruct (expandPrimaryV4AddressSpec (default VNil (head newList)))
    as [newV4Spec|] eqn:Hnew; [|done].
  cbn [bind_result].
  destruct oldV4Spec as [o|], newV4Spec as [n|];
    try (intros [= <- <-] [?|?]; done).
  intros Hspecs Hsome [|i] oldIface'; cbn.
  - intros [= <-]. exists o, n. split; [done|]. by destruct newList.
  - intros Hi. destruct (IH _ _ _ _ Hspecs Hsome i oldIface' Hi) as (old & new & ? & Hn).
    exists old, new. split; [done|]. by destruct newList.
Qed.

(** [getSpecsForAddRemoveNatNetworkInterfaces] returns requests only
    when every interface of the old list and its interface in the new
    list have a v4 address: as soon as one of them has none, the
    function returns no request at all, also not for the interfaces it
    went through before. *)
Theorem nat_requests_need_v4_everywhere `{Helpers}
    (instanceId : string) (oldList newList : list Value)
    (addNat : list compute.AddInstanceOneToOneNatRequest)
    (removeNat : list compute.RemoveInstanceOneToOneNatRequest) :
  length oldList ≤ length newList →
  getSpecsForAddRemoveNatNetworkInterfaces instanceId oldList newList =
    Ok (addNat, removeNat) →
  addNat ≠ [] ∨ removeNat ≠ [] →
  ∀ i oldIface,
    oldList !! i = Some oldIface →
    ∃ old new,
      expandPrimaryV4AddressSpec oldIface = Ok (Some old) ∧
      expandPrimaryV4AddressSpec (default VNil (newList !! i)) = Ok (Some new).
Proof. intros _. apply natSpecs_all_v4. Qed.

(** The helpers of the examples, with an interface that has a v4
    address only when it names one. *)
Definition optionalV4Helpers : Helpers := {|
  Quote := @Quote natHelpers;
  instanceAction_String := @instanceAction_String natHelpers;
  handleNotFoundError := @handleNotFoundError natHelpers;
  getZone := @getZone natHelpers;
  getFolderID := @getFolderID natHelpers;
  getTimestamp := @getTimestamp natHelpers;
  parseDuration := @parseDuration natHelpers;
  formatDuration := @formatDuration natHelpers;
  expandLabels := @expandLabels natHelpers;
  expandInstanceResourcesSpec := @expandInstanceResourcesSpec natHelpers;
  expandInstanceBootDiskSpec := @expandInstanceBootDiskSpec natHelpers;
  expandInstanceSecondaryDiskSpecs := @expandInstanceSecondaryDiskSpecs natHelpers;
  expandInstanceNetworkSettingsSpecs := @expandInstanceNetworkSettingsSpecs natHelpers;
  expandInstanceNetworkInterfaceSpecs := @expandInstanceNetworkInterfaceSpecs natHelpers;
  expandInstanceSchedulingPolicy := @expandInstanceSchedulingPolicy natHelpers;
  expandInstancePlacementPolicy := @expandInstancePlacementPolicy natHelpers;
  expandInstanceMetadataOptions := @expandInstanceMetadataOptions natHelpers;
  expandLocalDiskSpecs := @expandLocalDiskSpecs natHelpers;
  expandInstanceFilesystemSpecs := @expandInstanceFilesystemSpecs natHelpers;
  expandInstanceGpuSettingsSpec := @expandInstanceGpuSettingsSpec natHelpers;
  expandHostAffinityRulesSpec := @expandHostAffinityRulesSpec natHelpers;
  expandSecondaryDiskSpec := @expandSecondaryDiskSpec natHelpers;
  diskSpecChanged := @diskSpecChanged natHelpers;
  expandFilesystemSpec := @expandFilesystemSpec natHelpers;
  hashstructure_Hash := @hashstructure_Hash natHelpers;
  expandPrimaryV4AddressSpec v :=
    Ok (match child v "ip_address" with
        | VString address =>
            Some {| compute.pa_Address := address;
                    compute.pa_OneToOneNatSpec :=
                      match child v "nat_ip_address" with
                      | VString nat =>
                          Some {| compute.nat_Address := nat;
                                  compute.nat_DnsRecordSpecs := [] |}
                      | _ => None
                      end;
                    compute.pa_DnsRecordSpecs := [] |}
        | _ => None
        end);
  expandPrimaryV6AddressSpec := @expandPrimaryV6AddressSpec natHelpers;
  expandSecurityGroupIds := @expandSecurityGroupIds natHelpers;
  expandNetworkInterfaceSpec := @expandNetworkInterfaceSpec natHelpers;
  flattenInstanceResources := @flattenInstanceResources natHelpers;
  flattenInstanceSecondaryDisks := @flattenInstanceSecondaryDisks natHelpers;
  flattenInstanceSchedulingPolicy := @flattenInstanceSchedulingPolicy natHelpers;
  flattenInstancePlacementPolicy := @flattenInstancePlacementPolicy natHelpers;
  flattenInstanceNetworkInterfaces := @flattenInstanceNetworkInterfaces natHelpers;
  flattenLocalDisks := @flattenLocalDisks natHelpers;
  flattenInstanceMetadataOptions := @flattenInstanceMetadataOptions natHelpers;
  flattenInstanceFilesystems := @flattenInstanceFilesystems natHelpers;
  flattenComputeHardwareGeneration := @flattenComputeHardwareGeneration natHelpers;
  expandStringStringMap := @expandStringStringMap natHelpers;
  expandAdvancedRateLimiterProfileAdvancedRateLimiterRulesSlice := @expandAdvancedRateLimiterProfileAdvancedRateLimiterRulesSlice natHelpers;
  expandAdvancedRateLimiterProfileAdvancedRateLimiterRulesSlice_ := @expandAdvancedRateLimiterProfileAdvancedRateLimiterRulesSlice_ natHelpers;
  flattenAdvancedXrateXlimiterAdvancedRateLimiterRuleSlice := @flattenAdvancedXrateXlimiterAdvancedRateLimiterRuleSlice natHelpers
|}.

(** The first interface gets a NAT address; the second has no v4
    address, so no request is returned for the first either. *)
Example nat_request_dropped :
  getSpecsForAddRemoveNatNetworkInterfaces (H:=optionalV4Helpers) "epd-1"
    [VMap [("ip_address", VString "10.0.0.1")]; VMap []]
    [VMap [("ip_address", VString "10.0.0.1"); ("nat_ip_address", VString "1.2.3.4")];
     VMap []] = Ok ([], []).
Proof. vm_compute. reflexivity. Qed.

Lemma nat_requests_need_v4_everywhere_witness :
  ∃ old new,
    @expandPrimaryV4AddressSpec natHelpers interfaceWithNat = Ok (Some old) ∧
    @expandPrimaryV4AddressSpec natHelpers
      (default VNil ([interfaceWithNat; interfaceOnA] !! 1)) = Ok (Some new).
Proof.
  apply (nat_requests_need_v4_everywhere (H:=natHelpers) "epd-1"
           [interfaceOnA; interfaceWithNat] [interfaceWithNat; interfaceOnA]
           [{| compute.addnat_InstanceId := "epd-1";
               compute.addnat_NetworkInterfaceIndex := "0";
               compute.addnat_OneToOneNatSpec :=
                 Some {| compute.nat_Address := "1.2.3.4";
                         compute.nat_DnsRecordSpecs := [] |} |}]
           [{| compute.rmnat_InstanceId := "epd-1";
               compute.rmnat_NetworkInterfaceIndex := "1" |}]);
    [cbn; lia|vm_compute; reflexivity|by left|reflexivity].
Defined.

(** ** The blocks of Update that attach and detach *)

(** A loop whose body makes the calls [call x] for [x] makes them for
    the elements it reaches, in their order, and reaches every
    element unless it returns an error. *)
Lemma wp_for_each {A} (xs : list A) (body : A → M unit) (call : A → list Call)
    (s : State) :
  (∀ x s1, st_d s1 = st_d s →
     wp (body x) s1 (λ _ s2 t, st_d s2 = st_d s ∧ calls t = call x)) →
  wp (for_each xs body) s
    (λ r s' t,
       st_d s' = st_d s ∧
       ∃ reached, reached `prefix_of` xs ∧ calls t = reached ≫= call ∧
                  (is_ok r = true → reached = xs)).
Proof.
  intros Hbody. assert (Hs : st_d s = st_d s) by done. revert Hs.
  generalize s at 1 3 as s1. induction xs as [|x xs IH]; intros s1 Hs1; cbn -[calls].
  - wp_step. split; [done|]. by exists [].
  - wp_step. eapply wp_mono; [by apply Hbody|]. cbn -[calls].
    intros [[]|e] s2 t2 [Hs2 Ht2].
    + eapply wp_mono; [by apply IH|]. cbn -[calls].
      intros r s3 t3 (Hs3 & reached & Hprefix & Ht3 & Hok). split; [done|].
      exists (x :: reached). split_and!.
      * by apply prefix_cons.
      * calls_of_trace. by rewrite Ht2, Ht3.
      * intros Hr. by rewrite Hok.
    + split; [done|]. exists [x]. split_and!; [|rewrite Ht2; cbn; by rewrite app_nil_r|done].
      apply prefix_cons, prefix_nil.
Qed.

Lemma wp_call_and_wait_calls (remote : Remote) (c : Call) (onCall onWait : error → error)
    (s : State) :
  wp (call_and_wait remote c onCall onWait) s
    (λ _ s' t, st_d s' = st_d s ∧ calls t = [c]).
Proof. by apply wp_call_and_wait. Qed.

Section secondary_disk.

Context `{Helpers}.
Variables (instanceId : string) (disks : list compute.AttachedDisk).
Variable newDisks : list Value.

(** The disks currently in the instance, by their id. *)
Definition currDisks : gmap string compute.AttachedDisk :=
  foldl (λ m disk, <[compute.ad_DiskId disk := disk]> m) ∅ disks.

(** A disk of the new configuration that is attached: it is not on
    the instance, or its spec has changed. *)
Definition disk_to_attach (spec : compute.AttachedDiskSpec) : Prop :=
  ∃ diskConfig,
    diskConfig ∈ newDisks ∧ expandSecondaryDiskSpec diskConfig = Ok spec ∧
    ∀ disk, currDisks !! compute.ads_DiskId spec = Some disk →
            diskSpecChanged disk spec = true.

(** A disk that is detached: it is on the instance, and its spec has
    changed in the new configuration or the new configuration has no
    disk of its id. *)
Definition disk_to_detach (req : compute.DetachInstanceDiskRequest) : Prop :=
  compute.ddr_InstanceId req = instanceId ∧
  ∃ disk,
    currDisks !! compute.ddr_DiskId req = Some disk ∧
    ((∃ diskConfig spec,
        diskConfig ∈ newDisks ∧ expandSecondaryDiskSpec diskConfig = Ok spec ∧
        compute.ads_DiskId spec = compute.ddr_DiskId req ∧
        diskSpecChanged disk spec = true) ∨
     (∀ diskConfig spec,
        diskConfig ∈ newDisks → expandSecondaryDiskSpec diskConfig = Ok spec →
        compute.ads_DiskId spec ≠ compute.ddr_DiskId req)).

Lemma currDisks_lookup (ds : list compute.AttachedDisk)
    (m : gmap string compute.AttachedDisk) (diskID : string) :
  (∀ k d, m !! k = Some d → compute.ad_DiskId d = k ∧ d ∈ disks) →
  (∀ d, d ∈ ds → d ∈ disks) →
  (∀ disk,
     foldl (λ m disk, <[compute.ad_DiskId disk := disk]> m) m ds !! diskID = Some disk →
     compute.ad_DiskId disk = diskID ∧ disk ∈ disks) ∧
  (is_Some (m !! diskID) ∨ diskID ∈ compute.ad_DiskId <$> ds →
   is_Some (foldl (λ m disk, <[compute.ad_DiskId disk := disk]> m) m ds !! diskID)).
Proof.
  revert m. induction ds as [|d ds IH]; intros m Hm Hds; cbn.
  { split; [apply Hm|]. intros [?|Hin]; [done|]. by apply elem_of_nil in Hin. }
  destruct (IH (<[compute.ad_DiskId d := d]> m)) as [IH1 IH2].
  - intros k d'. destruct (decide (k = compute.ad_DiskId d)) as [->|Hne].
    + rewrite lookup_insert_eq. intros [= <-]. split; [done|]. apply Hds. by left.
    + rewrite lookup_insert_ne by done. apply Hm.
  - intros d' Hd'. apply Hds. by right.
  - split; [done|]. intros Hin. apply IH2.
    destruct (decide (diskID = compute.ad_DiskId d)) as [->|Hne].
    + left. by rewrite lookup_insert_eq.
    + rewrite lookup_insert_ne by done.
      destruct Hin as [?|Hin]; [by left|]. right.
      by apply elem_of_cons in Hin as [?|?].
Qed.

(** [currDisks] holds a disk of the instance under its own id, and
    has an entry for every disk of the instance. *)
Lemma currDisks_keys (diskID : string) :
  (∀ disk, currDisks !! diskID = Some disk →
           compute.ad_DiskId disk = diskID ∧ disk ∈ disks) ∧
  (diskID ∈ compute.ad_DiskId <$> disks → is_Some (currDisks !! diskID)).
Proof.
  destruct (currDisks_lookup disks ∅ diskID) as [H1 H2]; [|done|].
  - intros k d. by rewrite lookup_empty.
  - split; [done|]. intros Hin. apply H2. by right.
Qed.

End secondary_disk.

Lemma diskSpecs_requests `{Helpers} (instanceId : string)
    (disks : list compute.AttachedDisk) (newDisks : list Value)
    (nDisks nDisks' : gmap string compute.AttachedDiskSpec)
    (attach attach' : list compute.AttachedDiskSpec)
    (detach detach' : list compute.DetachInstanceDiskRequest) :
  diskSpecs instanceId (currDisks disks) newDisks nDisks attach detach =
    Ok (nDisks', attach', detach') →
  (∀ diskID, nDisks' !! diskID = None ↔
     nDisks !! diskID = None ∧
     ∀ diskConfig spec,
       diskConfig ∈ newDisks → expandSecondaryDiskSpec diskConfig = Ok spec →
       compute.ads_DiskId spec ≠ diskID) ∧
  (∀ spec, spec ∈ attach' ↔ spec ∈ attach ∨ disk_to_attach disks newDisks spec) ∧
  (∀ req, req ∈ detach' ↔
     req ∈ detach ∨
     (compute.ddr_InstanceId req = instanceId ∧
      ∃ disk diskConfig spec,
        currDisks disks !! compute.ddr_DiskId req = Some disk ∧
        diskConfig ∈ newDisks ∧ expandSecondaryDiskSpec diskConfig = Ok spec ∧
        compute.ads_DiskId spec = compute.ddr_DiskId req ∧
        diskSpecChanged disk spec = true)).
Proof.
  unfold disk_to_attach. revert nDisks attach detach.
  induction newDisks as [|diskConfig rest IH]; intros nDisks attach detach; cbn.
  - intros [= <- <- <-]. split_and!.
    + intros diskID. split; [|by intros []]. intros Hnone. split; [done|].
      by intros ? ? ?%elem_of_nil.
    + intros spec. split; [by left|]. intros [?|(c & ?%elem_of_nil & _)]; done.
    + intros req. split; [by left|].
      intros [?|(_ & ? & c & ? & _ & ?%elem_of_nil & _)]; done.
  - destruct (expandSecondaryDiskSpec diskConfig) as [diskSpec|] eqn:Hspec; [|done].
    cbn [bind_result].
    assert (Hkeys : ∀ (nDisks1 : gmap string compute.AttachedDiskSpec) diskID,
      (nDisks1 !! diskID = None ↔
       <[compute.ads_DiskId diskSpec := diskSpec]> nDisks !! diskID = None ∧
       ∀ c spec, c ∈ rest → expandSecondaryDiskSpec c = Ok spec →
                 compute.ads_DiskId spec ≠ diskID) →
      nDisks1 !! diskID = None ↔
      nDisks !! diskID = None ∧
      ∀ c spec, c ∈ diskConfig :: rest → expandSecondaryDiskSpec c = Ok spec →
                compute.ads_DiskId spec ≠ diskID).
    { intros nDisks1 diskID ->. rewrite lookup_insert_None. split.
      - intros [[Hnd Hne] Hothers]. split; [done|].
        intros c spec [->|Hc]%elem_of_cons Hc'; [congruence|by eapply Hothers].
      - intros [Hnd Hall]. split_and!; [done| |].
        + intros Heq. eapply Hall; [by left|done..].
        + intros c spec Hc. apply Hall. by right. }
    assert (Hattached : ∀ (attach1 : list compute.AttachedDiskSpec) spec,
      (∀ disk, currDisks disks !! compute.ads_DiskId diskSpec = Some disk →
               diskSpecChanged disk diskSpec = true) →
      (spec ∈ attach1 ↔
       spec ∈ attach ++ [diskSpec] ∨
       ∃ c, c ∈ rest ∧ expandSecondaryDiskSpec c = Ok spec ∧
            ∀ disk, currDisks disks !! compute.ads_DiskId spec = Some disk →
                    diskSpecChanged disk spec = true) →
      spec ∈ attach1 ↔
      spec ∈ attach ∨
      ∃ c, c ∈ diskConfig :: rest ∧ expandSecondaryDiskSpec c = Ok spec ∧
           ∀ disk, currDisks disks !! compute.ads_DiskId spec = Some disk →
                   diskSpecChanged disk spec = true).
    { intros attach1 spec Hneeded ->. rewrite elem_of_app, list_elem_of_singleton. split.
      - intros [[?| ->]|(c & Hc & Hrest)]; [by left| |].
        + right. exists diskConfig. split; [by left|done].
        + right. exists c. split; [by right|done].
      - intros [?|(c & [->|Hc]%elem_of_cons & Hc' & Hrest)]; [by left;left| |].
        + left. right. congruence.
        + right. by exists c. }
    assert (Hkept : ∀ (attach1 : list compute.AttachedDiskSpec) spec disk,
      currDisks disks !! compute.ads_DiskId diskSpec = Some disk →
      diskSpecChanged disk diskSpec = false →
      (spec ∈ attach1 ↔
       spec ∈ attach ∨
       ∃ c, c ∈ rest ∧ expandSecondaryDiskSpec c = Ok spec ∧
            ∀ disk, currDisks disks !! compute.ads_DiskId spec = Some disk →
                    diskSpecChanged disk spec = true) →
      spec ∈ attach1 ↔
      spec ∈ attach ∨
      ∃ c, c ∈ diskConfig :: rest ∧ expandSecondaryDiskSpec c = Ok spec ∧
           ∀ disk, currDisks disks !! compute.ads_DiskId spec = Some disk →
                   diskSpecChanged disk spec = true).
    { intros attach1 spec disk Hcur Hsame ->. split.
      - intros [?|(c & Hc & Hrest)]; [by left|]. right. exists c. split; [by right|done].
      - intros [?|(c & [->|Hc]%elem_of_cons & Hc' & Hrest)]; [by left| |].
        + assert (spec = diskSpec) as -> by congruence.
          apply Hrest in Hcur. congruence.
        + right. by exists c. }
    assert (Hdetached : ∀ (detach1 detach0 : list compute.DetachInstanceDiskRequest) req,
      (detach0 = detach ∧
       (∀ disk, currDisks disks !! compute.ads_DiskId diskSpec = Some disk →
                diskSpecChanged disk diskSpec = false) ∨
       ∃ disk, currDisks disks !! compute.ads_DiskId diskSpec = Some disk ∧
               diskSpecChanged disk diskSpec = true ∧
               detach0 = detach ++ [{| compute.ddr_InstanceId := instanceId;
                                       compute.ddr_DiskId := compute.ad_DiskId disk |}]) →
      (req ∈ detach1 ↔
       req ∈ detach0 ∨
       (compute.ddr_InstanceId req = instanceId ∧
        ∃ disk c spec,
          currDisks disks !! compute.ddr_DiskId req = Some disk ∧
          c ∈ rest ∧ expandSecondaryDiskSpec c = Ok spec ∧
          compute.ads_DiskId spec = compute.ddr_DiskId req ∧
          diskSpecChanged disk spec = true)) →
      req ∈ detach1 ↔
      req ∈ detach ∨
      (compute.ddr_InstanceId req = instanceId ∧
       ∃ disk c spec,
         currDisks disks !! compute.ddr_DiskId req = Some disk ∧
         c ∈ diskConfig :: rest ∧ expandSecondaryDiskSpec c = Ok spec ∧
         compute.ads_DiskId spec = compute.ddr_DiskId req ∧
         diskSpecChanged disk spec = true)).
    { intros detach1 detach0 req Hcase ->. split.
      - intros [Hin|(Hid & disk & c & spec & Hcur & Hc & Hrest)].
        + destruct Hcase as [[-> _]|(disk & Hcur & Hchanged & ->)]; [by left|].
          apply elem_of_app in Hin as [?|Hin]; [by left|].
          apply list_elem_of_singleton in Hin as ->. right. cbn. split; [done|].
          destruct (currDisks_keys disks (compute.ads_DiskId diskSpec)) as [Hkey _].
          destruct (Hkey _ Hcur) as [Hid _].
          exists disk, diskConfig, diskSpec. rewrite Hid. split_and!; [done|by left|done..].
        + right. split; [done|]. exists disk, c, spec. split; [done|]. split; [by right|done].
      - intros [Hin|(Hid & disk & c & spec & Hcur & [->|Hc]%elem_of_cons & Hc' & Hsame & Hch)].
        + left. destruct Hcase as [[-> _]|(disk & _ & _ & ->)]; [done|].
          apply elem_of_app. by left.
        + assert (spec = diskSpec) as -> by congruence. left.
          rewrite <- Hsame in Hcur.
          destruct Hcase as [[_ Hnot]|(disk' & Hcur' & _ & ->)].
          * apply Hnot in Hcur. congruence.
          * apply elem_of_app. right. apply list_elem_of_singleton.
            assert (disk' = disk) as -> by congruence.
            destruct (currDisks_keys disks (compute.ads_DiskId diskSpec)) as [Hkey _].
            destruct (Hkey _ Hcur) as [Hdisk _]. destruct req; cbn in *. congruence.
        + right. split; [done|]. by exists disk, c, spec. }
    destruct (currDisks disks !! compute.ads_DiskId diskSpec) as [currDisk|] eqn:Hcur.
    + destruct (diskSpecChanged currDisk diskSpec) eqn:Hchanged.
      * intros (Hn & Hattach & Hdetach)%IH. split_and!.
        -- intros diskID. apply Hkeys, Hn.
        -- intros spec. apply Hattached, Hattach. by intros disk [= <-].
        -- intros req. eapply Hdetached, Hdetach. right. by exists currDisk.
      * intros (Hn & Hattach & Hdetach)%IH. split_and!.
        -- intros diskID. apply Hkeys, Hn.
        -- intros spec. by eapply Hkept, Hattach.
        -- intros req. eapply Hdetached, Hdetach. left. split; [done|]. by intros disk [= <-].
    + intros (Hn & Hattach & Hdetach)%IH. split_and!.
      * intros diskID. apply Hkeys, Hn.
      * intros spec. by apply Hattached, Hattach.
      * intros req. eapply Hdetached, Hdetach. by left.
Qed.

Lemma bind_singleton {A B} (f : A → B) (xs : list A) :
  xs ≫= (λ x, [f x]) = f <$> xs.
Proof. induction xs as [|x xs IH]; [done|]. cbn. by rewrite IH. Qed.

Lemma Forall_prefix {A} (P : A → Prop) (reached xs : list A) :
  reached `prefix_of` xs → (∀ x, x ∈ xs → P x) → Forall P reached.
Proof.
  intros [rest ->] Hall. apply Forall_forall. intros x Hx. apply Hall, elem_of_app. by left.
Qed.

(** The [secondary_disk] block of Update, with the lists of the
    requests it has made. *)
Lemma wp_update_secondary_disk (remote : Remote) `{Helpers}
    (instance : compute.Instance) (s : State) :
  wp (update_secondary_disk remote instance) s
    (λ r s' t,
       st_d s' = st_d s ∧
       ∃ detach attach,
         calls t = (InstanceDetachDisk <$> detach) ++ (InstanceAttachDisk <$> attach) ∧
         Forall (disk_to_detach (ResourceData.Id (st_d s))
                   (compute.Instance_SecondaryDisks instance)
                   (asList (ResourceData.GetChange (st_d s) "secondary_disk").2)) detach ∧
         Forall (λ req,
                   compute.adr_InstanceId req = ResourceData.Id (st_d s) ∧
                   disk_to_attach (compute.Instance_SecondaryDisks instance)
                     (asList (ResourceData.GetChange (st_d s) "secondary_disk").2)
                     (compute.adr_AttachedDiskSpec req)) attach ∧
         (is_ok r = true → ResourceData.HasChange (st_d s) "secondary_disk" = true →
          (∀ req,
             disk_to_detach (ResourceData.Id (st_d s))
               (compute.Instance_SecondaryDisks instance)
               (asList (ResourceData.GetChange (st_d s) "secondary_disk").2) req →
             req ∈ detach) ∧
          (∀ spec,
             disk_to_attach (compute.Instance_SecondaryDisks instance)
               (asList (ResourceData.GetChange (st_d s) "secondary_disk").2) spec →
             {| compute.adr_InstanceId := ResourceData.Id (st_d s);
                compute.adr_AttachedDiskSpec := spec |} ∈ attach))).
Proof.
  unfold update_secondary_disk. wp_step.
  destruct (ResourceData.HasChange (st_d s) "secondary_disk") eqn:Hchange.
  2: { wp_step. split; [done|]. exists [], []. by split_and!. }
  set (newDisks := asList (ResourceData.GetChange (st_d s) "secondary_disk").2).
  set (disks := compute.Instance_SecondaryDisks instance).
  set (instanceId := ResourceData.Id (st_d s)).
  change (foldl _ ∅ disks) with (currDisks disks).
  wp_step. wp_step.
  destruct (diskSpecs instanceId (currDisks disks) newDisks ∅ [] [])
    as [[[nDisks attach] detach]|e] eqn:Hspecs.
  2: { split; [done|]. exists [], []. by split_and!. }
  apply diskSpecs_requests in Hspecs as (Hn & Hattach & Hdetach).
  set (absent := omap _ (map_to_list (currDisks disks))).
  assert (Hdet : ∀ req, req ∈ detach ++ absent ↔ disk_to_detach instanceId disks newDisks req).
  { intros req. rewrite elem_of_app, Hdetach, elem_of_nil. unfold absent, disk_to_detach.
    rewrite list_elem_of_omap. split.
    - intros [[[]|(Hid & disk & c & spec & Hcur & Hrest)]|([diskID disk] & Hin & Hreq)].
      + split; [done|]. exists disk. split; [done|]. left. by exists c, spec.
      + apply elem_of_map_to_list in Hin.
        destruct (nDisks !! diskID) eqn:Hnew; [done|]. injection Hreq as <-. cbn.
        split; [done|]. exists disk. split; [done|]. right.
        apply Hn in Hnew as [_ Hnew]. apply Hnew.
    - intros (Hid & disk & Hcur & [(c & spec & Hrest)|Habsent]).
      + left. right. split; [done|]. by exists disk, c, spec.
      + right. exists (compute.ddr_DiskId req, disk). split; [by apply elem_of_map_to_list|].
        assert (nDisks !! compute.ddr_DiskId req = None) as ->.
        { apply Hn. split; [apply lookup_empty|done]. }
        destruct req; cbn in *. congruence. }
  assert (Hatt : ∀ spec, spec ∈ attach ↔ disk_to_attach disks newDisks spec).
  { intros spec. rewrite Hattach, elem_of_nil. tauto. }
  cbn -[calls]. wp_step.
  eapply wp_mono;
    [apply (wp_for_each _ _ (λ req, [InstanceDetachDisk req])); intros req s1 Hs1;
     eapply wp_mono; [apply wp_call_and_wait_calls|];
     intros r' s' t' [Hs' Ht']; split; congruence|].
  cbn -[calls]. intros r1 s1 t1 (Hs1 & reached1 & Hpre1 & Ht1 & Hall1).
  rewrite bind_singleton in Ht1.
  assert (Hreached1 : Forall (disk_to_detach instanceId disks newDisks) reached1).
  { eapply Forall_prefix; [done|]. intros req. apply Hdet. }
  destruct r1 as [[]|e].
  2: { split; [done|]. exists reached1, []. rewrite Ht1, app_nil_r. by split_and!. }
  eapply wp_mono;
    [apply (wp_for_each _ _ (λ spec, [InstanceAttachDisk
       {| compute.adr_InstanceId := instanceId; compute.adr_AttachedDiskSpec := spec |}]));
     intros spec s2 Hs2;
     eapply wp_mono; [apply wp_call_and_wait_calls|];
     intros r' s' t' [Hs' Ht']; split; congruence|].
  cbn -[calls]. intros r2 s2 t2 (Hs2 & reached2 & Hpre2 & Ht2 & Hall2).
  rewrite bind_singleton in Ht2. split; [congruence|].
  exists reached1,
    ((λ spec, {| compute.adr_InstanceId := instanceId;
                 compute.adr_AttachedDiskSpec := spec |}) <$> reached2).
  split_and!.
  - calls_of_trace. by rewrite Ht1, Ht2, <- list_fmap_compose.
  - done.
  - apply Forall_fmap. eapply Forall_prefix; [done|]. intros spec Hspec. cbn.
    split; [done|]. by apply Hatt.
  - intros Hok _. rewrite (Hall1 eq_refl), (Hall2 Hok). split.
    + intros req. apply Hdet.
    + intros spec Hspec%Hatt.
      by apply (list_elem_of_fmap_2 (λ spec, compute.Build_AttachInstanceDiskRequest _ spec)).
Qed.

Section filesystem.

Context `{Helpers}.

(** The configuration has a filesystem of this spec and hash. *)
Definition fs_hashes (configs : list Value) (spec : compute.AttachedFilesystemSpec)
    (hash : N) : Prop :=
  ∃ fsConfig,
    fsConfig ∈ configs ∧ expandFilesystemSpec fsConfig = Ok spec ∧
    hashstructure_Hash spec = Ok hash.

Variables (instanceId : string) (filesystems : list compute.AttachedFilesystem).
Variables (old new : list Value).

(** A filesystem of the new configuration that is attached: no
    filesystem of the old configuration that is still on the instance
    has its hash. *)
Definition fs_to_attach (spec : compute.AttachedFilesystemSpec) : Prop :=
  ∃ hash,
    fs_hashes new spec hash ∧
    ∀ spec', fs_hashes old spec' hash →
             compute.afs_FilesystemId spec' ∉ compute.af_FilesystemId <$> filesystems.

(** A filesystem that is detached: it is in the old configuration
    and on the instance, and no filesystem of the new configuration
    has its hash. *)
Definition fs_to_detach (req : compute.DetachInstanceFilesystemRequest) : Prop :=
  compute.dfr_InstanceId req = instanceId ∧
  ∃ spec hash,
    fs_hashes old spec hash ∧
    compute.afs_FilesystemId spec = compute.dfr_FilesystemId req ∧
    compute.dfr_FilesystemId req ∈ compute.af_FilesystemId <$> filesystems ∧
    ∀ spec', ¬ fs_hashes new spec' hash.

End filesystem.

Lemma fs_hashes_cons `{Helpers} (fsConfig : Value) (rest : list Value)
    (fsSpec spec : compute.AttachedFilesystemSpec) (hash h : N) :
  expandFilesystemSpec fsConfig = Ok fsSpec →
  hashstructure_Hash fsSpec = Ok hash →
  fs_hashes (fsConfig :: rest) spec h ↔ (spec = fsSpec ∧ h = hash) ∨ fs_hashes rest spec h.
Proof.
  intros Hspec Hhash. unfold fs_hashes. split.
  - intros (c & [->|Hc]%elem_of_cons & Hc' & Hh).
    + left. split; congruence.
    + right. by exists c.
  - intros [[-> ->]|(c & Hc & Hrest)].
    + exists fsConfig. split; [by left|done].
    + exists c. split; [by right|done].
Qed.

Lemma oldFilesystems_hashes `{Helpers} (currFs : gset string) (old : list Value)
    (oldFs0 oldFs : gmap N string) :
  oldFilesystems currFs old oldFs0 = Ok oldFs →
  ∀ hash,
    (oldFs !! hash = None ↔
     oldFs0 !! hash = None ∧
     ∀ spec, fs_hashes old spec hash → compute.afs_FilesystemId spec ∉ currFs) ∧
    (∀ fsID, oldFs !! hash = Some fsID →
       oldFs0 !! hash = Some fsID ∨
       ∃ spec, fs_hashes old spec hash ∧ compute.afs_FilesystemId spec = fsID ∧
               fsID ∈ currFs).
Proof.
  revert oldFs0. induction old as [|fsConfig rest IH]; intros oldFs0; cbn.
  - intros [= <-] hash. split; [|by left]. split; [|by intros []].
    intros Hnone. split; [done|]. by intros spec (c & ?%elem_of_nil & _).
  - destruct (expandFilesystemSpec fsConfig) as [fsSpec|] eqn:Hspec; [|done].
    cbn [bind_result].
    destruct (hashstructure_Hash fsSpec) as [hash|] eqn:Hhash; [|done].
    cbn [bind_result]. intros Hrest h. destruct (IH _ Hrest h) as [Hnone Hsome].
    rewrite Hnone. clear Hnone.
    case_bool_decide as Hcur.
    + split.
      * rewrite lookup_insert_None. split.
        -- intros [[Hold Hne] Hothers]. split; [done|].
           intros spec [[-> ->]|?]%(fs_hashes_cons _ _ _ _ _ _ Hspec Hhash); [done|].
           by apply Hothers.
        -- intros [Hold Hall]. split_and!; [done| |].
           ++ intros <-. apply (Hall fsSpec); [|done].
              apply (fs_hashes_cons _ _ _ _ _ _ Hspec Hhash). by left.
           ++ intros spec Hin. apply Hall.
              apply (fs_hashes_cons _ _ _ _ _ _ Hspec Hhash). by right.
      * intros fsID [Hin|(spec & Hin & Hrest')]%Hsome.
        -- apply lookup_insert_Some in Hin as [[<- <-]|[_ Hin]]; [|by left].
           right. exists fsSpec. split; [|done].
           apply (fs_hashes_cons _ _ _ _ _ _ Hspec Hhash). by left.
        -- right. exists spec. split; [|done].
           apply (fs_hashes_cons _ _ _ _ _ _ Hspec Hhash). by right.
    + split.
      * split.
        -- intros [Hold Hothers]. split; [done|].
           intros spec [[-> ->]|?]%(fs_hashes_cons _ _ _ _ _ _ Hspec Hhash); [done|].
           by apply Hothers.
        -- intros [Hold Hall]. split; [done|]. intros spec Hin. apply Hall.
           apply (fs_hashes_cons _ _ _ _ _ _ Hspec Hhash). by right.
      * intros fsID [Hin|(spec & Hin & Hrest')]%Hsome; [by left|].
        right. exists spec. split; [|done].
        apply (fs_hashes_cons _ _ _ _ _ _ Hspec Hhash). by right.
Qed.

Lemma newFilesystems_hashes `{Helpers} (oldFs : gmap N string) (new : list Value)
    (newFs0 newFs : gset N) (attach attach' : list compute.AttachedFilesystemSpec) :
  newFilesystems oldFs new newFs0 attach = Ok (newFs, attach') →
  (∀ hash, hash ∈ newFs ↔ hash ∈ newFs0 ∨ ∃ spec, fs_hashes new spec hash) ∧
  (∀ spec, spec ∈ attach' ↔
     spec ∈ attach ∨ ∃ hash, fs_hashes new spec hash ∧ oldFs !! hash = None).
Proof.
  revert newFs0 attach. induction new as [|fsConfig rest IH]; intros newFs0 attach; cbn.
  - intros [= <- <-]. split.
    + intros hash. split; [by left|]. by intros [?|(? & ? & ?%elem_of_nil & _)].
    + intros spec. split; [by left|]. by intros [?|(? & (? & ?%elem_of_nil & _) & _)].
  - destruct (expandFilesystemSpec fsConfig) as [fsSpec|] eqn:Hspec; [|done].
    cbn [bind_result].
    destruct (hashstructure_Hash fsSpec) as [hash|] eqn:Hhash; [|done].
    cbn [bind_result]. intros [Hnew Hattach]%IH. split.
    + intros h. rewrite Hnew, elem_of_union, elem_of_singleton.
      setoid_rewrite (fs_hashes_cons _ _ _ _ _ _ Hspec Hhash). split.
      * intros [[->|?]|[spec ?]]; [right; exists fsSpec; by left|by left|].
        right. exists spec. by right.
      * intros [?|[spec [[_ ->]|?]]]; [by left; right|by left; left|].
        right. by exists spec.
    + intros spec. rewrite Hattach.
      setoid_rewrite (fs_hashes_cons _ _ _ _ _ _ Hspec Hhash).
      destruct (oldFs !! hash) as [fsID|] eqn:Hold.
      * split.
        -- intros [?|(h & ? & ?)]; [by left|]. right. exists h. split; [by right|done].
        -- intros [?|(h & [[-> ->]|?] & ?)]; [by left|congruence|]. right. by exists h.
      * rewrite elem_of_app, list_elem_of_singleton. split.
        -- intros [[?| ->]|(h & ? & ?)]; [by left| |].
           ++ right. exists hash. split; [by left|done].
           ++ right. exists h. split; [by right|done].
        -- intros [?|(h & [[-> ->]|?] & ?)]; [by left; left|by left; right|].
           right. by exists h.
Qed.

Lemma bind_fmap {A B C} (g : B → C) (f : A → list B) (h : A → list C) (xs : list A) :
  (∀ x, h x = g <$> f x) → xs ≫= h = g <$> (xs ≫= f).
Proof.
  intros Hh. induction xs as [|x xs IH]; [done|]. cbn. by rewrite fmap_app, Hh, IH.
Qed.

(** The [filesystem] block of Update, with the lists of the requests
    it has made. *)
Lemma wp_update_filesystem (remote : Remote) `{Helpers}
    (instance : compute.Instance) (s : State) :
  wp (update_filesystem remote instance) s
    (λ r s' t,
       st_d s' = st_d s ∧
       ∃ detach attach,
         calls t = (InstanceDetachFilesystem <$> detach) ++
                   (InstanceAttachFilesystem <$> attach) ∧
         Forall (fs_to_detach (ResourceData.Id (st_d s))
                   (compute.Instance_Filesystems instance)
                   (asList (ResourceData.GetChange (st_d s) "filesystem").1)
                   (asList (ResourceData.GetChange (st_d s) "filesystem").2)) detach ∧
         Forall (λ req,
                   compute.afr_InstanceId req = ResourceData.Id (st_d s) ∧
                   fs_to_attach (compute.Instance_Filesystems instance)
                     (asList (ResourceData.GetChange (st_d s) "filesystem").1)
                     (asList (ResourceData.GetChange (st_d s) "filesystem").2)
                     (compute.afr_AttachedFilesystemSpec req)) attach ∧
         (is_ok r = true → ResourceData.HasChange (st_d s) "filesystem" = true →
          ∀ spec,
            fs_to_attach (compute.Instance_Filesystems instance)
              (asList (ResourceData.GetChange (st_d s) "filesystem").1)
              (asList (ResourceData.GetChange (st_d s) "filesystem").2) spec →
            {| compute.afr_InstanceId := ResourceData.Id (st_d s);
               compute.afr_AttachedFilesystemSpec := spec |} ∈ attach)).
Proof.
  unfold update_filesystem. wp_step.
  destruct (ResourceData.HasChange (st_d s) "filesystem") eqn:Hchange.
  2: { wp_step. split; [done|]. exists [], []. by split_and!. }
  destruct (ResourceData.GetChange (st_d s) "filesystem") as [o n]. cbn [fst snd].
  set (filesystems := compute.Instance_Filesystems instance).
  set (instanceId := ResourceData.Id (st_d s)).
  set (currFs := list_to_set (compute.af_FilesystemId <$> filesystems) : gset string).
  wp_step. wp_step.
  destruct (oldFilesystems currFs (asList o) ∅) as [oldFs|e] eqn:Hold.
  2: { split; [done|]. exists [], []. by split_and!. }
  wp_step. wp_step.
  destruct (newFilesystems oldFs (asList n) ∅ []) as [[newFs attach]|e] eqn:Hnew.
  2: { split; [done|]. exists [], []. by split_and!. }
  pose proof (oldFilesystems_hashes _ _ _ _ Hold) as Holds.
  apply newFilesystems_hashes in Hnew as [Hnews Hattach].
  assert (Hatt : ∀ spec,
    spec ∈ attach ↔ fs_to_attach filesystems (asList o) (asList n) spec).
  { intros spec. rewrite Hattach, elem_of_nil. unfold fs_to_attach. split.
    - intros [[]|(hash & Hin & Hnone)]. exists hash. split; [done|].
      intros spec' Hspec' Hcur. apply Holds in Hnone as [_ Hnone].
      by apply (Hnone spec'), elem_of_list_to_set.
    - intros (hash & Hin & Hnone). right. exists hash. split; [done|].
      apply Holds. split; [apply lookup_empty|].
      intros spec' Hspec' Hcur%elem_of_list_to_set. by apply (Hnone spec'). }
  set (detached := λ '(hash, fsID),
         if bool_decide (hash ∈ newFs) then []
         else [{| compute.dfr_InstanceId := instanceId;
                  compute.dfr_FilesystemId := fsID |}] : list _).
  assert (Hdet : ∀ entry req,
    entry ∈ map_to_list oldFs → req ∈ detached entry →
    fs_to_detach instanceId filesystems (asList o) (asList n) req).
  { intros [hash fsID] req Hentry%elem_of_map_to_list. unfold detached.
    case_bool_decide as Hin; [by intros ?%elem_of_nil|].
    intros ->%list_elem_of_singleton. split; [done|]. cbn.
    apply Holds in Hentry as [Hentry|(spec & Hspec & Hid & Hcur)].
    { by rewrite lookup_empty in Hentry. }
    exists spec, hash. split_and!; [done..|by apply elem_of_list_to_set in Hcur|].
    intros spec' Hspec'. apply Hin, Hnews. right. by exists spec'. }
  cbn -[calls]. wp_step.
  eapply wp_mono;
    [apply (wp_for_each _ _ (λ entry, InstanceDetachFilesystem <$> detached entry));
     intros [hash fsID] s1 Hs1; unfold detached; case_bool_decide;
     [by wp_step|];
     eapply wp_mono; [apply wp_call_and_wait_calls|];
     intros r' s' t' [Hs' Ht']; split; [congruence|exact Ht']|].
  cbn -[calls]. intros r1 s1 t1 (Hs1 & reached1 & Hpre1 & Ht1 & Hall1).
  rewrite (bind_fmap InstanceDetachFilesystem detached) in Ht1 by done.
  assert (Hreached1 :
    Forall (fs_to_detach instanceId filesystems (asList o) (asList n))
      (reached1 ≫= detached)).
  { apply Forall_forall. intros req (entry & Hreq & Hentry)%list_elem_of_bind.
    apply (Hdet entry); [|done]. destruct Hpre1 as [rest ->].
    apply elem_of_app. by left. }
  destruct r1 as [[]|e].
  2: { split; [done|]. exists (reached1 ≫= detached), []. rewrite Ht1, app_nil_r.
       by split_and!. }
  eapply wp_mono;
    [apply (wp_for_each _ _ (λ spec, [InstanceAttachFilesystem
       {| compute.afr_InstanceId := instanceId;
          compute.afr_AttachedFilesystemSpec := spec |}]));
     intros spec s2 Hs2;
     eapply wp_mono; [apply wp_call_and_wait_calls|];
     intros r' s' t' [Hs' Ht']; split; congruence|].
  cbn -[calls]. intros r2 s2 t2 (Hs2 & reached2 & Hpre2 & Ht2 & Hall2).
  rewrite bind_singleton in Ht2. split; [congruence|].
  exists (reached1 ≫= detached),
    ((λ spec, {| compute.afr_InstanceId := instanceId;
                 compute.afr_AttachedFilesystemSpec := spec |}) <$> reached2).
  split_and!.
  - calls_of_trace. by rewrite Ht1, Ht2, <- list_fmap_compose.
  - done.
  - apply Forall_fmap. eapply Forall_prefix; [done|]. intros spec Hspec. cbn.
    split; [done|]. by apply Hatt.
  - intros Hok _ spec Hspec%Hatt. rewrite (Hall2 Hok).
    by apply (list_elem_of_fmap_2
                (λ spec, compute.Build_AttachInstanceFilesystemRequest _ spec)).
Qed.

(** In the [secondary_disk] block of Update the detach requests come
    before the attach requests, and the resource data are left as they
    were.  Every detach request names the instance and a disk that is
    on the instance and whose spec has changed in the new configuration
    or whose id the new configuration does not have; every attach
    request names the instance and a disk of the new configuration that
    is not on the instance or whose spec has changed.  When the block
    returns without error it has made every such request. *)
Theorem secondary_disk_requests (remote : Remote) `{Helpers}
    (instance : compute.Instance) (d : ResourceData) :
  let '(r, d', t) := run (update_secondary_disk remote instance) d in
  d' = d ∧
  ∃ detach attach,
    calls t = (InstanceDetachDisk <$> detach) ++ (InstanceAttachDisk <$> attach) ∧
    Forall (disk_to_detach (ResourceData.Id d) (compute.Instance_SecondaryDisks instance)
              (asList (ResourceData.GetChange d "secondary_disk").2)) detach ∧
    Forall (λ req,
              compute.adr_InstanceId req = ResourceData.Id d ∧
              disk_to_attach (compute.Instance_SecondaryDisks instance)
                (asList (ResourceData.GetChange d "secondary_disk").2)
                (compute.adr_AttachedDiskSpec req)) attach ∧
    (is_ok r = true → ResourceData.HasChange d "secondary_disk" = true →
     (∀ req,
        disk_to_detach (ResourceData.Id d) (compute.Instance_SecondaryDisks instance)
          (asList (ResourceData.GetChange d "secondary_disk").2) req →
        req ∈ detach) ∧
     (∀ spec,
        disk_to_attach (compute.Instance_SecondaryDisks instance)
          (asList (ResourceData.GetChange d "secondary_disk").2) spec →
        {| compute.adr_InstanceId := ResourceData.Id d;
           compute.adr_AttachedDiskSpec := spec |} ∈ attach)).
Proof.
  apply wp_run. eapply wp_mono; [apply wp_update_secondary_disk|].
  cbn -[calls]. intros r s' t [Hd Hrest]. by split.
Qed.

(** In the [filesystem] block of Update the detach requests come
    before the attach requests, and the resource data are left as they
    were.  Every detach request names the instance and a filesystem of
    the old configuration that is on the instance and whose hash no
    filesystem of the new configuration has; every attach request names
    the instance and a filesystem of the new configuration whose hash
    no filesystem of the old configuration still on the instance has.
    When the block returns without error it has attached every such
    filesystem. *)
Theorem filesystem_requests (remote : Remote) `{Helpers}
    (instance : compute.Instance) (d : ResourceData) :
  let '(r, d', t) := run (update_filesystem remote instance) d in
  d' = d ∧
  ∃ detach attach,
    calls t = (InstanceDetachFilesystem <$> detach) ++
              (InstanceAttachFilesystem <$> attach) ∧
    Forall (fs_to_detach (ResourceData.Id d) (compute.Instance_Filesystems instance)
              (asList (ResourceData.GetChange d "filesystem").1)
              (asList (ResourceData.GetChange d "filesystem").2)) detach ∧
    Forall (λ req,
              compute.afr_InstanceId req = ResourceData.Id d ∧
              fs_to_attach (compute.Instance_Filesystems instance)
                (asList (ResourceData.GetChange d "filesystem").1)
                (asList (ResourceData.GetChange d "filesystem").2)
                (compute.afr_AttachedFilesystemSpec req)) attach ∧
    (is_ok r = true → ResourceData.HasChange d "filesystem" = true →
     ∀ spec,
       fs_to_attach (compute.Instance_Filesystems instance)
         (asList (ResourceData.GetChange d "filesystem").1)
         (asList (ResourceData.GetChange d "filesystem").2) spec →
       {| compute.afr_InstanceId := ResourceData.Id d;
          compute.afr_AttachedFilesystemSpec := spec |} ∈ attach).
Proof.
  apply wp_run. eapply wp_mono; [apply wp_update_filesystem|].
  cbn -[calls]. intros r s' t [Hd Hrest]. by split.
Qed.

(** ** The calls of Read, Create and Delete *)

(** Resource data with the same id and the same plan. *)
Definition kept (d d' : ResourceData) : Prop :=
  ResourceData.Id d' = ResourceData.Id d ∧ same_plan d d'.

Lemma kept_refl (d : ResourceData) : kept d d.
Proof. done. Qed.

Lemma kept_trans (d1 d2 d3 : ResourceData) : kept d1 d2 → kept d2 d3 → kept d1 d3.
Proof.
  unfold kept, same_plan. intros (? & ? & ? & ?) (? & ? & ? & ?). split_and!; congruence.
Qed.

Lemma kept_Set_ (key : string) (v : Value) (d : ResourceData) :
  kept d (ResourceData.Set_ key v d).1.
Proof. unfold ResourceData.Set_. by destruct (rd_accepts d key v). Qed.

Lemma wp_Set__kept (key : string) (v : Value) (s : State)
    (Q : result unit → State → list Event → Prop) :
  (∀ s', kept (st_d s) (st_d s') → st_clock s' = st_clock s → Q (Ok tt) s' []) →
  wp (Set_ key v) s Q.
Proof. intros HQ. wp_step. apply HQ; [apply kept_Set_|done]. Qed.

Lemma wp_Set_checked_kept (key : string) (v : Value) (s : State)
    (Q : result unit → State → list Event → Prop) :
  (∀ e, Q (Err e) s []) →
  (∀ s', kept (st_d s) (st_d s') → st_clock s' = st_clock s → Q (Ok tt) s' []) →
  wp (Set_checked key v) s Q.
Proof.
  intros Herr Hok. wp_step; [by intros|]. intros _. by apply Hok.
Qed.

Ltac kept_intro :=
  let s' := fresh "s" in let Hs := fresh "Hs" in
  intros s' Hs _;
  match goal with
  | Hk : kept _ ?d |- _ =>
      lazymatch type of Hs with
      | kept d _ => apply (kept_trans _ _ _ Hk) in Hs; clear Hk
      end
  end.

Ltac kept_step :=
  lazymatch goal with
  | |- wp (lift ?x ≫= _) _ _ => wp_step; wp_step; destruct x; cbn -[calls wp]
  | |- wp (Set_ _ _ ≫= _) _ _ =>
      wp_step; apply wp_Set__kept; cbn -[calls wp];
      kept_intro
  | |- wp (Set_checked _ _ ≫= _) _ _ =>
      wp_step; apply wp_Set_checked_kept; cbn -[calls wp];
      [intros ?
      |kept_intro]
  | |- wp (Set_ _ _) _ _ =>
      apply wp_Set__kept; cbn -[calls wp];
      kept_intro
  | |- wp (Set_checked _ _) _ _ =>
      apply wp_Set_checked_kept; cbn -[calls wp];
      [intros ?
      |kept_intro]
  | |- wp (match ?x with _ => _ end ≫= _) _ _ => wp_step; destruct x; cbn -[calls wp]
  | |- wp (match ?x with _ => _ end) _ _ => destruct x; cbn -[calls wp]
  | |- wp (mret _) _ _ => wp_step; cbn -[calls wp]
  | |- wp (fail _) _ _ => wp_step; cbn -[calls wp]
  | |- wp (let '(_, _) := ?p in _) _ _ => destruct p; cbn -[calls wp]
  end.

(** The events of Read, run at the moment [n] on the resource data
    [d]: the Get of the instance; then, when the Get has answered and
    the resources of the instance are flattened without error, the
    read of the disk service for the boot disk. *)
Definition read_events (remote : Remote) `{Helpers} (n : nat) (d : ResourceData)
  : list Event :=
  match instance_get remote n (ResourceData.Id d) with
  | Err _ => [Called (InstanceGet (ResourceData.Id d)) false]
  | Ok instance =>
      Called (InstanceGet (ResourceData.Id d)) true ::
      match flattenInstanceResources instance with
      | Err _ => []
      | Ok _ => [Called (DiskRead instance) (is_ok (boot_disk remote (S n) instance))]
      end
  end.

(** The events of a Read that returns without error: its Get was
    rejected and the error passed over, or its Get and its read of the
    disk service were accepted. *)
Definition read_to_the_end (t : list Event) : Prop :=
  (∃ id, t = [Called (InstanceGet id) false]) ∨
  ∃ id instance, t = [Called (InstanceGet id) true; Called (DiskRead instance) true].

Lemma wp_Read_events (remote : Remote) `{Helpers} (s : State) :
  wp (resourceYandexComputeInstanceRead remote) s
    (λ r s' t,
       t = read_events remote (st_clock s) (st_d s) ∧
       same_plan (st_d s) (st_d s') ∧
       (is_ok (instance_get remote (st_clock s) (ResourceData.Id (st_d s))) = true →
        ResourceData.Id (st_d s') = ResourceData.Id (st_d s)) ∧
       (is_ok r = true → read_to_the_end t)).
Proof.
  unfold resourceYandexComputeInstanceRead, read_events. do 4 wp_step; cbn -[wp].
  2: { intros e ->. wp_step. destruct (handleNotFoundError _ _ _) as [id [e'|]];
         (split_and!; [done..|]); intros _; left; by eexists. }
  intros instance ->. do 2 wp_step.
  destruct (flattenInstanceResources instance) as [resources|e]; cbn -[wp]; [|done].
  do 2 wp_step; cbn -[wp]; [|by intros e ->].
  intros bootDisk ->.
  assert (Hk : kept (st_d s) (st_d (tick (tick s)))) by done.
  revert Hk. generalize (tick (tick s)) as s0. intros s0 Hk.
  assert (Hend : ∀ s' (ok : bool),
    kept (st_d s) (st_d s') →
    [Called (InstanceGet (ResourceData.Id (st_d s))) true;
     Called (DiskRead instance) true] =
    [Called (InstanceGet (ResourceData.Id (st_d s))) true;
     Called (DiskRead instance) (is_ok (Ok bootDisk : result Value))] ∧
    same_plan (st_d s) (st_d s') ∧
    (is_ok (Ok instance : result compute.Instance) = true →
     ResourceData.Id (st_d s') = ResourceData.Id (st_d s)) ∧
    (ok = true →
     read_to_the_end [Called (InstanceGet (ResourceData.Id (st_d s))) true;
                      Called (DiskRead instance) true])).
  { intros s' ok [Hid Hplan]. split_and!; [done..|]. intros _. right. by eexists _, _. }
  repeat first [by apply Hend | kept_step].
Qed.

(** Read makes the Get of the instance of the current id and, when
    the Get has answered and the resources of the instance are
    flattened without error, the read of the disk service for the boot
    disk; it makes no other call.  It leaves the prior state and the
    planned configuration of the resource data as they were, and the
    id too when the Get has answered. *)
Theorem read_gets_instance_and_boot_disk (remote : Remote) `{Helpers}
    (d : ResourceData) :
  let '(_, d', t) := run (resourceYandexComputeInstanceRead remote) d in
  same_plan d d' ∧
  match instance_get remote 0 (ResourceData.Id d) with
  | Err _ => t = [Called (InstanceGet (ResourceData.Id d)) false]
  | Ok instance =>
      ResourceData.Id d' = ResourceData.Id d ∧
      match flattenInstanceResources instance with
      | Err _ => t = [Called (InstanceGet (ResourceData.Id d)) true]
      | Ok _ =>
          t = [Called (InstanceGet (ResourceData.Id d)) true;
               Called (DiskRead instance) (is_ok (boot_disk remote 1 instance))]
      end
  end.
Proof.
  apply (wp_run _ d (λ _ d' t, _)). eapply wp_mono; [apply wp_Read_events|].
  cbn. unfold read_events. cbn. intros r s t (-> & Hplan & Hid & _). split; [done|].
  destruct (instance_get remote 0 (ResourceData.Id d)) as [instance|e]; [|done].
  split; [by apply Hid|]. by destruct (flattenInstanceResources instance).
Qed.

(** Delete makes exactly one call, the delete of the instance of the
    current id.  When the call is accepted the resource data are left
    as they were, and Delete returns without error exactly when the
    wait and the response of the operation give no error. *)
Theorem delete_makes_one_call (remote : Remote) `{Helpers} (d : ResourceData) :
  let '(r, d', t) := run (resourceYandexComputeInstanceDelete remote) d in
  calls t = [InstanceDelete (ResourceData.Id d)] ∧
  ∀ op, operate remote 0 (InstanceDelete (ResourceData.Id d)) = Ok op →
        d' = d ∧ (is_ok r = true ↔ op_Wait op = None ∧ op_Response op = None).
Proof.
  apply wp_run. unfold resourceYandexComputeInstanceDelete. do 4 wp_step; cbn.
  - intros op ->. do 2 wp_step; cbn.
    + intros Hwait. wp_step. destruct (op_Response op) eqn:Hresp; cbn;
        (split; [done|]); intros ? [= <-]; (split; [done|]); rewrite Hwait, Hresp;
        [by split; [|intros []]|done].
    + intros e Hwait. split; [done|]. intros ? [= <-]. split; [done|]. rewrite Hwait.
      by split; [|intros []].
  - intros e ->. wp_step. by destruct (handleNotFoundError _ _ _) as [id [e'|]].
Qed.

(** Create makes no call when the request cannot be prepared, and
    returns the error.  Otherwise its first call is the create of the
    prepared request, and the only events that may follow its Wait are
    those of Read on the instance whose id the metadata of the
    operation carry, made once the wait and the response of the
    operation have given no error; Create returns without error only
    when it has gone on to that Read. *)
Theorem create_calls (remote : Remote) `{Helpers} (d : ResourceData) :
  let '(r, d', t) := run (resourceYandexComputeInstanceCreate remote) d in
  match prepareCreateInstanceRequest d with
  | Err e => r = Err e ∧ d' = d ∧ t = []
  | Ok req =>
      same_plan d d' ∧
      ((is_ok r = false ∧ calls t = [InstanceCreate req]) ∨
       ∃ op id,
         operate remote 0 (InstanceCreate req) = Ok op ∧
         op_Metadata op = CreateMetadata id ∧
         op_Wait op = None ∧ op_Response op = None ∧
         t = Called (InstanceCreate req) true :: Waited (InstanceCreate req) true ::
             read_events remote 1 (ResourceData.SetId id d))
  end.
Proof.
  apply wp_run. unfold resourceYandexComputeInstanceCreate. do 3 wp_step.
  cbn -[calls wp].
  destruct (prepareCreateInstanceRequest d) as [req|e]; cbn -[calls]; [|done].
  do 3 wp_step; cbn -[calls].
  2: { intros e _. split; [done|]. by left. }
  intros op Hop. destruct (op_Metadata op) as [id| |e] eqn:Hmd.
  2,3: wp_step; cbn -[calls]; split; [done|]; by left.
  do 2 wp_step. cbn -[calls]. do 3 wp_step; cbn -[calls].
  2: { intros e _. split; [done|]. by left. }
  intros Hwait. wp_step. wp_step. destruct (op_Response op) eqn:Hresp; cbn -[calls].
  { split; [done|]. by left. }
  eapply wp_mono; [apply wp_Read_events|]. cbn -[calls].
  intros r s' t (-> & Hplan & _). split; [done|]. right. exists op, id.
  by split_and!.
Qed.
(** ** Update with nothing to change *)

(** The attributes whose change Update acts on. *)
Definition update_properties : list string :=
  ["folder_id"; "labels"; "metadata"; "metadata_options"; "name"; "description";
   "service_account_id"; "maintenance_policy"; "maintenance_grace_period";
   "network_interface"; "secondary_disk"; "filesystem"; "resources"; "platform_id";
   "network_acceleration_type"; "scheduling_policy"; "placement_policy"].

(** When none of the attributes Update acts on has changed, Update
    only reads: it makes the Get of the instance and, when that has
    answered, the calls of Read, its Get and its read of the disk
    service; it makes no other call. *)
Theorem update_without_changes_only_reads (remote : Remote) `{Helpers}
    (d : ResourceData) :
  Forall (λ key, ResourceData.HasChange d key = false) update_properties →
  let '(_, _, t) := run (resourceYandexComputeInstanceUpdate remote) d in
  t =
    match instance_get remote 0 (ResourceData.Id d) with
    | Err _ => [Called (InstanceGet (ResourceData.Id d)) false]
    | Ok _ => Called (InstanceGet (ResourceData.Id d)) true :: read_events remote 1 d
    end.
Proof.
  unfold update_properties. rewrite !Forall_cons.
  intros (Hfolder & Hlabels & Hmetadata & Hoptions & Hname & Hdescription & Haccount &
          Hpolicy & Hgrace & Hinterface & Hdisk & Hfilesystem & Hresources & Hplatform &
          Hacceleration & Hscheduling & Hplacement & _).
  apply wp_run. unfold resourceYandexComputeInstanceUpdate. do 4 wp_step; cbn -[calls wp].
  2: { intros e ->. wp_step. by destruct (handleNotFoundError _ _ _) as [id [e'|]]. }
  intros instance ->.
  unfold update_folder_id, update_labels, update_metadata, update_metadata_options,
    update_name, update_description, update_service_account_id, update_maintenance,
    update_network_interface, update_secondary_disk, update_filesystem,
    update_stopped_instance.
  repeat (wp_step; wp_step; cbn -[calls wp];
          rewrite ?Hfolder, ?Hlabels, ?Hmetadata, ?Hoptions, ?Hname, ?Hdescription,
            ?Haccount, ?Hpolicy, ?Hgrace, ?Hinterface, ?Hdisk, ?Hfilesystem,
            ?Hresources, ?Hplatform, ?Hacceleration, ?Hscheduling, ?Hplacement;
          cbn -[calls wp]; wp_step; cbn -[calls wp]).
  eapply wp_mono; [apply wp_Read_events|]. cbn.
  by intros r s' t (-> & _).
Qed.

Lemma update_without_changes_only_reads_witness :
  let '(_, _, t) :=
    run (resourceYandexComputeInstanceUpdate (H:=exampleHelpers)
           (obligingRemote compute.Instance_RUNNING)) (exampleData "epd-1" [] []) in
  t = [Called (InstanceGet "epd-1") true; Called (InstanceGet "epd-1") true;
       Called (DiskRead (exampleInstance compute.Instance_RUNNING)) true].
Proof.
  apply (update_without_changes_only_reads (H:=exampleHelpers)
           (obligingRemote compute.Instance_RUNNING) (exampleData "epd-1" [] [])).
  unfold update_properties. by repeat constructor.
Defined.

(** ** Update does not re-create the instance unasked *)

(** An event that is not the call that deletes or creates an
    instance. *)
Definition not_recreate (e : Event) : Prop :=
  match e with
  | Called (InstanceDelete _) _ | Called (InstanceCreate _) _ => False
  | _ => True
  end.

Lemma allow_recreate_written (d : ResourceData) (key : string) (v : Value) :
  key ∈ read_keys →
  GetBool (ResourceData.write key v d) "allow_recreate" = GetBool d "allow_recreate".
Proof.
  intros Hkey. unfold GetBool. f_equal. apply Get_write_ne.
  assert (Hsplit : strings.Split "allow_recreate" "." = ["allow_recreate"])
    by (vm_compute; reflexivity).
  rewrite Hsplit. cbn. intros [= <-]. revert Hkey.
  change ("allow_recreate" ∉ read_keys).
  apply (bool_decide_unpack _). vm_compute. exact Logic.I.
Qed.

(** Unless folder_id has changed and allow_recreate is set, Update
    makes no call that deletes or creates an instance. *)
Theorem no_recreate_without_permission (remote : Remote) `{Helpers} (d : ResourceData) :
  ResourceData.HasChange d "folder_id" && GetBool d "allow_recreate" = false →
  let '(_, _, t) := run (resourceYandexComputeInstanceUpdate remote) d in
  Forall not_recreate t.
Proof.
  intros Hkeep.
  set (I := λ d1, same_plan d d1 ∧ GetBool d1 "allow_recreate" = GetBool d "allow_recreate").
  assert (Hseq : Sequential I (λ _ t, Forall not_recreate t)).
  { apply Sequential_Forall. by intros id d1 [(? & ? & ?) ?]. }
  assert (Hwrite : ∀ key v d1, key ∈ read_keys → I d1 → I (ResourceData.write key v d1)).
  { intros key v d1 Hkey [(? & ? & ?) Hd1]. split; [done|].
    by rewrite allow_recreate_written. }
  assert (Hget : ∀ id, allowed_read (λ _ t, Forall not_recreate t) (InstanceGet id)).
  { intros id. by apply allowed_read_Forall. }
  assert (Hdisk : ∀ instance,
            allowed_disk_read (λ _ t, Forall not_recreate t) (DiskRead instance)).
  { intros instance. by apply allowed_disk_read_Forall. }
  assert (Hupdate : holds I (λ _ t, Forall not_recreate t)
                      (resourceYandexComputeInstanceUpdate remote) (λ _, True)).
  { apply holds_Update_blocks; [done..| | |].
    - intros instance. apply holds_of_wp. intros s [Hplan Hrecreate].
      assert (Hs : ResourceData.HasChange (st_d s) "folder_id" &&
                   GetBool (st_d s) "allow_recreate" = false).
      { by rewrite (HasChange_same_plan d), Hrecreate. }
      destruct (ResourceData.HasChange (st_d s) "folder_id") eqn:Hchange.
      2: { unfold update_folder_id. wp_step. rewrite Hchange. by wp_step. }
      cbn in Hs.
      destruct (GetBool (st_d s) "allow_stopping_for_update") eqn:Hallow.
      + eapply wp_mono; [by apply wp_update_folder_id_move|]. cbn -[calls].
        intros r s' t (Hd & Ht). rewrite Hd. split_and!; [|done..].
        assert (Hcalls : ∃ k, calls t = take k (move_calls instance (st_d s))).
        { destruct Ht as [[_ Ht]|[_ Ht]]; [|done].
          exists (length (move_calls instance (st_d s))). by rewrite firstn_all. }
        destruct Hcalls as [k Hcalls]. clear Ht.
        assert (Hmoves : Forall (λ c, not_recreate (Called c true))
                           (take k (move_calls instance (st_d s)))).
        { apply Forall_take. unfold move_calls.
          destruct (compute.Instance_Status_eqb _ _); by repeat constructor. }
        rewrite <- Hcalls in Hmoves. clear Hcalls.
        induction t as [|[c b|c b] t IH]; [done| |].
        * cbn in Hmoves. apply Forall_cons in Hmoves as [Hc Hmoves].
          apply Forall_cons. split; [by destruct c|by apply IH].
        * apply Forall_cons. split; [done|by apply IH].
      + unfold update_folder_id. wp_step. rewrite Hchange, Hs. cbn [negb].
        do 2 wp_step. unfold ensureAllowStoppingForUpdate. rewrite Hallow. by cbn.
    - intros instance d1 c _ Hc. by destruct Hc; apply allowed_Forall.
    - intros instance reqs _. apply holds_update_stopped_instance; [done|].
      intros d1 c _ Hc.
      destruct Hc as [id _ _|c _ _ [req Hreq|c' Hc]|id _ _]; try by apply allowed_Forall.
      by destruct Hc; apply allowed_Forall. }
  unfold run. specialize (Hupdate {| st_d := d; st_clock := 0 |}).
  destruct (resourceYandexComputeInstanceUpdate _ _) as [[r s] t].
  by destruct Hupdate as [Ht _].
Qed.

Lemma no_recreate_without_permission_witness :
  let '(_, _, t) :=
    run (resourceYandexComputeInstanceUpdate (H:=exampleHelpers)
           (obligingRemote compute.Instance_RUNNING)) folderMove in
  Forall not_recreate t.
Proof. by apply no_recreate_without_permission. Defined.

(** ** Update reads first and last *)

(** The first call of Update is the Get of the instance of the
    current id.  When that Get has answered and Update returns without
    error, its last events are those of a Read that went to its end:
    the Get that Read makes to refresh the resource data, rejected
    with the error passed over, or accepted and followed by the
    accepted read of the disk service. *)
Theorem update_reads_first_and_last (remote : Remote) `{Helpers} (d : ResourceData) :
  let '(r, _, t) := run (resourceYandexComputeInstanceUpdate remote) d in
  ∃ rest,
    t = Called (InstanceGet (ResourceData.Id d))
          (is_ok (instance_get remote 0 (ResourceData.Id d))) :: rest ∧
    (is_ok (instance_get remote 0 (ResourceData.Id d)) = true → is_ok r = true →
     ∃ before last, rest = before ++ last ∧ read_to_the_end last).
Proof.
  apply wp_run. unfold resourceYandexComputeInstanceUpdate. do 4 wp_step; cbn -[wp].
  2: { intros e ->. wp_step. destruct (handleNotFoundError _ _ _) as [id [e'|]];
       by exists []. }
  intros instance ->.
  assert (Hblock : ∀ {A} (m : M A) (k : A → M unit) s,
    (∀ a s1, wp (k a) s1 (λ r _ t,
       is_ok r = true → ∃ before last, t = before ++ last ∧ read_to_the_end last)) →
    wp (m ≫= k) s (λ r _ t,
       is_ok r = true → ∃ before last, t = before ++ last ∧ read_to_the_end last)).
  { intros A m k s1 Hk. wp_step. eapply wp_mono; [apply wp_any|]. cbn -[wp].
    intros [a|e] s2 t2 _; [|done]. eapply wp_mono; [apply Hk|]. cbn.
    intros r s3 t3 Hlast Hok. destruct (Hlast Hok) as (before & last & -> & Hread).
    exists (t2 ++ before), last. by rewrite (assoc_L (++)). }
  eapply wp_mono.
  { do 12 (apply Hblock; intros ? ?). eapply wp_mono; [apply wp_Read_events|].
    cbn. intros r s' t (_ & _ & _ & Ht) Hok. exists [], t. split; [done|]. by apply Ht. }
  cbn. intros r s' t Hlast. eexists. split; [done|].
  intros _ Hok. apply (Hlast Hok).
Qed.
(** ** What Read writes *)

(** The attributes Read writes for an instance and the boot disk
    read from the disk service, in the order it writes them, each with
    its value and with whether Read checks the error of the Set. *)
Definition instance_attributes `{Helpers} (instance : compute.Instance)
    (bootDisk : Value) : result (list (string * Value * bool)) :=
  bind_result (flattenInstanceResources instance) (λ resources,
  bind_result (flattenInstanceSecondaryDisks instance) (λ secondaryDisks,
  bind_result (flattenInstanceSchedulingPolicy instance) (λ schedulingPolicy,
  bind_result (flattenInstancePlacementPolicy instance) (λ placementPolicy,
  bind_result (flattenInstanceNetworkInterfaces instance) (λ '(networkInterfaces, _, _),
  bind_result (flattenComputeHardwareGeneration
                 (compute.Instance_HardwareGeneration instance)) (λ hardwareGeneration,
  match parseHostnameFromFQDN (compute.Instance_Fqdn instance) with
  | Some (hostname, None) =>
      Ok ([("created_at", VString (getTimestamp (compute.Instance_CreatedAt instance)), false);
           ("platform_id", VString (compute.Instance_PlatformId instance), false);
           ("folder_id", VString (compute.Instance_FolderId instance), false);
           ("zone", VString (compute.Instance_ZoneId instance), false);
           ("name", VString (compute.Instance_Name instance), false);
           ("fqdn", VString (compute.Instance_Fqdn instance), false);
           ("description", VString (compute.Instance_Description instance), false);
           ("service_account_id",
            VString (compute.Instance_ServiceAccountId instance), false);
           ("status",
            VString (ToLower (compute.Instance_Status_String
                                (compute.Instance_Status_ instance))), false);
           ("metadata_options", flattenInstanceMetadataOptions instance, false);
           ("hostname", VString hostname, false);
           ("metadata", compute.Instance_Metadata instance, true);
           ("labels", compute.Instance_Labels instance, true);
           ("resources", resources, true);
           ("boot_disk", bootDisk, true);
           ("secondary_disk", secondaryDisks, true);
           ("scheduling_policy", schedulingPolicy, true);
           ("placement_policy", placementPolicy, true);
           ("local_disk", flattenLocalDisks instance, true);
           ("filesystem", flattenInstanceFilesystems instance, true)] ++
          match compute.Instance_NetworkSettings instance with
          | Some type => [("network_acceleration_type", VString (ToLower type), false)]
          | None => []
          end ++
          [("network_interface", networkInterfaces, true)] ++
          match compute.Instance_GpuSettings instance with
          | Some gpuClusterId => [("gpu_cluster_id", VString gpuClusterId, false)]
          | None => []
          end ++
          match compute.Instance_MaintenancePolicy instance with
          | compute.MaintenancePolicy_MAINTENANCE_POLICY_UNSPECIFIED => []
          | policy =>
              [("maintenance_policy",
                VString (ToLower (compute.MaintenancePolicy_String policy)), true)]
          end ++
          [("maintenance_grace_period",
            VString (formatDuration (compute.Instance_MaintenanceGracePeriod instance)),
            true);
           ("hardware_generation", hardwareGeneration, true)])
  | Some (_, Some err) => Err err
  | None => Err "panic: index out of range"
  end)))))).

(** The schema of [d] has accepted every checked Set of [attrs], and
    the resource data [d'] hold the value of every attribute of
    [attrs] whose Set is checked or was accepted. *)
Definition reflects (d d' : ResourceData) (attrs : list (string * Value * bool)) : Prop :=
  rd_accepts d' = rd_accepts d ∧
  Forall (λ '(key, v, checked),
            (checked = true → rd_accepts d key v = None) ∧
            (checked = true ∨ rd_accepts d key v = None → ResourceData.Get d' key = v))
         attrs.

Lemma reflects_Set_ (d d1 : ResourceData) (attrs : list (string * Value * bool))
    (key : string) (v : Value) :
  reflects d d1 attrs →
  strings.Split key "." = [key] →
  Forall (λ '(key', _, _), head (strings.Split key' ".") ≠ Some key) attrs →
  reflects d (ResourceData.Set_ key v d1).1 (attrs ++ [(key, v, false)]).
Proof.
  intros [Haccepts Hattrs] Hkey Hothers. unfold ResourceData.Set_.
  destruct (rd_accepts d1 key v) as [e|] eqn:Hd1; cbn.
  - split; [done|]. apply Forall_app. split; [done|]. apply Forall_singleton.
    split; [done|]. intros [?|Hd]; [done|]. congruence.
  - split; [exact Haccepts|]. apply Forall_app. split.
    + clear Hd1. induction Hattrs as [|[[key' v'] checked] attrs Hhere Hrest IH]; [done|].
      apply Forall_cons in Hothers as [Hne Hothers]. apply Forall_cons. split; [|by apply IH].
      destruct Hhere as [Hchecked Hhere]. split; [done|].
      intros Hcond. rewrite Get_write_ne by done. by apply Hhere.
    + apply Forall_singleton. split; [done|]. intros _. by apply Get_write_eq.
Qed.

Lemma reflects_write (d d1 : ResourceData) (attrs : list (string * Value * bool))
    (key : string) (v : Value) :
  reflects d d1 attrs →
  rd_accepts d1 key v = None →
  strings.Split key "." = [key] →
  Forall (λ '(key', _, _), head (strings.Split key' ".") ≠ Some key) attrs →
  reflects d (ResourceData.write key v d1) (attrs ++ [(key, v, true)]).
Proof.
  intros [Haccepts Hattrs] Haccepted Hkey Hothers. split; [exact Haccepts|].
  apply Forall_app. split.
  - induction Hattrs as [|[[key' v'] checked] attrs Hhere Hrest IH]; [done|].
    apply Forall_cons in Hothers as [Hne Hothers]. apply Forall_cons. split; [|by apply IH].
    destruct Hhere as [Hchecked Hhere]. split; [done|].
    intros Hcond. rewrite Get_write_ne by done. by apply Hhere.
  - apply Forall_singleton. split; [intros _; congruence|]. intros _. by apply Get_write_eq.
Qed.

Lemma wp_Set__reflects (key : string) (v : Value) (s : State)
    (Q : result unit → State → list Event → Prop)
    (d : ResourceData) (attrs : list (string * Value * bool)) :
  reflects d (st_d s) attrs →
  strings.Split key "." = [key] →
  Forall (λ '(key', _, _), head (strings.Split key' ".") ≠ Some key) attrs →
  (∀ s', reflects d (st_d s') (attrs ++ [(key, v, false)]) → Q (Ok tt) s' []) →
  wp (Set_ key v) s Q.
Proof. intros Hs Hkey Hothers HQ. wp_step. apply HQ. by apply reflects_Set_. Qed.

Lemma wp_Set_checked_reflects (key : string) (v : Value) (s : State)
    (Q : result unit → State → list Event → Prop)
    (d : ResourceData) (attrs : list (string * Value * bool)) :
  reflects d (st_d s) attrs →
  strings.Split key "." = [key] →
  Forall (λ '(key', _, _), head (strings.Split key' ".") ≠ Some key) attrs →
  (∀ e, rd_accepts d key v = Some e → Q (Err e) s []) →
  (∀ s', reflects d (st_d s') (attrs ++ [(key, v, true)]) → Q (Ok tt) s' []) →
  wp (Set_checked key v) s Q.
Proof.
  intros Hs Hkey Hothers Herr HQ. wp_step.
  - intros e He. apply Herr. destruct Hs as [<- _]. exact He.
  - intros Haccepted. apply HQ. by apply reflects_write.
Qed.

(** How Read ends once the response is flattened to [attrs]: without
    error, the resource data reflecting [attrs]; or with an error, the
    schema having refused a checked Set of [attrs]. *)
Definition read_outcome (d : ResourceData) (attrs : list (string * Value * bool))
    (r : result unit) (d' : ResourceData) : Prop :=
  (r = Ok tt ∧ reflects d d' attrs) ∨
  (r ≠ Ok tt ∧
   Exists (λ '(key, v, checked), checked = true ∧ rd_accepts d key v ≠ None) attrs).

Ltac other_keys :=
  cbn [app]; repeat (constructor; [vm_compute; congruence|]); constructor.

Ltac refused_set :=
  let e := fresh "e" in let He := fresh "He" in
  intros e He; right; split; [done|];
  repeat first [ apply Exists_cons_hd; hnf; split; [reflexivity|congruence]
               | apply Exists_cons_tl ].

Ltac reflects_set :=
  lazymatch goal with
  | |- wp (Set_ _ _) _ _ =>
      eapply wp_Set__reflects;
      [eassumption|vm_compute; reflexivity|other_keys|];
      let s' := fresh "s" in let Hs := fresh "Hs" in
      intros s' Hs;
      repeat match goal with
             | Hold : reflects _ _ _ |- _ =>
                 lazymatch Hold with Hs => fail | _ => clear Hold end
             end
  | |- wp (Set_checked _ _) _ _ =>
      eapply wp_Set_checked_reflects;
      [eassumption|vm_compute; reflexivity|other_keys
      |cbn -[calls wp app]; unfold read_outcome; refused_set|];
      let s' := fresh "s" in let Hs := fresh "Hs" in
      intros s' Hs;
      repeat match goal with
             | Hold : reflects _ _ _ |- _ =>
                 lazymatch Hold with Hs => fail | _ => clear Hold end
             end
  end.

Ltac reflects_step :=
  lazymatch goal with
  | |- wp (Set_ _ _ ≫= _) _ _ => wp_step; reflects_set; cbn -[calls wp app]
  | |- wp (Set_checked _ _ ≫= _) _ _ => wp_step; reflects_set; cbn -[calls wp app]
  | |- wp (Set_ _ _) _ _ => reflects_set; cbn -[calls wp app]
  | |- wp (Set_checked _ _) _ _ => reflects_set; cbn -[calls wp app]
  | |- wp (mret _ ≫= _) _ _ => wp_step; wp_step; cbn -[calls wp app]
  | |- wp (lift (Ok _) ≫= _) _ _ => wp_step; wp_step; cbn -[calls wp app]
  | |- wp (mret _) _ _ => wp_step; cbn -[calls wp app]
  end.

Lemma read_outcome_Read (remote : Remote) `{Helpers} (d : ResourceData)
    (instance : compute.Instance) (bootDisk : Value)
    (attrs : list (string * Value * bool)) (s : State) :
  st_d s = d →
  boot_disk remote (st_clock s) instance = Ok bootDisk →
  instance_attributes instance bootDisk = Ok attrs →
  wp (resources ← lift (flattenInstanceResources instance);
      bootDisk ← flattenInstanceBootDisk remote instance;
      secondaryDisks ← lift (flattenInstanceSecondaryDisks instance);
      schedulingPolicy ← lift (flattenInstanceSchedulingPolicy instance);
      placementPolicy ← lift (flattenInstancePlacementPolicy instance);
      '(networkInterfaces, externalIP, internalIP) ←
        lift (flattenInstanceNetworkInterfaces instance);
      hardwareGeneration ←
        lift (flattenComputeHardwareGeneration
                (compute.Instance_HardwareGeneration instance));
      Set_ "created_at" (VString (getTimestamp (compute.Instance_CreatedAt instance)));;
      Set_ "platform_id" (VString (compute.Instance_PlatformId instance));;
      Set_ "folder_id" (VString (compute.Instance_FolderId instance));;
      Set_ "zone" (VString (compute.Instance_ZoneId instance));;
      Set_ "name" (VString (compute.Instance_Name instance));;
      Set_ "fqdn" (VString (compute.Instance_Fqdn instance));;
      Set_ "description" (VString (compute.Instance_Description instance));;
      Set_ "service_account_id" (VString (compute.Instance_ServiceAccountId instance));;
      Set_ "status"
        (VString (ToLower (compute.Instance_Status_String
                             (compute.Instance_Status_ instance))));;
      Set_ "metadata_options" (flattenInstanceMetadataOptions instance);;
      hostname ←
        match parseHostnameFromFQDN (compute.Instance_Fqdn instance) with
        | Some (hostname, None) => mret hostname
        | Some (_, Some err) => fail err
        | None => fail "panic: index out of range"
        end;
      Set_ "hostname" (VString hostname);;
      Set_checked "metadata" (compute.Instance_Metadata instance);;
      Set_checked "labels" (compute.Instance_Labels instance);;
      Set_checked "resources" resources;;
      Set_checked "boot_disk" bootDisk;;
      Set_checked "secondary_disk" secondaryDisks;;
      Set_checked "scheduling_policy" schedulingPolicy;;
      Set_checked "placement_policy" placementPolicy;;
      Set_checked "local_disk" (flattenLocalDisks instance);;
      Set_checked "filesystem" (flattenInstanceFilesystems instance);;
      match compute.Instance_NetworkSettings instance with
      | Some type => Set_ "network_acceleration_type" (VString (ToLower type))
      | None => mret tt
      end;;
      Set_checked "network_interface" networkInterfaces;;
      match compute.Instance_GpuSettings instance with
      | Some gpuClusterId => Set_ "gpu_cluster_id" (VString gpuClusterId)
      | None => mret tt
      end;;
      match compute.Instance_MaintenancePolicy instance with
      | compute.MaintenancePolicy_MAINTENANCE_POLICY_UNSPECIFIED => mret tt
      | policy =>
          Set_checked "maintenance_policy"
            (VString (ToLower (compute.MaintenancePolicy_String policy)))
      end;;
      Set_checked "maintenance_grace_period"
        (VString (formatDuration (compute.Instance_MaintenanceGracePeriod instance)));;
      Set_checked "hardware_generation" hardwareGeneration) s
    (λ r s' _, read_outcome d attrs r (st_d s')).
Proof.
  intros Hd Hdisk Hattrs. unfold instance_attributes in Hattrs.
  destruct (flattenInstanceResources instance) as [resources|]; [|done].
  destruct (flattenInstanceSecondaryDisks instance) as [secondaryDisks|]; [|done].
  destruct (flattenInstanceSchedulingPolicy instance) as [schedulingPolicy|]; [|done].
  destruct (flattenInstancePlacementPolicy instance) as [placementPolicy|]; [|done].
  destruct (flattenInstanceNetworkInterfaces instance) as [[[networkInterfaces ?] ?]|];
    [|done].
  destruct (flattenComputeHardwareGeneration _) as [hardwareGeneration|]; [|done].
  destruct (parseHostnameFromFQDN _) as [[hostname [err|]]|]; [done| |done].
  cbn [bind_result] in Hattrs.
  reflects_step. wp_step. wp_step; [|intros e He; congruence].
  intros v Hv. assert (v = bootDisk) as -> by congruence. clear Hv.
  cbn -[calls wp app].
  assert (Hs : reflects d (st_d (tick s)) []) by (by rewrite <- Hd).
  revert Hs. generalize (tick s) as st. intros st Hs. clear Hdisk Hd s.
  do 5 reflects_step.
  destruct (compute.Instance_NetworkSettings instance) as [type|],
    (compute.Instance_GpuSettings instance) as [gpuClusterId|],
    (compute.Instance_MaintenancePolicy instance);
    injection Hattrs as <-; cbn -[calls wp app];
    repeat reflects_step; left; (split; [done|]);
    match goal with Hend : reflects _ _ _ |- _ => exact Hend end.
Qed.

(** When the Get of Read and its read of the disk service answer and
    the response is flattened without error, Read returns without
    error exactly when the schema accepts every checked Set: an
    unchecked Set that the schema refuses does not make Read fail.
    The resource data then hold the value of the response for every
    attribute Read writes with a checked Set and for every attribute it
    writes with an unchecked Set that the schema accepts. *)
Theorem instance_read_reflects_response (remote : Remote) `{Helpers} (d : ResourceData) :
  let '(r, d', _) := run (resourceYandexComputeInstanceRead remote) d in
  ∀ instance bootDisk attrs,
    instance_get remote 0 (ResourceData.Id d) = Ok instance →
    boot_disk remote 1 instance = Ok bootDisk →
    instance_attributes instance bootDisk = Ok attrs →
    (r = Ok tt ↔
     Forall (λ '(key, v, checked), checked = true → rd_accepts d key v = None) attrs) ∧
    (r = Ok tt →
     Forall (λ '(key, v, checked),
               checked = true ∨ rd_accepts d key v = None →
               ResourceData.Get d' key = v) attrs).
Proof.
  apply wp_run. unfold resourceYandexComputeInstanceRead. do 4 wp_step; cbn -[calls wp].
  2: { intros e He. wp_step. destruct (handleNotFoundError _ _ _) as [id [e'|]];
         intros; congruence. }
  intros instance Hget.
  apply (wp_mono _ _ (λ r s' _,
    ∀ bootDisk attrs,
      boot_disk remote 1 instance = Ok bootDisk →
      instance_attributes instance bootDisk = Ok attrs →
      read_outcome d attrs r (st_d s'))).
  2: { intros r s' t Hr instance' bootDisk attrs Hget' Hdisk Hattrs.
       assert (instance' = instance) as -> by congruence.
       destruct (Hr bootDisk attrs Hdisk Hattrs) as [[-> [_ Hd']]|[Hfail Hrefused]].
       - split; [split; [intros _|done]|intros _].
         + eapply Forall_impl; [exact Hd'|]. by intros [[key v] checked] [? _].
         + eapply Forall_impl; [exact Hd'|]. by intros [[key v] checked] [_ ?].
       - split; [split; [done|]|done]. intros Haccepted.
         apply Exists_exists in Hrefused as ([[key v] checked] & Hin & -> & Hrefused).
         rewrite Forall_forall in Haccepted. by specialize (Haccepted _ Hin eq_refl). }
  destruct (boot_disk remote 1 instance) as [bootDisk|e] eqn:Hdisk.
  2: { eapply wp_mono; [apply wp_any|]. intros; congruence. }
  destruct (instance_attributes instance bootDisk) as [attrs|e] eqn:Hattrs.
  2: { eapply wp_mono; [apply wp_any|]. intros r s' t _ bootDisk' attrs' [= <-]. congruence. }
  eapply wp_mono; [by apply (read_outcome_Read remote d instance bootDisk attrs)|].
  cbn. intros r s' t Hr bootDisk' attrs' [= <-] Hattrs'.
  assert (attrs' = attrs) as -> by congruence. exact Hr.
Qed.
(** ** The calls of the ARL profile resource *)

(** Create of the ARL profile makes no call when the folder id or the
    rules cannot be obtained.  Otherwise its first call is the create
    of a profile with the folder id, the labels, the name, the
    description and the rules of the configuration, and the only call
    that may follow is the Get of the profile whose id the metadata of
    the operation carry, made once the wait has given no error; Create
    returns without error only when it has made that Get. *)
Theorem profile_create_calls (remote : Remote) `{Helpers} (d : ResourceData) :
  let '(r, d', t) :=
    run (resourceYandexSmartwebsecurityAdvancedRateLimiterAdvancedRateLimiterProfileCreate
           remote) d in
  match getFolderID d,
        expandAdvancedRateLimiterProfileAdvancedRateLimiterRulesSlice d with
  | Ok folderId, Ok rules =>
      let req :=
        {| advanced_rate_limiter.cr_FolderId := folderId;
           advanced_rate_limiter.cr_Labels :=
             expandStringStringMap (ResourceData.Get d "labels");
           advanced_rate_limiter.cr_Name := GetString d "name";
           advanced_rate_limiter.cr_Description := GetString d "description";
           advanced_rate_limiter.cr_AdvancedRateLimiterRules := rules |} in
      (is_ok r = false ∧ calls t = [ProfileCreate req]) ∨
      ∃ op id,
        operate remote 0 (ProfileCreate req) = Ok op ∧
        op_Metadata op = CreateMetadata id ∧ op_Wait op = None ∧
        calls t = [ProfileCreate req; ProfileGet id]
  | _, _ => is_ok r = false ∧ d' = d ∧ t = []
  end.
Proof.
  apply wp_run.
  unfold resourceYandexSmartwebsecurityAdvancedRateLimiterAdvancedRateLimiterProfileCreate.
  do 3 wp_step. cbn -[calls wp].
  destruct (getFolderID d) as [folderId|e]; cbn -[calls wp]; [|done].
  do 2 wp_step. cbn -[calls wp].
  destruct (expandAdvancedRateLimiterProfileAdvancedRateLimiterRulesSlice d)
    as [rules|e]; cbn -[calls wp]; [|done].
  do 2 wp_step; cbn -[calls wp].
  2: { intros e _. by left. }
  intros op Hop. destruct (op_Metadata op) as [id| |e] eqn:Hmd.
  2,3: wp_step; cbn -[calls]; by left.
  do 2 wp_step. cbn -[calls wp]. do 2 wp_step; cbn -[calls wp].
  2: { intros e _. by left. }
  intros Hwait. eapply wp_mono; [apply profile_read_calls|]. cbn -[calls].
  intros r s' t Ht. right. exists op, id. split_and!; [done..|].
  calls_of_trace. by rewrite Ht.
Qed.

(** Update of the ARL profile makes no call when the rules cannot be
    expanded.  Otherwise its first call is the update of the profile of
    the current id, with the labels, the name, the description and the
    rules of the configuration, whatever has changed; the only call
    that may follow is the Get of that profile, made once the update is
    accepted and the wait has given no error, and Update returns without
    error only when it has made that Get. *)
Theorem profile_update_calls (remote : Remote) `{Helpers} (d : ResourceData) :
  let '(r, d', t) :=
    run (resourceYandexSmartwebsecurityAdvancedRateLimiterAdvancedRateLimiterProfileUpdate
           remote) d in
  match expandAdvancedRateLimiterProfileAdvancedRateLimiterRulesSlice_ d with
  | Ok rules =>
      ∃ req,
        advanced_rate_limiter.upd_AdvancedRateLimiterProfileId req = ResourceData.Id d ∧
        advanced_rate_limiter.upd_Labels req =
          expandStringStringMap (ResourceData.Get d "labels") ∧
        advanced_rate_limiter.upd_Name req = GetString d "name" ∧
        advanced_rate_limiter.upd_Description req = GetString d "description" ∧
        advanced_rate_limiter.upd_AdvancedRateLimiterRules req = rules ∧
        ((is_ok r = false ∧ calls t = [ProfileUpdate req]) ∨
         ∃ op,
           operate remote 0 (ProfileUpdate req) = Ok op ∧ op_Wait op = None ∧
           calls t = [ProfileUpdate req; ProfileGet (ResourceData.Id d)])
  | Err e => r = Err e ∧ d' = d ∧ t = []
  end.
Proof.
  apply wp_run.
  unfold resourceYandexSmartwebsecurityAdvancedRateLimiterAdvancedRateLimiterProfileUpdate.
  do 3 wp_step. cbn -[calls wp].
  destruct (expandAdvancedRateLimiterProfileAdvancedRateLimiterRulesSlice_ d)
    as [rules|e]; cbn -[calls wp]; [|done].
  set (req := advanced_rate_limiter.Build_UpdateAdvancedRateLimiterProfileRequest _ _ _ _ _ _).
  apply (wp_mono _ _ (λ r s t,
           (is_ok r = false ∧ calls t = [ProfileUpdate req]) ∨
           ∃ op, operate remote 0 (ProfileUpdate req) = Ok op ∧ op_Wait op = None ∧
                 calls t = [ProfileUpdate req; ProfileGet (ResourceData.Id d)])).
  2: { intros r s t Hcalls. by exists req. }
  do 2 wp_step; cbn -[calls wp].
  2: { intros e _. by left. }
  intros op Hop. do 2 wp_step; cbn -[calls wp].
  2: { intros e _. by left. }
  intros Hwait. eapply wp_mono; [apply profile_read_calls|]. cbn -[calls].
  intros r s' t Ht. right. exists op. split_and!; [done..|].
  calls_of_trace. by rewrite Ht.
Qed.

(** Delete of the ARL profile makes exactly one call, the delete of
    the profile of the current id.  When the call is accepted the
    resource data are left as they were, and Delete returns without
    error exactly when the wait gives no error. *)
Theorem profile_delete_makes_one_call (remote : Remote) `{Helpers} (d : ResourceData) :
  let '(r, d', t) :=
    run (resourceYandexSmartwebsecurityAdvancedRateLimiterAdvancedRateLimiterProfileDelete
           remote) d in
  calls t = [ProfileDelete (ResourceData.Id d)] ∧
  ∀ op, operate remote 0 (ProfileDelete (ResourceData.Id d)) = Ok op →
        d' = d ∧ (is_ok r = true ↔ op_Wait op = None).
Proof.
  apply wp_run.
  unfold resourceYandexSmartwebsecurityAdvancedRateLimiterAdvancedRateLimiterProfileDelete.
  do 4 wp_step; cbn.
  - intros op ->. wp_step; cbn.
    + intros Hwait. split; [done|]. by intros ? [= <-].
    + intros e Hwait. split; [done|]. intros ? [= <-]. split; [done|]. by rewrite Hwait.
  - intros e ->. wp_step. by destruct (handleNotFoundError _ _ _) as [id [e'|]].
Qed.

(** ** Differences of the hostname that are left out *)

(** A string of [n] dots. *)
Fixpoint dots (n : nat) : string :=
  match n with
  | O => ""
  | S n' => String "." (dots n')
  end.

Lemma dots_add (m n : nat) : dots (m + n) = dots m +:+ dots n.
Proof. induction m as [|m IH]; [done|]. cbn. by rewrite IH. Qed.

Lemma TrimRight_only_dots (n : nat) : strings.TrimRight (dots n) "." = "".
Proof. induction n as [|n IH]; [done|]. cbn. by rewrite IH. Qed.

Lemma TrimRight_app_dots (s : string) (n : nat) :
  strings.TrimRight (s +:+ dots n) "." = strings.TrimRight s ".".
Proof.
  induction s as [|c s IH]; [apply TrimRight_only_dots|].
  rewrite string_app_cons. cbn. by rewrite IH.
Qed.

Lemma TrimRight_dots (s : string) : ∃ n, s = strings.TrimRight s "." +:+ dots n.
Proof.
  induction s as [|c s [n IH]]; [by exists 0|]. cbn.
  destruct (strings.TrimRight s ".") as [|c' t] eqn:Htrim.
  - cbn in IH. rewrite orb_false_r. destruct (Ascii.eqb_spec c ".") as [->|Hne].
    + exists (S n). by rewrite IH at 1.
    + exists n. by rewrite IH at 1.
  - exists n. rewrite string_app_cons. by rewrite <- IH.
Qed.

(** A difference of the hostname is left out exactly when one of the
    two values is the other followed by dots. *)
Theorem hostnameDiffSuppressFunc_trailing_dots (k oldValue newValue : string)
    (d : ResourceData) :
  hostnameDiffSuppressFunc k oldValue newValue d = true ↔
  ∃ n, oldValue = newValue +:+ dots n ∨ newValue = oldValue +:+ dots n.
Proof.
  unfold hostnameDiffSuppressFunc. rewrite String.eqb_eq. split.
  - intros Htrim.
    destruct (TrimRight_dots oldValue) as [m Hold].
    destruct (TrimRight_dots newValue) as [n Hnew].
    rewrite Htrim in Hold.
    destruct (Nat.le_gt_cases m n) as [Hle|Hgt].
    + exists (n - m). right. rewrite Hold at 1. rewrite string_app_assoc, <- dots_add.
      by replace (m + (n - m)) with n by lia.
    + exists (m - n). left. rewrite Hnew at 1. rewrite string_app_assoc, <- dots_add.
      by replace (n + (m - n)) with m by lia.
  - intros [n [->| ->]]; by rewrite TrimRight_app_dots.
Qed.

(** The hostname Read derives from an FQDN without a dot is the FQDN
    followed by a dot, and its difference to a configured hostname
    equal to the FQDN is left out. *)
Theorem dotless_fqdn_hostname_suppressed (k fqdn : string) (d : ResourceData) :
  strings.Contains fqdn "." = false →
  parseHostnameFromFQDN fqdn = Some (fqdn +:+ ".", None) ∧
  hostnameDiffSuppressFunc k fqdn (fqdn +:+ ".") d = true.
Proof.
  intros Hdot. unfold parseHostnameFromFQDN. rewrite Hdot. cbn [negb].
  split; [done|]. unfold hostnameDiffSuppressFunc. apply String.eqb_eq.
  symmetry. apply (TrimRight_app_dots fqdn 1).
Qed.

Lemma dotless_fqdn_hostname_suppressed_witness :
  parseHostnameFromFQDN "vm" = Some ("vm.", None) ∧
  hostnameDiffSuppressFunc "hostname" "vm" "vm." (exampleData "epd-1" [] []) = true.
Proof.
  by apply (dotless_fqdn_hostname_suppressed "hostname" "vm" (exampleData "epd-1" [] [])).
Defined.

